(* ===== verification/_CoqProject ===== *)
-Q . S2P
Prelude.v
PyStrings.v
PyText.v
PyValue.v
PyOps.v
Tag.v
StateCheck.v
Handler.v
Scan.v
Table.v
Package.v
Repo.v
File.v
Scm.v
Service.v
Cmd.v
Sys.v
Ssh.v
Transfer.v
Dispatch.v
Send.v
Effects.v
Log.v
Checkout.v
Locale.v
YumRepo.v
YumPkg.v
YumList.v
