(* ===== verification/Prelude.v ===== *)
(** * Verification of OpsAgent: the state compiler, the salt modules and
      the agent's utilities

    ** The program

    OpsAgent turns a deployment document (components, each a list of steps)
    into the list of target-state records that the Salt runner applies.  The
    compiler is the class [StatePreparation] of
    src/POCs/salt/statepreparation.py:

    - [transfer] walks the components; every step goes to the handler that
      [self.pre_mapping] gives for its [module]; the results that are a
      dict or a list are kept under the step's [stateid]; the kept results
      are appended to [self.states] in the order "1", "2", ...;
    - 31 handlers ([_package_apt_package] ... [_system_ssh_known_host]), most
      of them thin wrappers of a shared method ([__package], [__repo],
      [__file], [__scm], [__service]), turn one step into a record, a list
      of records, an error code (1, 2, 3) or [None];
    - [__get_tag] names a record, [__state_check] holds the allow-list of
      subtypes, [__get_requisity] resolves the prerequisite of a package
      manager.

    The records are applied by Salt, for which the repository holds two
    execution modules, and the agent itself fetches the states and talks to
    its controller:

    - src/salt/modules/yumpkg5.py: the [pkg] module of old RedHat systems.
      Its package half runs [repoquery] and [yum] and parses what they
      print ([_parse_pkginfo], [list_pkgs] with its cache in
      [__context__], [latest_version], [install], [upgrade], [remove]);
      its repository half reads and writes the [.repo] files of a
      directory ([_parse_repo_file], [list_repos], [get_repo], [del_repo],
      [mod_repo]);
    - src/salt/modules/localemod.py: the [locale] module, by [localectl] on
      Arch and by the file of the distribution elsewhere
      ([_parse_localectl], [get_locale], [set_locale], [list_avail]);
    - src/sources/opsagent/utils.py: [clone_repo] and [checkout_repo], which
      fetch the states repository with git and retry once after a failure,
      and [log], which formats the lines of the log;
    - src/opsagent/opsagent/objects/send.py: [handshake] and [statelog], the
      requests of the agent.

    The modules interact through the outside only: the compiler writes
    records that name [pkg] and [pkgrepo] states, the salt modules carry
    them out on the system, and the utilities fetch the code of those
    modules.

    ** The model

    The code is Python 2 over JSON values of unknown type, so the model is a
    shallow embedding over a universal value type, in an error monad:

    - [Prelude] (this file): [result A] is [Ok a] or [Raise e], with the
      exceptions the code can raise ([KeyError], [TypeError],
      [AttributeError], [NameError], [IndexError], [ValueError],
      [UnboundLocalError], [RuntimeError], [IOError], [OSError] and the
      exceptions of salt and of the agent); [foldM] and [mapM] are the loops
      that an exception leaves; [fold_exn] is a loop over mutable state that
      survives the exception.
    - [PyStrings]: the [str] methods the compiler calls, on byte strings.
    - [PyText]: the [str] methods by which the salt modules read the output
      of commands and the lines of files ([splitlines], [split] with a
      separator and a bound, [strip] of a prefix or suffix), with the
      lemmas on joined lines the round trips use.
    - [PyValue]: values ([None], booleans, integers, strings, lists,
      dicts).  A dict is an association list in insertion order with
      Python's key equality ([True == 1]); [dict_set] is [d[k] = v],
      [dict_update] is [d.update(e)].  [value_wf] says that no dict of a
      value has two equal keys.
    - [PyOps]: subscription, membership, iteration, [items()], [str()], [+]
      on values of any type, each with the exception Python raises when the
      type does not fit.  [repr] of a container is a parameter (class
      [PyRepr]): the theorems hold for every choice of it.
    - [Tag]: [__get_tag], and [tag_spec], the tag as the parts joined in
      order.
    - [StateCheck]: [__state_check] with its allow-list, [requisity_map],
      [__get_requisity].
    - [Handler]: what the handlers share: the opening test of the step
      ([missing_parameter], [missing_name]), the loop over the truthy
      parameters ([for_params]), the closing test and the record ([emit],
      [state_record]), the error codes, and the type [handler] of an entry
      of the dispatch table.  [call2] is a call with more arguments than the
      method takes.
    - [Scan], [Table]: the reference the loops are proved against.  A loop
      that stores the identifying parameter under [name] and renames some
      others computes [scan_addin]: the update of the empty dict by the
      translated truthy items.  [Table] specialises it to a table of
      renamings and proves once what such a handler returns.
    - [Package], [Repo], [File], [Scm], [Service], [Cmd], [Sys], [Ssh]: one
      file per handler family.  Each holds the body of the loop as the code
      has it (one branch per [if]/[elif]), the method as the code composes
      it (tests and early returns included), the handlers of the dispatch
      table with the arguments they really pass, and the theorems of the
      family.
    - [Transfer]: [transfer] over any dispatch table.  [self.states] is
      explicit state: [transfer] returns the list afterwards together with
      the value returned or the exception raised.  [compile_component] and
      [compile_document] are the contract: the records of the positions 1..n
      in order, lists spliced flat.
    - [Dispatch]: the table of [__init__], and [transfer] at that table.
    - [Send]: [handshake] and [statelog] of send.py, functions from their
      arguments to the request dict or the exception; the constants of the
      module [codes] are variables of its section.
    - [Effects]: [st S A], a computation on a state [S] that returns or
      raises, with [lift], [reads], [modify] and [try_except], and the
      class [Salt]: what a salt module asks of the system ([cmd.run], the
      return code of a command, [file.sed]).  The salt modules are written
      against the class; their theorems hold for every instance or, where
      they are about the file the commands change, for the instance that is
      named.
    - [Log]: [log] of utils.py with its two tables; the state is the list
      of the lines handed to [logging].
    - [Checkout]: [clone_repo] and [checkout_repo] of utils.py.  Every call
      to git and to the file system is recorded with its outcome in a
      history; the outside is the parameter [world], which says from the
      history so far whether the next call returns.  [checkout_repo] is
      defined by well-founded recursion on [retries n].
    - [Locale]: every function of localemod.py over a [Salt] system;
      [locale_file] is the system that holds the lines of the locale file
      (grep, sed and the appending echo on them), [localectl_status] is what
      [localectl status] prints for a list of settings.
    - [YumRepo]: the repository functions of yumpkg5.py.  The directory is a
      dict from path to content in the order [os.listdir] lists it; a
      function that reads is a function of it, [del_repo] and [mod_repo] are
      computations in [st fs].  [for_keys] is the loop over the keys of a
      dict that the body may change the size of, and raises as Python 2
      does.  [repo_stanza] and [repo_file_lines] describe the layout of a
      file, for the round trip.
    - [YumPkg]: the package functions of yumpkg5.py over a [Salt] system.
      The state is the system and the cache [pkg.list_pkgs] of
      [__context__]; [salt.utils.is_true], the functions of [pkg_resource]
      and [salt.utils.compare_dicts], which the sources only call, are
      variables of the section.
    - [YumList]: [list_repo_pkgs] and [version] of yumpkg5.py.
      [list_repo_pkgs] composes the two halves: the repos are those of
      [YumRepo.list_repos] on the files, the packages those of
      [YumPkg._repoquery] on the system.  [list.sort] on dicts of one entry
      is [sort_entries], the sorted permutation for the order [entry_le] of
      Python 2 on such dicts ([PyText.str_le] on the names, then on the
      versions), which is unique whatever the algorithm.

    Local names the code reads and never binds ([uid] and [username] in
    [__service], [atoi], [ssh_key_type]) are [NameError] where
    the read is reached.  [addin['name'] += ' ' + args] on a list extends
    the list in place, and the model updates both names that hold it.
    [print] and [state_std] are not modelled: they have no effect on what
    is returned.  The calls of [log] in [clone_repo] and [checkout_repo]
    are left out of [Checkout]: they name actions of the tables, with which
    [log] returns.

    ** The theorems

    - Refinement: on a document whose components number their kept results
      without a gap, [transfer] computes [compile_document]
      ([Transfer.transfer_refines_contract]); a valid package step compiles
      to [package_spec] ([Package.package_valid_step]); the one-record
      handlers return the record of their table or scan
      ([File.file_record], [Sys.sys_cron_record], [Sys.sys_user_record],
      [Sys.sys_group_record], [Sys.sys_mount_record], [Ssh.ssh_auth_record],
      [Ssh.ssh_known_host_record]); the handlers that build two records
      return both, linked ([Scm.scm_checkout_with_owners],
      [Cmd.sys_cmd_with_content]).
    - Invariant: with the table of the class, [transfer] keeps [value_wf]
      ([Dispatch.transfer_preserves_wf]), from a lemma per handler;
      [self.states] only grows ([Transfer.transfer_states_prefix]).
    - Error paths, as values of [result]: a gap in the numbering and a
      handler's exception end [transfer] ([Transfer.transfer_gap_raises],
      [Transfer.transfer_handler_exception_propagates],
      [Transfer.order_states_no_first]); every service step is a
      [TypeError] ([Dispatch.transfer_service_step_raises]); a malformed
      step is skipped ([Dispatch.transfer_malformed_step_skipped]); the
      prerequisite resolver raises ([StateCheck.get_requisity_never_resolves],
      [Package.package_prerequisite_raises]); and the steps on which single
      handlers raise or return nothing ([Scm.scm_needs_path],
      [Scm.scm_repo_without_dash], [Sys.sys_hostname_raises],
      [Sys.sys_mount_numbers_raise], [Ssh.ssh_encrypt_algorithm_raises],
      [Service.service_never_records], [Repo.repo_gem_none],
      [Sys.sys_ntp_selinux_none]).
    - Functional behaviour of the helpers on every input
      ([Tag.get_tag_correct], [StateCheck.state_check_correct]) and what
      follows for tags ([Tag.get_tag_condition_injective],
      [Tag.get_tag_name_condition_collision]).
    - Round trips: what the writing loop of [mod_repo] and [del_repo] writes
      is what [_parse_repo_file] reads ([YumRepo.parse_written]);
      [get_locale] after [set_locale] returns the locale that was set
      ([Locale.set_get_locale]); [_parse_localectl] reads what localectl
      prints ([Locale.parse_localectl_status]); [_parse_pkginfo] reads a
      line of repoquery ([YumPkg.parse_pkginfo_query_line]).
    - The repository functions: a new repo becomes a file of its own that
      parses back ([YumRepo.mod_repo_creates]); [del_repo] touches one file
      at most ([YumRepo.del_repo_frame]); the result of the parser is a dict
      of stanzas whatever the file holds ([YumRepo.parse_repo_file_typed]);
      [get_repo] agrees with [list_repos] ([YumRepo.get_repo_list_repos]);
      and the inputs on which they raise ([YumRepo.mod_repo_blank_raises],
      [YumRepo.mod_repo_both_raises], [YumRepo.parse_option_before_stanza],
      [Locale.parse_localectl_unbound]).
    - The cache of the installed packages stays true across [remove] and is
      fresh after [upgrade] ([YumPkg.remove_cache_coherent],
      [YumPkg.upgrade_cache_fresh]).
    - The two halves together: [list_repo_pkgs] returns, for the repos that
      have packages, the sorted permutation of what the query of each lists
      ([YumList.list_repo_pkgs_sorted]), and without [fromrepo] the repos
      it queries are the enabled ones of [list_repos]
      ([YumList.query_repos_enabled], from [YumRepo.list_repos_typed]).
    - [log] returns with the actions of its tables and hands the coloured
      line to the right function ([Log.log_returns]); with any other action
      it raises ([Log.log_unknown]).
    - [checkout_repo]: it ends after at most 18 calls to the outside, of
      which at most two are a clone ([Checkout.checkout_repo_terminates],
      [Checkout.checkout_repo_clones]); it raises nothing but the exception
      of the manager ([Checkout.checkout_repo_raises_only]); when it
      returns, the last three calls are the three git commands and they
      returned ([Checkout.checkout_repo_checked_out]); and when the outside
      fails once at most it does return ([Checkout.checkout_repo_recovers]).
    - The requests: [handshake] is total and drops the errors it is given,
      [statelog] raises on an [init] that is no dict
      ([Send.handshake_total], [Send.statelog_needs_dict]).

    Each theorem with hypotheses has a witness ([..._witness]) that applies
    it to a concrete step or document and is evaluated by the kernel.

    ** Bounds and termination

    No fuel is needed: every loop of the code runs over the items of a
    finite dict or list, the lines of a file or the commands of a list, and
    is a structural fold ([foldM], [mapM], [fold_exn], [for_keys] over the
    list).  The one recursion of the code that is not structural,
    [checkout_repo] calling itself with [n + 1], is defined with the measure
    [retries n] (1 at [n = 0], 0 elsewhere), which the guard [n == 0] of the
    code makes decrease; the definition is total and evaluates, and the
    bound of 18 calls (three commands and the six calls of a clone, twice)
    is a theorem, not a parameter.  Integers are Python's unbounded integers
    ([Z]).  Strings are byte strings; unicode strings are not told apart.

    ** Assumptions

    - A dict is iterated in insertion order.  Python 2 leaves the order to
      the hash table; the theorems that depend on the order say so (the
      order of the [installed] and [latest] records, which of [path] and
      [source] a symlink keeps), the others hold for every order because
      they are stated for steps with pairwise different keys.
    - JSON numbers are integers; floats do not occur.
    - [str()] of a list or dict is [PyRepr], a parameter.
    - The commands leave the files of the repos as they are: in [YumList]
      the directory is read once and is a variable of the section.
    - What a command prints and returns is the [Salt] instance, a
      parameter; [Locale.set_get_locale] is proved on [locale_file], where
      grep, sed and echo do on the lines of the file what the programs do.
    - A call to git or to the file system returns or raises, as [world]
      says; nothing is assumed of [world] but in
      [Checkout.checkout_repo_recovers], whose hypothesis is that it fails
      once at most.
    - Paths are strings: [os.path.join] and [os.path.normpath] are
      concatenation and a parameter; two paths are the same file when they
      are the same string.

    ** What is not modelled

    - [main()] and [StateRunner] (statepreparation.py, line 1176 on): file
      and process I/O around the compiler.
    - The delay of [log] in debug mode, and the module [logging] behind
      the five functions [log] calls.
    - The programs themselves (yum, repoquery, git, localectl, grep, sed)
      and the modules of salt and of the agent that the sources import
      ([pkg_resource], [salt.utils], [codes], [exception]): they are
      parameters, or definitions marked as modelled from their
      documentation.

    ** This file

    The error monad in which the Python code is modelled, the exceptions it
    can raise, monadic folds for its loops, and the tactics and hint
    database the component files share. *)

From stdpp Require Import base tactics option list.

(** ** Exceptions

    The exception classes the modelled code can raise.  Only the class is
    kept, not the message: no caller in the repository inspects a message. *)
Inductive exn : Set :=
| KeyError
| TypeError
| AttributeError
| NameError
| IndexError
| ValueError
| UnboundLocalError
| RuntimeError
| IOError
| OSError
| Exception
| SaltInvocationError
| CommandExecutionError
| MinionError
| ManagerInvalidStatesRepoException.

#[export] Instance exn_eq_dec : EqDecision exn.
Proof. solve_decision. Defined.

(** ** Outcomes

    A Python call either returns a value or raises. *)
Inductive result (A : Type) : Type :=
| Ok (a : A)
| Raise (e : exn).
Arguments Ok {A} a.
Arguments Raise {A} e.

#[export] Instance result_eq_dec `{EqDecision A} : EqDecision (result A).
Proof. solve_decision. Defined.

#[export] Instance result_ret : MRet result := @Ok.
#[export] Instance result_bind : MBind result :=
  λ A B f r, match r with Ok a => f a | Raise e => Raise e end.
#[export] Instance result_fmap : FMap result :=
  λ A B f r, match r with Ok a => Ok (f a) | Raise e => Raise e end.

#[export] Instance Ok_inj {A} : Inj (=) (=) (@Ok A).
Proof. by intros ?? [=]. Qed.

Definition is_Ok {A} (r : result A) : Prop := ∃ a, r = Ok a.
Definition is_Raise {A} (r : result A) : Prop := ∃ e, r = Raise e.

Definition returns {A} (r : result A) : bool :=
  match r with Ok _ => true | Raise _ => false end.

(** [of_option e o]: a lookup that raises [e] when it finds nothing. *)
Definition of_option {A} (e : exn) (o : option A) : result A :=
  match o with Some a => Ok a | None => Raise e end.

(** [guard_exn e b]: continue when [b] holds, raise [e] otherwise. *)
Definition guard_exn (e : exn) (b : bool) : result unit :=
  if b then Ok tt else Raise e.

(** ** Loops

    [foldM f l a]: a [for] loop over [l] whose body [f] may raise; the
    accumulator [a] stands for the locals the body rebinds. *)
Fixpoint foldM {A B} (f : A → B → result A) (l : list B) (a : A) : result A :=
  match l with
  | [] => Ok a
  | b :: l' => a' ← f a b; foldM f l' a'
  end.

(** [mapM f l]: a list comprehension whose element expression may raise. *)
Fixpoint mapM {A B} (f : A → result B) (l : list A) : result (list B) :=
  match l with
  | [] => Ok []
  | a :: l' => b ← f a; bs ← mapM f l'; Ok (b :: bs)
  end.

(** ** Loops over an object that survives an exception

    [fold_exn f l s]: a loop whose body updates the state [s] of an object and
    may raise; what the body has done to the object by then stays done. *)
Fixpoint fold_exn {S B} (f : S → B → S * option exn) (l : list B) (s : S)
    : S * option exn :=
  match l with
  | [] => (s, None)
  | b :: l' =>
      match f s b with
      | (s', None) => fold_exn f l' s'
      | (s', Some e) => (s', Some e)
      end
  end.

(** A body that leaves the object as it was when it raises. *)
Definition keep_on_raise {S B} (f : S → B → result S) (s : S) (b : B)
    : S * option exn :=
  match f s b with
  | Ok s' => (s', None)
  | Raise e => (s, Some e)
  end.

Create HintDb py discriminated.
Create Rewrite HintDb py.

Section result_lemmas.
Context {A B : Type}.
Implicit Types (a : A) (b : B) (r : result A) (f : A → result B).

Lemma bind_Ok a f : (Ok a ≫= f) = f a.
Proof. reflexivity. Qed.

Lemma bind_Raise e f : (Raise e ≫= f) = Raise e.
Proof. reflexivity. Qed.

Lemma bind_Ok_inv r f b :
  r ≫= f = Ok b ↔ ∃ a, r = Ok a ∧ f a = Ok b.
Proof.
  destruct r as [a|e]; simpl; split.
  - eauto.
  - intros (? & ? & ?). by simplify_eq.
  - done.
  - by intros (? & ? & ?).
Qed.

Lemma bind_Raise_inv r f e :
  r ≫= f = Raise e ↔ r = Raise e ∨ ∃ a, r = Ok a ∧ f a = Raise e.
Proof.
  destruct r as [a|e']; simpl; split.
  - eauto.
  - intros [|(? & ? & ?)]; by simplify_eq.
  - intros [= ->]. by left.
  - by intros [[= ->]|(? & ? & ?)].
Qed.

Lemma is_Ok_Ok a : is_Ok (Ok a).
Proof. by exists a. Qed.

Lemma not_is_Ok_Raise e : ¬ is_Ok (@Raise A e).
Proof. by intros [? ?]. Qed.

Lemma returns_is_Ok r : returns r = true ↔ is_Ok r.
Proof. destruct r; simpl; split; try done; [by eexists | by intros [? ?]]. Qed.

Lemma is_Ok_or_Raise r : is_Ok r ∨ is_Raise r.
Proof. destruct r; [left | right]; by eexists. Qed.
End result_lemmas.

#[export] Hint Resolve is_Ok_Ok : py.
#[export] Hint Rewrite @bind_Ok @bind_Raise : py.

(** ** Tactics *)

(** Split a hypothesis saying that a sequence of binds returned. *)
Ltac inv_bind H :=
  repeat match type of H with
  | _ ≫= _ = Ok _ =>
      let x := fresh "x" in let Hx := fresh "Hx" in
      apply bind_Ok_inv in H as (x & Hx & H)
  end.

(** Case analysis on the scrutinee of the goal's head [match] or [if]. *)
Ltac case_res :=
  match goal with
  | |- context [match ?r with Ok _ => _ | Raise _ => _ end] =>
      let E := fresh "E" in destruct r eqn:E; simpl
  end.

(** One goal per element of the list literal a hypothesis [x ∈ [a; b; ...]]
    draws [x] from. *)
Ltac elem_of_cases H :=
  repeat (apply elem_of_cons in H as [H|H]; [subst|]);
  try (by apply elem_of_nil in H).

Section fold_lemmas.
Context {A B : Type}.
Implicit Types (f : A → B → result A) (l : list B) (a : A).

Lemma foldM_nil f a : foldM f [] a = Ok a.
Proof. done. Qed.

Lemma foldM_cons f b l a : foldM f (b :: l) a = (f a b ≫= foldM f l).
Proof. done. Qed.

Lemma foldM_app f l1 l2 a :
  foldM f (l1 ++ l2) a = (foldM f l1 a ≫= foldM f l2).
Proof.
  revert a. induction l1 as [|b l1 IH]; intros a; simpl; [done|].
  destruct (f a b); simpl; auto.
Qed.

(** A body that never raises makes the loop a plain left fold. *)
Lemma foldM_pure (g : A → B → A) l a :
  foldM (λ a b, Ok (g a b)) l a = Ok (foldl g a l).
Proof. revert a. induction l; intros; simpl; auto. Qed.

(** A loop that skips the elements failing a test is the loop over the
    elements that pass it. *)
Lemma foldM_filter (p : B → bool) f l a :
  foldM (λ a b, if p b then f a b else Ok a) l a =
  foldM f (filter (λ b, p b = true) l) a.
Proof.
  revert a. induction l as [|b l IH]; intros a; [done|].
  rewrite filter_cons. simpl. destruct (p b) eqn:E.
  - rewrite decide_True by done. simpl. destruct (f a b); simpl; auto.
  - rewrite decide_False by done. apply IH.
Qed.

Lemma foldM_ext f g l a :
  (∀ a b, f a b = g a b) → foldM f l a = foldM g l a.
Proof.
  intros Hfg. revert a. induction l as [|b l IH]; intros a; simpl; [done|].
  rewrite Hfg. destruct (g a b); simpl; auto.
Qed.

(** Bodies that agree on the elements of the list give the same loop. *)
Lemma foldM_ext_in f g l a :
  (∀ a b, b ∈ l → f a b = g a b) → foldM f l a = foldM g l a.
Proof.
  revert a. induction l as [|b l IH]; intros a Hfg; simpl; [done|].
  rewrite Hfg by left. destruct (g a b); simpl; [|done].
  apply IH. intros ???. apply Hfg. by right.
Qed.

(** A loop in which some iteration always raises [e], and every other
    one returns or raises [e], raises [e]. *)
Lemma foldM_raises f l e a b :
  b ∈ l → (∀ a, f a b = Raise e) →
  (∀ a b', b' ∈ l → is_Ok (f a b') ∨ f a b' = Raise e) →
  foldM f l a = Raise e.
Proof.
  intros Hin Hb. revert a. induction l as [|b0 l IH]; intros a Hl.
  { by apply elem_of_nil in Hin. }
  rewrite foldM_cons.
  destruct (Hl a b0 ltac:(left)) as [[a' Ha]|Ha]; rewrite Ha; [|done].
  apply elem_of_cons in Hin as [->|Hin]; [by rewrite Hb in Ha|].
  rewrite bind_Ok. apply IH; [done|]. intros ???. apply Hl. by right.
Qed.

Lemma foldl_ext (g g' : A → B → A) l a :
  (∀ a b, g a b = g' a b) → foldl g a l = foldl g' a l.
Proof.
  intros Hg. revert a. induction l as [|b l IH]; intros a; simpl; [done|].
  by rewrite Hg, IH.
Qed.

(** Invariants of loops: a property of the accumulator kept by every
    iteration that returns holds when the loop returns. *)
Lemma foldM_invariant (P : A → Prop) f l a a' :
  (∀ a b a', b ∈ l → P a → f a b = Ok a' → P a') →
  P a → foldM f l a = Ok a' → P a'.
Proof.
  revert a. induction l as [|b l IH]; intros a Hstep Ha; simpl.
  - by intros [= <-].
  - intros (a1 & H1 & H2)%bind_Ok_inv.
    eapply IH; [|eapply Hstep; [left|done..]|done].
    intros ???? ; eapply Hstep. by right.
Qed.
End fold_lemmas.

Section mapM_lemmas.
Context {A B : Type}.
Implicit Types (f : A → result B) (l : list A).

Lemma mapM_cons f a l :
  mapM f (a :: l) = (b ← f a; bs ← mapM f l; Ok (b :: bs)).
Proof. done. Qed.

(** Where the element expression never raises the comprehension is a map. *)
Lemma mapM_Ok_fmap f (g : A → B) l :
  (∀ a, a ∈ l → f a = Ok (g a)) → mapM f l = Ok (g <$> l).
Proof.
  induction l as [|a l IH]; intros Hf; [done|].
  rewrite mapM_cons, (Hf a), bind_Ok, IH; [done| |left].
  intros a' Ha'. apply Hf. by right.
Qed.

(** The comprehension raises what the first failing element raises. *)
Lemma mapM_raise f l1 a l2 e :
  (∀ a', a' ∈ l1 → is_Ok (f a')) → f a = Raise e →
  mapM f (l1 ++ a :: l2) = Raise e.
Proof.
  intros Hl1 Ha. induction l1 as [|a1 l1 IH]; simpl; [by rewrite Ha|].
  destruct (Hl1 a1) as [b ->]; [left|]. simpl.
  rewrite IH; [done|]. intros a' Ha'. apply Hl1. by right.
Qed.

Lemma mapM_length f l bs : mapM f l = Ok bs → length bs = length l.
Proof.
  revert bs. induction l as [|a l IH]; intros bs; simpl; [by intros [= <-]|].
  intros Hr. inv_bind Hr. injection Hr as <-. simpl. f_equal. by apply IH.
Qed.

(** Each result comes from an element. *)
Lemma mapM_elem_of f l bs b :
  mapM f l = Ok bs → b ∈ bs → ∃ a, a ∈ l ∧ f a = Ok b.
Proof.
  revert bs. induction l as [|a l IH]; intros bs; simpl.
  - by intros [= <-] ?%elem_of_nil.
  - intros Hr. inv_bind Hr. injection Hr as <-.
    intros [->|Hin]%elem_of_cons; [exists a; split; [left|done]|].
    destruct (IH _ Hx0 Hin) as (a' & ? & ?). exists a'. split; [by right|done].
Qed.
End mapM_lemmas.

Section fold_exn_lemmas.
Context {S B : Type}.
Implicit Types (f : S → B → S * option exn) (l : list B) (s : S).

Lemma fold_exn_app f l1 l2 s :
  fold_exn f (l1 ++ l2) s =
  match fold_exn f l1 s with
  | (s', None) => fold_exn f l2 s'
  | (s', Some e) => (s', Some e)
  end.
Proof.
  revert s. induction l1 as [|b l1 IH]; intros s; simpl; [done|].
  destruct (f s b) as [s' [e|]]; [done|apply IH].
Qed.

(** A relation between the states before and after that every iteration
    keeps, raising or not, holds of the whole loop. *)
Lemma fold_exn_invariant (R : S → S → Prop) `{!Reflexive R, !Transitive R} f l s :
  (∀ s b, R s (f s b).1) → R s (fold_exn f l s).1.
Proof.
  intros Hf. revert s. induction l as [|b l IH]; intros s; simpl; [done|].
  specialize (Hf s b). destruct (f s b) as [s' [e|]]; simpl in *; [done|].
  by etrans.
Qed.

(** A property of the state that every iteration keeps, raising or not,
    holds after the loop. *)
Lemma fold_exn_preserves (P : S → Prop) f l s :
  (∀ s b, P s → P (f s b).1) → P s → P (fold_exn f l s).1.
Proof.
  intros Hf. revert s. induction l as [|b l IH]; intros s Hs; simpl; [done|].
  specialize (Hf s b Hs). destruct (f s b) as [s' [e|]]; simpl in *; auto.
Qed.

(** Without exception the loop is the monadic fold. *)
Lemma fold_exn_keep (g : S → B → result S) l s s' :
  foldM g l s = Ok s' → fold_exn (keep_on_raise g) l s = (s', None).
Proof.
  revert s. induction l as [|b l IH]; intros s; simpl; [by intros [= ->]|].
  unfold keep_on_raise at 1. destruct (g s b); simpl; [apply IH|done].
Qed.
End fold_exn_lemmas.

