(* ===== verification/PyStrings.v ===== *)
(** * Python string methods

    The [str] methods the modelled code calls: [replace] (on single
    characters), [endswith], [startswith], [split] (on one character),
    [strip] and the substring test behind [in].  Strings are byte strings
    ([String.string]); a character is one [ascii]. *)

From Stdlib Require Import Ascii.
From stdpp Require Import base tactics strings list.
From S2P Require Import Prelude.

#[local] Open Scope string_scope.
#[local] Open Scope list_scope.

Abbreviation chars := String.list_ascii_of_string.
Abbreviation unchars := String.string_of_list_ascii.

(** [s.replace(a, b)] for one-character [a] and [b]. *)
Fixpoint replace_char (a b : ascii) (s : string) : string :=
  match s with
  | "" => ""
  | String c s' => String (if decide (c = a) then b else c) (replace_char a b s')
  end.

(** [s.startswith(p)] and [s.endswith(suf)]. *)
Definition startswith (s p : string) : bool :=
  bool_decide (chars p `prefix_of` chars s).

Definition endswith (s suf : string) : bool :=
  bool_decide (chars suf `suffix_of` chars s).

(** [s.split(c)] for a one-character separator: the pieces between the
    occurrences of [c], empty pieces included; never the empty list. *)
Fixpoint split_on (c : ascii) (s : string) : list string :=
  match s with
  | "" => [""]
  | String a s' =>
      if decide (a = c) then "" :: split_on c s'
      else match split_on c s' with
           | [] => [String a ""]
           | w :: ws => String a w :: ws
           end
  end.

(** The characters [str.strip()] removes: space, tab, newline, vertical tab,
    form feed and carriage return. *)
Definition is_py_space (c : ascii) : bool :=
  match c with
  | " " | "009" | "010" | "011" | "012" | "013" => true
  | _ => false
  end%char.

Fixpoint lstrip (s : string) : string :=
  match s with
  | "" => ""
  | String c s' => if is_py_space c then lstrip s' else s
  end.

Definition rstrip (s : string) : string := String.rev (lstrip (String.rev s)).

Definition strip (s : string) : string := rstrip (lstrip s).

(** [needle in hay] on two strings. *)
Definition contains_sub (needle hay : string) : bool :=
  match String.index 0 needle hay with Some _ => true | None => false end.

(** [sep.join(l)]. *)
Definition join (sep : string) (l : list string) : string := String.concat sep l.

(** ** Strings as lists of characters *)

Lemma app_cons_str c s t : String c s +:+ t = String c (s +:+ t).
Proof. reflexivity. Qed.

Lemma app_empty_l s : "" +:+ s = s.
Proof. reflexivity. Qed.

Lemma app_nonempty_l s t : s ≠ "" → s +:+ t ≠ "".
Proof. by destruct s. Qed.

Lemma chars_app s1 s2 : chars (s1 +:+ s2) = (chars s1 ++ chars s2)%list.
Proof. induction s1 as [|c s1 IH]; simpl; [done|]. by rewrite <-IH. Qed.

Lemma chars_inj s1 s2 : chars s1 = chars s2 → s1 = s2.
Proof.
  intros H. rewrite <-(String.string_of_list_ascii_of_string s1),
    <-(String.string_of_list_ascii_of_string s2). by rewrite H.
Qed.

Lemma chars_unchars l : chars (unchars l) = l.
Proof. apply String.list_ascii_of_string_of_list_ascii. Qed.

Lemma unchars_chars s : unchars (chars s) = s.
Proof. apply String.string_of_list_ascii_of_string. Qed.

Lemma unchars_app l1 l2 : unchars (l1 ++ l2)%list = unchars l1 +:+ unchars l2.
Proof. apply chars_inj. by rewrite chars_app, !chars_unchars. Qed.

Lemma app_assoc_str s1 s2 s3 : (s1 +:+ s2) +:+ s3 = s1 +:+ (s2 +:+ s3).
Proof. apply chars_inj. by rewrite !chars_app, app_assoc. Qed.

Lemma app_empty_r s : s +:+ "" = s.
Proof. apply chars_inj. by rewrite chars_app, app_nil_r. Qed.

Lemma app_inj_r s1 s2 t : s1 +:+ t = s2 +:+ t → s1 = s2.
Proof.
  intros H%(f_equal chars). rewrite !chars_app in H.
  by apply chars_inj, (inj (λ l, l ++ chars t)%list).
Qed.

Lemma length_chars s : length (chars s) = String.length s.
Proof. induction s; simpl; auto. Qed.

Lemma length_app_str s1 s2 :
  String.length (s1 +:+ s2) = String.length s1 + String.length s2.
Proof. by rewrite <-!length_chars, chars_app, length_app. Qed.

#[export] Hint Rewrite chars_app chars_unchars unchars_chars app_assoc_str
  app_empty_r length_app_str : py.

(** ** [endswith] and [startswith] *)

Lemma endswith_spec s suf : endswith s suf = true ↔ ∃ p, s = p +:+ suf.
Proof.
  unfold endswith. rewrite bool_decide_eq_true. split.
  - intros [k Hk]. exists (unchars k). apply chars_inj.
    by rewrite chars_app, chars_unchars.
  - intros [p ->]. exists (chars p). apply chars_app.
Qed.

Lemma startswith_spec s p : startswith s p = true ↔ ∃ q, s = p +:+ q.
Proof.
  unfold startswith. rewrite bool_decide_eq_true. split.
  - intros [k Hk]. exists (unchars k). apply chars_inj.
    by rewrite chars_app, chars_unchars.
  - intros [q ->]. exists (chars q). apply chars_app.
Qed.

Lemma endswith_app s suf : endswith (s +:+ suf) suf = true.
Proof. apply endswith_spec. by exists s. Qed.

Lemma startswith_app p s : startswith (p +:+ s) p = true.
Proof. apply startswith_spec. by exists s. Qed.

(** A suffix of a suffix: [endswith] is transitive. *)
Lemma endswith_trans s t u :
  endswith s t = true → endswith t u = true → endswith s u = true.
Proof.
  rewrite !endswith_spec. intros [p ->] [q ->]. exists (p +:+ q).
  by rewrite app_assoc_str.
Qed.

(** Two strings that end with suffixes of the same length which differ are
    different strings. *)
Lemma endswith_differ s1 s2 u1 u2 :
  String.length u1 = String.length u2 → u1 ≠ u2 →
  endswith s1 u1 = true → endswith s2 u2 = true → s1 ≠ s2.
Proof.
  rewrite !endswith_spec. intros Hlen Hne [p1 ->] [p2 ->] Heq.
  apply (f_equal chars) in Heq. rewrite !chars_app in Heq.
  apply app_inj_2 in Heq as [_ Heq]; [|by rewrite !length_chars].
  by apply Hne, chars_inj.
Qed.

#[export] Hint Resolve endswith_app startswith_app : py.

(** ** [replace] *)

Lemma replace_char_length a b s :
  String.length (replace_char a b s) = String.length s.
Proof. induction s; simpl; auto. Qed.

Lemma replace_char_app a b s1 s2 :
  replace_char a b (s1 +:+ s2) = replace_char a b s1 +:+ replace_char a b s2.
Proof.
  induction s1 as [|c s1 IH]; [done|].
  rewrite app_cons_str. simpl. by rewrite IH.
Qed.

(** After [replace(a, b)] with [a ≠ b] no [a] is left. *)
Lemma replace_char_absent a b s : a ≠ b → a ∉ chars (replace_char a b s).
Proof.
  intros Hab. induction s as [|c s IH]; simpl; [apply not_elem_of_nil|].
  apply not_elem_of_cons. split; [|done]. by case_decide; congruence.
Qed.

(** A string without [a] is left as it is. *)
Lemma replace_char_id a b s : a ∉ chars s → replace_char a b s = s.
Proof.
  induction s as [|c s IH]; simpl; [done|].
  intros [Hc Hs]%not_elem_of_cons. rewrite IH by done.
  by rewrite decide_False by congruence.
Qed.

Lemma replace_char_idemp a b s :
  a ≠ b → replace_char a b (replace_char a b s) = replace_char a b s.
Proof. intros. by apply replace_char_id, replace_char_absent. Qed.

(** ** [split] and [join] *)

Lemma split_on_nonempty c s : split_on c s ≠ [].
Proof.
  destruct s as [|a s]; simpl; [done|].
  case_decide; [done|]. by destruct (split_on c s).
Qed.

(** Joining the pieces with the separator gives the string back. *)
Lemma join_split_on c s : join (String c "") (split_on c s) = s.
Proof.
  induction s as [|a s IH]; simpl; [done|].
  pose proof (split_on_nonempty c s) as Hne.
  case_decide as Hac.
  - subst a. unfold join in *. simpl.
    destruct (split_on c s) as [|w ws]; [done|]. simpl in *. by rewrite IH.
  - destruct (split_on c s) as [|w ws]; [done|].
    unfold join in *. simpl in *. destruct ws; simpl in *; by rewrite <-IH.
Qed.

(** No piece contains the separator. *)
Lemma split_on_no_sep c s w : w ∈ split_on c s → c ∉ chars w.
Proof.
  revert w. induction s as [|a s IH]; simpl; intros w.
  - intros ->%list_elem_of_singleton. apply not_elem_of_nil.
  - case_decide as Hac.
    + intros [->|Hw]%elem_of_cons; [apply not_elem_of_nil|by apply IH].
    + destruct (split_on c s) as [|w' ws] eqn:E.
      * intros ->%list_elem_of_singleton. simpl.
        apply not_elem_of_cons. split; [congruence|apply not_elem_of_nil].
      * intros [->|Hw]%elem_of_cons.
        -- simpl. apply not_elem_of_cons. split; [congruence|].
           apply IH. by left.
        -- apply IH. by right.
Qed.

(** A string without the separator is its own single piece. *)
Lemma split_on_absent c s : c ∉ chars s → split_on c s = [s].
Proof.
  induction s as [|a s IH]; simpl; [done|].
  intros [Hc Hs]%not_elem_of_cons. rewrite decide_False by congruence.
  by rewrite IH.
Qed.

(** Splitting [p +:+ c +:+ q] where [p] holds no separator: the first piece
    is [p] and the rest are the pieces of [q]. *)
Lemma split_on_first c p q :
  c ∉ chars p → split_on c (p +:+ String c q) = p :: split_on c q.
Proof.
  induction p as [|a p IH].
  - intros _. rewrite app_empty_l. simpl. by rewrite decide_True.
  - intros [Hc Hp]%not_elem_of_cons. rewrite app_cons_str. simpl.
    rewrite decide_False by congruence. by rewrite IH.
Qed.

(** ** [strip] *)

Lemma chars_rev_app s1 s2 :
  chars (String.rev_app s1 s2) = (rev (chars s1) ++ chars s2)%list.
Proof.
  revert s2. induction s1 as [|c s1 IH]; intros s2; simpl; [done|].
  by rewrite IH, <-app_assoc.
Qed.

Lemma chars_rev s : chars (String.rev s) = rev (chars s).
Proof. unfold String.rev. by rewrite chars_rev_app, app_nil_r. Qed.

Lemma rev_rev_str s : String.rev (String.rev s) = s.
Proof. apply chars_inj. by rewrite !chars_rev, rev_involutive. Qed.

(** What [lstrip] returns does not start with a space character. *)
Lemma lstrip_head s c s' : lstrip s = String c s' → is_py_space c = false.
Proof.
  induction s as [|a s IH]; simpl; [done|].
  destruct (is_py_space a) eqn:Ha; [done|]. by intros [= <- <-].
Qed.

Lemma lstrip_idemp s : lstrip (lstrip s) = lstrip s.
Proof.
  destruct (lstrip s) as [|c s'] eqn:E; [done|].
  simpl. by rewrite (lstrip_head _ _ _ E).
Qed.

(** A string that neither starts nor ends with a space is left as it is. *)
Lemma lstrip_id c s : is_py_space c = false → lstrip (String c s) = String c s.
Proof. intros H. simpl. by rewrite H. Qed.

Lemma rstrip_idemp s : rstrip (rstrip s) = rstrip s.
Proof. unfold rstrip. by rewrite rev_rev_str, lstrip_idemp. Qed.
