(* ===== verification/PyText.v ===== *)
(** * Python text processing

    The [str] methods by which the modules of src/salt/modules and
    src/sources/opsagent read the output of commands and the lines of
    files: [splitlines], the iteration over the lines of a file, [split]
    without argument, with a separator of several characters and with a
    bound on the number of splits, [rsplit], and [replace] by the empty
    string. *)

From Stdlib Require Import Ascii.
From stdpp Require Import base tactics option strings list.
From S2P Require Import Prelude PyStrings.

#[local] Open Scope string_scope.
#[local] Open Scope list_scope.

(** The double quote, and a string between double quotes. *)
Definition dquote : ascii := "034"%char.
Definition quoted (s : string) : string := String dquote (s +:+ String dquote "").

(** The character is put in front of the first piece. *)
Definition cons_head (c : ascii) (l : list string) : list string :=
  match l with
  | [] => [String c ""]
  | w :: ws => String c w :: ws
  end.

(** [s.replace(c, '')] for a one-character [c]. *)
Fixpoint remove_char (c : ascii) (s : string) : string :=
  match s with
  | "" => ""
  | String a s' => if decide (a = c) then remove_char c s' else String a (remove_char c s')
  end.

(** [s.split(c, 1)]: the pieces before and after the first [c], or [s]. *)
Fixpoint split_once (c : ascii) (s : string) : list string :=
  match s with
  | "" => [""]
  | String a s' => if decide (a = c) then [""; s'] else cons_head a (split_once c s')
  end.

(** [s.rsplit(c, 1)]: the pieces before and after the last [c], or [s]. *)
Definition rsplit_once (c : ascii) (s : string) : list string :=
  match split_once c (String.rev s) with
  | [a; b] => [String.rev b; String.rev a]
  | _ => [s]
  end.

(** [s.split(sep)] for a separator of one character or more: the pieces
    between the occurrences of [sep], found from the left without overlap.
    [skip] counts the characters of an occurrence still to pass. *)
Fixpoint split_str_go (sep : string) (skip : nat) (s : string) : list string :=
  match s with
  | "" => [""]
  | String a s' =>
      match skip with
      | S k => split_str_go sep k s'
      | 0 => if startswith s sep
             then "" :: split_str_go sep (String.length sep - 1) s'
             else cons_head a (split_str_go sep 0 s')
      end
  end.

Definition split_str (sep s : string) : list string := split_str_go sep 0 s.

(** [s.splitlines()] on a byte string: a line ends at a line feed, a
    carriage return, or a carriage return followed by a line feed; the
    terminators are dropped and no empty line follows the last one. *)
Fixpoint splitlines_go (after_cr : bool) (s : string) : list string :=
  match s with
  | "" => []
  | String c s' =>
      if decide (c = "010"%char) then
        if after_cr then splitlines_go false s' else "" :: splitlines_go false s'
      else if decide (c = "013"%char) then "" :: splitlines_go true s'
      else cons_head c (splitlines_go false s')
  end.

Definition splitlines (s : string) : list string := splitlines_go false s.

(** [for line in f]: the lines of a file, each with its line feed. *)
Fixpoint file_lines (s : string) : list string :=
  match s with
  | "" => []
  | String c s' =>
      if decide (c = "010"%char) then String c "" :: file_lines s'
      else cons_head c (file_lines s')
  end.

(** [s.split()]: the words between runs of white space. *)
Fixpoint split_ws (s : string) : list string :=
  match s with
  | "" => []
  | String c s' =>
      if is_py_space c then split_ws s'
      else match s' with
           | "" => [String c ""]
           | String c' _ =>
               if is_py_space c' then String c "" :: split_ws s'
               else cons_head c (split_ws s')
           end
  end.

(** [s] without the prefix [p], when it starts with it. *)
Fixpoint strip_prefix (p s : string) : option string :=
  match p, s with
  | "", _ => Some s
  | String a p', String b s' => if decide (a = b) then strip_prefix p' s' else None
  | _, _ => None
  end.

(** [s] without the suffix [suf], when it ends with it. *)
Definition strip_suffix (suf s : string) : option string :=
  String.rev <$> strip_prefix (String.rev suf) (String.rev s).

(** The text of lines, each ended by a line feed. *)
Definition unlines (lines : list string) : string :=
  foldr (λ l acc, l +:+ String "010" acc) "" lines.

(** A line holds no line break. *)
Definition no_break (s : string) : Prop :=
  Forall (λ c, c ≠ "010"%char ∧ c ≠ "013"%char) (chars s).

#[export] Instance no_break_dec s : Decision (no_break s).
Proof. unfold no_break. apply _. Defined.

(** A string that no [strip] changes: empty, or without white space at
    either end. *)
Definition stripped (s : string) : Prop := strip s = s.

#[export] Instance stripped_dec s : Decision (stripped s).
Proof. unfold stripped. apply _. Defined.

(** ** Removing a character *)

Lemma remove_char_absent c s : c ∉ chars s → remove_char c s = s.
Proof.
  induction s as [|a s IH]; simpl; [done|]. rewrite not_elem_of_cons.
  intros [Ha Hs]. rewrite decide_False by done. by rewrite IH.
Qed.

Lemma remove_char_app c s1 s2 :
  remove_char c (s1 +:+ s2) = remove_char c s1 +:+ remove_char c s2.
Proof.
  induction s1 as [|a s1 IH]; simpl; [done|].
  case_decide; simpl; by rewrite IH.
Qed.

Lemma remove_char_not_elem c s : c ∉ chars (remove_char c s).
Proof.
  induction s as [|a s IH]; simpl; [by apply not_elem_of_nil|].
  case_decide; simpl; [done|]. rewrite not_elem_of_cons. by split.
Qed.

(** ** Splitting once *)

Lemma split_once_absent c s : c ∉ chars s → split_once c s = [s].
Proof.
  induction s as [|a s IH]; simpl; [done|]. rewrite not_elem_of_cons.
  intros [Ha Hs]. rewrite decide_False by done. by rewrite IH.
Qed.

Lemma split_once_first c p q :
  c ∉ chars p → split_once c (p +:+ String c q) = [p; q].
Proof.
  induction p as [|a p IH]; simpl.
  - intros _. by rewrite decide_True.
  - rewrite not_elem_of_cons. intros [Ha Hp].
    rewrite decide_False by done. by rewrite IH.
Qed.

(** [split] with a bound never yields more than two pieces, nor none. *)
Lemma split_once_cases c s :
  (split_once c s = [s] ∧ (c ∉ chars s))
  ∨ (∃ p q, s = p +:+ String c q ∧ (c ∉ chars p) ∧ split_once c s = [p; q]).
Proof.
  induction s as [|a s IH]; simpl.
  - left. split; [done|]. apply not_elem_of_nil.
  - destruct (decide (a = c)) as [->|Ha].
    + right. exists "", s. split_and!; [done|apply not_elem_of_nil|done].
    + destruct IH as [[-> Hs]|(p & q & -> & Hp & ->)].
      * left. split; [done|]. rewrite not_elem_of_cons. by split.
      * right. exists (String a p), q. split_and!; [done| |done].
        simpl. rewrite not_elem_of_cons. by split.
Qed.

(** ** The lines of a file *)

Lemma file_lines_line l rest :
  "010"%char ∉ chars l →
  file_lines (l +:+ String "010" rest) = (l +:+ String "010" "") :: file_lines rest.
Proof.
  induction l as [|a l IH]; simpl.
  - intros _. done.
  - rewrite not_elem_of_cons. intros [Ha Hl].
    rewrite decide_False by done. by rewrite IH.
Qed.

(** Every line of a file is non-empty: [not line] is false on it. *)
Lemma file_lines_nonempty s l : l ∈ file_lines s → l ≠ "".
Proof.
  revert l. induction s as [|a s IH]; simpl; intros l; [by intros ?%elem_of_nil|].
  case_decide.
  - intros [->|?]%elem_of_cons; [done|auto].
  - destruct (file_lines s) as [|w ws]; simpl.
    + by intros ->%list_elem_of_singleton.
    + intros [->|?]%elem_of_cons; [done|]. apply IH. by right.
Qed.

(** ** Lines without their terminators *)

Lemma splitlines_line l rest :
  Forall (λ c, c ≠ "010"%char ∧ c ≠ "013"%char) (chars l) →
  splitlines (l +:+ String "010" rest) = l :: splitlines rest.
Proof.
  unfold splitlines. induction l as [|a l IH]; simpl; [done|].
  rewrite Forall_cons. intros [[Hn Hr] Hl].
  rewrite !decide_False by done. by rewrite IH.
Qed.

Lemma splitlines_last l :
  l ≠ "" → Forall (λ c, c ≠ "010"%char ∧ c ≠ "013"%char) (chars l) →
  splitlines l = [l].
Proof.
  unfold splitlines. induction l as [|a l IH]; simpl; [done|].
  rewrite Forall_cons. intros _ [[Hn Hr] Hl].
  rewrite !decide_False by done.
  destruct l as [|b l]; [done|]. by rewrite IH.
Qed.

(** ** Stripped strings *)

Lemma rev_snoc s a : String.rev (s +:+ String a "") = String a (String.rev s).
Proof.
  apply chars_inj. simpl. by rewrite !chars_rev, chars_app, rev_app_distr.
Qed.

Lemma rev_cons a s : String.rev (String a s) = String.rev s +:+ String a "".
Proof. apply chars_inj. by rewrite chars_app, !chars_rev. Qed.

Lemma rstrip_snoc_space s c :
  is_py_space c = true → rstrip (s +:+ String c "") = rstrip s.
Proof. intros Hc. unfold rstrip. rewrite rev_snoc. simpl. by rewrite Hc. Qed.

Lemma rstrip_snoc s c :
  is_py_space c = false → rstrip (s +:+ String c "") = s +:+ String c "".
Proof.
  intros Hc. unfold rstrip. rewrite rev_snoc. simpl lstrip. rewrite Hc.
  by rewrite <-rev_snoc, rev_rev_str.
Qed.

(** A string is empty or has a last character. *)
Lemma string_snoc_cases s : s = "" ∨ ∃ t c, s = t +:+ String c "".
Proof.
  induction s as [|a s [->|(t & c & ->)]]; [by left|right..].
  - by exists "", a.
  - by exists (String a t), c.
Qed.

Lemma lstrip_snoc u a :
  is_py_space a = false → ∃ w, lstrip (u +:+ String a "") = w +:+ String a "".
Proof.
  intros Ha. induction u as [|c u [w IH]]; simpl.
  - rewrite Ha. by exists "".
  - destruct (is_py_space c); [by exists w|]. by exists (String c u).
Qed.

Lemma length_lstrip s : (String.length (lstrip s) ≤ String.length s)%nat.
Proof.
  induction s as [|c s IH]; simpl; [done|]. destruct (is_py_space c); simpl; lia.
Qed.

Lemma length_rev s : String.length (String.rev s) = String.length s.
Proof. by rewrite <-!length_chars, chars_rev, length_rev. Qed.

Lemma length_rstrip s : (String.length (rstrip s) ≤ String.length s)%nat.
Proof.
  unfold rstrip. rewrite length_rev. etrans; [apply length_lstrip|].
  by rewrite length_rev.
Qed.

Lemma stripped_empty : stripped "".
Proof. done. Qed.

(** What [strip] returns is stripped. *)
Lemma strip_stripped s : stripped (strip s).
Proof.
  unfold stripped, strip.
  destruct (lstrip s) as [|a t] eqn:E; [done|].
  pose proof (lstrip_head _ _ _ E) as Ha.
  assert (∃ w, rstrip (String a t) = String a w) as [w Hw].
  { unfold rstrip. rewrite rev_cons.
    destruct (lstrip_snoc (String.rev t) a Ha) as [w ->].
    rewrite rev_snoc. by eexists. }
  rewrite Hw at 1. rewrite lstrip_id by done. by rewrite <-Hw, rstrip_idemp.
Qed.

(** A stripped string that is not empty starts and ends with a character
    that is no white space. *)
Lemma stripped_head a s : stripped (String a s) → is_py_space a = false.
Proof.
  unfold stripped, strip. intros Hs.
  destruct (is_py_space a) eqn:Ha; [|done].
  pose proof (length_rstrip (lstrip (String a s))) as H1.
  pose proof (length_lstrip s) as H2. rewrite Hs in H1. simpl in H1.
  rewrite Ha in H1. simpl in H1. lia.
Qed.

Lemma stripped_last s c : stripped (s +:+ String c "") → is_py_space c = false.
Proof.
  unfold stripped, strip. intros Hs.
  destruct (is_py_space c) eqn:Hc; [|done].
  destruct s as [|a s].
  - simpl in Hs. by rewrite Hc in Hs.
  - pose proof (stripped_head a _ Hs) as Ha.
    rewrite app_cons_str, lstrip_id in Hs by done.
    rewrite <-app_cons_str, rstrip_snoc_space in Hs by done.
    pose proof (length_rstrip (String a s)) as Hl. rewrite Hs in Hl.
    rewrite length_app_str in Hl. simpl in Hl. lia.
Qed.

Lemma stripped_intro a s c :
  is_py_space a = false → is_py_space c = false →
  stripped (String a "") ∧ stripped (String a (s +:+ String c "")).
Proof.
  intros Ha Hc. unfold stripped, strip. rewrite !lstrip_id by done. split.
  - by apply (rstrip_snoc "").
  - by apply (rstrip_snoc (String a s)).
Qed.

(** A stripped line followed by white space is stripped back to itself. *)
Lemma strip_line s c : stripped s → s ≠ "" → is_py_space c = true →
  strip (s +:+ String c "") = s.
Proof.
  intros Hs Hne Hc. destruct s as [|a s]; [done|].
  pose proof (stripped_head _ _ Hs) as Ha.
  unfold stripped, strip in *. rewrite lstrip_id in Hs by done.
  rewrite app_cons_str, lstrip_id by done.
  by rewrite <-app_cons_str, rstrip_snoc_space.
Qed.

(** ** Prefixes and suffixes *)

Lemma strip_prefix_app p s : strip_prefix p (p +:+ s) = Some s.
Proof.
  induction p as [|a p IH]; simpl; [by destruct s|].
  by rewrite decide_True.
Qed.

Lemma rev_app_str s t : String.rev (s +:+ t) = String.rev t +:+ String.rev s.
Proof.
  apply chars_inj. by rewrite chars_rev, !chars_app, !chars_rev, rev_app_distr.
Qed.

Lemma strip_suffix_app s suf : strip_suffix suf (s +:+ suf) = Some s.
Proof.
  unfold strip_suffix. rewrite rev_app_str, strip_prefix_app. simpl.
  by rewrite rev_rev_str.
Qed.

Lemma remove_char_quoted s :
  dquote ∉ chars s → remove_char dquote (quoted s) = s.
Proof.
  intros Hs. unfold quoted. simpl.
  rewrite remove_char_app, remove_char_absent by done. simpl. apply app_empty_r.
Qed.

(** ** Lines *)

Lemma no_break_app s t : no_break s → no_break t → no_break (s +:+ t).
Proof. unfold no_break. rewrite chars_app. apply Forall_app_2. Qed.

Lemma no_break_no_lf s : no_break s → "010"%char ∉ chars s.
Proof. intros Hs Hin. by destruct (proj1 (Forall_forall _ _) Hs _ Hin). Qed.

Lemma splitlines_unlines lines :
  Forall no_break lines → splitlines (unlines lines) = lines.
Proof.
  induction 1 as [|l lines Hl _ IH]; [done|].
  simpl. by rewrite splitlines_line, IH.
Qed.

Lemma file_lines_unlines lines :
  Forall no_break lines →
  file_lines (unlines lines) = (λ l, l +:+ String "010" "") <$> lines.
Proof.
  induction 1 as [|l lines Hl _ IH]; [done|].
  simpl. by rewrite file_lines_line, IH by by apply no_break_no_lf.
Qed.

Lemma unlines_app l1 l2 : unlines (l1 ++ l2) = unlines l1 +:+ unlines l2.
Proof.
  induction l1 as [|l l1 IH]; simpl; [by rewrite app_empty_l|].
  by rewrite IH, app_assoc_str.
Qed.

(** ** The order of byte strings

    [a <= b] on two [str] of Python 2: the bytes are compared from the
    left, and a proper prefix is smaller.  It is a total order. *)

Definition str_le (a b : string) : Prop := String.leb a b = true.

#[export] Instance str_le_dec : RelDecision str_le.
Proof. intros a b. unfold str_le. apply _. Defined.

Lemma str_compare_trans s1 s2 s3 :
  String.compare s1 s2 ≠ Gt → String.compare s2 s3 ≠ Gt →
  String.compare s1 s3 ≠ Gt.
Proof.
  revert s2 s3. induction s1 as [|c1 s1 IH]; intros [|c2 s2] [|c3 s3]; simpl; try done.
  unfold Ascii.compare.
  destruct (N.compare_spec (N_of_ascii c1) (N_of_ascii c2)) as [E12|L12|]; [| |done];
    destruct (N.compare_spec (N_of_ascii c2) (N_of_ascii c3)) as [E23|L23|]; try done.
  - rewrite E12, E23, N.compare_refl. apply IH.
  - intros _ _. rewrite E12. by apply N.compare_lt_iff in L23 as ->.
  - intros _ _. rewrite <-E23. by apply N.compare_lt_iff in L12 as ->.
  - intros _ _. by rewrite (proj2 (N.compare_lt_iff _ _) (N.lt_trans _ _ _ L12 L23)).
Qed.

Lemma str_le_compare a b : str_le a b ↔ String.compare a b ≠ Gt.
Proof. unfold str_le, String.leb. by destruct (String.compare a b). Qed.

#[export] Instance str_le_trans : Transitive str_le.
Proof. intros a b c. rewrite !str_le_compare. apply str_compare_trans. Qed.

#[export] Instance str_le_total : Total str_le.
Proof. intros a b. apply String.leb_total. Qed.

#[export] Instance str_le_antisym : AntiSymm (=) str_le.
Proof. intros a b. apply String.leb_antisym. Qed.

#[export] Instance str_le_refl : Reflexive str_le.
Proof. intros a. by destruct (total str_le a a). Qed.
