(* ===== verification/PyValue.v ===== *)
(** * Python values

    The values the modelled code handles: what [json.loads] produces (without
    floats) and what the handlers build from it.  A dict is an association
    list in iteration order; its keys are the hashable scalars, compared as
    Python compares them ([True == 1], [False == 0]). *)

From Stdlib Require Import Ascii.
From stdpp Require Import base tactics option strings numbers list.
From S2P Require Import Prelude PyStrings.

#[local] Open Scope string_scope.
#[local] Open Scope list_scope.

(** ** Keys *)

Inductive key : Set :=
| KNone
| KBool (b : bool)
| KInt (z : Z)
| KStr (s : string).

#[export] Instance key_eq_dec : EqDecision key.
Proof. solve_decision. Defined.

(** A [bool] hashes and compares as the integer it is. *)
Definition key_norm (k : key) : key :=
  match k with
  | KBool b => KInt (if b then 1 else 0)
  | _ => k
  end.

(** [k1 == k2] on keys. *)
Definition key_eqb (k1 k2 : key) : bool :=
  bool_decide (key_norm k1 = key_norm k2).

Definition key_equiv (k1 k2 : key) : Prop := key_norm k1 = key_norm k2.

(** ** Values *)

Unset Elimination Schemes.
Inductive value : Type :=
| VNone
| VBool (b : bool)
| VInt (z : Z)
| VStr (s : string)
| VList (l : list value)
| VDict (d : list (key * value)).
Set Elimination Schemes.

Abbreviation dict := (list (key * value)).

(** The induction principle that reaches the elements of lists and dicts. *)
Section value_ind.
Variable P : value → Prop.
Hypothesis HNone : P VNone.
Hypothesis HBool : ∀ b, P (VBool b).
Hypothesis HInt : ∀ z, P (VInt z).
Hypothesis HStr : ∀ s, P (VStr s).
Hypothesis HList : ∀ l, Forall P l → P (VList l).
Hypothesis HDict : ∀ d : dict, Forall (λ kv, P kv.2) d → P (VDict d).

Fixpoint value_ind (v : value) : P v :=
  match v with
  | VNone => HNone
  | VBool b => HBool b
  | VInt z => HInt z
  | VStr s => HStr s
  | VList l =>
      HList l ((fix go (l : list value) : Forall P l :=
                  match l with
                  | [] => Forall_nil_2 P
                  | x :: l' => Forall_cons_2 P x l' (value_ind x) (go l')
                  end) l)
  | VDict d =>
      HDict d ((fix go (d : dict) : Forall (λ kv, P kv.2) d :=
                  match d with
                  | [] => Forall_nil_2 _
                  | kv :: d' =>
                      Forall_cons_2 (λ kv, P kv.2) kv d' (value_ind kv.2) (go d')
                  end) d)
  end.
End value_ind.

(** Structural equality on values, as a boolean function. *)
Fixpoint value_eqb (v w : value) : bool :=
  match v, w with
  | VNone, VNone => true
  | VBool a, VBool b => bool_decide (a = b)
  | VInt a, VInt b => bool_decide (a = b)
  | VStr a, VStr b => bool_decide (a = b)
  | VList l, VList l' =>
      (fix go (l l' : list value) : bool :=
         match l, l' with
         | [], [] => true
         | x :: l, y :: l' => value_eqb x y && go l l'
         | _, _ => false
         end) l l'
  | VDict d, VDict d' =>
      (fix go (d d' : dict) : bool :=
         match d, d' with
         | [], [] => true
         | (k, x) :: d, (k', y) :: d' =>
             bool_decide (k = k') && value_eqb x y && go d d'
         | _, _ => false
         end) d d'
  | _, _ => false
  end.

(** ** Conversions between keys and values *)

(** Using a value as a key: lists and dicts are unhashable. *)
Definition to_key (v : value) : result key :=
  match v with
  | VNone => Ok KNone
  | VBool b => Ok (KBool b)
  | VInt z => Ok (KInt z)
  | VStr s => Ok (KStr s)
  | VList _ | VDict _ => Raise TypeError
  end.

Definition of_key (k : key) : value :=
  match k with
  | KNone => VNone
  | KBool b => VBool b
  | KInt z => VInt z
  | KStr s => VStr s
  end.

(** ** Truth value and type tests *)

(** [bool(v)]: what [if v] and [not v] test. *)
Definition truthy (v : value) : bool :=
  match v with
  | VNone => false
  | VBool b => b
  | VInt z => negb (bool_decide (z = 0%Z))
  | VStr s => negb (bool_decide (s = ""))
  | VList l => negb (bool_decide (l = []))
  | VDict d => negb (bool_decide (d = []))
  end.

(** [isinstance(v, basestring)], [isinstance(v, dict)], [isinstance(v, list)]. *)
Definition is_basestring (v : value) : bool :=
  match v with VStr _ => true | _ => false end.
Definition is_dict (v : value) : bool :=
  match v with VDict _ => true | _ => false end.
Definition is_list (v : value) : bool :=
  match v with VList _ => true | _ => false end.

(** [v == s] for a string literal [s]. *)
Definition eq_str (v : value) (s : string) : bool :=
  match v with VStr s' => bool_decide (s' = s) | _ => false end.

(** [k == s] for a key [k] of a dict and a string literal [s]. *)
Definition key_is (k : key) (s : string) : bool :=
  match k with KStr s' => bool_decide (s' = s) | _ => false end.

(** [k in [s1, ..., sn]] for string literals. *)
Definition key_in (k : key) (ss : list string) : bool :=
  match k with KStr s => bool_decide (s ∈ ss) | _ => false end.

(** [True if v == 'True' else False]. *)
Definition true_literal (v : value) : value := VBool (eq_str v "True").

(** ** Dicts

    A dict is the list of its items in iteration order.  Assignment to a key
    that is present replaces the value where it stands (the key object
    already there is kept); a new key goes to the end. *)

(** [d.get(k)], [None] when absent; [d[k]] raises [KeyError] then. *)
Fixpoint dict_get (k : key) (d : dict) : option value :=
  match d with
  | [] => None
  | (k', v) :: d' => if key_eqb k k' then Some v else dict_get k d'
  end.

(** [k in d]. *)
Definition dict_has (k : key) (d : dict) : bool :=
  bool_decide (is_Some (dict_get k d)).

(** [d[k] = v]. *)
Fixpoint dict_set (k : key) (v : value) (d : dict) : dict :=
  match d with
  | [] => [(k, v)]
  | (k', v') :: d' =>
      if key_eqb k k' then (k', v) :: d' else (k', v') :: dict_set k v d'
  end.

(** [d.update(e)]. *)
Definition dict_update (d e : dict) : dict :=
  foldl (λ acc kv, dict_set kv.1 kv.2 acc) d e.

(** [d.keys()] and [d.items()]. *)
Definition dict_keys (d : dict) : list key := d.*1.
Definition dict_items (d : dict) : list (key * value) := d.

(** The dict of strings under string keys, from the pairs. *)
Definition dict_of (params : list (string * string)) : dict :=
  (λ kv, (KStr kv.1, VStr kv.2)) <$> params.

(** The keys of a well-formed dict are pairwise different as Python
    compares them; so are, recursively, the keys of the dicts inside. *)
Definition dict_wf (d : dict) : Prop := NoDup (key_norm <$> d.*1).

Fixpoint value_wf (v : value) : Prop :=
  match v with
  | VList l =>
      (fix go (l : list value) : Prop :=
         match l with [] => True | x :: l' => value_wf x ∧ go l' end) l
  | VDict d =>
      dict_wf d ∧
      (fix go (d : dict) : Prop :=
         match d with [] => True | kv :: d' => value_wf kv.2 ∧ go d' end) d
  | _ => True
  end.

(** The same as a test. *)
Fixpoint value_wfb (v : value) : bool :=
  match v with
  | VList l =>
      (fix go (l : list value) : bool :=
         match l with [] => true | x :: l' => value_wfb x && go l' end) l
  | VDict d =>
      bool_decide (dict_wf d) &&
      (fix go (d : dict) : bool :=
         match d with [] => true | kv :: d' => value_wfb kv.2 && go d' end) d
  | _ => true
  end.

(** ** Keys compare by an equivalence *)

#[export] Instance key_equiv_equivalence : Equivalence key_equiv.
Proof.
  unfold key_equiv. split; [by intros ?|by intros ??|].
  intros ???. apply eq_trans.
Qed.

#[export] Instance key_equiv_dec : RelDecision key_equiv.
Proof. intros k1 k2. unfold key_equiv. apply _. Defined.

Lemma key_eqb_equiv k1 k2 : key_eqb k1 k2 = true ↔ key_equiv k1 k2.
Proof. apply bool_decide_eq_true. Qed.

Lemma key_eqb_refl k : key_eqb k k = true.
Proof. by apply key_eqb_equiv. Qed.

Lemma key_eqb_sym k1 k2 : key_eqb k1 k2 = key_eqb k2 k1.
Proof. unfold key_eqb. apply bool_decide_ext. split; by intros ->. Qed.

Lemma key_eqb_str s1 s2 : key_eqb (KStr s1) (KStr s2) = bool_decide (s1 = s2).
Proof. unfold key_eqb. simpl. apply bool_decide_ext. naive_solver. Qed.

Lemma key_eqb_bool_int b :
  key_eqb (KBool b) (KInt (if b then 1 else 0)) = true.
Proof. by apply key_eqb_equiv. Qed.

(** Only the string itself equals a string key. *)
Lemma key_equiv_str k s : key_equiv k (KStr s) → k = KStr s.
Proof. unfold key_equiv. destruct k as [|[]| |]; simpl; congruence. Qed.

Lemma key_equiv_str_l k s : key_equiv (KStr s) k → k = KStr s.
Proof. intros Hk. by apply key_equiv_str. Qed.

#[export] Instance key_eqb_proper : Proper (key_equiv ==> key_equiv ==> eq) key_eqb.
Proof.
  intros k1 k1' H1 k2 k2' H2. unfold key_eqb, key_equiv in *.
  by rewrite H1, H2.
Qed.

#[export] Instance dict_get_proper : Proper (key_equiv ==> eq ==> eq) dict_get.
Proof.
  intros k k' Hk d ? <-. induction d as [|[k0 v] d IH]; simpl; [done|].
  by rewrite Hk, IH.
Qed.

#[export] Hint Rewrite key_eqb_refl key_eqb_str : py.

(** ** Laws of dict assignment and lookup *)

Section dict_laws.
Implicit Types (k : key) (v : value) (d : dict).

Lemma dict_get_set k k' v d :
  dict_get k' (dict_set k v d) = if key_eqb k' k then Some v else dict_get k' d.
Proof.
  induction d as [|[k0 v0] d IH]; simpl; [done|].
  destruct (key_eqb k k0) eqn:E; simpl.
  - apply key_eqb_equiv in E.
    destruct (key_eqb k' k0) eqn:E0; rewrite <-E in E0; by rewrite E0.
  - destruct (key_eqb k' k0) eqn:E0; [|done].
    apply key_eqb_equiv in E0. rewrite E0, (key_eqb_sym k0 k), E. done.
Qed.

Lemma dict_get_set_eq k v d : dict_get k (dict_set k v d) = Some v.
Proof. by rewrite dict_get_set, key_eqb_refl. Qed.

Lemma dict_get_set_ne k k' v d :
  ¬ key_equiv k' k → dict_get k' (dict_set k v d) = dict_get k' d.
Proof.
  intros Hne. rewrite dict_get_set.
  destruct (key_eqb k' k) eqn:E; [|done]. by apply key_eqb_equiv in E.
Qed.

(** Assigning to an absent key appends the item. *)
Lemma dict_set_absent k v d :
  dict_get k d = None → dict_set k v d = d ++ [(k, v)].
Proof.
  induction d as [|[k0 v0] d IH]; simpl; [done|].
  destruct (key_eqb k k0); [done|]. intros H. by rewrite IH.
Qed.

(** Assignment never changes the order of the keys already there. *)
Lemma dict_keys_set_present k v d :
  is_Some (dict_get k d) → dict_keys (dict_set k v d) = dict_keys d.
Proof.
  unfold dict_keys. induction d as [|[k0 v0] d IH]; simpl.
  - by intros [? ?].
  - destruct (key_eqb k k0); [done|]. intros H. simpl. f_equal. by apply IH.
Qed.

Lemma dict_set_nonempty k v d : dict_set k v d ≠ [].
Proof. destruct d as [|[k0 v0] d]; simpl; [done|]. by destruct (key_eqb k k0). Qed.

Lemma dict_get_None_norm k d :
  dict_get k d = None ↔ key_norm k ∉ key_norm <$> d.*1.
Proof.
  induction d as [|[k0 v0] d IH]; cbn [dict_get].
  - split; [intros _; apply not_elem_of_nil|done].
  - rewrite !fmap_cons, not_elem_of_cons, <-IH. unfold key_eqb. simpl.
    case_bool_decide; split; [done|by intros []|done|by intros []].
Qed.

Lemma dict_set_norm_keys k v d :
  key_norm <$> (dict_set k v d).*1 =
  match dict_get k d with
  | Some _ => key_norm <$> d.*1
  | None => (key_norm <$> d.*1) ++ [key_norm k]
  end.
Proof.
  induction d as [|[k0 v0] d IH]; cbn [dict_get dict_set]; [done|].
  destruct (key_eqb k k0) eqn:E; [done|].
  rewrite !fmap_cons, IH. by destruct (dict_get k d).
Qed.

(** Assignment keeps the keys pairwise different. *)
Lemma dict_set_wf k v d : dict_wf d → dict_wf (dict_set k v d).
Proof.
  unfold dict_wf. intros Hd. rewrite dict_set_norm_keys.
  destruct (dict_get k d) eqn:E; [done|].
  apply NoDup_app. split_and!; [done| |apply NoDup_singleton].
  intros x Hx ->%list_elem_of_singleton. by apply dict_get_None_norm in E.
Qed.

Lemma dict_has_true k d : dict_has k d = true ↔ is_Some (dict_get k d).
Proof. apply bool_decide_eq_true. Qed.

Lemma dict_has_false k d : dict_has k d = false ↔ dict_get k d = None.
Proof.
  unfold dict_has. rewrite bool_decide_eq_false. symmetry. apply eq_None_not_Some.
Qed.

Lemma dict_has_set k k' v d :
  dict_has k' (dict_set k v d) = key_eqb k' k || dict_has k' d.
Proof.
  unfold dict_has. rewrite dict_get_set.
  by destruct (key_eqb k' k).
Qed.

Lemma dict_update_wf d e : dict_wf d → dict_wf (dict_update d e).
Proof.
  unfold dict_update. revert d.
  induction e as [|[k v] e IH]; intros d Hd; simpl; [done|].
  by apply IH, dict_set_wf.
Qed.

(** A key that a lookup does not find is the key of no item. *)
Lemma dict_get_None_elem_of k v d : dict_get k d = None → (k, v) ∉ d.
Proof.
  intros Hk Hin. apply dict_get_None_norm in Hk. apply Hk.
  by apply list_elem_of_fmap_2, (list_elem_of_fmap_2 fst _ (k, v)).
Qed.

Lemma dict_get_set_str_ne s t v d :
  s ≠ t → dict_get (KStr s) (dict_set (KStr t) v d) = dict_get (KStr s) d.
Proof. intros Hne. apply dict_get_set_ne. by intros [=]. Qed.

(** A key that is absent stays absent when items are removed. *)
Lemma dict_get_filter_None k (P : key * value → Prop) `{∀ kv, Decision (P kv)} items :
  dict_get k items = None → dict_get k (filter P items) = None.
Proof.
  induction items as [|[k0 v0] items IH]; simpl; [done|].
  destruct (key_eqb k k0) eqn:E; [done|]. intros Hi.
  rewrite filter_cons. case_decide; simpl; [by rewrite E; apply IH|by apply IH].
Qed.

(** [update] is a sequence of assignments. *)
Lemma dict_update_cons d k v e :
  dict_update d ((k, v) :: e) = dict_update (dict_set k v d) e.
Proof. done. Qed.

Lemma dict_update_app d e1 e2 :
  dict_update d (e1 ++ e2) = dict_update (dict_update d e1) e2.
Proof. apply foldl_app. Qed.

Lemma dict_update_snoc d e k v :
  dict_update d (e ++ [(k, v)]) = dict_set k v (dict_update d e).
Proof. by rewrite dict_update_app. Qed.

Lemma dict_get_app k d1 d2 :
  dict_get k (d1 ++ d2)
  = match dict_get k d1 with Some v => Some v | None => dict_get k d2 end.
Proof.
  induction d1 as [|[k0 v0] d1 IH]; simpl; [done|]. by destruct (key_eqb k k0).
Qed.

(** After an update the last assignment to a key is what a lookup finds. *)
Lemma dict_get_update k d e :
  dict_get k (dict_update d e)
  = match dict_get k (reverse e) with Some v => Some v | None => dict_get k d end.
Proof.
  revert d. induction e as [|[k0 v0] e IH]; intros d; [done|].
  rewrite dict_update_cons, IH, reverse_cons, dict_get_app, dict_get_set. simpl.
  by destruct (dict_get k (reverse e)), (key_eqb k k0).
Qed.

(** What a lookup finds is an item of the dict, under an equal key. *)
Lemma dict_get_elem_of k d v :
  dict_get k d = Some v → ∃ k', key_equiv k k' ∧ (k', v) ∈ d.
Proof.
  induction d as [|[k0 v0] d IH]; simpl; [done|].
  destruct (key_eqb k k0) eqn:E.
  - intros [= <-]. exists k0. split; [by apply key_eqb_equiv|left].
  - intros (k' & ? & ?)%IH. exists k'. split; [done|by right].
Qed.

(** In a dict with pairwise different keys every item is found. *)
Lemma dict_get_wf_elem_of k d v :
  dict_wf d → (k, v) ∈ d → dict_get k d = Some v.
Proof.
  unfold dict_wf. induction d as [|[k0 v0] d IH]; [by intros _ ?%elem_of_nil|].
  rewrite !fmap_cons, NoDup_cons. intros [Hk Hd] [[= <- <-]|Hin]%elem_of_cons.
  - simpl. by rewrite key_eqb_refl.
  - simpl. destruct (key_eqb k k0) eqn:E; [|by apply IH].
    apply key_eqb_equiv in E. unfold key_equiv in E. destruct Hk. simpl.
    rewrite <-E.
    apply list_elem_of_fmap_2, (list_elem_of_fmap_2 fst _ (k, v)), Hin.
Qed.

Lemma dict_wf_reverse d : dict_wf (reverse d) ↔ dict_wf d.
Proof. unfold dict_wf. by rewrite !fmap_reverse, reverse_Permutation. Qed.

(** With pairwise different keys, the first and the last item of a key are
    the same item. *)
Lemma dict_get_reverse k d : dict_wf d → dict_get k (reverse d) = dict_get k d.
Proof.
  intros Hd. destruct (dict_get k d) as [v|] eqn:E.
  - apply dict_get_elem_of in E as (k' & Hk & Hin). rewrite Hk.
    apply dict_get_wf_elem_of; [by apply dict_wf_reverse|by apply elem_of_reverse].
  - apply dict_get_None_norm. apply dict_get_None_norm in E.
    by rewrite !fmap_reverse, elem_of_reverse.
Qed.

(** With pairwise different keys, items under equal keys are one item. *)
Lemma dict_wf_elem_of_inj d kv1 kv2 :
  dict_wf d → kv1 ∈ d → kv2 ∈ d → key_equiv kv1.1 kv2.1 → kv1 = kv2.
Proof.
  unfold dict_wf, key_equiv. induction d as [|kv d IH]; [by intros _ ?%elem_of_nil|].
  rewrite !fmap_cons, NoDup_cons.
  intros [Hk Hd] [->|H1]%elem_of_cons [->|H2]%elem_of_cons Heq; [done|..].
  - destruct Hk. rewrite Heq. by do 2 apply list_elem_of_fmap_2.
  - destruct Hk. rewrite <-Heq. by do 2 apply list_elem_of_fmap_2.
  - by apply IH.
Qed.

(** Before an item of a dict with pairwise different keys no item has
    its key. *)
Lemma dict_wf_split l1 kv l2 kv' :
  dict_wf (l1 ++ kv :: l2) → kv' ∈ l1 → ¬ key_equiv kv'.1 kv.1.
Proof.
  unfold dict_wf, key_equiv. rewrite !fmap_app, NoDup_app. intros (_ & Hk & _) Hin Heq.
  apply (Hk (key_norm kv'.1)); [by do 2 apply list_elem_of_fmap_2|].
  rewrite Heq, !fmap_cons. left.
Qed.

Lemma dict_update_nonempty d e : e ≠ [] → dict_update d e ≠ [].
Proof.
  destruct e as [|[k v] e _] using rev_ind; [done|]. intros _.
  rewrite dict_update_snoc. apply dict_set_nonempty.
Qed.

(** The keys of an update of the empty dict by items with pairwise
    different keys are the keys of the items, in their order. *)
Lemma dict_update_wf_id e : dict_wf e → dict_update [] e = e.
Proof.
  induction e as [|[k v] e IH] using rev_ind; [done|]. intros Hwf.
  assert (dict_wf e ∧ dict_get k e = None) as [He Hk].
  { unfold dict_wf in *. rewrite !fmap_app, NoDup_app in Hwf.
    destruct Hwf as (He & Hk & _). split; [done|].
    apply dict_get_None_norm. intros Hin. apply (Hk _ Hin). simpl. left. }
  by rewrite dict_update_snoc, IH, dict_set_absent.
Qed.


Lemma dict_wf_elem_of_eq d k1 v1 k2 v2 :
  dict_wf d → (k1, v1) ∈ d → (k2, v2) ∈ d → key_equiv k1 k2 → v1 = v2.
Proof.
  intros Hd H1%(dict_get_wf_elem_of _ _ _ Hd) H2%(dict_get_wf_elem_of _ _ _ Hd) Hk.
  rewrite Hk in H1. congruence.
Qed.

Lemma dict_get_is_Some_elem_of k v d : (k, v) ∈ d → is_Some (dict_get k d).
Proof.
  intros Hin. apply not_eq_None_Some. by intros ?%(dict_get_None_elem_of _ v).
Qed.

End dict_laws.

#[export] Hint Rewrite dict_get_set_eq dict_has_set : py.
#[export] Hint Resolve dict_set_wf dict_update_wf dict_set_nonempty : py.

(** ** Equality of values is decidable *)

Lemma value_eqb_eq v w : value_eqb v w = true ↔ v = w.
Proof.
  revert w. induction v as [| | | |l IH|d IH] using value_ind;
    intros [| | | |l'|d']; simpl;
    try (split; [done|by intros [=]]);
    try (rewrite bool_decide_eq_true; split; congruence).
  - revert l'. induction IH as [|x l Hx _ IHl]; intros [|y l']; try by split.
    rewrite andb_true_iff, Hx, IHl. split; [by intros [-> [= ->]]|by intros [= -> ->]].
  - revert d'. induction IH as [|[k x] d Hx _ IHd]; intros [|[k' y] d']; try by split.
    simpl in Hx. rewrite !andb_true_iff, bool_decide_eq_true, Hx, IHd.
    split; [by intros [[-> ->] [= ->]]|by intros [= -> -> ->]].
Qed.

#[export] Instance value_eq_dec : EqDecision value.
Proof.
  refine (λ v w, cast_if (decide (value_eqb v w = true)));
    abstract (by rewrite <-value_eqb_eq).
Defined.

(** ** Well-formed values *)

Lemma value_wf_list l : value_wf (VList l) ↔ Forall value_wf l.
Proof.
  simpl. induction l as [|x l IH]; [by split|]. split.
  - intros [Hx Hl]. constructor; [done|by apply IH].
  - intros [Hx Hl]%Forall_cons. split; [done|by apply IH].
Qed.

Lemma value_wf_dict d :
  value_wf (VDict d) ↔ dict_wf d ∧ Forall (λ kv, value_wf kv.2) d.
Proof.
  simpl. apply and_iff_compat_l.
  induction d as [|kv d IH]; [by split|]. split.
  - intros [Hx Hl]. constructor; [done|by apply IH].
  - intros [Hx Hl]%Forall_cons. split; [done|by apply IH].
Qed.

Lemma value_wfb_spec v : value_wfb v = true ↔ value_wf v.
Proof.
  induction v as [| | | |l IH|d IH] using value_ind; try done.
  - induction IH as [|x l Hx _ IH]; [done|].
    change (value_wfb x && value_wfb (VList l) = true
            ↔ value_wf x ∧ value_wf (VList l)).
    by rewrite andb_true_iff, Hx, IH.
  - simpl. rewrite andb_true_iff, bool_decide_eq_true. apply and_iff_compat_l.
    induction IH as [|[k x] d Hx _ IH]; [done|].
    simpl in *. by rewrite andb_true_iff, Hx, IH.
Qed.

#[export] Instance value_wf_dec v : Decision (value_wf v).
Proof.
  refine (cast_if (decide (value_wfb v = true)));
    abstract (by rewrite <-value_wfb_spec).
Defined.

Lemma value_wf_of_key k : value_wf (of_key k).
Proof. by destruct k. Qed.

(** What a lookup in a well-formed dict finds is well formed. *)
Lemma dict_get_wf k d v :
  Forall (λ kv, value_wf kv.2) d → dict_get k d = Some v → value_wf v.
Proof.
  induction 1 as [|[k0 v0] d Hv _ IH]; simpl; [done|].
  destruct (key_eqb k k0); [by intros [= <-]|done].
Qed.

Lemma dict_set_wf_values k v d :
  value_wf v → Forall (λ kv, value_wf kv.2) d →
  Forall (λ kv, value_wf kv.2) (dict_set k v d).
Proof.
  intros Hv. induction 1 as [|[k0 v0] d Hv0 Hd IH]; simpl.
  - by apply Forall_singleton.
  - destruct (key_eqb k k0); by constructor.
Qed.

(** A dict built by assignments from a well-formed one is well formed. *)
Lemma value_wf_dict_set k v d :
  value_wf v → value_wf (VDict d) → value_wf (VDict (dict_set k v d)).
Proof.
  rewrite !value_wf_dict. intros Hv [Hd Hvs].
  split; [by apply dict_set_wf|by apply dict_set_wf_values].
Qed.

Lemma value_wf_dict_nil : value_wf (VDict []).
Proof. apply value_wf_dict. split; [apply NoDup_nil_2|apply Forall_nil_2]. Qed.

Lemma value_wf_dict_singleton k v : value_wf v → value_wf (VDict [(k, v)]).
Proof. intros. by apply (value_wf_dict_set k v []), value_wf_dict_nil. Qed.

Lemma value_wf_dict_update d e :
  value_wf (VDict d) → Forall (λ kv, value_wf kv.2) e →
  value_wf (VDict (dict_update d e)).
Proof.
  intros Hd He. revert d Hd.
  induction He as [|[k v] e Hv _ IH]; intros d Hd; [done|].
  rewrite dict_update_cons. by apply IH, value_wf_dict_set.
Qed.

#[export] Hint Resolve value_wf_of_key value_wf_dict_set value_wf_dict_nil
  value_wf_dict_singleton : py.

(** ** Truth values *)

Lemma truthy_str s : truthy (VStr s) = true ↔ s ≠ "".
Proof. simpl. rewrite negb_true_iff, bool_decide_eq_false. done. Qed.

Lemma truthy_dict d : truthy (VDict d) = true ↔ d ≠ [].
Proof. simpl. rewrite negb_true_iff, bool_decide_eq_false. done. Qed.

Lemma truthy_list l : truthy (VList l) = true ↔ l ≠ [].
Proof. simpl. rewrite negb_true_iff, bool_decide_eq_false. done. Qed.

Lemma truthy_dict_set k v d : truthy (VDict (dict_set k v d)) = true.
Proof. apply truthy_dict, dict_set_nonempty. Qed.

Lemma eq_str_true v s : eq_str v s = true ↔ v = VStr s.
Proof.
  destruct v; simpl; try (split; [done|by intros [=]]).
  rewrite bool_decide_eq_true. split; congruence.
Qed.

Lemma key_in_true k ss : key_in k ss = true ↔ ∃ s, k = KStr s ∧ s ∈ ss.
Proof.
  destruct k; simpl; try (split; [done|by intros (? & ? & ?)]).
  rewrite bool_decide_eq_true. split; [by eauto|by intros (? & [= <-] & ?)].
Qed.

Lemma key_is_true k s : key_is k s = true ↔ k = KStr s.
Proof.
  destruct k; simpl; try (split; [done|by intros [=]]).
  rewrite bool_decide_eq_true. split; congruence.
Qed.

#[export] Hint Rewrite truthy_dict_set : py.

(** ** Dicts of strings *)

Lemma dict_of_wf params : NoDup params.*1 → dict_wf (dict_of params).
Proof.
  intros Hnd. unfold dict_wf, dict_of. rewrite <-!list_fmap_compose.
  change (NoDup ((KStr ∘ fst) <$> params)). rewrite list_fmap_compose.
  assert (Inj (=) (=) KStr) by (by intros ?? [=]). by apply NoDup_fmap_2.
Qed.
