(* ===== verification/PyOps.v ===== *)
(** * Python operations on values

    The built-in operations the modelled code applies to values of unknown
    type, each with the exception Python 2 raises when the type does not fit:
    subscription [v[s]], membership [s in v], iteration, [v.items()],
    [str(v)], [+], and the [str] methods. *)

From Stdlib Require Import Ascii.
From stdpp Require Import base tactics option strings numbers pretty list.
From S2P Require Import Prelude PyStrings PyValue.

#[local] Open Scope string_scope.
#[local] Open Scope list_scope.

(** [repr] of a list or a dict depends on details of the interpreter (string
    prefixes, quoting, long suffixes) that no claim of this development rests
    on: it is a parameter of the model. *)
Class PyRepr := py_repr : value → string.

(** An instance to run the definitions with. *)
Definition repr_elided : PyRepr := λ _, "<repr>".

Section ops.
Context `{PyRepr}.

(** [str(v)]. *)
Definition py_str (v : value) : string :=
  match v with
  | VNone => "None"
  | VBool true => "True"
  | VBool false => "False"
  | VInt z => pretty z
  | VStr s => s
  | VList _ | VDict _ => py_repr v
  end.

(** [if not isinstance(v, basestring): v = str(v)]: [v] afterwards. *)
Definition coerce_str (v : value) : string :=
  match v with VStr s => s | _ => py_str v end.

(** [v[s]] for a string literal [s]: only a dict can be subscripted by a
    string; a missing key is a [KeyError]. *)
Definition getitem_str (v : value) (s : string) : result value :=
  match v with
  | VDict d => of_option KeyError (dict_get (KStr s) d)
  | _ => Raise TypeError
  end.

(** [s in v] for a string literal [s]: key membership in a dict, element
    membership in a list, substring in a string; other values are not
    iterable. *)
Definition contains_str (s : string) (v : value) : result bool :=
  match v with
  | VDict d => Ok (dict_has (KStr s) d)
  | VList l => Ok (existsb (λ x, eq_str x s) l)
  | VStr hay => Ok (contains_sub s hay)
  | _ => Raise TypeError
  end.

(** [v.items()]: only dicts have the method. *)
Definition py_items (v : value) : result dict :=
  match v with
  | VDict d => Ok d
  | _ => Raise AttributeError
  end.

(** [v.keys()]. *)
Definition py_keys (v : value) : result (list key) :=
  match v with
  | VDict d => Ok (dict_keys d)
  | _ => Raise AttributeError
  end.

(** [for x in v]: the elements of a list, the keys of a dict, the characters
    of a string. *)
Definition py_iter (v : value) : result (list value) :=
  match v with
  | VList l => Ok l
  | VDict d => Ok (of_key <$> dict_keys d)
  | VStr s => Ok ((λ c, VStr (String c "")) <$> chars s)
  | _ => Raise TypeError
  end.

(** [a + b]. *)
Definition py_add (a b : value) : result value :=
  match a, b with
  | VStr x, VStr y => Ok (VStr (x +:+ y))
  | VList x, VList y => Ok (VList (x ++ y))
  | VInt x, VInt y => Ok (VInt (x + y))
  | VInt x, VBool y => Ok (VInt (x + Z.b2z y))
  | VBool x, VInt y => Ok (VInt (Z.b2z x + y))
  | VBool x, VBool y => Ok (VInt (Z.b2z x + Z.b2z y))
  | _, _ => Raise TypeError
  end.

(** [s + v] and [v + s] for a string [s]: [v] must be a string. *)
Definition str_add_l (s : string) (v : value) : result string :=
  match v with VStr t => Ok (s +:+ t) | _ => Raise TypeError end.
Definition str_add_r (v : value) (s : string) : result string :=
  match v with VStr t => Ok (t +:+ s) | _ => Raise TypeError end.

(** The [str] methods: a value that is not a string has none of them. *)
Definition py_endswith (v : value) (suf : string) : result bool :=
  match v with VStr s => Ok (endswith s suf) | _ => Raise AttributeError end.

Definition py_split (v : value) (c : ascii) : result (list string) :=
  match v with VStr s => Ok (split_on c s) | _ => Raise AttributeError end.

(** [l[i]] on a list the code has just built. *)
Definition list_index {A} (l : list A) (i : nat) : result A :=
  of_option IndexError (l !! i).

End ops.

(** ** Lemmas *)

Section ops_lemmas.
Context `{PyRepr}.
Implicit Types (v : value) (d : dict) (s : string).

Lemma coerce_str_str s : coerce_str (VStr s) = s.
Proof. done. Qed.

Lemma coerce_str_int z : coerce_str (VInt z) = pretty z.
Proof. done. Qed.

Lemma coerce_str_basestring v : is_basestring v = true → VStr (coerce_str v) = v.
Proof. by destruct v. Qed.

Lemma getitem_str_Ok v s x :
  getitem_str v s = Ok x ↔ ∃ d, v = VDict d ∧ dict_get (KStr s) d = Some x.
Proof.
  destruct v; simpl; try (split; [done|by intros (? & ? & ?)]).
  unfold of_option. destruct (dict_get _ _) eqn:E; split.
  - intros [= <-]. eauto.
  - intros (? & [= <-] & ?). congruence.
  - done.
  - intros (? & [= <-] & ?). congruence.
Qed.

Lemma getitem_str_dict d s :
  getitem_str (VDict d) s = of_option KeyError (dict_get (KStr s) d).
Proof. done. Qed.

(** A key that [in] finds can be subscripted. *)
Lemma contains_getitem d s :
  contains_str s (VDict d) = Ok true → is_Ok (getitem_str (VDict d) s).
Proof.
  simpl. intros [= [x Hx]%dict_has_true]. rewrite Hx. by eexists.
Qed.

Lemma contains_false_getitem d s :
  contains_str s (VDict d) = Ok false → getitem_str (VDict d) s = Raise KeyError.
Proof. simpl. intros [= E%dict_has_false]. by rewrite E. Qed.

Lemma py_items_Ok v d : py_items v = Ok d ↔ v = VDict d.
Proof. destruct v; simpl; split; (done || congruence). Qed.

Lemma str_add_r_Ok v s t : str_add_r v s = Ok t ↔ ∃ u, v = VStr u ∧ t = u +:+ s.
Proof.
  destruct v; simpl; try (split; [done|by intros (? & ? & ?)]).
  split; [intros [= <-]; eauto|by intros (? & [= <-] & ->)].
Qed.

Lemma value_wf_getitem_str v s x :
  value_wf v → getitem_str v s = Ok x → value_wf x.
Proof.
  intros Hv (d & -> & Hx)%getitem_str_Ok.
  apply value_wf_dict in Hv as [_ Hv]. by eapply dict_get_wf.
Qed.
Lemma value_wf_py_iter v l : value_wf v → py_iter v = Ok l → Forall value_wf l.
Proof.
  destruct v as [| | |s|l'|d]; simpl; try done; intros Hv [= <-].
  - apply Forall_fmap, Forall_true. done.
  - by apply value_wf_list.
  - apply Forall_fmap, Forall_true. intros k. apply value_wf_of_key.
Qed.

Lemma value_wf_py_items v d : value_wf v → py_items v = Ok d → value_wf (VDict d).
Proof. by intros Hv ->%py_items_Ok. Qed.
End ops_lemmas.

#[export] Hint Rewrite @coerce_str_str @getitem_str_dict : py.
#[export] Hint Resolve value_wf_getitem_str : py.
