(* ===== verification/Tag.v ===== *)
(** * The tag generator

    [StatePreparation.__get_tag] (src/POCs/salt/statepreparation.py): the
    identifier of an emitted record, built from the module kind, the component
    id, the step id, the resource name and the target condition. *)

From Stdlib Require Import Ascii.
From stdpp Require Import base tactics option strings numbers pretty list.
From S2P Require Import Prelude PyStrings PyValue PyOps.

#[local] Open Scope string_scope.
#[local] Open Scope list_scope.

Section tag.
Context `{PyRepr}.

(** [module.replace('.', '_')] after the coercion of [module] to a string. *)
Definition tag_of_module (module : value) : string :=
  replace_char "." "_" (coerce_str module).

(** The whole of [__get_tag].  [step] is rebound to its string when it is
    truthy; the test that guards the coercion of [uid] reads [step], not
    [uid], so a non-string [uid] reaches [uid + '_'] whenever [step] is a
    string by then. *)
Definition get_tag (module uid step name state : value) : result string :=
  let tag := tag_of_module module in
  let step' := if truthy step then VStr (coerce_str step) else step in
  let tag := if truthy step then coerce_str step +:+ "_" +:+ tag else tag in
  tag ← (if truthy uid then
           let uid' := if is_basestring step' then uid else VStr (py_str uid) in
           u ← str_add_r uid' "_"; Ok (u +:+ tag)
         else Ok tag);
  let tag := if truthy name then tag +:+ ("_" +:+ coerce_str name) else tag in
  let tag := if truthy state then tag +:+ ("_" +:+ coerce_str state) else tag in
  Ok ("_" +:+ tag).

(** The reference: the tag as the parts joined in order, each optional part
    with its separator. *)
Definition part_before (v : value) : string :=
  if truthy v then coerce_str v +:+ "_" else "".
Definition part_after (v : value) : string :=
  if truthy v then "_" +:+ coerce_str v else "".

Definition tag_spec (module uid step name state : value) : string :=
  "_" +:+ part_before uid +:+ part_before step +:+ tag_of_module module
      +:+ part_after name +:+ part_after state.

(** When [uid + '_'] is a type error: [uid] is truthy and no string, and
    [step] is a string when the test is reached. *)
Definition uid_clash (uid step : value) : bool :=
  truthy uid && negb (is_basestring uid) && (truthy step || is_basestring step).

End tag.

Section tag_lemmas.
Context `{PyRepr}.
Implicit Types (module uid step name state : value) (s t : string).

Lemma part_before_str s : s ≠ "" → part_before (VStr s) = s +:+ "_".
Proof. intros Hs. unfold part_before. by rewrite (proj2 (truthy_str s)). Qed.

Lemma part_after_str s : s ≠ "" → part_after (VStr s) = "_" +:+ s.
Proof. intros Hs. unfold part_after. by rewrite (proj2 (truthy_str s)). Qed.

Lemma part_after_falsy v : truthy v = false → part_after v = "".
Proof. intros Hv. unfold part_after. by rewrite Hv. Qed.

Lemma part_before_falsy v : truthy v = false → part_before v = "".
Proof. intros Hv. unfold part_before. by rewrite Hv. Qed.

(** The coercion of [uid] leaves a string, or the string of [uid], behind. *)
Lemma uid_add_no_clash uid step :
  uid_clash uid step = false → truthy uid = true →
  str_add_r (if is_basestring (if truthy step then VStr (coerce_str step) else step)
             then uid else VStr (py_str uid)) "_"
  = Ok (coerce_str uid +:+ "_").
Proof.
  unfold uid_clash. intros Hc Hu. rewrite Hu in Hc. simpl in Hc.
  destruct (is_basestring uid) eqn:Eu.
  - destruct uid; try done.
    by destruct (is_basestring (if truthy step then _ else _)).
  - simpl in Hc. apply orb_false_iff in Hc as [-> ->].
    by destruct uid.
Qed.

Lemma uid_add_clash uid step :
  uid_clash uid step = true →
  str_add_r (if is_basestring (if truthy step then VStr (coerce_str step) else step)
             then uid else VStr (py_str uid)) "_"
  = Raise TypeError.
Proof.
  unfold uid_clash. intros [[Hu Hn%negb_true_iff]%andb_true_iff Hs]%andb_true_iff.
  assert (is_basestring (if truthy step then VStr (coerce_str step) else step) = true)
    as ->; [by destruct (truthy step); [|apply orb_true_iff in Hs as [|]]|].
  by destruct uid.
Qed.

(** [__get_tag] away from the clash, and at it. *)
Lemma get_tag_no_clash module uid step name state :
  uid_clash uid step = false →
  get_tag module uid step name state = Ok (tag_spec module uid step name state).
Proof.
  intros Hc. unfold get_tag, tag_spec, part_before, part_after.
  destruct (truthy uid) eqn:Eu.
  - rewrite (uid_add_no_clash _ _ Hc Eu). simpl.
    destruct (truthy step), (truthy name), (truthy state);
      by autorewrite with py.
  - simpl. destruct (truthy step), (truthy name), (truthy state);
      by autorewrite with py.
Qed.

Lemma get_tag_clash module uid step name state :
  uid_clash uid step = true →
  get_tag module uid step name state = Raise TypeError.
Proof.
  intros Hc. unfold get_tag.
  assert (truthy uid = true) as ->
    by (unfold uid_clash in Hc; by destruct (truthy uid)).
  by rewrite (uid_add_clash _ _ Hc).
Qed.

Lemma get_tag_cases module uid step name state :
  get_tag module uid step name state =
  if uid_clash uid step then Raise TypeError
  else Ok (tag_spec module uid step name state).
Proof.
  destruct (uid_clash uid step) eqn:E;
    [by apply get_tag_clash|by apply get_tag_no_clash].
Qed.

(** With a string (or falsy) component id there is no clash. *)
Lemma uid_clash_str s step : uid_clash (VStr s) step = false.
Proof. unfold uid_clash. simpl. by rewrite andb_false_r. Qed.

Lemma get_tag_str_uid module s step name state :
  get_tag module (VStr s) step name state
  = Ok (tag_spec module (VStr s) step name state).
Proof. apply get_tag_no_clash, uid_clash_str. Qed.

(** A tag is never empty: it starts with the separator. *)
Lemma get_tag_prefix module uid step name state tag :
  get_tag module uid step name state = Ok tag → startswith tag "_" = true.
Proof.
  rewrite get_tag_cases. destruct (uid_clash uid step); [done|].
  intros [= <-]. apply startswith_app.
Qed.

(** The condition is the last part of the tag. *)
Lemma tag_spec_state module uid step name state :
  tag_spec module uid step name state
  = tag_spec module uid step name VNone +:+ part_after state.
Proof. unfold tag_spec. by autorewrite with py. Qed.

Lemma part_after_inj s t : part_after (VStr s) = part_after (VStr t) → s = t.
Proof.
  unfold part_after. simpl.
  repeat case_bool_decide; simpl; try done; try congruence.
  by intros [=].
Qed.

(** Tags that differ only in a string condition are different tags. *)
Lemma tag_spec_state_inj module uid step name s t :
  tag_spec module uid step name (VStr s) = tag_spec module uid step name (VStr t) →
  s = t.
Proof.
  rewrite (tag_spec_state _ _ _ _ (VStr s)), (tag_spec_state _ _ _ _ (VStr t)).
  intros Heq%(inj (String.app _)). by apply part_after_inj.
Qed.

End tag_lemmas.

#[export] Hint Rewrite @get_tag_str_uid : py.

(** ** Properties of the tag generator *)

Section tag_properties.
Context `{PyRepr}.
Implicit Types (module uid step name state : value) (s t : string).

(** C7.  [__get_tag] on every input: it raises [TypeError] exactly when
    the component id is truthy, is no string, and the step id is truthy or a
    string (the type test before [str(uid)] reads [step]); otherwise the tag
    is the separator, the component id and the step id (each followed by a
    separator, when truthy), the module with dots replaced, then the resource
    name and the condition (each preceded by a separator, when truthy). *)
Theorem get_tag_correct module uid step name state :
  get_tag module uid step name state =
  if truthy uid && negb (is_basestring uid) && (truthy step || is_basestring step)
  then Raise TypeError
  else Ok (tag_spec module uid step name state).
Proof.
  fold (uid_clash uid step). destruct (uid_clash uid step) eqn:E.
  - by apply get_tag_clash.
  - by apply get_tag_no_clash.
Qed.

(** Two records of one step that differ in their condition get
    different tags: with the other four inputs fixed and a string component
    id, [__get_tag] is injective in a string condition. *)
Theorem get_tag_condition_injective module u step name s t :
  s ≠ t →
  get_tag module (VStr u) step name (VStr s) ≠
  get_tag module (VStr u) step name (VStr t).
Proof.
  intros Hne. rewrite !get_tag_str_uid. intros Heq%(inj Ok).
  apply Hne. by eapply tag_spec_state_inj.
Qed.

(** Tags are not injective in (name, condition): a resource name
    that ends with a separator and a word collides with the shorter name
    under that word as condition.  The spec's "any differing input produces
    a different tag" does not hold of the code. *)
Theorem get_tag_name_condition_collision module u step n c :
  n ≠ "" → c ≠ "" →
  get_tag module (VStr u) step (VStr (n +:+ "_" +:+ c)) VNone =
  get_tag module (VStr u) step (VStr n) (VStr c).
Proof.
  intros Hn Hc. rewrite !get_tag_str_uid. f_equal. unfold tag_spec.
  rewrite (part_after_str (n +:+ "_" +:+ c)) by by apply app_nonempty_l.
  rewrite (part_after_str n), (part_after_str c) by done.
  change (part_after VNone) with "". by autorewrite with py.
Qed.

End tag_properties.

Lemma get_tag_condition_injective_witness :
  get_tag (H:=repr_elided) (VStr "package.apt.package") (VStr "web") (VStr "1")
    (VStr "pkgs") (VStr "installed") ≠
  get_tag (H:=repr_elided) (VStr "package.apt.package") (VStr "web") (VStr "1")
    (VStr "pkgs") (VStr "latest").
Proof. apply get_tag_condition_injective. discriminate. Defined.

Lemma get_tag_name_condition_collision_witness :
  get_tag (H:=repr_elided) (VStr "path.file") (VStr "web") (VStr "2")
    (VStr "/etc/a_b") VNone =
  get_tag (H:=repr_elided) (VStr "path.file") (VStr "web") (VStr "2")
    (VStr "/etc/a") (VStr "b").
Proof.
  apply (get_tag_name_condition_collision (VStr "path.file") "web" (VStr "2")
           "/etc/a" "b"); discriminate.
Defined.
