(* ===== verification/StateCheck.v ===== *)
(** * Kind check and prerequisite resolver

    [StatePreparation.__state_check], the class constants [ssh_key_type] and
    [requisity_map], and [StatePreparation.__get_requisity]
    (src/POCs/salt/statepreparation.py). *)

From Stdlib Require Import Ascii.
From stdpp Require Import base tactics option strings numbers pretty list.
From S2P Require Import Prelude PyStrings PyValue PyOps Tag.

#[local] Open Scope string_scope.
#[local] Open Scope list_scope.

(** ** [__state_check] *)

(** The allow-list of subtypes per handler family. *)
Definition type_map : list (string * list string) :=
  [ ("package", ["pkg"; "gem"; "npm"; "pecl"; "pip"]);
    ("repository", ["apt"; "yum"; "gem"; "zypper"]);
    ("file", ["file"; "directory"; "symlink"]);
    ("scm", ["git"; "svn"; "hg"]);
    ("service", ["supervisord"; "sysvinit"; "upstart"]);
    ("sys", ["cmd"; "cron"; "group"; "host"; "mount"; "ntp"; "selinux"; "user";
             "ssh_auth"; "ssh_known_hosts"]) ].

(** [type_map[state]] when [state] is a key. *)
Fixpoint assoc (s : string) (m : list (string * list string)) : option (list string) :=
  match m with
  | [] => None
  | (k, v) :: m' => if bool_decide (s = k) then Some v else assoc s m'
  end.

(** [__state_check(state, type)]: 0 when [type] is allowed in the family
    [state], 2 otherwise. *)
Definition state_check (state type : string) : Z :=
  match assoc state type_map with
  | Some types => if bool_decide (type ∈ types) then 0 else 2
  | None => 2
  end.

(** [self.__state_check(state, type) != 0]. *)
Definition state_check_fails (state type : string) : bool :=
  negb (bool_decide (state_check state type = 0%Z)).

(** ** Class constants *)

Definition ssh_key_type : list string := ["ecdsa"; "ssh-rsa"; "ssh-dss"].

Definition requisity_map : dict :=
  [ (KStr "pkg", VDict [ (KStr "npm", VStr "npm");
                         (KStr "pecl", VStr "php-pear");
                         (KStr "pip", VStr "python-pip") ]) ].

(** ** [__get_requisity] *)

Section requisity.
Context `{PyRepr}.

(** The record of a prerequisite package: [{tag: {module: [{'name': name},
    state]}}]. *)
Definition requisity_record (tag module : string) (name state : value) : value :=
  VDict [(KStr tag,
          VDict [(KStr module, VList [VDict [(KStr "name", name)]; state])])].

(** The whole of [__get_requisity].  [state] is still [None] when it
    subscripts [requisity_map]. *)
Definition get_requisity (module type : string) : result value :=
  let name := VNone in
  let state := VNone in
  '(name, state) ←
    (if bool_decide (module = "pkg") then
       k ← to_key state;
       inner ← of_option KeyError (dict_get k requisity_map);
       name ← getitem_str inner type;
       Ok (name, VStr "installed")
     else Ok (name, state));
  if truthy name && truthy state then
    tag ← get_tag (VStr ("base." +:+ module)) VNone VNone name state;
    Ok (requisity_record tag module name state)
  else Ok VNone.

End requisity.

(** ** Lemmas *)

Lemma state_check_cases state type :
  state_check state type = 0%Z ∨ state_check state type = 2%Z.
Proof.
  unfold state_check. destruct (assoc _ _); [|by right].
  case_bool_decide; [by left|by right].
Qed.

Lemma state_check_0 state type :
  state_check state type = 0%Z ↔
  ∃ types, assoc state type_map = Some types ∧ type ∈ types.
Proof.
  unfold state_check. destruct (assoc _ _) as [types|]; split.
  - case_bool_decide; [eauto|done].
  - intros (? & [= <-] & ?). by rewrite bool_decide_eq_true_2.
  - done.
  - by intros (? & ? & ?).
Qed.

Lemma state_check_fails_false state type :
  state_check_fails state type = false ↔ state_check state type = 0%Z.
Proof.
  unfold state_check_fails. by rewrite negb_false_iff, bool_decide_eq_true.
Qed.

Section requisity_lemmas.
Context `{PyRepr}.

(** [requisity_map] has no key [None]. *)
Lemma get_requisity_pkg type : get_requisity "pkg" type = Raise KeyError.
Proof. done. Qed.

Lemma get_requisity_other module type :
  module ≠ "pkg" → get_requisity module type = Ok VNone.
Proof.
  intros Hm. unfold get_requisity. by rewrite bool_decide_eq_false_2.
Qed.

End requisity_lemmas.

Lemma assoc_Some_elem_of s v m : assoc s m = Some v → (s, v) ∈ m.
Proof.
  induction m as [|[k w] m IH]; simpl; [done|].
  case_bool_decide; [intros [= <-]; subst; by left|right; by apply IH].
Qed.

Lemma assoc_elem_of s v m : NoDup m.*1 → (s, v) ∈ m → assoc s m = Some v.
Proof.
  induction m as [|[k w] m IH]; simpl; [by intros _ ?%elem_of_nil|].
  rewrite NoDup_cons. intros [Hk Hm] [[= <- <-]|Hin]%elem_of_cons.
  - by rewrite bool_decide_eq_true_2.
  - rewrite bool_decide_eq_false_2; [by apply IH|].
    intros <-. apply Hk. by apply (list_elem_of_fmap_2 fst _ (s, v)).
Qed.

Lemma type_map_NoDup : NoDup type_map.*1.
Proof. compute_done. Qed.

(** ** Properties *)

Section state_check_properties.
Context `{PyRepr}.

(** C37.  [__state_check] returns 0 exactly on the pairs of the allow-list
    and 2 on every other pair: a family that is no key of [type_map], or a
    subtype that is not in the family's list. *)
Theorem state_check_correct state type :
  (state_check state type = 0%Z ↔
   ∃ types, (state, types) ∈ type_map ∧ type ∈ types) ∧
  (state_check state type = 0%Z ∨ state_check state type = 2%Z).
Proof.
  split; [|apply state_check_cases]. rewrite state_check_0.
  split; intros (types & Ha & Ht); exists types; (split; [|done]).
  - by apply assoc_Some_elem_of.
  - by apply assoc_elem_of; [apply type_map_NoDup|].
Qed.

(** C27.  The prerequisite resolver never resolves: for the capability
    [pkg], the only one it knows, [__get_requisity] raises [KeyError] for
    every kind, in particular for the kinds the static mapping names
    ([requisity_map] is subscripted with [state], which is [None] there);
    for any other capability it returns [None]. *)
Theorem get_requisity_never_resolves module type :
  get_requisity module type =
  if bool_decide (module = "pkg") then Raise KeyError else Ok VNone.
Proof.
  case_bool_decide as Hm.
  - subst. apply get_requisity_pkg.
  - by apply get_requisity_other.
Qed.

End state_check_properties.
