(* ===== verification/Handler.v ===== *)
(** * What the module handlers share

    The validation every handler of [StatePreparation] opens with, the loop
    over the truthy parameters of a step, the test and the record the
    one-record handlers end with, and the type of a handler
    (src/POCs/salt/statepreparation.py).  [shared_contract] is the handler
    built from the body of a loop; [handler_wf] says that a handler returns
    no dict with a repeated key on a step that has none. *)

From Stdlib Require Import Ascii.
From stdpp Require Import base tactics option strings numbers pretty list.
From S2P Require Import Prelude PyStrings PyValue PyOps Tag StateCheck.

#[local] Open Scope string_scope.
#[local] Open Scope list_scope.

(** [not isinstance(p_state, dict) or 'parameter' not in p_state]. *)
Definition missing_parameter (p_state : value) : bool :=
  match p_state with
  | VDict d => negb (dict_has (KStr "parameter") d)
  | _ => true
  end.

(** [not isinstance(p_state, dict) or 'parameter' not in p_state or 'name'
    not in p_state['parameter']]: the last test is on a value of any type. *)
Definition missing_name (p_state : value) : result bool :=
  if missing_parameter p_state then Ok true
  else
    param ← getitem_str p_state "parameter";
    has ← contains_str "name" param;
    Ok (negb has).

(** [for attr, value in p_state['parameter'].items(): if not value: continue;
    body]: the loop of every handler, over an accumulator for the locals the
    body assigns. *)
Definition for_params {A} (p_state : value)
    (body : A → key → value → result A) (init : A) : result A :=
  param ← getitem_str p_state "parameter";
  items ← py_items param;
  foldM (λ acc '(attr, value),
           if truthy value then body acc attr value else Ok acc) items init.

(** [{tag: {kind: [state, addin]}}]: a record as most handlers return it. *)
Definition state_record (tag : key) (kind state : string) (addin : dict) : value :=
  VDict [(tag, VDict [(KStr kind, VList [VStr state; VDict addin])])].

(** The error codes of the handlers. *)
Definition err_malformed : value := VInt 1.
Definition err_unsupported : value := VInt 2.
Definition err_missing_field : value := VInt 3.

(** The interface of a handler: the step, the component id and the step id
    in, a record, a list of records, an error code or [None] out, unless it
    raises. *)
Definition handler : Type := value → value → value → result value.

(** A handler keeps values well formed: on a step whose dicts have
    pairwise different keys, the dicts of what it returns have them too. *)
Definition handler_wf (h : handler) : Prop :=
  ∀ p_state uid step r, value_wf p_state → h p_state uid step = Ok r → value_wf r.

(** The items of a dict whose value is truthy: what the body of the loop
    over the parameters sees. *)
Definition truthy_items (items : dict) : dict :=
  filter (λ kv, truthy kv.2 = true) items.

(** [not addin or not name]: nothing was collected, or the identifying
    parameter was not among it. *)
Definition no_params (addin : dict) (name : value) : bool :=
  negb (truthy (VDict addin)) || negb (truthy name).

(** A call [f(a, b, extra...)] of a method that takes two arguments: any
    further argument is a [TypeError] before the body runs. *)
Definition call2 {A B C} (f : A → B → result C) (a : A) (b : B)
    (extra : list value) : result C :=
  match extra with [] => f a b | _ => Raise TypeError end.

Section emit.
Context `{PyRepr}.

(** The tail of the handlers that return one record: the check of what the
    loop collected, the tag from the step's module and the identifying
    parameter, and the record [{tag: {kind: [state, addin]}}]. *)
Definition emit (p_state uid step : value) (kind state : string)
    (addin : dict) (name : value) : result value :=
  if no_params addin name then Ok err_missing_field else
  module ← getitem_str p_state "module";
  tag ← get_tag module uid step name (VStr state);
  Ok (state_record (KStr tag) kind state addin).

(** The shape the one-record handlers share (the shared validation contract
    of the handlers): reject a step without parameters, reject a subtype
    outside the family's allow-list, scan the truthy parameters, reject when
    the identifying one is missing, else build the record. *)
Definition shared_contract (family subtype : string)
    (body : dict * value → key → value → result (dict * value))
    (kind state : string) : handler := λ p_state uid step,
  if missing_parameter p_state then Ok err_malformed else
  if state_check_fails family subtype then Ok err_unsupported else
  '(addin, name) ← for_params p_state body ([], VNone);
  emit p_state uid step kind state addin name.

End emit.

(** ** Lemmas *)

Lemma missing_parameter_false p_state :
  missing_parameter p_state = false ↔
  ∃ d param, p_state = VDict d ∧ dict_get (KStr "parameter") d = Some param.
Proof.
  destruct p_state as [| | | | |d]; simpl;
    try (split; [done|by intros (? & ? & ? & ?)]).
  rewrite negb_false_iff, dict_has_true. split.
  - intros [param Hp]. eauto.
  - intros (? & param & [= <-] & Hp). by eexists.
Qed.

Lemma missing_parameter_getitem p_state :
  missing_parameter p_state = false → is_Ok (getitem_str p_state "parameter").
Proof.
  intros (d & param & -> & Hp)%missing_parameter_false.
  simpl. rewrite Hp. by eexists.
Qed.

Section for_params_lemmas.
Context {A : Type}.
Implicit Types (body : A → key → value → result A) (d items : dict).

(** On a step whose parameters are a dict the loop is a fold over the items
    with a truthy value. *)
Lemma for_params_dict d items body init :
  dict_get (KStr "parameter") d = Some (VDict items) →
  for_params (VDict d) body init =
  foldM (λ acc '(attr, value), body acc attr value)
        (filter (λ kv, truthy kv.2 = true) items) init.
Proof.
  intros Hp. unfold for_params. simpl. rewrite Hp. simpl.
  rewrite <-(foldM_filter (λ kv, truthy kv.2)).
  apply foldM_ext. by intros acc [attr value].
Qed.

(** Parameters that are no dict have no [items]. *)
Lemma for_params_not_dict d param body init :
  dict_get (KStr "parameter") d = Some param → is_dict param = false →
  for_params (VDict d) body init = Raise AttributeError.
Proof.
  intros Hp Hd. unfold for_params. simpl. rewrite Hp. by destruct param.
Qed.

(** A property of the accumulator that the body keeps holds after the loop. *)
Lemma for_params_invariant (P : A → Prop) p_state body init acc :
  (∀ a attr value a', P a → body a attr value = Ok a' → P a') →
  P init → for_params p_state body init = Ok acc → P acc.
Proof.
  intros Hbody Hinit. unfold for_params. intros Hrun. inv_bind Hrun.
  eapply foldM_invariant; [|done..].
  intros a [attr value] a' _ Ha. destruct (truthy value); [by apply Hbody|].
  by intros [= <-].
Qed.
End for_params_lemmas.

(** ** The truthy items *)

Lemma elem_of_truthy_items kv items :
  kv ∈ truthy_items items ↔ truthy kv.2 = true ∧ kv ∈ items.
Proof. unfold truthy_items. by rewrite list_elem_of_filter. Qed.

Lemma truthy_items_Forall items :
  Forall (λ kv, truthy kv.2 = true) (truthy_items items).
Proof. apply Forall_forall. by intros kv [? _]%elem_of_truthy_items. Qed.

Lemma truthy_items_wf items : dict_wf items → dict_wf (truthy_items items).
Proof.
  unfold dict_wf. intros Hd. eapply sublist_NoDup; [done|].
  do 2 apply fmap_sublist. apply sublist_filter.
Qed.

Lemma truthy_items_wf_values items :
  Forall (λ kv, value_wf kv.2) items →
  Forall (λ kv, value_wf kv.2) (truthy_items items).
Proof.
  rewrite !Forall_forall. intros Hv kv [_ Hin]%elem_of_truthy_items. auto.
Qed.

(** A loop whose body never raises is a left fold over the truthy items. *)
Lemma for_params_pure {A} d items (g : A → key → value → A) init :
  dict_get (KStr "parameter") d = Some (VDict items) →
  for_params (VDict d) (λ acc attr val, Ok (g acc attr val)) init
  = Ok (foldl (λ acc kv, g acc kv.1 kv.2) init (truthy_items items)).
Proof.
  intros Hp. rewrite (for_params_dict _ _ _ _ Hp), <-foldM_pure.
  apply foldM_ext. by intros acc [attr val].
Qed.

(** On a well-formed step, a property the body keeps on well-formed
    parameter values holds after the loop. *)
Lemma for_params_wf {A} (P : A → Prop) p_state
    (body : A → key → value → result A) init acc :
  (∀ a attr val a', value_wf val → P a → body a attr val = Ok a' → P a') →
  value_wf p_state → P init → for_params p_state body init = Ok acc → P acc.
Proof.
  intros Hbody Hwf Hinit. unfold for_params. intros Hrun. inv_bind Hrun.
  apply py_items_Ok in Hx0 as ->.
  apply (value_wf_getitem_str _ _ _ Hwf), value_wf_dict in Hx as [_ Hvs].
  eapply foldM_invariant; [|done..].
  intros a [attr val] a' Hin Ha. destruct (truthy val); [|by intros [= <-]].
  apply Hbody; [|done]. by apply (proj1 (Forall_forall _ _) Hvs (attr, val)).
Qed.

Lemma value_wf_state_record tag kind state addin :
  value_wf (VDict addin) → value_wf (state_record tag kind state addin).
Proof.
  intros Ha. unfold state_record.
  apply value_wf_dict_singleton, value_wf_dict_singleton.
  apply value_wf_list. by repeat first [apply Forall_nil_2|apply Forall_cons_2].
Qed.

#[export] Hint Resolve value_wf_state_record : py.

(** ** The tail and the shape of the one-record handlers *)

Lemma no_params_false addin name :
  no_params addin name = false ↔ addin ≠ [] ∧ truthy name = true.
Proof.
  unfold no_params. rewrite orb_false_iff, !negb_false_iff, truthy_dict. done.
Qed.

Section emit_lemmas.
Context `{PyRepr}.
Implicit Types (p_state uid step name : value) (addin d : dict).

Lemma emit_missing p_state uid step kind state addin name :
  no_params addin name = true →
  emit p_state uid step kind state addin name = Ok err_missing_field.
Proof. intros E. unfold emit. by rewrite E. Qed.

Lemma emit_record d module uid step kind state addin name :
  no_params addin name = false →
  dict_get (KStr "module") d = Some module →
  uid_clash uid step = false →
  emit (VDict d) uid step kind state addin name
  = Ok (state_record (KStr (tag_spec module uid step name (VStr state)))
          kind state addin).
Proof.
  intros E Hm Hc. unfold emit. rewrite E. simpl. rewrite Hm. simpl.
  by rewrite get_tag_no_clash.
Qed.

(** What [emit] returns is an error code or a record around [addin]. *)
Lemma emit_Ok p_state uid step kind state addin name r :
  emit p_state uid step kind state addin name = Ok r →
  r = err_missing_field ∨ ∃ tag, r = state_record (KStr tag) kind state addin.
Proof.
  unfold emit. destruct (no_params addin name); [intros [= <-]; by left|].
  intros Hr. inv_bind Hr. injection Hr as <-. eauto.
Qed.

Lemma emit_wf p_state uid step kind state addin name r :
  value_wf (VDict addin) →
  emit p_state uid step kind state addin name = Ok r → value_wf r.
Proof.
  intros Ha [->|[tag ->]]%emit_Ok; [done|by apply value_wf_state_record].
Qed.

Section shared_contract_lemmas.
Variables (family subtype kind state : string).
Variable body : dict * value → key → value → result (dict * value).
Let h := shared_contract family subtype body kind state.

Lemma shared_contract_malformed p_state uid step :
  missing_parameter p_state = true → h p_state uid step = Ok err_malformed.
Proof. intros E. unfold h, shared_contract. by rewrite E. Qed.

Lemma shared_contract_unsupported p_state uid step :
  missing_parameter p_state = false →
  state_check_fails family subtype = true →
  h p_state uid step = Ok err_unsupported.
Proof. intros E1 E2. unfold h, shared_contract. by rewrite E1, E2. Qed.

Lemma shared_contract_emit p_state uid step addin name :
  missing_parameter p_state = false →
  state_check_fails family subtype = false →
  for_params p_state body ([], VNone) = Ok (addin, name) →
  h p_state uid step = emit p_state uid step kind state addin name.
Proof. intros E1 E2 E3. unfold h, shared_contract. by rewrite E1, E2, E3. Qed.

(** What the handler returns is an error code or one record of its kind
    and condition. *)
Lemma shared_contract_Ok p_state uid step r :
  h p_state uid step = Ok r →
  r ∈ [err_malformed; err_unsupported; err_missing_field] ∨
  ∃ tag addin, r = state_record (KStr tag) kind state addin ∧ addin ≠ [].
Proof.
  unfold h, shared_contract.
  destruct (missing_parameter p_state); [intros [= <-]; left; by repeat constructor|].
  destruct (state_check_fails _ _); [intros [= <-]; left; by repeat constructor|].
  intros Hr. inv_bind Hr. destruct x as [addin name]. unfold emit in Hr.
  destruct (no_params addin name) eqn:E; [injection Hr as <-; left; by repeat constructor|].
  apply no_params_false in E as [? _]. inv_bind Hr. injection Hr as <-.
  right. eauto.
Qed.

(** A body that keeps [addin] well formed makes the handler return
    well-formed values on well-formed steps. *)
Lemma shared_contract_wf p_state uid step r :
  (∀ acc attr val acc', value_wf val → value_wf (VDict acc.1) →
     body acc attr val = Ok acc' → value_wf (VDict acc'.1)) →
  value_wf p_state → h p_state uid step = Ok r → value_wf r.
Proof.
  intros Hbody Hwf. unfold h, shared_contract.
  destruct (missing_parameter p_state); [by intros [= <-]|].
  destruct (state_check_fails _ _); [by intros [= <-]|].
  intros Hr. inv_bind Hr. destruct x as [addin name].
  eapply emit_wf; [|done].
  by apply (for_params_wf (λ acc, value_wf (VDict acc.1)) p_state body
              ([], VNone) (addin, name) Hbody Hwf value_wf_dict_nil).
Qed.

End shared_contract_lemmas.
End emit_lemmas.

(** ** Handlers that keep values well formed *)

(** Closes the goal that a loop body built from assignments keeps [addin]
    well formed. *)
Ltac body_wf :=
  intros [? ?] ? ? ? ? ?; cbn [fst] in *;
  repeat case_match; intros; simplify_eq/=;
  repeat first [done | apply value_wf_dict_set].

Section handler_wf_lemmas.
Context `{PyRepr}.

Lemma shared_contract_handler_wf family subtype kind state body :
  (∀ acc attr val acc', value_wf val → value_wf (VDict acc.1) →
     body acc attr val = Ok acc' → value_wf (VDict acc'.1)) →
  handler_wf (shared_contract family subtype body kind state).
Proof. intros Hbody p_state uid step r. by apply shared_contract_wf. Qed.

End handler_wf_lemmas.
