(* ===== verification/Scan.v ===== *)
(** * Scanning the parameters of a step

    The loops of the one-record handlers have one shape: the parameter that
    identifies the resource is stored under [name] and remembered, some
    other parameters are stored under a key of the record (renamed, or with
    the value converted), the rest is dropped.  This file gives that shape a
    reference: the record's attributes are the update of the empty dict by
    the translated items, and the identifying value is the last one seen.
    The handlers' loops are proved to compute it. *)

From Stdlib Require Import Ascii.
From stdpp Require Import base tactics option strings numbers pretty list.
From S2P Require Import Prelude PyStrings PyValue PyOps Tag StateCheck Handler.

#[local] Open Scope string_scope.
#[local] Open Scope list_scope.

Section scan.
(** Which parameter identifies the resource. *)
Variable ident : key → bool.
(** What another parameter becomes, if anything. *)
Variable tr : key → value → option (key * value).

(** One iteration of the loop. *)
Definition scan_step (acc : dict * value) (attr : key) (val : value)
    : dict * value :=
  if ident attr then (dict_set (KStr "name") val acc.1, val)
  else (match tr attr val with
        | Some (k, v) => dict_set k v acc.1
        | None => acc.1
        end, acc.2).

(** The item of the record an item of the parameters becomes. *)
Definition translate (kv : key * value) : option (key * value) :=
  if ident kv.1 then Some (KStr "name", kv.2) else tr kv.1 kv.2.

(** The attributes and the identifying value after the loop. *)
Definition scan_addin (items : dict) : dict :=
  dict_update [] (omap translate items).

Definition scan_name (items : dict) : value :=
  default VNone (snd <$> last (filter (λ kv, ident kv.1 = true) items)).

(** No other parameter among [items] is stored under [name]. *)
Definition name_reserved (items : dict) : Prop :=
  ∀ kv k' v', kv ∈ items → ident kv.1 = false →
    tr kv.1 kv.2 = Some (k', v') → ¬ key_equiv k' (KStr "name").

(** Different parameters among [items] are stored under different keys. *)
Definition translate_inj (items : dict) : Prop :=
  ∀ kv1 kv2 kv1' kv2', kv1 ∈ items → kv2 ∈ items →
    translate kv1 = Some kv1' → translate kv2 = Some kv2' →
    key_equiv kv1'.1 kv2'.1 → key_equiv kv1.1 kv2.1.

(** ** The loop computes the reference *)

Lemma omap_cons {A B} (f : A → option B) x l :
  omap f (x :: l)
  = match f x with Some y => y :: omap f l | None => omap f l end.
Proof. done. Qed.

Lemma scan_fold items addin name :
  foldl (λ acc kv, scan_step acc kv.1 kv.2) (addin, name) items
  = (dict_update addin (omap translate items),
     default name (snd <$> last (filter (λ kv, ident kv.1 = true) items))).
Proof.
  revert addin name. induction items as [|[k v] items IH]; intros addin name.
  { done. }
  cbn [foldl]. destruct (scan_step _ _ _) as [a n] eqn:Es.
  rewrite IH, filter_cons, omap_cons.
  unfold scan_step, translate in *. cbn [fst snd] in *.
  destruct (ident k) eqn:E.
  - injection Es as <- <-. rewrite decide_True, last_cons by done.
    by destruct (last (filter _ items)).
  - rewrite decide_False by done.
    destruct (tr k v) as [[k' v']|]; by injection Es as <- <-.
Qed.

Lemma scan_fold_nil items :
  foldl (λ acc kv, scan_step acc kv.1 kv.2) ([], VNone) items
  = (scan_addin items, scan_name items).
Proof. apply scan_fold. Qed.

(** ** The identifying value *)

(** Among truthy items the identifying value is truthy exactly when there
    is an identifying item. *)
Lemma scan_name_truthy items :
  Forall (λ kv, truthy kv.2 = true) items →
  truthy (scan_name items) = true ↔ ∃ kv, kv ∈ items ∧ ident kv.1 = true.
Proof.
  intros Ht. unfold scan_name.
  destruct (last (filter _ items)) as [kv|] eqn:E; simpl.
  - apply last_Some_elem_of, list_elem_of_filter in E as [Hi Hin].
    split; [by eauto|intros _].
    by apply (proj1 (Forall_forall _ _) Ht kv).
  - apply last_None in E. split; [done|]. intros (kv & Hin & Hi).
    by assert (kv ∈ filter (λ kv, ident kv.1 = true) items) as Hf
      by (by apply list_elem_of_filter); rewrite E in Hf; apply elem_of_nil in Hf.
Qed.

Lemma scan_name_None items :
  (∀ kv, kv ∈ items → ident kv.1 = false) → scan_name items = VNone.
Proof.
  intros Hi. unfold scan_name.
  destruct (last (filter _ items)) as [kv|] eqn:E; [|done].
  apply last_Some_elem_of, list_elem_of_filter in E as [Hk Hin].
  by rewrite (Hi _ Hin) in Hk.
Qed.

(** With pairwise different keys and one identifying key, the identifying
    value is the value of that key. *)
Lemma scan_name_wf items kv :
  dict_wf items → kv ∈ items → ident kv.1 = true →
  (∀ kv', kv' ∈ items → ident kv'.1 = true → key_equiv kv'.1 kv.1) →
  scan_name items = kv.2.
Proof.
  intros Hwf Hin Hi Huniq. unfold scan_name.
  destruct (last (filter _ items)) as [[k' v']|] eqn:E; simpl.
  - apply last_Some_elem_of, list_elem_of_filter in E as [Hi' Hin'].
    destruct kv as [k v]. eapply dict_wf_elem_of_eq; [done..|].
    by apply (Huniq (k', v')).
  - apply last_None in E.
    by assert (kv ∈ filter (λ kv, ident kv.1 = true) items) as Hf
      by (by apply list_elem_of_filter); rewrite E in Hf; apply elem_of_nil in Hf.
Qed.

(** The record's [name] is the identifying value, when nothing else is
    stored under [name]. *)
Lemma name_reserved_tail kv items :
  name_reserved (kv :: items) → name_reserved items.
Proof. intros Hres kv' k' v' Hin. apply Hres. by right. Qed.

Lemma omap_translate_reverse_name items :
  name_reserved items →
  dict_get (KStr "name") (reverse (omap translate items))
  = snd <$> last (filter (λ kv, ident kv.1 = true) items).
Proof.
  induction items as [|[k v] items IH]; intros Hres; [done|].
  specialize (IH (name_reserved_tail _ _ Hres)).
  rewrite filter_cons, omap_cons. unfold translate at 1. cbn [fst snd].
  destruct (ident k) eqn:E.
  - rewrite decide_True, last_cons, reverse_cons, dict_get_app, IH by done.
    by destruct (last (filter _ items)).
  - rewrite decide_False by done.
    destruct (tr k v) as [[k' v']|] eqn:Etr; [|done].
    rewrite reverse_cons, dict_get_app, IH.
    destruct (last (filter _ items)); [done|]. simpl.
    destruct (key_eqb (KStr "name") k') eqn:Ek; [|done].
    apply key_eqb_equiv in Ek. destruct (Hres (k, v) k' v'); by try left.
Qed.

Lemma scan_addin_name items :
  name_reserved items →
  dict_get (KStr "name") (scan_addin items)
  = snd <$> last (filter (λ kv, ident kv.1 = true) items).
Proof.
  intros Hres. unfold scan_addin.
  rewrite dict_get_update, omap_translate_reverse_name by done.
  by destruct (last _).
Qed.

(** With an identifying parameter among truthy items, the record's [name]
    is the identifying value and the check after the loop passes. *)
Lemma scan_named items kv :
  name_reserved items → Forall (λ kv, truthy kv.2 = true) items →
  kv ∈ items → ident kv.1 = true →
  dict_get (KStr "name") (scan_addin items) = Some (scan_name items)
  ∧ no_params (scan_addin items) (scan_name items) = false.
Proof.
  intros Hres Ht Hin Hi.
  pose proof (proj2 (scan_name_truthy items Ht) (ex_intro _ kv (conj Hin Hi)))
    as Hname.
  pose proof (scan_addin_name items Hres) as Hget. unfold scan_name in *.
  destruct (last _) as [kv'|]; [|done]. split; [done|].
  apply no_params_false. split; [|done]. by intros E; rewrite E in Hget.
Qed.

(** ** The attributes, one by one *)

Lemma translate_inj_tail kv items :
  translate_inj (kv :: items) → translate_inj items.
Proof. intros Hinj ???? ??. apply Hinj; by right. Qed.

(** Translating items with pairwise different keys gives items with
    pairwise different keys, when the translation is injective. *)
Lemma translate_wf items :
  translate_inj items → dict_wf items → dict_wf (omap translate items).
Proof.
  unfold dict_wf. induction items as [|kv items IH]; intros Hinj; [done|].
  specialize (IH (translate_inj_tail _ _ Hinj)).
  rewrite !fmap_cons, NoDup_cons. intros [Hk Hd]. rewrite omap_cons.
  destruct (translate kv) as [kv'|] eqn:E; [|by apply IH].
  rewrite !fmap_cons, NoDup_cons. split; [|by apply IH].
  intros (k1 & Hk1 & (kv1' & -> & Hin)%list_elem_of_fmap)%list_elem_of_fmap.
  apply list_elem_of_omap in Hin as (kv1 & Hin & E1).
  destruct Hk. rewrite (Hinj kv kv1 _ _ ltac:(left) ltac:(by right) E E1 Hk1).
  by apply list_elem_of_fmap_2, list_elem_of_fmap_2.
Qed.

(** A key under which a parameter is stored is a key of the record. *)
Lemma scan_get_is_Some items kv k' v' :
  kv ∈ items → translate kv = Some (k', v') →
  is_Some (dict_get k' (scan_addin items)).
Proof.
  intros Hin E. unfold scan_addin. rewrite dict_get_update.
  assert (is_Some (dict_get k' (reverse (omap translate items)))) as [v ->];
    [|done].
  apply (dict_get_is_Some_elem_of _ v'), elem_of_reverse, list_elem_of_omap.
  eauto.
Qed.

(** What is found in the record is a stored parameter. *)
Lemma scan_get_inv items k' v' :
  dict_get k' (scan_addin items) = Some v' →
  ∃ kv k'', kv ∈ items ∧ translate kv = Some (k'', v') ∧ key_equiv k' k''.
Proof.
  unfold scan_addin. rewrite dict_get_update.
  destruct (dict_get k' (reverse _)) as [v|] eqn:E; [|done]. intros [= ->].
  apply dict_get_elem_of in E as (k'' & Hk & Hin).
  apply elem_of_reverse, list_elem_of_omap in Hin as (kv & Hin & E). eauto.
Qed.

(** A parameter that is stored is found in the record under its new key,
    when no other parameter is stored under that key. *)
Lemma scan_get_at items kv k' v' :
  dict_wf items → kv ∈ items → translate kv = Some (k', v') →
  (∀ kv2 kv2', kv2 ∈ items → translate kv2 = Some kv2' →
     key_equiv k' kv2'.1 → key_equiv kv2.1 kv.1) →
  dict_get k' (scan_addin items) = Some v'.
Proof.
  intros Hwf Hin E Hat. destruct (scan_get_is_Some _ _ _ _ Hin E) as [v Hv].
  rewrite Hv. apply scan_get_inv in Hv as (kv2 & k'' & Hin2 & E2 & Hk).
  rewrite (dict_wf_elem_of_inj items kv2 kv Hwf Hin2 Hin) in E2
    by apply (Hat _ _ Hin2 E2 Hk).
  congruence.
Qed.

Lemma scan_get items kv k' v' :
  translate_inj items → dict_wf items →
  kv ∈ items → translate kv = Some (k', v') →
  dict_get k' (scan_addin items) = Some v'.
Proof.
  intros Hinj Hwf Hin E. apply (scan_get_at items kv); [done..|].
  intros kv2 kv2' Hin2 E2 Hk. by apply (Hinj kv2 kv kv2' (k', v')).
Qed.

(** The record has attributes as soon as one parameter is stored. *)
Lemma scan_addin_nonempty items kv kv' :
  kv ∈ items → translate kv = Some kv' → scan_addin items ≠ [].
Proof.
  intros Hin E. unfold scan_addin.
  assert (kv' ∈ omap translate items) as Hin'
    by (apply list_elem_of_omap; eauto).
  destruct (omap translate items) as [|[k v] e _] using rev_ind.
  - by apply elem_of_nil in Hin'.
  - rewrite dict_update_snoc. apply dict_set_nonempty.
Qed.

(** ** Well-formedness *)

Lemma scan_addin_wf items :
  (∀ k v k' v', value_wf v → tr k v = Some (k', v') → value_wf v') →
  Forall (λ kv, value_wf kv.2) items → value_wf (VDict (scan_addin items)).
Proof.
  intros Htr Hv. apply value_wf_dict_update; [apply value_wf_dict_nil|].
  apply Forall_forall. intros kv' (kv & Hin & E)%list_elem_of_omap.
  pose proof (proj1 (Forall_forall _ _) Hv kv Hin) as Hkv.
  unfold translate in E. destruct (ident kv.1); [by injection E as <-|].
  destruct kv' as [k' v']. apply (Htr kv.1 kv.2 k' v' Hkv E).
Qed.

End scan.

(** ** A handler that scans *)

Section scan_handler.
Context `{PyRepr}.
Variables (family subtype kind state : string).
Variable ident : key → bool.
Variable tr : key → value → option (key * value).

(** The step has a module, and its parameters are a dict. *)
Definition step_ok (d items : dict) (module : value) : Prop :=
  dict_get (KStr "parameter") d = Some (VDict items) ∧
  dict_get (KStr "module") d = Some module.

Lemma step_ok_parameter d items module :
  step_ok d items module → missing_parameter (VDict d) = false.
Proof. intros [Hp _]. apply missing_parameter_false. eauto. Qed.

(** The record of a scanning handler on a step that passes its checks. *)
Definition scan_record (module uid step : value) (items : dict) : value :=
  let items := truthy_items items in
  if no_params (scan_addin ident tr items) (scan_name ident items)
  then err_missing_field
  else state_record
         (KStr (tag_spec module uid step (scan_name ident items) (VStr state)))
         kind state (scan_addin ident tr items).

(** A handler of the shared shape whose body is a scan on the truthy
    parameters of the step returns the record of the reference. *)
Lemma scan_handler_ok (body : dict * value → key → value → result (dict * value))
    d items module uid step :
  (∀ acc kv, kv ∈ truthy_items items →
     body acc kv.1 kv.2 = Ok (scan_step ident tr acc kv.1 kv.2)) →
  state_check_fails family subtype = false →
  step_ok d items module →
  uid_clash uid step = false →
  shared_contract family subtype body kind state (VDict d) uid step
  = Ok (scan_record module uid step items).
Proof.
  intros Hbody Hcheck Hok Hc.
  rewrite (shared_contract_emit _ _ _ _ _ (VDict d) uid step
             (scan_addin ident tr (truthy_items items))
             (scan_name ident (truthy_items items)));
    [|by eapply step_ok_parameter|done|].
  - unfold scan_record. destruct (no_params _ _) eqn:E.
    + by apply emit_missing.
    + destruct Hok as [_ Hm]. by apply emit_record.
  - destruct Hok as [Hp _]. rewrite (for_params_dict _ _ _ _ Hp).
    rewrite <-scan_fold_nil, <-foldM_pure. apply foldM_ext_in.
    intros acc [attr val] Hin. by apply (Hbody acc (attr, val)).
Qed.

(** The same for a body that never raises. *)
Lemma scan_handler_pure (body : dict * value → key → value → dict * value)
    d items module uid step :
  (∀ acc attr val, body acc attr val = scan_step ident tr acc attr val) →
  state_check_fails family subtype = false →
  step_ok d items module →
  uid_clash uid step = false →
  shared_contract family subtype (λ acc attr val, Ok (body acc attr val))
    kind state (VDict d) uid step
  = Ok (scan_record module uid step items).
Proof.
  intros Hbody. apply scan_handler_ok. intros acc kv _. by rewrite Hbody.
Qed.

End scan_handler.
