(* ===== verification/Table.v ===== *)
(** * Handlers given by a table of renamings

    Several handlers store their parameters by a fixed table: the
    identifying parameter under [name], each parameter of the table under
    its new key (with its value converted, for a flag), nothing else.  This
    file proves once what such a handler returns on a step that passes its
    checks: the record, its [name], and each attribute in terms of the
    parameter it comes from. *)

From Stdlib Require Import Ascii.
From stdpp Require Import base tactics option strings numbers pretty list.
From S2P Require Import Prelude PyStrings PyValue PyOps Tag StateCheck Handler Scan.

#[local] Open Scope string_scope.
#[local] Open Scope list_scope.

(** A row: the parameter, the key of the record, the conversion. *)
Definition row : Type := string * (string * (value → value)).

(** The conversion of a parameter that is copied as it is. *)
Definition keep (v : value) : value := v.

Fixpoint table_get (s : string) (table : list row)
    : option (string * (value → value)) :=
  match table with
  | [] => None
  | (src, e) :: table' => if bool_decide (s = src) then Some e else table_get s table'
  end.

(** What a parameter becomes by the table. *)
Definition table_tr (table : list row) (attr : key) (val : value)
    : option (key * value) :=
  match attr with
  | KStr s => (λ e : string * (value → value), (KStr e.1, e.2 val)) <$> table_get s table
  | _ => None
  end.

(** The table renames different parameters to different keys, none of them
    [name], and does not rename the identifying parameter. *)
Definition table_ok (idk : string) (table : list row) : Prop :=
  NoDup (table.*1) ∧ NoDup (table.*2.*1) ∧ ("name" ∉ table.*2.*1) ∧ (idk ∉ table.*1).

#[export] Instance table_ok_dec idk table : Decision (table_ok idk table).
Proof. unfold table_ok. apply _. Defined.

(** ** The table as a map *)

Lemma table_get_Some s e table : table_get s table = Some e → (s, e) ∈ table.
Proof.
  induction table as [|[src e'] table IH]; simpl; [done|].
  case_bool_decide; [intros [= <-]; subst; left|intros ?; right; auto].
Qed.

Lemma table_get_elem_of s e table :
  NoDup (table.*1) → (s, e) ∈ table → table_get s table = Some e.
Proof.
  induction table as [|[src e'] table IH]; simpl; [by intros _ ?%elem_of_nil|].
  rewrite NoDup_cons. intros [Hs Hd] [[= <- <-]|Hin]%elem_of_cons.
  - by rewrite bool_decide_eq_true_2.
  - rewrite bool_decide_eq_false_2; [by apply IH|].
    intros <-. apply Hs. by apply (list_elem_of_fmap_2 fst _ (s, e)).
Qed.

(** Two rows with one target are one row. *)
Lemma table_target_inj (table : list row) s1 s2 dst (c1 c2 : value → value) :
  NoDup (table.*2.*1) → (s1, (dst, c1)) ∈ table → (s2, (dst, c2)) ∈ table → s1 = s2.
Proof.
  induction table as [|[src [dst' c]] table IH]; [by intros _ ?%elem_of_nil|].
  rewrite !fmap_cons, NoDup_cons. simpl.
  assert (∀ s c', (s, (dst, c')) ∈ table → dst ∈ table.*2.*1) as Hin.
  { intros s c' H. apply (list_elem_of_fmap_2 fst _ (dst, c')).
    by apply (list_elem_of_fmap_2 snd _ (s, (dst, c'))). }
  intros [Hd Hnd] [[= <- <- <-]|H1]%elem_of_cons [[= <- Heq]|H2]%elem_of_cons;
    try done; try (by destruct Hd; eauto); try (by subst; destruct Hd; eauto).
  by apply IH.
Qed.

Section table.
Variables (idk : string) (table : list row).
Hypothesis Hok : table_ok idk table.

Let ident (attr : key) : bool := key_is attr idk.
Let tr := table_tr table.

Lemma table_tr_Some attr val k' v' :
  tr attr val = Some (k', v') →
  ∃ src dst conv, attr = KStr src ∧ (src, (dst, conv)) ∈ table ∧
                  k' = KStr dst ∧ v' = conv val.
Proof.
  unfold tr, table_tr. destruct attr as [| | |s]; try done.
  destruct (table_get s table) as [[dst conv]|] eqn:E; [|done].
  intros [= <- <-]. apply table_get_Some in E. by exists s, dst, conv.
Qed.

Lemma table_tr_row src dst conv val :
  (src, (dst, conv)) ∈ table → tr (KStr src) val = Some (KStr dst, conv val).
Proof.
  destruct Hok as (Hs & _). intros Hin. unfold tr, table_tr.
  by rewrite (table_get_elem_of _ _ _ Hs Hin).
Qed.

Lemma table_translate kv k' v' :
  translate ident tr kv = Some (k', v') →
  kv.1 = KStr idk ∧ k' = KStr "name" ∧ v' = kv.2
  ∨ ∃ src dst conv, kv.1 = KStr src ∧ (src, (dst, conv)) ∈ table ∧
                    k' = KStr dst ∧ v' = conv kv.2.
Proof.
  unfold translate, ident. destruct (key_is kv.1 idk) eqn:E.
  - apply key_is_true in E. intros [= <- <-]. by left.
  - intros Htr. right. by apply table_tr_Some.
Qed.

Lemma table_translate_row src dst conv val :
  (src, (dst, conv)) ∈ table →
  translate ident tr (KStr src, val) = Some (KStr dst, conv val).
Proof.
  intros Hin. unfold translate, ident. cbn [fst snd key_is].
  rewrite bool_decide_eq_false_2; [by apply table_tr_row|].
  intros ->. destruct Hok as (_ & _ & _ & Hid). apply Hid.
  by apply (list_elem_of_fmap_2 fst _ (idk, (dst, conv))).
Qed.

Lemma table_row_not_name src dst conv : (src, (dst, conv)) ∈ table → dst ≠ "name".
Proof.
  destruct Hok as (_ & _ & Hn & _). intros Hin ->. apply Hn.
  apply (list_elem_of_fmap_2 fst _ ("name", conv)).
  by apply (list_elem_of_fmap_2 snd _ (src, ("name", conv))).
Qed.

Lemma table_name_reserved items : name_reserved ident tr items.
Proof.
  intros kv k' v' _ _ (src & dst & conv & _ & Hin & -> & _)%table_tr_Some.
  intros [= ->]%key_equiv_str. by eapply table_row_not_name.
Qed.

Lemma table_translate_inj items : translate_inj ident tr items.
Proof.
  destruct Hok as (_ & Hd & _).
  intros kv1 kv2 [k1' v1'] [k2' v2'] _ _ H1%table_translate H2%table_translate.
  cbn [fst]. intros Hk.
  destruct H1 as [(-> & -> & _)|(s1 & d1 & c1 & -> & Hin1 & -> & _)],
           H2 as [(-> & -> & _)|(s2 & d2 & c2 & -> & Hin2 & -> & _)].
  - done.
  - apply key_equiv_str_l in Hk as [= ->]. by destruct (table_row_not_name _ _ _ Hin2).
  - apply key_equiv_str in Hk as [= ->]. by destruct (table_row_not_name _ _ _ Hin1).
  - apply key_equiv_str in Hk as [= ->].
    by rewrite (table_target_inj _ _ _ _ _ _ Hd Hin1 Hin2).
Qed.

(** ** The attributes of the record *)

(** An attribute of the table's is the parameter it renames, converted. *)
Lemma table_get_row items src dst conv :
  dict_wf items → (src, (dst, conv)) ∈ table →
  dict_get (KStr dst) (scan_addin ident tr items)
  = conv <$> dict_get (KStr src) items.
Proof.
  intros Hwf Hin. destruct (dict_get (KStr src) items) as [v|] eqn:E; simpl.
  - apply dict_get_elem_of in E as (k & ->%key_equiv_str_l & Hk).
    apply (scan_get ident tr items (KStr src, v));
      [apply table_translate_inj|done..|by apply table_translate_row].
  - destruct (dict_get _ (scan_addin _ _ _)) as [v|] eqn:E'; [|done].
    apply scan_get_inv in E' as ([k v0] & k'' & Hk & Htr & ->%key_equiv_str_l).
    apply table_translate in Htr
      as [(_ & [= Hn] & _)|(s & d' & c & Hs & Hin' & [= <-] & _)];
      [by destruct (table_row_not_name _ _ _ Hin)|].
    simpl in Hs. subst k. destruct Hok as (_ & Hd & _).
    rewrite (table_target_inj _ _ _ _ _ _ Hd Hin' Hin) in Hk.
    by apply dict_get_None_elem_of in Hk.
Qed.

(** Every attribute is the [name] or an attribute of the table's. *)
Lemma table_get_inv items k v :
  dict_get k (scan_addin ident tr items) = Some v →
  k = KStr "name" ∨ ∃ src dst conv, (src, (dst, conv)) ∈ table ∧ k = KStr dst.
Proof.
  intros (kv & k'' & _ & Htr & Hk)%scan_get_inv.
  apply table_translate in Htr
    as [(_ & -> & _)|(s & d' & c & _ & Hin & -> & _)];
    apply key_equiv_str in Hk as ->; eauto 6.
Qed.

End table.

(** ** The handler of a table *)

Section table_handler.
Context `{PyRepr}.
Variables (family subtype kind state idk : string) (table : list row).
Variable body : dict * value → key → value → result (dict * value).
Hypothesis Htable : table_ok idk table.
Hypothesis Hcheck : state_check_fails family subtype = false.

(** On a step with pairwise different parameters and a truthy identifying
    parameter [c], on whose truthy parameters the body of the loop is the
    scan of the table, the handler returns one record of its kind and
    condition: the tag is built from [c], [name] is [c], each attribute of
    the table's is the converted truthy parameter it renames, and there is
    no other attribute. *)
Lemma table_handler_record d items module uid step c :
  (∀ acc kv, kv ∈ truthy_items items →
     body acc kv.1 kv.2
     = Ok (scan_step (λ k, key_is k idk) (table_tr table) acc kv.1 kv.2)) →
  step_ok d items module →
  uid_clash uid step = false →
  dict_wf items →
  (KStr idk, c) ∈ items → truthy c = true →
  ∃ addin,
    shared_contract family subtype body kind state (VDict d) uid step
    = Ok (state_record (KStr (tag_spec module uid step c (VStr state)))
            kind state addin)
    ∧ dict_get (KStr "name") addin = Some c
    ∧ (∀ src dst conv, (src, (dst, conv)) ∈ table →
         dict_get (KStr dst) addin
         = conv <$> dict_get (KStr src) (truthy_items items))
    ∧ (∀ k v, dict_get k addin = Some v →
         k = KStr "name" ∨ ∃ src dst conv, (src, (dst, conv)) ∈ table ∧ k = KStr dst).
Proof.
  intros Hbody Hok Hc Hwf Hin Htc.
  set (ident := λ k, key_is k idk). set (ti := truthy_items items).
  assert ((KStr idk, c) ∈ ti) as Hin' by by apply elem_of_truthy_items.
  assert (ident (KStr idk) = true) as Hid by apply bool_decide_eq_true_2, eq_refl.
  destruct (scan_named ident (table_tr table) ti _
              (table_name_reserved idk table Htable ti)
              (truthy_items_Forall _) Hin' Hid) as [Hname Hno].
  assert (scan_name ident ti = c) as Hc'.
  { apply (scan_name_wf ident ti (KStr idk, c));
      [by apply truthy_items_wf|done|done|].
    by intros kv' _ ->%key_is_true. }
  exists (scan_addin ident (table_tr table) ti).
  rewrite (scan_handler_ok _ _ _ _ ident (table_tr table) body _ _ _ _ _
             Hbody Hcheck Hok Hc).
  unfold scan_record. fold ti. rewrite Hno, Hc'. split_and!; [done|by rewrite Hname, Hc'|..].
  - intros src dst conv Hrow.
    by apply table_get_row; [|apply truthy_items_wf|].
  - intros k v. by apply table_get_inv.
Qed.

End table_handler.
