(* ===== verification/Package.v ===== *)
(** * Package install

    [StatePreparation.__package] and the seven handlers that call it
    (src/POCs/salt/statepreparation.py): a step whose [name] parameter maps
    package names to optional versions becomes an [installed] record of the
    pinned packages and a [latest] record of the others. *)

From Stdlib Require Import Ascii.
From stdpp Require Import base tactics option strings numbers pretty list.
From S2P Require Import Prelude PyStrings PyValue PyOps Tag StateCheck Handler.

#[local] Open Scope string_scope.
#[local] Open Scope list_scope.

Section package.
Context `{PyRepr}.

(** The prerequisite of the package managers that need one: the list
    [requisities] and the first element of [pkg_state]. *)
Definition package_requisity (type : string) : result (list value * list value) :=
  if bool_decide (type ∈ ["npm"; "pecl"; "pip"]) then
    req_state ← get_requisity "pkg" type;
    if truthy req_state then
      keys ← py_keys req_state;
      req_tag ← list_index keys 0;
      Ok ([VDict [(KStr "pkg", of_key req_tag)]], [req_state])
    else Ok ([], [])
  else Ok ([], []).

(** [for name, version in value.items()]: a pinned package is appended to
    [installed] as [{name: version}], the others to [latest] by name. *)
Definition split_versions (items : dict) (acc : list value * list value)
    : list value * list value :=
  foldl (λ '(installed, latest) '(name, version),
           if truthy version then (installed ++ [VDict [(name, version)]], latest)
           else (installed, latest ++ [of_key name])) acc items.

(** The body of the loop over the parameters: [name] feeds the two groups,
    any other parameter goes to [addin], [verify_gpg] as a boolean. *)
Definition package_param (acc : list value * list value * dict)
    (attr : key) (val : value) : result (list value * list value * dict) :=
  let '(installed, latest, addin) := acc in
  if key_is attr "name" then
    items ← py_items val;
    let '(installed, latest) := split_versions items (installed, latest) in
    Ok (installed, latest, addin)
  else
    let addin := dict_set attr val addin in
    let addin := if key_is attr "verify_gpg"
                 then dict_set attr (true_literal val) addin else addin in
    Ok (installed, latest, addin).

(** [{tag: {'pkg': [pkgs, state]}}]. *)
Definition package_record (tag : string) (pkgs : dict) (state : string) : value :=
  VDict [(KStr tag, VDict [(KStr "pkg", VList [VDict pkgs; VStr state])])].

(** The body of the loop over [state_mapping]: a group that is not empty
    becomes a record; [addin] is shared by the iterations. *)
Definition package_emit (p_state uid step : value) (requisities : list value)
    (acc : dict * list value) (group : string * list value)
    : result (dict * list value) :=
  let '(addin, pkg_state) := acc in
  let '(state, packages) := group in
  if bool_decide (packages = []) then Ok acc else
  let pkgs := [(KStr "pkgs", VList packages)] in
  let addin := if bool_decide (requisities = []) then addin
               else dict_set (KStr "require") (VList requisities) addin in
  let pkgs := if bool_decide (addin = []) then pkgs else dict_update pkgs addin in
  module ← getitem_str p_state "module";
  tag ← get_tag module uid step (VStr "pkgs") (VStr state);
  Ok (addin, pkg_state ++ [package_record tag pkgs state]).

(** The whole of [__package]. *)
Definition package (p_state : value) (type : string) (uid step : value)
    : result value :=
  invalid ← missing_name p_state;
  if (invalid : bool) then Ok (VList []) else
  if state_check_fails "package" type then Ok err_unsupported else
  '(requisities, pkg_state) ← package_requisity type;
  '(installed, latest, addin) ← for_params p_state package_param ([], [], []);
  '(_, pkg_state) ←
    foldM (package_emit p_state uid step requisities)
          [("installed", installed); ("latest", latest)] (addin, pkg_state);
  Ok (VList pkg_state).

(** The handlers of the dispatch table. *)
Definition _package_yum_package : handler := λ p_state uid step,
  package p_state "pkg" uid step.
Definition _package_apt_package : handler := λ p_state uid step,
  package p_state "pkg" uid step.
Definition _package_gem_package : handler := λ p_state uid step,
  package p_state "gem" uid step.
Definition _package_npm_package : handler := λ p_state uid step,
  package p_state "npm" uid step.
Definition _package_pecl_package : handler := λ p_state uid step,
  package p_state "pecl" uid step.
Definition _package_pip_package : handler := λ p_state uid step,
  package p_state "pip" uid step.
Definition _package_zypper_package : handler := λ p_state uid step,
  package p_state "zypper" uid step.

End package.

(** ** The reference: groups by filtering

    What the loops compute, written with [filter] and [fmap]. *)

(** The [installed] group: [{name: version}] for each pinned package. *)
Definition pinned (names : dict) : list value :=
  (λ kv, VDict [(kv.1, kv.2)]) <$> filter (λ kv, truthy kv.2 = true) names.

(** The [latest] group: the names of the packages without a version. *)
Definition unpinned (names : dict) : list value :=
  (λ kv, of_key kv.1) <$> filter (λ kv, truthy kv.2 ≠ true) names.





(** Every truthy [name] parameter is a dict. *)
Definition names_are_dicts (items : dict) : Prop :=
  Forall (λ kv, key_is kv.1 "name" = true → is_dict kv.2 = true) items.

(** ** The loops compute the reference *)



Lemma pinned_cons n v d :
  pinned ((n, v) :: d) = (if truthy v then [VDict [(n, v)]] else []) ++ pinned d.
Proof.
  unfold pinned. rewrite filter_cons. simpl.
  destruct (truthy v); [by rewrite decide_True|by rewrite decide_False].
Qed.

Lemma unpinned_cons n v d :
  unpinned ((n, v) :: d) = (if truthy v then [] else [of_key n]) ++ unpinned d.
Proof.
  unfold unpinned. rewrite filter_cons. simpl.
  destruct (truthy v); [by rewrite decide_False by naive_solver|by rewrite decide_True].
Qed.

(** The inner loop appends the two filtered groups. *)
Lemma split_versions_spec items installed latest :
  split_versions items (installed, latest)
  = (installed ++ pinned items, latest ++ unpinned items).
Proof.
  unfold split_versions. revert installed latest.
  induction items as [|[n v] items IH]; intros installed latest; simpl.
  - unfold pinned, unpinned. simpl. by rewrite !app_nil_r.
  - rewrite pinned_cons, unpinned_cons.
    destruct (truthy v); rewrite IH; simpl; by rewrite <-?app_assoc.
Qed.

Lemma dict_update_nil d : dict_update d [] = d.
Proof. done. Qed.

Lemma dict_update_if d addin :
  (if bool_decide (addin = []) then d else dict_update d addin) = dict_update d addin.
Proof. case_bool_decide as E; [by rewrite E|done]. Qed.

Section package_lemmas.
Context `{PyRepr}.
Implicit Types (items names addin : dict) (installed latest : list value).





End package_lemmas.

(** ** The handler on a valid step *)

Section package_spec.
Context `{PyRepr}.
Implicit Types (d params : dict) (module uid step : value) (type : string).


(** The step is a dict with a module and a dict of parameters that has a
    [name]; every truthy [name] is a dict. *)
Definition package_step_ok d params module : Prop :=
  dict_get (KStr "parameter") d = Some (VDict params) ∧
  dict_has (KStr "name") params = true ∧
  dict_get (KStr "module") d = Some module ∧
  names_are_dicts (truthy_items params).

Lemma missing_name_ok d params module :
  package_step_ok d params module → missing_name (VDict d) = Ok false.
Proof.
  intros (Hp & Hn & _ & _). unfold missing_name, missing_parameter.
  rewrite (proj2 (dict_has_true _ _)) by (by rewrite Hp). simpl.
  by rewrite Hp; simpl; rewrite Hn.
Qed.

Lemma missing_name_malformed p_state :
  missing_parameter p_state = true → missing_name p_state = Ok true.
Proof. intros E. unfold missing_name. by rewrite E. Qed.


Lemma package_requisity_raises type :
  type ∈ ["npm"; "pecl"; "pip"] → package_requisity type = Raise KeyError.
Proof. intros Ht. unfold package_requisity. by rewrite bool_decide_eq_true_2. Qed.


(** [__package] on a valid step of a manager with prerequisite. *)
Lemma package_requisity_error d params module type uid step :
  package_step_ok d params module →
  type ∈ ["npm"; "pecl"; "pip"] →
  package (VDict d) type uid step = Raise KeyError.
Proof.
  intros Hok Ht. unfold package. rewrite (missing_name_ok _ _ _ Hok), bind_Ok.
  assert (state_check_fails "package" type = false) as ->
    by (by elem_of_cases Ht).
  by rewrite package_requisity_raises.
Qed.

End package_spec.

(** ** The handlers keep values well formed *)

Lemma pinned_wf names :
  Forall (λ kv, value_wf kv.2) names → Forall value_wf (pinned names).
Proof.
  intros Hn. unfold pinned. apply Forall_fmap, Forall_forall.
  intros [k v] [_ Hin]%list_elem_of_filter. apply value_wf_dict_singleton.
  by apply (proj1 (Forall_forall _ _) Hn (k, v)).
Qed.

Lemma unpinned_wf names : Forall value_wf (unpinned names).
Proof.
  unfold unpinned. apply Forall_fmap, Forall_true. intros kv. apply value_wf_of_key.
Qed.

Lemma value_wf_package_record tag pkgs state :
  value_wf (VDict pkgs) → value_wf (package_record tag pkgs state).
Proof.
  intros Hp. unfold package_record.
  apply value_wf_dict_singleton, value_wf_dict_singleton, value_wf_list.
  by repeat first [apply Forall_nil_2|apply Forall_cons_2].
Qed.

(** What the loop over the parameters keeps: lists of well-formed values
    and a well-formed [addin]. *)
Definition package_locals_wf (acc : list value * list value * dict) : Prop :=
  Forall value_wf acc.1.1 ∧ Forall value_wf acc.1.2 ∧ value_wf (VDict acc.2).

Section package_wf.
Context `{PyRepr}.

Lemma package_requisity_Ok type rq ps :
  package_requisity type = Ok (rq, ps) → rq = [] ∧ ps = [].
Proof.
  unfold package_requisity. case_bool_decide; [|by intros [= <- <-]].
  by rewrite get_requisity_pkg.
Qed.

Lemma package_param_wf acc attr val acc' :
  value_wf val → package_locals_wf acc →
  package_param acc attr val = Ok acc' → package_locals_wf acc'.
Proof.
  destruct acc as [[installed latest] addin]. intros Hv (Hi & Hl & Ha).
  unfold package_param, package_locals_wf in *. cbn [fst snd] in *.
  destruct (key_is attr "name").
  - intros (items & ->%py_items_Ok & Hr)%bind_Ok_inv.
    rewrite split_versions_spec in Hr. injection Hr as <-. cbn [fst snd].
    apply value_wf_dict in Hv as [_ Hv].
    split_and!; [apply Forall_app|apply Forall_app|done];
      (split; [done|]); [by apply pinned_wf|apply unpinned_wf].
  - intros [= <-]. cbn [fst snd]. split_and!; [done..|].
    destruct (key_is attr "verify_gpg"); by repeat apply value_wf_dict_set.
Qed.

Lemma package_emit_wf p_state uid step rq acc group acc' :
  Forall value_wf rq → Forall value_wf group.2 →
  value_wf (VDict acc.1) ∧ Forall value_wf acc.2 →
  package_emit p_state uid step rq acc group = Ok acc' →
  value_wf (VDict acc'.1) ∧ Forall value_wf acc'.2.
Proof.
  destruct acc as [addin pkg_state], group as [state packages].
  intros Hrq Hg [Ha Hp]. unfold package_emit. cbn [fst snd] in *.
  case_bool_decide; [by intros [= <-]|].
  intros (module & _ & (tag & _ & [= <-])%bind_Ok_inv)%bind_Ok_inv.
  cbn [fst snd].
  assert (value_wf (VDict (if bool_decide (rq = []) then addin
            else dict_set (KStr "require") (VList rq) addin))) as Ha'.
  { case_bool_decide; [done|]. apply value_wf_dict_set; [|done].
    by apply value_wf_list. }
  split; [done|]. apply Forall_app. split; [done|]. apply Forall_singleton.
  apply value_wf_package_record. rewrite dict_update_if.
  apply value_wf_dict_update.
  - by apply value_wf_dict_singleton, value_wf_list.
  - by apply value_wf_dict in Ha' as [_ ?].
Qed.

Lemma package_wf p_state type uid step r :
  value_wf p_state → package p_state type uid step = Ok r → value_wf r.
Proof.
  intros Hwf. unfold package. intros (invalid & _ & Hr)%bind_Ok_inv.
  destruct invalid; [by injection Hr as <-|].
  destruct (state_check_fails _ _); [by injection Hr as <-|].
  apply bind_Ok_inv in Hr as ([rq ps] & [-> ->]%package_requisity_Ok & Hr).
  apply bind_Ok_inv in Hr as ([[installed latest] addin] & Hloop & Hr).
  apply bind_Ok_inv in Hr as ([addin' pkg_state] & Hemit & [= <-]).
  assert (package_locals_wf (installed, latest, addin)) as (Hi & Hl & Ha).
  { apply (for_params_wf package_locals_wf p_state package_param ([], [], []));
      [|done| |done].
    - intros ????. apply package_param_wf.
    - split_and!; [done..|apply value_wf_dict_nil]. }
  apply value_wf_list.
  apply (foldM_invariant (λ acc, value_wf (VDict acc.1) ∧ Forall value_wf acc.2)
           (package_emit p_state uid step [])
           [("installed", installed); ("latest", latest)]
           (addin, []) (addin', pkg_state)); [|done|done].
  intros acc group acc' Hin. apply package_emit_wf; [done|].
  by elem_of_cases Hin.
Qed.

Lemma package_handler_wf type :
  handler_wf (λ p_state uid step, package p_state type uid step).
Proof. intros p_state uid step r. apply package_wf. Qed.

End package_wf.

(** ** Properties of the package handlers *)



Section package_properties.
Context `{PyRepr}.
Implicit Types (d params : dict) (module uid step : value) (type : string).



(** C26.  A valid step of a manager that needs a prerequisite ([npm],
    [pecl], [pip]) never yields a record: [__get_requisity] subscripts
    [requisity_map] with [None] and the [KeyError] leaves [__package]. *)
Theorem package_prerequisite_raises d params module type uid step :
  package_step_ok d params module →
  type ∈ ["npm"; "pecl"; "pip"] →
  package (VDict d) type uid step = Raise KeyError.
Proof. apply package_requisity_error. Qed.

(** The zypper handler of the dispatch table rejects every step that
    has a [name] parameter: [zypper] is not in the allow-list of the package
    family, so the handler returns the error code 2. *)
Theorem package_zypper_unsupported p_state uid step :
  missing_name p_state = Ok false →
  _package_zypper_package p_state uid step = Ok err_unsupported.
Proof.
  intros Hv. unfold _package_zypper_package, package. by rewrite Hv.
Qed.

(** A step that is no dict or has no parameters makes [__package]
    return the empty list, whatever the kind: not one of the error codes. *)
Theorem package_malformed_empty p_state type uid step :
  missing_parameter p_state = true →
  package p_state type uid step = Ok (VList []).
Proof.
  intros Hm. unfold package. by rewrite missing_name_malformed.
Qed.

End package_properties.

(** ** The handlers at a concrete step *)

Definition ex_params : dict :=
  [(KStr "name", VDict [(KStr "nginx", VStr "1.2"); (KStr "vim", VStr "")]);
   (KStr "verify_gpg", VStr "True")].

Definition ex_package_step : dict :=
  [(KStr "module", VStr "package.apt.package"); (KStr "stateid", VStr "1");
   (KStr "parameter", VDict ex_params)].

Lemma ex_package_step_ok :
  package_step_ok ex_package_step ex_params (VStr "package.apt.package").
Proof.
  split_and!; try done.
  repeat (apply Forall_cons_2 || apply Forall_nil_2); by intros.
Defined.



Lemma package_prerequisite_raises_witness :
  package (H:=repr_elided) (VDict ex_package_step) "pip" (VStr "web") (VStr "1")
  = Raise KeyError.
Proof.
  apply (package_prerequisite_raises ex_package_step ex_params
           (VStr "package.apt.package"));
    [apply ex_package_step_ok|compute_done].
Defined.

Lemma package_zypper_unsupported_witness :
  _package_zypper_package (H:=repr_elided) (VDict ex_package_step)
    (VStr "web") (VStr "1") = Ok err_unsupported.
Proof. by apply package_zypper_unsupported. Defined.

Lemma package_malformed_empty_witness :
  package (H:=repr_elided) (VStr "not a step") "pkg" (VStr "web") (VStr "1")
  = Ok (VList []).
Proof. by apply package_malformed_empty. Defined.
