(* ===== verification/Repo.v ===== *)
(** * Repository and source definitions

    [StatePreparation.__repo] and the three handlers that call it
    (src/POCs/salt/statepreparation.py): an apt or yum repository becomes
    one managed file under the package manager's directory; a gem source
    becomes nothing. *)

From Stdlib Require Import Ascii.
From stdpp Require Import base tactics option strings numbers pretty list.
From S2P Require Import Prelude PyStrings PyValue PyOps Tag StateCheck Handler.

#[local] Open Scope string_scope.
#[local] Open Scope list_scope.

Definition apt_dir : string := "/etc/apt/sources.list.d/".
Definition yum_dir : string := "/etc/yum.repos.d/".

Section repo.
Context `{PyRepr}.

(** [if not filename.endswith(suffix): filename += ext], then
    [path = dir + filename]; apt tests the suffix ['.list'], yum the suffix
    ['repo'] before it appends ['.repo']. *)
Definition repo_path (type : string) (filename : value) : result string :=
  if bool_decide (type = "apt") then
    has ← py_endswith filename ".list";
    filename ← (if (has : bool) then Ok filename
                else VStr <$> str_add_r filename ".list");
    str_add_l apt_dir filename
  else
    has ← py_endswith filename "repo";
    filename ← (if (has : bool) then Ok filename
                else VStr <$> str_add_r filename ".repo");
    str_add_l yum_dir filename.

(** [{path: {'file': [state, {'user': 'root', 'group': 'root', 'mode':
    '644', 'content': content}]}}]: the record is keyed by the path. *)
Definition repo_state (path state : string) (content : value) : value :=
  state_record (KStr path) "file" state
    [(KStr "user", VStr "root"); (KStr "group", VStr "root");
     (KStr "mode", VStr "644"); (KStr "content", content)].

(** The whole of [__repo].  The tag is computed and not used. *)
Definition repo (p_state : value) (type : string) (uid step : value)
    : result value :=
  invalid ← missing_name p_state;
  if (invalid : bool) then Ok err_malformed else
  if state_check_fails "repository" type then Ok err_unsupported else
  if bool_decide (type ∈ ["apt"; "yum"]) then
    param ← getitem_str p_state "parameter";
    filename ← getitem_str param "name";
    content ← getitem_str param "content";
    path ← repo_path type filename;
    let state := "managed" in
    tag ← get_tag (VStr "path.file") uid step (VStr path) (VStr state);
    Ok (repo_state path state content)
  else Ok VNone.

(** The handlers of the dispatch table; the apt and gem ones pass the step
    id where [__repo] takes the component id. *)
Definition _package_yum_repo : handler := λ p_state uid step,
  repo p_state "yum" uid step.
Definition _package_apt_repo : handler := λ p_state uid step,
  repo p_state "apt" step VNone.
Definition _package_gem_source : handler := λ p_state uid step,
  repo p_state "gem" step VNone.

End repo.

(** ** The reference: the file name with its extension *)

(** The file name the spec gives: the name, with the extension appended
    when it is missing. *)
Definition with_extension (ext name : string) : string :=
  if endswith name ext then name else name +:+ ext.

(** The step is a dict whose parameters are a dict with a string [name] and
    a [content]. *)
Definition repo_step_ok (d : dict) (name : string) (content : value) : Prop :=
  ∃ params, dict_get (KStr "parameter") d = Some (VDict params) ∧
            dict_get (KStr "name") params = Some (VStr name) ∧
            dict_get (KStr "content") params = Some content.

(** ** Lemmas *)

Lemma with_extension_endswith ext name : endswith (with_extension ext name) ext = true.
Proof.
  unfold with_extension. destruct (endswith name ext) eqn:E; [done|].
  apply endswith_app.
Qed.

Lemma with_extension_idemp ext name :
  with_extension ext (with_extension ext name) = with_extension ext name.
Proof. unfold with_extension at 1. by rewrite with_extension_endswith. Qed.

Section repo_lemmas.
Context `{PyRepr}.
Implicit Types (d : dict) (name : string) (uid step content : value).

Lemma repo_path_apt name :
  repo_path "apt" (VStr name) = Ok (apt_dir +:+ with_extension ".list" name).
Proof.
  unfold repo_path, with_extension. simpl. by destruct (endswith name ".list").
Qed.

(** The yum branch tests the suffix without the dot. *)
Lemma repo_path_yum name :
  repo_path "yum" (VStr name)
  = Ok (yum_dir +:+ (if endswith name "repo" then name else name +:+ ".repo")).
Proof. unfold repo_path. simpl. by destruct (endswith name "repo"). Qed.

Lemma repo_path_not_str type v :
  is_basestring v = false → repo_path type v = Raise AttributeError.
Proof. intros Hv. unfold repo_path. destruct v; try done; by case_bool_decide. Qed.

Lemma repo_step_missing_name d name content :
  repo_step_ok d name content → missing_name (VDict d) = Ok false.
Proof.
  intros (params & Hp & Hn & _). unfold missing_name, missing_parameter.
  rewrite (proj2 (dict_has_true _ _)) by (by rewrite Hp). simpl.
  rewrite Hp. simpl. by rewrite (proj2 (dict_has_true _ _)) by (by rewrite Hn).
Qed.

(** [__repo] on a valid apt or yum step whose tag can be built. *)
Lemma repo_ok d name content type uid step path :
  repo_step_ok d name content →
  type ∈ ["apt"; "yum"] →
  uid_clash uid step = false →
  repo_path type (VStr name) = Ok path →
  repo (VDict d) type uid step = Ok (repo_state path "managed" content).
Proof.
  intros Hok Ht Hc Hpath. unfold repo.
  rewrite (repo_step_missing_name _ _ _ Hok), bind_Ok.
  destruct Hok as (params & Hp & Hn & Hcont).
  assert (state_check_fails "repository" type = false) as ->
    by (by elem_of_cases Ht).
  rewrite bool_decide_eq_true_2 by done. simpl. rewrite Hp. simpl.
  rewrite Hn, Hcont. simpl. rewrite Hpath. simpl.
  by rewrite get_tag_no_clash.
Qed.

(** With no step id there is no clash in the tag. *)
Lemma uid_clash_no_step uid : uid_clash uid VNone = false.
Proof. unfold uid_clash. by destruct (truthy uid), (is_basestring uid). Qed.

(** [__repo] without a step id does not depend on the component id. *)
Lemma repo_no_step p_state type uid uid' :
  repo p_state type uid VNone = repo p_state type uid' VNone.
Proof.
  unfold repo. destruct (missing_name p_state) as [[]|]; simpl; [done| |done].
  destruct (state_check_fails _ _); [done|]. case_bool_decide; [|done].
  destruct (getitem_str p_state "parameter") as [param|]; simpl; [|done].
  destruct (getitem_str param "name") as [fn|]; simpl; [|done].
  destruct (getitem_str param "content") as [c|]; simpl; [|done].
  destruct (repo_path type fn) as [path|]; simpl; [|done].
  by rewrite !get_tag_no_clash by apply uid_clash_no_step.
Qed.

Lemma value_wf_repo_state path state content :
  value_wf content → value_wf (repo_state path state content).
Proof.
  intros Hc. apply value_wf_state_record, value_wf_dict. split.
  - compute_done.
  - by repeat first [apply Forall_nil_2|apply Forall_cons_2].
Qed.

(** [__repo] returns well-formed values on well-formed steps. *)
Lemma repo_wf p_state type uid step r :
  value_wf p_state → repo p_state type uid step = Ok r → value_wf r.
Proof.
  intros Hwf. unfold repo. intros Hr. inv_bind Hr.
  destruct x; [by injection Hr as <-|].
  destruct (state_check_fails _ _); [by injection Hr as <-|].
  case_bool_decide; [|by injection Hr as <-].
  inv_bind Hr. injection Hr as <-. apply value_wf_repo_state.
  eauto using value_wf_getitem_str.
Qed.

Lemma repo_handlers_wf :
  handler_wf _package_yum_repo ∧ handler_wf _package_apt_repo
  ∧ handler_wf _package_gem_source.
Proof. split_and!; intros p_state uid step r; apply repo_wf. Qed.

End repo_lemmas.

(** ** Properties of the repository handlers *)

Section repo_properties.
Context `{PyRepr}.
Implicit Types (d : dict) (name : string) (uid step content : value).

(** An apt repository step with a string name and a content
    compiles to one managed file record keyed by
    [/etc/apt/sources.list.d/<name>], the name extended by [.list] unless it
    ends with it already: the path always ends with [.list], and for a name
    without the extension it is exactly the directory, the name and
    [.list]. *)
Theorem repo_apt_path d name content uid step :
  repo_step_ok d name content →
  let path := "/etc/apt/sources.list.d/" +:+ with_extension ".list" name in
  _package_apt_repo (VDict d) uid step
  = Ok (state_record (KStr path) "file" "managed"
          [(KStr "user", VStr "root"); (KStr "group", VStr "root");
           (KStr "mode", VStr "644"); (KStr "content", content)])
  ∧ endswith path ".list" = true
  ∧ (endswith name ".list" = false →
     path = "/etc/apt/sources.list.d/" +:+ name +:+ ".list").
Proof.
  intros Hok. split_and!.
  - eapply (repo_ok _ _ _ "apt");
      [done|compute_done|apply uid_clash_no_step|apply repo_path_apt].
  - eapply endswith_trans; [|apply with_extension_endswith].
    apply endswith_app.
  - intros E. unfold with_extension. by rewrite E.
Qed.

(** C33.  A yum repository whose name ends with [repo] gets no extension:
    the test before [.repo] is appended looks for [repo] without the dot, so
    the name [myrepo] gives the file [/etc/yum.repos.d/myrepo]. *)
Theorem repo_yum_extension_missed d name content uid step :
  repo_step_ok d name content →
  endswith name "repo" = true →
  uid_clash uid step = false →
  _package_yum_repo (VDict d) uid step
  = Ok (state_record (KStr ("/etc/yum.repos.d/" +:+ name)) "file" "managed"
          [(KStr "user", VStr "root"); (KStr "group", VStr "root");
           (KStr "mode", VStr "644"); (KStr "content", content)]).
Proof.
  intros Hok E Hc. eapply (repo_ok _ _ _ "yum"); [done|compute_done|done|].
  by rewrite repo_path_yum, E.
Qed.

(** The record of an apt repository or a gem source depends on the
    step alone, not on the component or the step id: the record is keyed by
    the path, the tag is discarded, so the same repository in two components
    yields two records under one key. *)
Theorem repo_record_ignores_ids p_state uid step uid' step' :
  _package_apt_repo p_state uid step = _package_apt_repo p_state uid' step'
  ∧ _package_gem_source p_state uid step = _package_gem_source p_state uid' step'.
Proof. split; apply repo_no_step. Qed.

(** A gem source never yields a record: a step with a [name]
    parameter gives [None], whatever else it holds. *)
Theorem repo_gem_none p_state uid step :
  missing_name p_state = Ok false →
  _package_gem_source p_state uid step = Ok VNone.
Proof. intros Hv. unfold _package_gem_source, repo. by rewrite Hv. Qed.

End repo_properties.

(** ** The handlers at a concrete step *)

Definition ex_repo_step (name : string) : dict :=
  [(KStr "module", VStr "package.apt.repo"); (KStr "stateid", VStr "1");
   (KStr "parameter",
    VDict [(KStr "name", VStr name); (KStr "content", VStr "deb http://r/ x")])].

Lemma ex_repo_step_ok name :
  repo_step_ok (ex_repo_step name) name (VStr "deb http://r/ x").
Proof. by eexists. Defined.

Lemma repo_apt_path_witness :
  _package_apt_repo (H:=repr_elided) (VDict (ex_repo_step "myrepo")) (VStr "web")
    (VStr "1")
  = Ok (state_record (KStr "/etc/apt/sources.list.d/myrepo.list") "file" "managed"
          [(KStr "user", VStr "root"); (KStr "group", VStr "root");
           (KStr "mode", VStr "644"); (KStr "content", VStr "deb http://r/ x")]).
Proof.
  exact (proj1 (repo_apt_path (ex_repo_step "myrepo") "myrepo" _ (VStr "web")
                  (VStr "1") (ex_repo_step_ok "myrepo"))).
Defined.

Lemma repo_yum_extension_missed_witness :
  _package_yum_repo (H:=repr_elided) (VDict (ex_repo_step "myrepo")) (VStr "web")
    (VStr "1")
  = Ok (state_record (KStr "/etc/yum.repos.d/myrepo") "file" "managed"
          [(KStr "user", VStr "root"); (KStr "group", VStr "root");
           (KStr "mode", VStr "644"); (KStr "content", VStr "deb http://r/ x")]).
Proof.
  by apply (repo_yum_extension_missed (ex_repo_step "myrepo") "myrepo" _
              (VStr "web") (VStr "1") (ex_repo_step_ok "myrepo")).
Defined.

Lemma repo_gem_none_witness :
  _package_gem_source (H:=repr_elided) (VDict (ex_repo_step "rubygems"))
    (VStr "web") (VStr "1") = Ok VNone.
Proof. by apply repo_gem_none. Defined.

