(* ===== verification/File.v ===== *)
(** * Files, directories and symlinks

    [StatePreparation.__file] and the three handlers that call it
    (src/POCs/salt/statepreparation.py): the [path] parameter names the
    record, every other truthy parameter is copied into it. *)

From Stdlib Require Import Ascii.
From stdpp Require Import base tactics option strings numbers pretty list.
From S2P Require Import Prelude PyStrings PyValue PyOps Tag StateCheck Handler Scan.

#[local] Open Scope string_scope.
#[local] Open Scope list_scope.

(** The body of the loop: [path] is stored under [name] and remembered;
    any other parameter is stored under its own key, but a symlink's
    [source] under [name] as well. *)
Definition file_step (type : string) (acc : dict * value) (attr : key)
    (val : value) : dict * value :=
  let '(addin, filename) := acc in
  if key_is attr "path" then (dict_set (KStr "name") val addin, val)
  else
    let attr := if bool_decide (type = "symlink") && key_is attr "source"
                then KStr "name" else attr in
    (dict_set attr val addin, filename).

(** [state = type; if type == 'file': state = 'managed']. *)
Definition file_condition (type : string) : string :=
  if bool_decide (type = "file") then "managed" else type.

Section file.
Context `{PyRepr}.

(** The whole of [__file]. *)
Definition file (p_state : value) (type : string) (uid step : value)
    : result value :=
  if missing_parameter p_state then Ok err_malformed else
  if state_check_fails "file" type then Ok err_unsupported else
  '(addin, filename) ←
    for_params p_state (λ acc attr val, Ok (file_step type acc attr val))
      ([], VNone);
  emit p_state uid step "file" (file_condition type) addin filename.

(** The handlers of the dispatch table. *)
Definition _path_file : handler := λ p_state uid step,
  file p_state "file" uid step.
Definition _path_dir : handler := λ p_state uid step,
  file p_state "directory" uid step.
Definition _path_symlink : handler := λ p_state uid step,
  file p_state "symlink" uid step.

End file.

(** ** The loop as a scan *)

Definition file_ident (attr : key) : bool := key_is attr "path".

Definition file_tr (type : string) (attr : key) (val : value)
    : option (key * value) :=
  Some (if bool_decide (type = "symlink") && key_is attr "source"
        then KStr "name" else attr, val).

Lemma file_step_scan type acc attr val :
  file_step type acc attr val = scan_step file_ident (file_tr type) acc attr val.
Proof. destruct acc as [addin filename]. unfold file_step, scan_step, file_ident. done. Qed.

(** No truthy parameter of the step is called [name], nor, for a symlink,
    [source]: nothing but the path is stored under [name]. *)
Definition path_names_record (type : string) (items : dict) : Prop :=
  dict_get (KStr "name") (truthy_items items) = None ∧
  (type = "symlink" → dict_get (KStr "source") (truthy_items items) = None).

Lemma file_name_reserved type items :
  path_names_record type items →
  name_reserved file_ident (file_tr type) (truthy_items items).
Proof.
  intros [Hn Hs] [k v] k' v' Hin Hi. unfold file_tr. cbn [fst snd].
  destruct (bool_decide (type = "symlink") && key_is k "source") eqn:E;
    intros [= <- <-] Hk%key_equiv_str.
  - apply andb_true_iff in E as [Ht%bool_decide_eq_true ->%key_is_true].
    by eapply dict_get_None_elem_of; [apply Hs|].
  - subst k. by apply dict_get_None_elem_of in Hin.
Qed.

Lemma file_translate_inj type items :
  path_names_record type items →
  translate_inj file_ident (file_tr type) (truthy_items items).
Proof.
  intros [Hn Hs] [k1 v1] [k2 v2] [k1' v1'] [k2' v2'] Hin1 Hin2.
  unfold translate, file_tr, file_ident. cbn [fst snd].
  assert (∀ k v, (k, v) ∈ truthy_items items →
            bool_decide (type = "symlink") && key_is k "source" = false)
    as Hsrc.
  { intros k v Hin. apply not_true_iff_false.
    intros [Ht%bool_decide_eq_true ->%key_is_true]%andb_true_iff.
    by eapply dict_get_None_elem_of; [apply Hs|]. }
  rewrite (Hsrc _ _ Hin1), (Hsrc _ _ Hin2).
  destruct (key_is k1 "path") eqn:E1, (key_is k2 "path") eqn:E2;
    intros [= <- <-] [= <- <-]; try done.
  - apply key_is_true in E1 as ->, E2 as ->. done.
  - intros Hk. symmetry in Hk. apply key_equiv_str in Hk as ->.
    by apply dict_get_None_elem_of in Hin2.
  - intros ->%key_equiv_str. by apply dict_get_None_elem_of in Hin1.
Qed.

(** What an item becomes: stored under [name] when it is the path or a
    symlink's source, under its own key otherwise. *)
Lemma file_translate_key type kv k' v' :
  translate file_ident (file_tr type) kv = Some (k', v') →
  v' = kv.2 ∧
  (k' = KStr "name" ∧
     (kv.1 = KStr "path" ∨ type = "symlink" ∧ kv.1 = KStr "source")
   ∨ k' = kv.1 ∧ kv.1 ≠ KStr "path" ∧ ¬ (type = "symlink" ∧ kv.1 = KStr "source")).
Proof.
  destruct kv as [k v]. unfold translate, file_ident, file_tr. cbn [fst snd].
  destruct (key_is k "path") eqn:Ep.
  { apply key_is_true in Ep. intros [= <- <-]. eauto. }
  destruct (bool_decide (type = "symlink") && key_is k "source") eqn:E;
    intros [= <- <-]; (split; [done|]).
  - apply andb_true_iff in E as [?%bool_decide_eq_true ?%key_is_true]. eauto.
  - right. split_and!; [done|by intros ->|].
    intros [Ht ->]. by rewrite (bool_decide_eq_true_2 _ Ht) in E.
Qed.

(** A key of the record that is not [name] is the key of a truthy
    parameter that is stored under its own key. *)
Lemma file_addin_key type items k v :
  k ≠ "name" →
  dict_get (KStr k) (scan_addin file_ident (file_tr type) (truthy_items items))
    = Some v →
  k ≠ "path" ∧ ¬ (type = "symlink" ∧ k = "source") ∧ (KStr k, v) ∈ items.
Proof.
  intros Hk (kv & k'' & Hin & Htr & ->%key_equiv_str_l)%scan_get_inv.
  apply elem_of_truthy_items in Hin as [_ Hin]. destruct kv as [k0 v0].
  apply file_translate_key in Htr as [Hv Hcases]. cbn [fst snd] in *. subst v.
  destruct Hcases as [[[= ->] _]|(<- & Hp & Hs)]; [done|].
  split_and!; [by intros ->|by intros [? ->]; apply Hs|done].
Qed.

Section file_lemmas.
Context `{PyRepr}.
Implicit Types (d items : dict) (module uid step : value) (type : string).

(** [__file] has the shape the one-record handlers share. *)
Lemma file_shared type p_state uid step :
  file p_state type uid step
  = shared_contract "file" type (λ acc attr val, Ok (file_step type acc attr val))
      "file" (file_condition type) p_state uid step.
Proof. done. Qed.

(** [__file] on a step that passes its checks. *)
Lemma file_ok d items module type uid step :
  type ∈ ["file"; "directory"; "symlink"] →
  step_ok d items module →
  uid_clash uid step = false →
  file (VDict d) type uid step
  = Ok (scan_record "file" (file_condition type) file_ident (file_tr type)
          module uid step items).
Proof.
  intros Ht Hok Hc. rewrite file_shared.
  apply scan_handler_pure; [apply file_step_scan| |done..].
  by elem_of_cases Ht.
Qed.

Lemma file_wf p_state type uid step r :
  value_wf p_state → file p_state type uid step = Ok r → value_wf r.
Proof.
  rewrite file_shared. apply shared_contract_wf.
  intros [addin fn] attr val acc' Hv Ha [= <-]. unfold file_step.
  destruct (key_is attr "path"); by apply value_wf_dict_set.
Qed.

Lemma path_handlers_wf :
  handler_wf _path_file ∧ handler_wf _path_dir ∧ handler_wf _path_symlink.
Proof. split_and!; intros p_state uid step r; apply file_wf. Qed.

End file_lemmas.

(** ** Properties of the path handlers *)

Section file_properties.
Context `{PyRepr}.
Implicit Types (d items : dict) (module uid step p s : value) (type : string).

(** C8.  A file, directory or symlink step with a truthy [path], on
    which only the path is stored under [name], compiles to one record of
    kind [file]: its condition is [managed] for a file and the subtype
    otherwise, its tag is built from the path, its [name] is the path, and
    every other truthy parameter is found in it under its own key. *)
Theorem file_record d items module type uid step p :
  type ∈ ["file"; "directory"; "symlink"] →
  step_ok d items module →
  uid_clash uid step = false →
  dict_wf items →
  path_names_record type items →
  (KStr "path", p) ∈ items → truthy p = true →
  let state := if bool_decide (type = "file") then "managed" else type in
  ∃ addin,
    file (VDict d) type uid step
    = Ok (state_record (KStr (tag_spec module uid step p (VStr state)))
            "file" state addin)
    ∧ dict_get (KStr "name") addin = Some p
    ∧ ∀ k v, (k, v) ∈ items → truthy v = true → k ≠ KStr "path" →
             dict_get k addin = Some v.
Proof.
  intros Ht Hok Hc Hwf Hnames Hp Htp.
  assert ((KStr "path", p) ∈ truthy_items items) as Hin
    by by apply elem_of_truthy_items.
  destruct (scan_named file_ident (file_tr type) (truthy_items items) _
              (file_name_reserved _ _ Hnames) (truthy_items_Forall _) Hin eq_refl)
    as [Hname Hno].
  pose proof (scan_get file_ident (file_tr type) _ _ _ _
                (file_translate_inj _ _ Hnames) (truthy_items_wf _ Hwf) Hin eq_refl)
    as Hpath.
  rewrite Hname in Hpath. injection Hpath as Hpath.
  exists (scan_addin file_ident (file_tr type) (truthy_items items)).
  rewrite (file_ok _ _ _ _ _ _ Ht Hok Hc). unfold scan_record.
  rewrite Hno, Hpath. split_and!; [done|by rewrite Hname, Hpath|].
  intros k v Hkv Hv Hk.
  apply (scan_get file_ident (file_tr type) _ (k, v));
    [by apply file_translate_inj|by apply truthy_items_wf
    |by apply elem_of_truthy_items|].
  unfold translate, file_ident, file_tr. cbn [fst snd].
  destruct (key_is k "path") eqn:Ep; [by apply key_is_true in Ep|].
  destruct (bool_decide (type = "symlink") && key_is k "source") eqn:E; [|done].
  apply andb_true_iff in E as [Hs%bool_decide_eq_true ->%key_is_true].
  destruct Hnames as [_ Hsrc].
  by destruct (dict_get_None_elem_of _ v _ (Hsrc Hs)); apply elem_of_truthy_items.
Qed.

(** A symlink step with a truthy [path] and a truthy [source]
    loses one of them: both are stored under [name], so the record's [name]
    is the link or its target, whichever parameter the loop visits last,
    and the record has no [path], [source] or [target] of its own. *)
Theorem file_symlink_keeps_one d items module uid step p s :
  step_ok d items module →
  uid_clash uid step = false →
  dict_wf items →
  dict_get (KStr "name") items = None →
  dict_get (KStr "target") items = None →
  (KStr "path", p) ∈ items → truthy p = true →
  (KStr "source", s) ∈ items → truthy s = true →
  ∃ addin,
    _path_symlink (VDict d) uid step
    = Ok (state_record (KStr (tag_spec module uid step p (VStr "symlink")))
            "file" "symlink" addin)
    ∧ (dict_get (KStr "name") addin = Some p ∨
       dict_get (KStr "name") addin = Some s)
    ∧ Forall (λ k, dict_get (KStr k) addin = None) ["path"; "source"; "target"].
Proof.
  intros Hok Hc Hwf Hn Ht Hp Htp Hs Hts.
  assert ((KStr "path", p) ∈ truthy_items items) as Hinp
    by by apply elem_of_truthy_items.
  exists (scan_addin file_ident (file_tr "symlink") (truthy_items items)).
  unfold _path_symlink. rewrite (file_ok _ _ _ "symlink" _ _) by compute_done || done.
  unfold scan_record.
  rewrite (scan_name_wf file_ident _ (KStr "path", p));
    [|by apply truthy_items_wf|done|done|by intros kv' _ ->%key_is_true].
  rewrite (proj2 (no_params_false _ _))
    by (split; [by eapply scan_addin_nonempty|done]).
  split_and!; [done| |].
  - destruct (scan_get_is_Some file_ident (file_tr "symlink") _ _ _ _ Hinp eq_refl)
      as [v Hv].
    destruct (scan_get_inv _ _ _ _ _ Hv)
      as ([k0 v0] & k'' & [_ Hin]%elem_of_truthy_items & Htr & ->%key_equiv_str_l).
    apply file_translate_key in Htr as [Hv0 [[_ [Hk|[_ Hk]]]|[Hk _]]];
      cbn [fst snd] in *; subst k0 v; rewrite Hv.
    + left. f_equal. by eapply dict_wf_elem_of_eq.
    + right. f_equal. by eapply dict_wf_elem_of_eq.
    + by apply dict_get_None_elem_of in Hin.
  - repeat apply Forall_cons_2; [..|apply Forall_nil_2];
      (match goal with |- ?o = None => destruct o as [v|] eqn:E; [|done] end);
      apply file_addin_key in E as (? & Hsrc & Hin); try done.
    + by destruct Hsrc.
    + by apply dict_get_None_elem_of in Hin.
Qed.

End file_properties.

(** ** The handlers at a concrete step *)

Definition ex_symlink_params : dict :=
  [(KStr "path", VStr "/etc/motd"); (KStr "source", VStr "/srv/motd");
   (KStr "user", VStr "root"); (KStr "mode", VStr "")].

Definition ex_symlink_step : dict :=
  [(KStr "module", VStr "path.symlink"); (KStr "stateid", VStr "1");
   (KStr "parameter", VDict ex_symlink_params)].

Definition ex_file_step : dict :=
  [(KStr "module", VStr "path.file"); (KStr "stateid", VStr "2");
   (KStr "parameter",
    VDict [(KStr "path", VStr "/etc/motd"); (KStr "user", VStr "root");
           (KStr "mode", VStr "")])].

Lemma file_record_witness :
  ∃ addin,
    file (H:=repr_elided) (VDict ex_file_step) "file" (VStr "web") (VStr "2")
    = Ok (state_record (KStr "_web_2_path_file_/etc/motd_managed") "file"
            "managed" addin)
    ∧ dict_get (KStr "name") addin = Some (VStr "/etc/motd")
    ∧ ∀ k v, (k, v) ∈ [(KStr "path", VStr "/etc/motd"); (KStr "user", VStr "root");
                       (KStr "mode", VStr "")] →
             truthy v = true → k ≠ KStr "path" → dict_get k addin = Some v.
Proof.
  apply (file_record (H:=repr_elided) ex_file_step _ (VStr "path.file") "file"
           (VStr "web") (VStr "2") (VStr "/etc/motd"));
    [compute_done|done|done|compute_done|done|compute_done|done].
Defined.

Lemma file_symlink_keeps_one_witness :
  ∃ addin,
    _path_symlink (H:=repr_elided) (VDict ex_symlink_step) (VStr "web") (VStr "1")
    = Ok (state_record (KStr "_web_1_path_symlink_/etc/motd_symlink") "file"
            "symlink" addin)
    ∧ (dict_get (KStr "name") addin = Some (VStr "/etc/motd") ∨
       dict_get (KStr "name") addin = Some (VStr "/srv/motd"))
    ∧ Forall (λ k, dict_get (KStr k) addin = None) ["path"; "source"; "target"].
Proof.
  apply (file_symlink_keeps_one (H:=repr_elided) ex_symlink_step ex_symlink_params
           (VStr "path.symlink") (VStr "web") (VStr "1") (VStr "/etc/motd")
           (VStr "/srv/motd"));
    [done|done|compute_done|done|done|compute_done|done|compute_done|done].
Defined.

