(* ===== verification/Scm.v ===== *)
(** * Source-control checkouts

    [StatePreparation.__scm] and the three handlers that call it
    (src/POCs/salt/statepreparation.py): a checkout record, preceded by a
    directory record when ownership attributes come with the target path. *)

From Stdlib Require Import Ascii.
From stdpp Require Import base tactics option strings numbers pretty list.
From S2P Require Import Prelude PyStrings PyValue PyOps Tag StateCheck Handler Scan.

#[local] Open Scope string_scope.
#[local] Open Scope list_scope.

(** [value.split('-')[1].strip()]: the name of the repository. *)
Definition repo_name (val : value) : result value :=
  parts ← py_split val "-";
  name ← list_index parts 1;
  Ok (VStr (strip name)).

(** The body of the loop over the parameters: the locals [addin],
    [scm_dir_addin] and [repo]. *)
Definition scm_param (type : string) (acc : dict * dict * value) (attr : key)
    (val : value) : result (dict * dict * value) :=
  let '(addin, scm_dir_addin, repo) := acc in
  if key_is attr "repo" then
    name ← repo_name val;
    Ok (dict_set (KStr "name") name addin, scm_dir_addin, name)
  else if key_is attr "branch" then
    Ok (if bool_decide (type = "git") then dict_set (KStr "rev") val addin
        else addin, scm_dir_addin, repo)
  else if key_is attr "revision" then
    Ok (dict_set (KStr "rev") val addin, scm_dir_addin, repo)
  else if key_is attr "path" then
    Ok (dict_set (KStr "target") val addin, scm_dir_addin, repo)
  else if key_is attr "user" then
    Ok (dict_set (KStr "user") val addin,
        dict_set (KStr "user") val scm_dir_addin, repo)
  else if key_is attr "force" then
    Ok (dict_set (KStr "force_checkout") (true_literal val) addin,
        scm_dir_addin, repo)
  else if key_is attr "group" then
    Ok (addin, dict_set (KStr "group") val scm_dir_addin, repo)
  else if key_is attr "mode" then
    Ok (addin, dict_set (KStr "mode") val scm_dir_addin, repo)
  else if bool_decide (type = "git") then
    if key_is attr "version" then
      Ok (dict_set (KStr "rev") val addin, scm_dir_addin, repo)
    else if key_is attr "ssh-key" then
      Ok (dict_set (KStr "identity") val addin, scm_dir_addin, repo)
    else Ok acc
  else if bool_decide (type = "svn") then
    if key_in attr ["username"; "password"] then
      Ok (dict_set attr val addin, scm_dir_addin, repo)
    else Ok acc
  else Ok acc.

Section scm.
Context `{PyRepr}.

(** The directory record and the requisite that names it:
    [if addin['target'] and scm_dir_addin]. *)
Definition scm_directory (uid step : value) (addin scm_dir_addin : dict)
    : result (list value * list value) :=
  target ← of_option KeyError (dict_get (KStr "target") addin);
  if truthy target && truthy (VDict scm_dir_addin) then
    let scm_dir_addin :=
      dict_set (KStr "recurse") (VList (of_key <$> dict_keys scm_dir_addin))
        scm_dir_addin in
    let scm_dir_addin := dict_set (KStr "name") target scm_dir_addin in
    let dir_state := "directory" in
    scm_dir_tag ← get_tag (VStr "path.dir") uid step target (VStr dir_state);
    Ok ([state_record (KStr scm_dir_tag) "file" dir_state scm_dir_addin],
        [VDict [(KStr "file", VStr scm_dir_tag)]])
  else Ok ([], []).

(** What follows the loop: the check of what it collected, the directory
    record, the requisite and the checkout record. *)
Definition scm_emit (p_state : value) (type : string) (uid step : value)
    (locals : dict * dict * value) : result value :=
  let '(addin, scm_dir_addin, repo) := locals in
  let state := "latest" in
  if no_params addin repo then Ok err_missing_field else
  '(scm_states, requisities) ← scm_directory uid step addin scm_dir_addin;
  let addin := if truthy (VList requisities)
               then dict_set (KStr "require_in") (VList requisities) addin
               else addin in
  module ← getitem_str p_state "module";
  tag ← get_tag module uid step repo (VStr state);
  Ok (VList (scm_states ++ [state_record (KStr tag) type state addin])).

(** The whole of [__scm]. *)
Definition scm (p_state : value) (type : string) (uid step : value)
    : result value :=
  if missing_parameter p_state then Ok err_malformed else
  if state_check_fails "scm" type then Ok err_unsupported else
  locals ← for_params p_state (scm_param type) ([], [], VNone);
  scm_emit p_state type uid step locals.

(** The handlers of the dispatch table. *)
Definition _scm_git : handler := λ p_state uid step, scm p_state "git" uid step.
Definition _scm_svn : handler := λ p_state uid step, scm p_state "svn" uid step.
Definition _scm_hg : handler := λ p_state uid step, scm p_state "hg" uid step.

End scm.

(** ** The repository name *)

(** A string with a dash: the name is what stands between the first dash
    and the second, trimmed. *)
Lemma repo_name_dash p q :
  "-"%char ∉ chars p →
  repo_name (VStr (p +:+ String "-" q))
  = Ok (VStr (strip (default "" (head (split_on "-" q))))).
Proof.
  intros Hp. unfold repo_name. simpl. rewrite (split_on_first "-" p q Hp).
  simpl. by destruct (split_on "-" q) eqn:E; [destruct (split_on_nonempty _ _ E)|].
Qed.

(** A string without a dash has no second segment. *)
Lemma repo_name_no_dash s :
  "-"%char ∉ chars s → repo_name (VStr s) = Raise IndexError.
Proof. intros Hs. unfold repo_name. simpl. by rewrite split_on_absent. Qed.

(** Only a string can be split. *)
Lemma repo_name_not_str v :
  is_basestring v = false → repo_name v = Raise AttributeError.
Proof. by destruct v. Qed.

Lemma repo_name_Ok v name : repo_name v = Ok name → is_basestring name = true.
Proof. unfold repo_name. intros Hr. inv_bind Hr. by injection Hr as <-. Qed.

(** ** The loop *)

(** Only the [repo] parameter can make the body raise. *)
Lemma scm_param_other type acc attr val :
  key_is attr "repo" = false → is_Ok (scm_param type acc attr val).
Proof.
  intros E. destruct acc as [[addin dir] repo]. unfold scm_param. rewrite E.
  repeat (case_match; try by eexists).
Qed.

(** The target is set by the [path] parameter alone. *)
Lemma scm_param_target type acc attr val acc' :
  key_is attr "path" = false →
  scm_param type acc attr val = Ok acc' →
  dict_get (KStr "target") acc.1.1 = None →
  dict_get (KStr "target") acc'.1.1 = None.
Proof.
  intros E. destruct acc as [[addin dir] repo]. unfold scm_param. rewrite E.
  intros Hr Ht.
  repeat (case_match; simplify_eq/=; try done);
    rewrite ?dict_get_set_str_ne by done; try done.
  - inv_bind Hr. simplify_eq/=. by rewrite dict_get_set_str_ne.
  - match goal with H : key_in _ _ = true |- _ =>
      apply key_in_true in H as (s & -> & Hs) end.
    rewrite dict_get_set_str_ne; [done|]. intros <-. by elem_of_cases Hs.
Qed.

(** ** The loop as two scans

    The loop computes two dicts.  [addin] and [repo] are a scan of the
    parameters in which the value of [repo] is replaced by the repository
    name; [scm_dir_addin] collects the ownership parameters as they are. *)

Definition scm_ident (attr : key) : bool := key_is attr "repo".

(** What a parameter other than [repo] becomes in [addin]. *)
Definition scm_tr (type : string) (attr : key) (val : value)
    : option (key * value) :=
  if key_is attr "branch" then
    if bool_decide (type = "git") then Some (KStr "rev", val) else None
  else if key_is attr "revision" then Some (KStr "rev", val)
  else if key_is attr "path" then Some (KStr "target", val)
  else if key_is attr "user" then Some (KStr "user", val)
  else if key_is attr "force" then Some (KStr "force_checkout", true_literal val)
  else if key_is attr "group" then None
  else if key_is attr "mode" then None
  else if bool_decide (type = "git") then
    if key_is attr "version" then Some (KStr "rev", val)
    else if key_is attr "ssh-key" then Some (KStr "identity", val)
    else None
  else if bool_decide (type = "svn") then
    if key_in attr ["username"; "password"] then Some (attr, val) else None
  else None.

(** The ownership parameters. *)
Definition is_owner (attr : key) : bool :=
  key_is attr "user" || key_is attr "group" || key_is attr "mode".

Definition scm_owners (items : dict) : dict :=
  filter (λ kv, is_owner kv.1 = true) items.

(** The item with the repository name in the place of [repo]'s value. *)
Definition scm_convert (kv : key * value) : result (key * value) :=
  if key_is kv.1 "repo" then name ← repo_name kv.2; Ok (kv.1, name) else Ok kv.

(** The locals after one iteration and after the loop. *)
Definition scm_step (type : string) (acc : dict * dict * value)
    (kv kv' : key * value) : dict * dict * value :=
  let '(addin, dir, repo) := acc in
  let '(addin, repo) := scan_step scm_ident (scm_tr type) (addin, repo) kv'.1 kv'.2 in
  (addin, if is_owner kv.1 then dict_set kv.1 kv.2 dir else dir, repo).

Definition scm_locals (type : string) (items items' : dict) : dict * dict * value :=
  (scan_addin scm_ident (scm_tr type) items',
   dict_update [] (scm_owners items),
   scan_name scm_ident items').

Lemma scm_param_scan type acc attr val :
  scm_param type acc attr val
  = kv' ← scm_convert (attr, val); Ok (scm_step type acc (attr, val) kv').
Proof.
  destruct acc as [[addin dir] repo].
  unfold scm_param, scm_convert, scm_step, scan_step, scm_ident, scm_tr, is_owner.
  destruct attr as [| | |s]; cbn [fst snd key_is key_in orb];
    [by repeat case_bool_decide..|].
  repeat (case_bool_decide; simplify_eq/=; try done);
    by destruct (repo_name val).
Qed.

(** The loop converts the items, then scans them. *)
Lemma scm_loop type items addin dir repo :
  foldM (λ acc '(attr, val), scm_param type acc attr val) items (addin, dir, repo)
  = items' ← mapM scm_convert items;
    let '(a, r) :=
      foldl (λ acc kv, scan_step scm_ident (scm_tr type) acc kv.1 kv.2)
        (addin, repo) items' in
    Ok (a, dict_update dir (scm_owners items), r).
Proof.
  revert addin dir repo.
  induction items as [|[k v] items IH]; intros addin dir repo; [done|].
  rewrite foldM_cons, scm_param_scan, mapM_cons. unfold scm_owners.
  rewrite filter_cons. fold (scm_owners items).
  destruct (scm_convert (k, v)) as [[k' v']|]; simpl; [|done].
  destruct (scan_step _ _ _ k' v') as [a r] eqn:Es. rewrite IH.
  destruct (mapM scm_convert items) as [items'|]; simpl; [|done].
  rewrite Es. destruct (foldl _ _ _) as [a' r'].
  destruct (is_owner k); [by rewrite decide_True|by rewrite decide_False].
Qed.

(** ** The conversion of the items *)

Lemma scm_convert_key kv kv' : scm_convert kv = Ok kv' → kv'.1 = kv.1.
Proof.
  unfold scm_convert. destruct (key_is kv.1 "repo"); [|by intros [= <-]].
  intros Hr. inv_bind Hr. by injection Hr as <-.
Qed.

Lemma scm_convert_other kv : key_is kv.1 "repo" = false → scm_convert kv = Ok kv.
Proof. intros E. unfold scm_convert. by rewrite E. Qed.

(** The items with the repository name [n] in the place of [repo]'s value. *)
Definition scm_named (n : value) (kv : key * value) : key * value :=
  if key_is kv.1 "repo" then (kv.1, n) else kv.

Lemma scm_named_keys n items : (scm_named n <$> items).*1 = items.*1.
Proof.
  rewrite <-list_fmap_compose. apply list_fmap_ext. intros _ kv _. simpl.
  unfold scm_named. by destruct (key_is kv.1 "repo").
Qed.

Lemma scm_named_wf n items : dict_wf items → dict_wf (scm_named n <$> items).
Proof. unfold dict_wf. by rewrite scm_named_keys. Qed.

(** With pairwise different keys the conversion succeeds as soon as the
    one [repo] parameter has a name. *)
Lemma scm_convert_all items v n :
  dict_wf items → (KStr "repo", v) ∈ items → repo_name v = Ok n →
  mapM scm_convert items = Ok (scm_named n <$> items).
Proof.
  intros Hwf Hin Hn. apply mapM_Ok_fmap. intros kv Hkv.
  unfold scm_convert, scm_named. destruct (key_is kv.1 "repo") eqn:E; [|done].
  apply key_is_true in E.
  rewrite (dict_wf_elem_of_inj items kv (KStr "repo", v)) by (by rewrite ?E).
  simpl. by rewrite Hn.
Qed.

(** What is stored under [target] is the [path], and nothing is stored
    under [name] but the repository name. *)
Lemma scm_translate_target type kv k' v' :
  translate scm_ident (scm_tr type) kv = Some (k', v') →
  key_equiv (KStr "target") k' → kv.1 = KStr "path" ∧ v' = kv.2.
Proof.
  destruct kv as [k v]. intros Htr ->%key_equiv_str_l. revert Htr.
  unfold translate, scm_ident, scm_tr. cbn [fst snd].
  destruct k as [| | |s]; cbn [key_is key_in]; try by repeat case_bool_decide.
  repeat (case_bool_decide; simplify_eq/=; try done).
  - by intros [= ->].
  - intros [= -> _]. match goal with H : _ ∈ _ |- _ => by elem_of_cases H end.
Qed.

Lemma scm_name_reserved type items : name_reserved scm_ident (scm_tr type) items.
Proof.
  intros [k v] k' v' _ _. unfold scm_tr. cbn [fst snd].
  intros Htr ->%key_equiv_str. revert Htr.
  destruct k as [| | |s]; cbn [key_is key_in]; try by repeat case_bool_decide.
  repeat (case_bool_decide; simplify_eq/=; try done).
  intros [= -> _]. match goal with H : _ ∈ _ |- _ => by elem_of_cases H end.
Qed.

(** Without a [path] parameter the record has no [target]. *)
Lemma scm_no_target type items items' :
  mapM scm_convert items = Ok items' →
  dict_get (KStr "path") items = None →
  dict_get (KStr "target") (scan_addin scm_ident (scm_tr type) items') = None.
Proof.
  intros Hm Hp. destruct (dict_get _ (scan_addin _ _ _)) as [v|] eqn:E; [|done].
  apply scan_get_inv in E as (kv' & k'' & Hin & Htr & Hk).
  apply (scm_translate_target _ _ _ _ Htr) in Hk as [Hk _].
  destruct (mapM_elem_of _ _ _ _ Hm Hin) as ([k v0] & Hin0 & Hkey%scm_convert_key).
  rewrite Hk in Hkey. simpl in Hkey. subst k.
  by apply dict_get_None_elem_of in Hin0.
Qed.

Section scm_lemmas.
Context `{PyRepr}.
Implicit Types (d items : dict) (module uid step : value) (type : string).

(** [__scm] on a step that passes its checks: the locals of the loop are
    the two scans of the converted parameters. *)
Lemma scm_ok d items module type uid step :
  type ∈ ["git"; "svn"; "hg"] →
  step_ok d items module →
  scm (VDict d) type uid step
  = items' ← mapM scm_convert (truthy_items items);
    scm_emit (VDict d) type uid step (scm_locals type (truthy_items items) items').
Proof.
  intros Ht Hok. unfold scm. rewrite (step_ok_parameter _ _ _ Hok).
  assert (state_check_fails "scm" type = false) as -> by (by elem_of_cases Ht).
  destruct Hok as [Hp _]. rewrite (for_params_dict _ _ _ _ Hp).
  fold (truthy_items items). rewrite scm_loop.
  destruct (mapM scm_convert _) as [items'|]; simpl; [|done].
  by rewrite scan_fold_nil.
Qed.

End scm_lemmas.

(** ** The records of a checkout *)

Section scm_spec.
Context `{PyRepr}.
Implicit Types (d items : dict) (module uid step t n : value) (type : string).

(** The directory record of a checkout at [t] with the ownership
    attributes [owners]: the attributes, the list of their keys under
    [recurse], and the target under [name]. *)
Definition scm_dir_record (uid step t : value) (owners : dict) : value :=
  state_record (KStr (tag_spec (VStr "path.dir") uid step t (VStr "directory")))
    "file" "directory"
    (dict_set (KStr "name") t
       (dict_set (KStr "recurse") (VList (of_key <$> dict_keys owners)) owners)).

(** The checkout record, with its edge to the directory record. *)
Definition scm_record (type : string) (module uid step t n : value)
    (addin : dict) : value :=
  state_record (KStr (tag_spec module uid step n (VStr "latest"))) type "latest"
    (dict_set (KStr "require_in")
       (VList [VDict [(KStr "file",
                       VStr (tag_spec (VStr "path.dir") uid step t
                               (VStr "directory")))]]) addin).

(** What follows the loop, when the loop leaves a name, a target and
    ownership attributes. *)
Lemma scm_emit_directory d module type uid step addin owners n t :
  dict_get (KStr "module") d = Some module →
  uid_clash uid step = false →
  addin ≠ [] → truthy n = true →
  dict_get (KStr "target") addin = Some t → truthy t = true →
  owners ≠ [] →
  scm_emit (VDict d) type uid step (addin, owners, n)
  = Ok (VList [scm_dir_record uid step t owners;
               scm_record type module uid step t n addin]).
Proof.
  intros Hm Hc Ha Hn Ht Htt Ho. unfold scm_emit, scm_directory.
  rewrite (proj2 (no_params_false _ _)) by done. rewrite Ht.
  cbn [of_option]. rewrite bind_Ok, Htt, (proj2 (truthy_dict owners)) by done.
  cbn [andb]. rewrite get_tag_no_clash by done. simpl. rewrite Hm. simpl.
  by rewrite get_tag_no_clash by done.
Qed.

(** Without ownership attributes there is the checkout record alone. *)
Lemma scm_emit_plain d module type uid step addin n t :
  dict_get (KStr "module") d = Some module →
  uid_clash uid step = false →
  addin ≠ [] → truthy n = true →
  dict_get (KStr "target") addin = Some t →
  scm_emit (VDict d) type uid step (addin, [], n)
  = Ok (VList [state_record (KStr (tag_spec module uid step n (VStr "latest")))
                 type "latest" addin]).
Proof.
  intros Hm Hc Ha Hn Ht. unfold scm_emit, scm_directory.
  rewrite (proj2 (no_params_false _ _)) by done. rewrite Ht.
  cbn [of_option]. rewrite bind_Ok, andb_false_r. simpl. rewrite Hm. simpl.
  by rewrite get_tag_no_clash by done.
Qed.

(** The step has one [repo] whose value has the name [n], and a [path]. *)
Definition scm_step_ok (items : dict) (n t : value) : Prop :=
  dict_wf items ∧
  (∃ v, (KStr "repo", v) ∈ items ∧ truthy v = true ∧ repo_name v = Ok n) ∧
  truthy n = true ∧
  (KStr "path", t) ∈ items ∧ truthy t = true.

(** The locals after the loop of a step with a name and a path. *)
Lemma scm_locals_ok type items n t :
  scm_step_ok items n t →
  let items' := scm_named n <$> truthy_items items in
  mapM scm_convert (truthy_items items) = Ok items' ∧
  scan_name scm_ident items' = n ∧
  scan_addin scm_ident (scm_tr type) items' ≠ [] ∧
  dict_get (KStr "name") (scan_addin scm_ident (scm_tr type) items') = Some n ∧
  dict_get (KStr "target") (scan_addin scm_ident (scm_tr type) items') = Some t.
Proof.
  intros (Hwf & (v & Hin & Hv & Hn) & Htn & Hp & Htt) items'.
  pose proof (truthy_items_wf _ Hwf) as Hwf'.
  assert ((KStr "repo", v) ∈ truthy_items items) as Hin'
    by by apply elem_of_truthy_items.
  assert ((KStr "repo", n) ∈ items') as Hrepo
    by apply (list_elem_of_fmap_2 (scm_named n) _ _ Hin').
  assert ((KStr "path", t) ∈ items') as Hpath.
  { apply (list_elem_of_fmap_2 (scm_named n) _ (KStr "path", t)).
    by apply elem_of_truthy_items. }
  assert (scan_name scm_ident items' = n) as Hname.
  { apply (scan_name_wf scm_ident items' (KStr "repo", n));
      [by apply scm_named_wf|done|done|].
    by intros kv' _ ->%key_is_true. }
  split_and!; [by eapply scm_convert_all|done|by eapply scan_addin_nonempty| |].
  - rewrite (scan_addin_name _ _ _ (scm_name_reserved _ _)).
    unfold scan_name in Hname. destruct (last _) as [kv|] eqn:E; simpl in *;
      [by rewrite Hname|by subst n].
  - apply (scan_get_at _ _ items' (KStr "path", t));
      [by apply scm_named_wf|done|done|].
    intros kv2 [k2' v2'] _ Htr Hk.
    by rewrite (proj1 (scm_translate_target _ _ _ _ Htr Hk)).
Qed.

End scm_spec.

(** ** The handlers keep values well formed *)

Lemma scm_param_wf type acc attr val acc' :
  value_wf val → value_wf (VDict acc.1.1) ∧ value_wf (VDict acc.1.2) →
  scm_param type acc attr val = Ok acc' →
  value_wf (VDict acc'.1.1) ∧ value_wf (VDict acc'.1.2).
Proof.
  intros Hv [Ha Hd]. rewrite scm_param_scan.
  intros (kv' & Hc & [= <-])%bind_Ok_inv. destruct acc as [[addin dir] repo].
  assert (value_wf kv'.2) as Hv'.
  { unfold scm_convert in Hc. cbn [fst snd] in Hc.
    destruct (key_is attr "repo"); [|by injection Hc as <-].
    apply bind_Ok_inv in Hc as (n & Hn%repo_name_Ok & [= <-]). by destruct n. }
  unfold scm_step, scan_step, scm_tr. cbn [fst snd] in *.
  split; repeat case_match; simplify_eq/=;
    repeat first [done | apply value_wf_dict_set].
Qed.

Section scm_wf.
Context `{PyRepr}.

Lemma scm_directory_wf uid step addin dir states reqs :
  value_wf (VDict addin) → value_wf (VDict dir) →
  scm_directory uid step addin dir = Ok (states, reqs) →
  Forall value_wf states ∧ Forall value_wf reqs.
Proof.
  intros Ha Hd. unfold scm_directory. intros (target & Ht & Hr)%bind_Ok_inv.
  destruct (_ && _); [|by injection Hr as <- <-].
  apply bind_Ok_inv in Hr as (tag & _ & [= <- <-]).
  assert (value_wf target) as Htw.
  { destruct (dict_get _ addin) as [t|] eqn:E; [|done]. injection Ht as <-.
    apply value_wf_dict in Ha as [_ Ha]. by eapply dict_get_wf. }
  split; apply Forall_singleton; [|by apply value_wf_dict_singleton].
  apply value_wf_state_record. repeat apply value_wf_dict_set; try done.
  apply value_wf_list, Forall_fmap, Forall_true. intros k. apply value_wf_of_key.
Qed.

Lemma scm_emit_wf p_state type uid step addin dir repo r :
  value_wf (VDict addin) → value_wf (VDict dir) →
  scm_emit p_state type uid step (addin, dir, repo) = Ok r → value_wf r.
Proof.
  intros Ha Hd. unfold scm_emit. destruct (no_params _ _); [by intros [= <-]|].
  intros ([states reqs] & [Hs Hq]%(scm_directory_wf _ _ _ _ _ _ Ha Hd) & Hr)%bind_Ok_inv.
  apply bind_Ok_inv in Hr as (module & _ & (tag & _ & [= <-])%bind_Ok_inv).
  apply value_wf_list, Forall_app. split; [done|].
  apply Forall_singleton, value_wf_state_record.
  destruct (negb _); [|done]. apply value_wf_dict_set; [|done].
  by apply value_wf_list.
Qed.

Lemma scm_wf p_state type uid step r :
  value_wf p_state → scm p_state type uid step = Ok r → value_wf r.
Proof.
  intros Hwf. unfold scm.
  destruct (missing_parameter p_state); [by intros [= <-]|].
  destruct (state_check_fails _ _); [by intros [= <-]|].
  intros ([[addin dir] repo] & Hloop & Hr)%bind_Ok_inv.
  assert (value_wf (VDict addin) ∧ value_wf (VDict dir)) as [Ha Hd];
    [|apply (scm_emit_wf p_state type uid step addin dir repo r Ha Hd Hr)].
  apply (for_params_wf
           (λ acc, value_wf (VDict acc.1.1) ∧ value_wf (VDict acc.1.2))
           p_state (scm_param type) ([], [], VNone) (addin, dir, repo));
    [|done|split; apply value_wf_dict_nil|done].
  intros acc attr val acc' Hv Hacc. by apply scm_param_wf.
Qed.

Lemma scm_handlers_wf :
  handler_wf _scm_git ∧ handler_wf _scm_svn ∧ handler_wf _scm_hg.
Proof. split_and!; intros p_state uid step r; apply scm_wf. Qed.

End scm_wf.

(** ** Properties of the checkout handlers *)

Section scm_properties.
Context `{PyRepr}.
Implicit Types (d items : dict) (module uid step t n : value) (type : string).

(** C9.  A checkout step with a repository name, a target path and at
    least one ownership parameter ([user], [group], [mode]) compiles to two
    records: the directory record at the target, carrying the ownership
    attributes and the list of their keys under [recurse], then the
    checkout record of the step's subtype in condition [latest], whose
    [require_in] names the directory record's tag; the checkout record
    carries the repository name under [name] and the path under [target]. *)
Theorem scm_checkout_with_owners d items module type uid step n t :
  type ∈ ["git"; "svn"; "hg"] →
  step_ok d items module →
  uid_clash uid step = false →
  scm_step_ok items n t →
  scm_owners (truthy_items items) ≠ [] →
  ∃ addin,
    scm (VDict d) type uid step
    = Ok (VList [scm_dir_record uid step t (scm_owners (truthy_items items));
                 scm_record type module uid step t n addin])
    ∧ dict_get (KStr "name") addin = Some n
    ∧ dict_get (KStr "target") addin = Some t.
Proof.
  intros Ht Hok Hc Hstep Ho.
  destruct (scm_locals_ok type _ _ _ Hstep) as (Hm & Hname & Ha & Hn & Htg).
  eexists. rewrite (scm_ok _ _ _ _ _ _ Ht Hok), Hm, bind_Ok. unfold scm_locals.
  rewrite Hname.
  rewrite (dict_update_wf_id (scm_owners _)).
  - destruct Hok as [_ Hmod], Hstep as (_ & _ & Htn & _ & Htt).
    by rewrite (scm_emit_directory _ _ _ _ _ _ _ _ _ Hmod Hc Ha Htn Htg Htt Ho).
  - destruct Hstep as (Hwf & _). unfold dict_wf.
    eapply sublist_NoDup; [apply (truthy_items_wf _ Hwf)|].
    do 2 apply fmap_sublist. apply sublist_filter.
Qed.

(** A checkout step without a truthy [path] never yields a record:
    the test for the directory record subscripts [addin] with [target],
    which only [path] sets, so the handler returns the error code 3 (no name)
    or raises. *)
Theorem scm_needs_path d items module type uid step :
  type ∈ ["git"; "svn"; "hg"] →
  step_ok d items module →
  dict_get (KStr "path") (truthy_items items) = None →
  scm (VDict d) type uid step = Ok err_missing_field
  ∨ is_Raise (scm (VDict d) type uid step).
Proof.
  intros Ht Hok Hp. rewrite (scm_ok _ _ _ _ _ _ Ht Hok).
  destruct (mapM scm_convert _) as [items'|e] eqn:Em; simpl; [|right; by eexists].
  unfold scm_locals, scm_emit. destruct (no_params _ _); [by left|right].
  unfold scm_directory. rewrite (scm_no_target _ _ _ Em Hp). by eexists.
Qed.

(** A checkout step whose [repo] is a string without a dash raises
    [IndexError]: the name is the second of the segments between dashes, and
    there is none. *)
Theorem scm_repo_without_dash d items module type uid step s :
  type ∈ ["git"; "svn"; "hg"] →
  step_ok d items module →
  dict_wf items →
  (KStr "repo", VStr s) ∈ items → s ≠ "" → "-"%char ∉ chars s →
  scm (VDict d) type uid step = Raise IndexError.
Proof.
  intros Ht Hok Hwf Hin Hs Hdash. rewrite (scm_ok _ _ _ _ _ _ Ht Hok).
  assert ((KStr "repo", VStr s) ∈ truthy_items items) as Hin'
    by (apply elem_of_truthy_items; split; [by apply truthy_str|done]).
  pose proof (truthy_items_wf _ Hwf) as Hwf'.
  apply list_elem_of_split in Hin' as (l1 & l2 & Heq). rewrite Heq in *.
  rewrite (mapM_raise _ _ _ _ IndexError); [done| |].
  - intros kv Hkv. rewrite scm_convert_other; [by eexists|].
    apply not_true_iff_false. intros E%key_is_true.
    apply (dict_wf_split _ _ _ _ Hwf' Hkv). by rewrite E.
  - unfold scm_convert. simpl. by rewrite repo_name_no_dash.
Qed.

End scm_properties.

(** ** The handlers at a concrete step *)

Definition ex_scm_params : dict :=
  [(KStr "repo", VStr "github-opsagent"); (KStr "path", VStr "/opt/agent");
   (KStr "branch", VStr "master"); (KStr "user", VStr "www");
   (KStr "mode", VStr "0755"); (KStr "force", VStr "True")].

Definition ex_scm_step (params : dict) : dict :=
  [(KStr "module", VStr "scm.git"); (KStr "stateid", VStr "1");
   (KStr "parameter", VDict params)].

Lemma ex_scm_step_ok :
  scm_step_ok ex_scm_params (VStr "opsagent") (VStr "/opt/agent").
Proof.
  split_and!; [compute_done| |done|compute_done|done].
  exists (VStr "github-opsagent"). split_and!; [compute_done|done|done].
Defined.

Lemma scm_checkout_with_owners_witness :
  ∃ addin,
    scm (H:=repr_elided) (VDict (ex_scm_step ex_scm_params)) "git" (VStr "web")
      (VStr "1")
    = Ok (VList [scm_dir_record (H:=repr_elided) (VStr "web") (VStr "1")
                   (VStr "/opt/agent")
                   [(KStr "user", VStr "www"); (KStr "mode", VStr "0755")];
                 scm_record (H:=repr_elided) "git" (VStr "scm.git") (VStr "web")
                   (VStr "1") (VStr "/opt/agent") (VStr "opsagent") addin])
    ∧ dict_get (KStr "name") addin = Some (VStr "opsagent")
    ∧ dict_get (KStr "target") addin = Some (VStr "/opt/agent").
Proof.
  apply (scm_checkout_with_owners (H:=repr_elided) (ex_scm_step ex_scm_params)
           ex_scm_params (VStr "scm.git") "git" (VStr "web") (VStr "1")
           (VStr "opsagent") (VStr "/opt/agent"));
    [compute_done|done|done|apply ex_scm_step_ok|done].
Defined.

Lemma scm_needs_path_witness :
  let step := ex_scm_step [(KStr "repo", VStr "github-opsagent")] in
  scm (H:=repr_elided) (VDict step) "git" (VStr "web") (VStr "1")
  = Ok err_missing_field
  ∨ is_Raise (scm (H:=repr_elided) (VDict step) "git" (VStr "web") (VStr "1")).
Proof.
  apply (scm_needs_path (H:=repr_elided) _ [(KStr "repo", VStr "github-opsagent")]
           (VStr "scm.git")); [compute_done|done|done].
Defined.

Lemma scm_repo_without_dash_witness :
  scm (H:=repr_elided)
    (VDict (ex_scm_step [(KStr "repo", VStr "opsagent");
                         (KStr "path", VStr "/opt/agent")]))
    "git" (VStr "web") (VStr "1")
  = Raise IndexError.
Proof.
  apply (scm_repo_without_dash (H:=repr_elided) _
           [(KStr "repo", VStr "opsagent"); (KStr "path", VStr "/opt/agent")]
           (VStr "scm.git") "git" (VStr "web") (VStr "1") "opsagent");
    [compute_done|done|compute_done|compute_done|done|compute_done].
Defined.
