(* ===== verification/Service.v ===== *)
(** * Services

    [StatePreparation.__service] and the three handlers that call it
    (src/POCs/salt/statepreparation.py).  The method takes the step and the
    subtype; the handlers call it with the component and the step id as
    well, and its body reads [uid], [step] and [username], which it never
    binds. *)

From Stdlib Require Import Ascii.
From stdpp Require Import base tactics option strings numbers pretty list.
From S2P Require Import Prelude PyStrings PyValue PyOps Tag StateCheck Handler.

#[local] Open Scope string_scope.
#[local] Open Scope list_scope.

(** The body of the loop: [username] is read where the parameter's value
    is meant, and no such name is bound. *)
Definition service_param (type : string) (acc : dict * value) (attr : key)
    (val : value) : result (dict * value) :=
  let '(addin, srv_name) := acc in
  if key_is attr "name" then Ok (dict_set (KStr "name") val addin, val)
  else if key_is attr "username" then
    if bool_decide (type = "supervisord") then Raise NameError else Ok acc
  else if key_is attr "config" then
    Ok (dict_set (KStr "conf_file") val addin, srv_name)
  else if key_is attr "watch" then
    if is_list val then Ok (dict_set (KStr "watch") val addin, srv_name)
    else Ok acc
  else Ok acc.

(** The body of [__service].  The arguments of [__get_tag] are evaluated
    in order: [p_state['module']], then [uid], which is not bound; the rest
    of the method is never reached. *)
Definition service (p_state : value) (type : string) : result value :=
  if missing_parameter p_state then Ok err_malformed else
  if state_check_fails "service" type then Ok err_unsupported else
  let type := if bool_decide (type ∈ ["sysvinit"; "upstart"]) then "service"
              else type in
  '(addin, srv_name) ← for_params p_state (service_param type) ([], VNone);
  if no_params addin srv_name then Ok err_missing_field else
  module ← getitem_str p_state "module";
  Raise NameError.

(** The handlers of the dispatch table: two arguments too many. *)
Definition _service_supervisord : handler := λ p_state uid step,
  call2 service p_state "supervisord" [uid; step].
Definition _service_sysvinit : handler := λ p_state uid step,
  call2 service p_state "service" [uid; step].
Definition _service_upstart : handler := λ p_state uid step,
  call2 service p_state "service" [uid; step].

(** The handlers never return. *)
Lemma service_handlers_wf :
  handler_wf _service_supervisord ∧ handler_wf _service_sysvinit
  ∧ handler_wf _service_upstart.
Proof. by split_and!; intros p_state uid step r _. Qed.

(** ** Properties of the service handlers *)

(** No service handler of the dispatch table ever returns: each
    calls [__service] with four arguments where it takes two, which is a
    [TypeError] on every step. *)
Theorem service_handlers_raise p_state uid step :
  _service_supervisord p_state uid step = Raise TypeError
  ∧ _service_sysvinit p_state uid step = Raise TypeError
  ∧ _service_upstart p_state uid step = Raise TypeError.
Proof. by split_and!. Qed.

(** Called with the two arguments it takes, [__service] still
    never returns a record: what it returns is one of the error codes 1, 2
    and 3, since the tag is built from names that are not bound. *)
Theorem service_never_records p_state type r :
  service p_state type = Ok r →
  r ∈ [err_malformed; err_unsupported; err_missing_field].
Proof.
  unfold service.
  destruct (missing_parameter p_state); [intros [= <-]; by repeat constructor|].
  destruct (state_check_fails _ _); [intros [= <-]; by repeat constructor|].
  intros Hr. inv_bind Hr. destruct x as [addin srv_name].
  destruct (no_params _ _); [injection Hr as <-; by repeat constructor|].
  by inv_bind Hr.
Qed.

(** The subtype the sysvinit and upstart handlers pass, [service],
    is not in the allow-list of the service family: with the two arguments
    it takes, [__service] rejects every step that has parameters with the
    error code 2. *)
Theorem service_generic_kind_rejected p_state :
  missing_parameter p_state = false →
  service p_state "service" = Ok err_unsupported.
Proof. intros E. unfold service. by rewrite E. Qed.

Definition ex_service_step : dict :=
  [(KStr "module", VStr "service.sysvinit"); (KStr "stateid", VStr "1");
   (KStr "parameter", VDict [(KStr "name", VStr "nginx")])].

Lemma service_never_records_witness :
  err_malformed ∈ [err_malformed; err_unsupported; err_missing_field].
Proof.
  by apply (service_never_records (VStr "no step") "sysvinit").
Defined.

Lemma service_generic_kind_rejected_witness :
  service (VDict ex_service_step) "service" = Ok err_unsupported.
Proof. by apply service_generic_kind_rejected. Defined.
