(* ===== verification/Cmd.v ===== *)
(** * Commands and scripts

    [StatePreparation._sys_cmd] and [_sys_script]
    (src/POCs/salt/statepreparation.py): a [run] record of the command,
    preceded by a managed file record when the step carries a content. *)

From Stdlib Require Import Ascii.
From stdpp Require Import base tactics option strings numbers pretty list.
From S2P Require Import Prelude PyStrings PyValue PyOps Tag StateCheck Handler Scan.

#[local] Open Scope string_scope.
#[local] Open Scope list_scope.

(** The body of the loop over the parameters. *)
Definition cmd_step (acc : dict * value) (attr : key) (val : value)
    : dict * value :=
  let '(addin, cmd) := acc in
  if key_is attr "name" || key_is attr "cmd" then
    (dict_set (KStr "name") val addin, val)
  else if key_is attr "bin" then (dict_set (KStr "shell") val addin, cmd)
  else if key_in attr ["cwd"; "user"; "group"; "env"; "timeout"] then
    (dict_set attr val addin, cmd)
  else acc.

(** The value of ['k' in p_state['parameter'] and p_state['parameter'][k]]:
    [False] when the key is absent, the parameter otherwise. *)
Definition param_and (p_state : value) (k : string) : result value :=
  param ← getitem_str p_state "parameter";
  has ← contains_str k param;
  if (has : bool) then
    param ← getitem_str p_state "parameter"; getitem_str param k
  else Ok (VBool false).

(** [cmd_file_addin]: the mode, and the user and the group of the command
    when it has them. *)
Definition cmd_file_addin (addin : dict) : dict :=
  let cmd_file_addin := [(KStr "mode", VStr "0755")] in
  let cmd_file_addin :=
    match dict_get (KStr "user") addin with
    | Some user => dict_set (KStr "user") user cmd_file_addin
    | None => cmd_file_addin
    end in
  match dict_get (KStr "group") addin with
  | Some group => dict_set (KStr "group") group cmd_file_addin
  | None => cmd_file_addin
  end.

(** [addin['name'] += ' ' + args].  On a string the sum is bound to
    [addin['name']] alone.  A list is extended in place by the characters
    of the right-hand side, and the list is the object that [cmd] and the
    [require] entry refer to as well. *)
Definition cmd_args (args : value) (required : bool) (addin : dict) (cmd : value)
    : result (dict * value) :=
  old ← of_option KeyError (dict_get (KStr "name") addin);
  suffix ← str_add_l " " args;
  match old with
  | VStr s => Ok (dict_set (KStr "name") (VStr (s +:+ suffix)) addin, cmd)
  | VList l =>
      let new := VList (l ++ ((λ c, VStr (String c "")) <$> chars suffix)) in
      let addin := dict_set (KStr "name") new addin in
      Ok (if required
          then dict_set (KStr "require")
                 (VList [VDict [(KStr "file", new)]]) addin
          else addin, new)
  | _ => Raise TypeError
  end.

Section cmd.
Context `{PyRepr}.

(** The record of the file that holds the command's content. *)
Definition cmd_file (uid step : value) (addin : dict) : result value :=
  let cmd_file_state := "managed" in
  name ← of_option KeyError (dict_get (KStr "name") addin);
  cmd_file_tag ← get_tag (VStr "path.file") uid step name (VStr cmd_file_state);
  Ok (state_record (KStr cmd_file_tag) "file" cmd_file_state
        (cmd_file_addin addin)).

(** [cmd_state] after the part that deals with the content. *)
Definition cmd_content (p_state uid step : value) (addin : dict)
    : result (list value) :=
  content ← param_and p_state "content";
  if truthy content
  then file_cmd_state ← cmd_file uid step addin; Ok [file_cmd_state]
  else Ok [].

(** [addin] after [if cmd_state: addin['require'] = [{'file':
    addin['name']}]]. *)
Definition cmd_require (cmd_state : list value) (addin : dict) : result dict :=
  if truthy (VList cmd_state) then
    name ← of_option KeyError (dict_get (KStr "name") addin);
    Ok (dict_set (KStr "require") (VList [VDict [(KStr "file", name)]]) addin)
  else Ok addin.

(** [addin] and [cmd] after the part that deals with the arguments. *)
Definition cmd_with_args (p_state : value) (cmd_state : list value)
    (addin : dict) (cmd : value) : result (dict * value) :=
  args ← param_and p_state "args";
  if truthy args then
    param ← getitem_str p_state "parameter";
    args ← getitem_str param "args";
    cmd_args args (truthy (VList cmd_state)) addin cmd
  else Ok (addin, cmd).

(** What follows the loop. *)
Definition cmd_emit (p_state uid step : value) (locals : dict * value)
    : result value :=
  let '(addin, cmd) := locals in
  if no_params addin cmd then Ok err_missing_field else
  cmd_state ← cmd_content p_state uid step addin;
  addin ← cmd_require cmd_state addin;
  '(addin, cmd) ← cmd_with_args p_state cmd_state addin cmd;
  let state := "run" in
  module ← getitem_str p_state "module";
  tag ← get_tag module uid step cmd (VStr state);
  Ok (VList (cmd_state ++ [state_record (KStr tag) "cmd" state addin])).

(** The whole of [_sys_cmd]. *)
Definition _sys_cmd : handler := λ p_state uid step,
  if missing_parameter p_state then Ok err_malformed else
  if state_check_fails "sys" "cmd" then Ok err_unsupported else
  locals ← for_params p_state (λ acc attr val, Ok (cmd_step acc attr val))
             ([], VNone);
  cmd_emit p_state uid step locals.

Definition _sys_script : handler := λ p_state uid step,
  _sys_cmd p_state uid step.

End cmd.

(** ** The loop as a scan *)

Definition cmd_ident (attr : key) : bool :=
  key_is attr "name" || key_is attr "cmd".

Definition cmd_tr (attr : key) (val : value) : option (key * value) :=
  if key_is attr "bin" then Some (KStr "shell", val)
  else if key_in attr ["cwd"; "user"; "group"; "env"; "timeout"]
       then Some (attr, val)
  else None.

Lemma cmd_step_scan acc attr val :
  cmd_step acc attr val = scan_step cmd_ident cmd_tr acc attr val.
Proof.
  destruct acc as [addin cmd]. unfold cmd_step, scan_step, cmd_ident, cmd_tr.
  cbn [fst snd]. by repeat case_match.
Qed.

(** What is stored under a key other than [name] and [shell] is the
    parameter of that key, one of the five that are copied. *)
Lemma cmd_tr_key attr val k' v' :
  cmd_tr attr val = Some (k', v') →
  v' = val ∧
  (k' = KStr "shell" ∧ attr = KStr "bin"
   ∨ k' = attr ∧ ∃ s, attr = KStr s ∧ s ∈ ["cwd"; "user"; "group"; "env"; "timeout"]).
Proof.
  unfold cmd_tr. destruct (key_is attr "bin") eqn:E.
  { apply key_is_true in E. intros [= <- <-]. eauto. }
  destruct (key_in attr _) eqn:E'; [|done].
  apply key_in_true in E'. intros [= <- <-]. eauto.
Qed.

Lemma cmd_name_reserved items : name_reserved cmd_ident cmd_tr items.
Proof.
  intros [k v] k' v' _ _ Htr ->%key_equiv_str.
  apply cmd_tr_key in Htr as [_ [[[=] _]|[<- (s & [= <-] & Hs)]]].
  by elem_of_cases Hs.
Qed.

(** The locals after the loop of a step: the scan of its truthy
    parameters. *)
Definition cmd_locals (items : dict) : dict * value :=
  (scan_addin cmd_ident cmd_tr (truthy_items items),
   scan_name cmd_ident (truthy_items items)).

Section cmd_lemmas.
Context `{PyRepr}.
Implicit Types (d items : dict) (module uid step : value).

(** [_sys_cmd] on a step that passes its checks. *)
Lemma sys_cmd_ok d items module uid step :
  step_ok d items module →
  _sys_cmd (VDict d) uid step = cmd_emit (VDict d) uid step (cmd_locals items).
Proof.
  intros Hok. unfold _sys_cmd. rewrite (step_ok_parameter _ _ _ Hok).
  destruct Hok as [Hp _]. cbn [state_check_fails]. simpl (state_check_fails _ _).
  cbv iota. rewrite (for_params_pure _ _ _ _ Hp), bind_Ok.
  unfold cmd_locals. rewrite <-scan_fold_nil. f_equal.
  apply foldl_ext. intros ??. apply cmd_step_scan.
Qed.

(** The value of ['k' in parameter and parameter[k]] on a dict of
    parameters. *)
Lemma param_and_dict d items module k :
  step_ok d items module →
  param_and (VDict d) k = Ok (default (VBool false) (dict_get (KStr k) items)).
Proof.
  intros [Hp _]. unfold param_and. rewrite !getitem_str_dict, Hp.
  cbn [of_option]. rewrite !bind_Ok. cbn [contains_str]. rewrite bind_Ok.
  destruct (dict_has (KStr k) items) eqn:E.
  - apply dict_has_true in E as [v E]. by rewrite getitem_str_dict, E.
  - apply dict_has_false in E. by rewrite E.
Qed.

(** The identifying value is in the record, and the check after the loop
    passes, as soon as a [name] or a [cmd] is truthy. *)
Lemma cmd_locals_named items :
  truthy (cmd_locals items).2 = true →
  dict_get (KStr "name") (cmd_locals items).1 = Some (cmd_locals items).2
  ∧ no_params (cmd_locals items).1 (cmd_locals items).2 = false.
Proof.
  intros (kv & Hin & Hi)%scan_name_truthy; [|apply truthy_items_Forall].
  by eapply scan_named;
    [apply cmd_name_reserved|apply truthy_items_Forall|..].
Qed.

(** The parts of what follows the loop. *)
Lemma cmd_content_some d items module uid step addin name body :
  step_ok d items module → uid_clash uid step = false →
  dict_get (KStr "content") items = Some body → truthy body = true →
  dict_get (KStr "name") addin = Some name →
  cmd_content (VDict d) uid step addin
  = Ok [state_record
          (KStr (tag_spec (VStr "path.file") uid step name (VStr "managed")))
          "file" "managed" (cmd_file_addin addin)].
Proof.
  intros Hok Hc Hbody Htb Hname. unfold cmd_content, cmd_file.
  rewrite (param_and_dict _ _ _ _ Hok), Hbody, bind_Ok. simpl default.
  rewrite Htb, Hname. cbn [of_option].
  by rewrite !bind_Ok, get_tag_no_clash, !bind_Ok.
Qed.

Lemma cmd_content_none d items module uid step addin :
  step_ok d items module →
  truthy (default (VBool false) (dict_get (KStr "content") items)) = false →
  cmd_content (VDict d) uid step addin = Ok [].
Proof.
  intros Hok Hcontent. unfold cmd_content.
  by rewrite (param_and_dict _ _ _ _ Hok), bind_Ok, Hcontent.
Qed.

Lemma cmd_with_args_none d items module cmd_state addin cmd :
  step_ok d items module →
  truthy (default (VBool false) (dict_get (KStr "args") items)) = false →
  cmd_with_args (VDict d) cmd_state addin cmd = Ok (addin, cmd).
Proof.
  intros Hok Hargs. unfold cmd_with_args.
  by rewrite (param_and_dict _ _ _ _ Hok), bind_Ok, Hargs.
Qed.

Lemma cmd_with_args_str d items module cmd_state addin cmd c a :
  step_ok d items module →
  dict_get (KStr "args") items = Some (VStr a) → a ≠ "" →
  dict_get (KStr "name") addin = Some (VStr c) →
  cmd_with_args (VDict d) cmd_state addin cmd
  = Ok (dict_set (KStr "name") (VStr (c +:+ " " +:+ a)) addin, cmd).
Proof.
  intros Hok Hargs Ha Hname. unfold cmd_with_args, cmd_args.
  rewrite (param_and_dict _ _ _ _ Hok), Hargs, bind_Ok. simpl default.
  rewrite (proj2 (truthy_str a)) by done. destruct Hok as [Hp _].
  rewrite getitem_str_dict, Hp. cbn [of_option].
  rewrite bind_Ok, getitem_str_dict, Hargs. cbn [of_option].
  rewrite bind_Ok, Hname. cbn [of_option str_add_l]. by rewrite !bind_Ok.
Qed.

(** The record that ends the list. *)
Lemma cmd_emit_tail d items module uid step cmd_state addin cmd :
  step_ok d items module → uid_clash uid step = false →
  (module ← getitem_str (VDict d) "module";
   tag ← get_tag module uid step cmd (VStr "run");
   Ok (VList (cmd_state ++ [state_record (KStr tag) "cmd" "run" addin])))
  = Ok (VList (cmd_state ++
          [state_record (KStr (tag_spec module uid step cmd (VStr "run")))
             "cmd" "run" addin])).
Proof.
  intros [_ Hm] Hc. rewrite getitem_str_dict, Hm. cbn [of_option].
  by rewrite bind_Ok, get_tag_no_clash, bind_Ok.
Qed.

End cmd_lemmas.

(** The file record holds the mode, and the user and the group of the
    command when it has them, nothing else. *)
Lemma cmd_file_addin_get addin k :
  dict_get (KStr k) (cmd_file_addin addin)
  = if bool_decide (k = "mode") then Some (VStr "0755")
    else if bool_decide (k ∈ ["user"; "group"]) then dict_get (KStr k) addin
    else None.
Proof.
  unfold cmd_file_addin.
  destruct (dict_get (KStr "user") addin) as [u|] eqn:Eu,
           (dict_get (KStr "group") addin) as [g|] eqn:Eg;
    rewrite ?dict_get_set; cbn [dict_get]; rewrite ?key_eqb_str;
    repeat case_bool_decide; subst; try done;
    try (match goal with H : _ ∈ _ |- _ => by elem_of_cases H end);
    by match goal with H : ¬ _ ∈ _ |- _ => destruct H; repeat constructor end.
Qed.

(** ** The handler keeps values well formed *)

Lemma cmd_file_addin_wf addin :
  value_wf (VDict addin) → value_wf (VDict (cmd_file_addin addin)).
Proof.
  intros [_ Ha]%value_wf_dict. unfold cmd_file_addin.
  destruct (dict_get (KStr "user") addin) eqn:Eu,
           (dict_get (KStr "group") addin) eqn:Eg;
    repeat first [apply value_wf_dict_set | by eapply dict_get_wf
                 | by apply value_wf_dict_singleton].
Qed.

Lemma cmd_args_wf args required addin cmd addin' cmd' :
  value_wf (VDict addin) →
  cmd_args args required addin cmd = Ok (addin', cmd') → value_wf (VDict addin').
Proof.
  intros Ha. unfold cmd_args.
  intros (old & Ho & (suffix & _ & Hr)%bind_Ok_inv)%bind_Ok_inv.
  assert (value_wf old) as Hold.
  { destruct (dict_get _ addin) as [o|] eqn:E; [|done]. injection Ho as <-.
    apply value_wf_dict in Ha as [_ Ha]. by eapply dict_get_wf. }
  destruct old as [| | |s|l|]; try done; injection Hr as <- _.
  - by apply value_wf_dict_set.
  - assert (value_wf (VList (l ++ ((λ c, VStr (String c "")) <$> chars suffix))))
      as Hnew.
    { apply value_wf_list, Forall_app. split; [by apply value_wf_list|].
      by apply Forall_fmap, Forall_true. }
    destruct required; repeat apply value_wf_dict_set; try done.
    apply value_wf_list, Forall_singleton. by apply value_wf_dict_singleton.
Qed.

Section cmd_wf.
Context `{PyRepr}.

Lemma cmd_content_wf p_state uid step addin cmd_state :
  value_wf (VDict addin) →
  cmd_content p_state uid step addin = Ok cmd_state → Forall value_wf cmd_state.
Proof.
  intros Ha. unfold cmd_content. intros (content & _ & Hr)%bind_Ok_inv.
  destruct (truthy content); [|by injection Hr as <-].
  apply bind_Ok_inv in Hr as (r & Hf & [= <-]). apply Forall_singleton.
  unfold cmd_file in Hf.
  apply bind_Ok_inv in Hf as (name & _ & (tag & _ & [= <-])%bind_Ok_inv).
  by apply value_wf_state_record, cmd_file_addin_wf.
Qed.

Lemma cmd_require_wf cmd_state addin addin' :
  value_wf (VDict addin) →
  cmd_require cmd_state addin = Ok addin' → value_wf (VDict addin').
Proof.
  intros Ha. unfold cmd_require. destruct (truthy _); [|by intros [= <-]].
  destruct (dict_get _ addin) as [name|] eqn:E; [|done]. intros [= <-].
  apply value_wf_dict_set; [|done].
  apply value_wf_list, Forall_singleton, value_wf_dict_singleton.
  apply value_wf_dict in Ha as [_ Ha]. by eapply dict_get_wf.
Qed.

Lemma cmd_with_args_wf p_state cmd_state addin cmd addin' cmd' :
  value_wf (VDict addin) →
  cmd_with_args p_state cmd_state addin cmd = Ok (addin', cmd') →
  value_wf (VDict addin').
Proof.
  intros Ha. unfold cmd_with_args. intros (args & _ & Hr)%bind_Ok_inv.
  destruct (truthy args); [|by injection Hr as <- _].
  apply bind_Ok_inv in Hr as (param & _ & (a & _ & Hr)%bind_Ok_inv).
  by eapply cmd_args_wf.
Qed.

Lemma cmd_emit_wf p_state uid step addin cmd r :
  value_wf (VDict addin) →
  cmd_emit p_state uid step (addin, cmd) = Ok r → value_wf r.
Proof.
  intros Ha. unfold cmd_emit. destruct (no_params _ _); [by intros [= <-]|].
  intros (cs & Hcs%(cmd_content_wf _ _ _ _ _ Ha) & Hr)%bind_Ok_inv.
  apply bind_Ok_inv in Hr as (addin1 & H1%(cmd_require_wf _ _ _ Ha) & Hr).
  apply bind_Ok_inv in Hr as ([addin2 cmd2] & H2%(cmd_with_args_wf _ _ _ _ _ _ H1) & Hr).
  apply bind_Ok_inv in Hr as (module & _ & (tag & _ & [= <-])%bind_Ok_inv).
  apply value_wf_list, Forall_app. split; [done|].
  by apply Forall_singleton, value_wf_state_record.
Qed.

Lemma sys_cmd_wf : handler_wf _sys_cmd ∧ handler_wf _sys_script.
Proof.
  assert (handler_wf _sys_cmd) as Hcmd; [|by split].
  intros p_state uid step r Hwf. unfold _sys_cmd.
  destruct (missing_parameter p_state); [by intros [= <-]|].
  destruct (state_check_fails _ _); [by intros [= <-]|].
  intros ([addin cmd] & Hloop & Hr)%bind_Ok_inv.
  eapply cmd_emit_wf; [|done].
  apply (for_params_wf (λ acc, value_wf (VDict acc.1)) p_state
           (λ acc attr val, Ok (cmd_step acc attr val)) ([], VNone)
           (addin, cmd)); [|done|apply value_wf_dict_nil|done].
  unfold cmd_step. body_wf.
Qed.

End cmd_wf.

(** ** Properties of the command handler *)

Section cmd_properties.
Context `{PyRepr}.
Implicit Types (d items : dict) (module uid step body : value).

(** C10.  A command step with a truthy [name] or [cmd] and a truthy
    [content], and no [args], compiles to two records: a managed file
    record, then the [run] record of the command, whose [require] names the
    kind [file] and the command's name.  The file record carries the mode
    0755 and the command's user and group; it has no [name] and no
    [contents], so nothing in it says where the file is or what it holds. *)
Theorem sys_cmd_with_content d items module uid step body :
  step_ok d items module →
  uid_clash uid step = false →
  truthy (cmd_locals items).2 = true →
  dict_get (KStr "content") items = Some body → truthy body = true →
  truthy (default (VBool false) (dict_get (KStr "args") items)) = false →
  let '(addin, cmd) := cmd_locals items in
  ∃ file_addin,
    _sys_cmd (VDict d) uid step
    = Ok (VList [
        state_record
          (KStr (tag_spec (VStr "path.file") uid step cmd (VStr "managed")))
          "file" "managed" file_addin;
        state_record (KStr (tag_spec module uid step cmd (VStr "run"))) "cmd" "run"
          (dict_set (KStr "require") (VList [VDict [(KStr "file", cmd)]]) addin)])
    ∧ dict_get (KStr "name") addin = Some cmd
    ∧ ∀ k, dict_get (KStr k) file_addin
           = if bool_decide (k = "mode") then Some (VStr "0755")
             else if bool_decide (k ∈ ["user"; "group"])
                  then dict_get (KStr k) addin
             else None.
Proof.
  intros Hok Hc Hcmd Hbody Htb Hargs.
  destruct (cmd_locals_named _ Hcmd) as [Hname Hno].
  rewrite (sys_cmd_ok _ _ _ _ _ Hok). unfold cmd_emit.
  destruct (cmd_locals items) as [addin cmd]. cbn [fst snd] in *.
  exists (cmd_file_addin addin).
  split_and!; [|done|apply cmd_file_addin_get].
  rewrite Hno, (cmd_content_some _ _ _ _ _ _ _ _ Hok Hc Hbody Htb Hname), bind_Ok.
  unfold cmd_require. cbn [truthy]. simpl negb. cbv iota.
  rewrite Hname. cbn [of_option].
  rewrite !bind_Ok, (cmd_with_args_none _ _ _ _ _ _ Hok Hargs), bind_Ok.
  apply (cmd_emit_tail _ _ _ _ _ [_] _ _ Hok Hc).
Qed.

(** A command step with a string command, string [args] and no
    [content] compiles to one [run] record: its [name] is the command, a
    space and the arguments, and its tag is built from the command without
    the arguments. *)
Theorem sys_cmd_with_args d items module uid step c a :
  step_ok d items module →
  uid_clash uid step = false →
  (cmd_locals items).2 = VStr c → c ≠ "" →
  dict_get (KStr "args") items = Some (VStr a) → a ≠ "" →
  truthy (default (VBool false) (dict_get (KStr "content") items)) = false →
  ∃ addin,
    _sys_cmd (VDict d) uid step
    = Ok (VList [state_record
                   (KStr (tag_spec module uid step (VStr c) (VStr "run")))
                   "cmd" "run" addin])
    ∧ dict_get (KStr "name") addin = Some (VStr (c +:+ " " +:+ a)).
Proof.
  intros Hok Hc Hcmd Hne Hargs Ha Hcontent.
  assert (truthy (cmd_locals items).2 = true) as Ht
    by (rewrite Hcmd; by apply truthy_str).
  destruct (cmd_locals_named _ Ht) as [Hname Hno].
  rewrite (sys_cmd_ok _ _ _ _ _ Hok). unfold cmd_emit.
  destruct (cmd_locals items) as [addin cmd]. cbn [fst snd] in *. subst cmd.
  eexists. rewrite Hno, (cmd_content_none _ _ _ _ _ _ Hok Hcontent), bind_Ok.
  unfold cmd_require. cbn [truthy]. simpl negb. cbv iota.
  rewrite bind_Ok, (cmd_with_args_str _ _ _ _ _ _ _ _ Hok Hargs Ha Hname), bind_Ok.
  split; [apply (cmd_emit_tail _ _ _ _ _ [] _ _ Hok Hc)|].
  by rewrite dict_get_set_eq.
Qed.

End cmd_properties.

(** ** The handler at a concrete step *)

Definition ex_cmd_params : dict :=
  [(KStr "cmd", VStr "/opt/run.sh"); (KStr "user", VStr "www");
   (KStr "content", VStr "#!/bin/sh"); (KStr "args", VStr "")].

Definition ex_cmd_step (params : dict) : dict :=
  [(KStr "module", VStr "sys.cmd"); (KStr "stateid", VStr "1");
   (KStr "parameter", VDict params)].

Lemma sys_cmd_with_content_witness :
  ∃ file_addin,
    _sys_cmd (H:=repr_elided) (VDict (ex_cmd_step ex_cmd_params)) (VStr "web")
      (VStr "1")
    = Ok (VList [
        state_record (KStr "_web_1_path_file_/opt/run.sh_managed") "file" "managed"
          file_addin;
        state_record (KStr "_web_1_sys_cmd_/opt/run.sh_run") "cmd" "run"
          [(KStr "name", VStr "/opt/run.sh"); (KStr "user", VStr "www");
           (KStr "require", VList [VDict [(KStr "file", VStr "/opt/run.sh")]])]])
    ∧ dict_get (KStr "user") file_addin = Some (VStr "www")
    ∧ dict_get (KStr "contents") file_addin = None.
Proof.
  destruct (sys_cmd_with_content (H:=repr_elided) (ex_cmd_step ex_cmd_params)
              ex_cmd_params (VStr "sys.cmd") (VStr "web") (VStr "1")
              (VStr "#!/bin/sh") (conj eq_refl eq_refl) eq_refl eq_refl
              eq_refl eq_refl eq_refl) as (file_addin & Hr & _ & Hf).
  exists file_addin. split_and!; [exact Hr|apply (Hf "user")|apply (Hf "contents")].
Defined.

Lemma sys_cmd_with_args_witness :
  ∃ addin,
    _sys_cmd (H:=repr_elided)
      (VDict (ex_cmd_step [(KStr "cmd", VStr "ls"); (KStr "args", VStr "-l /")]))
      (VStr "web") (VStr "1")
    = Ok (VList [state_record (KStr "_web_1_sys_cmd_ls_run") "cmd" "run" addin])
    ∧ dict_get (KStr "name") addin = Some (VStr "ls -l /").
Proof.
  apply (sys_cmd_with_args (H:=repr_elided) _
           [(KStr "cmd", VStr "ls"); (KStr "args", VStr "-l /")] (VStr "sys.cmd")
           (VStr "web") (VStr "1") "ls" "-l /"); done.
Defined.
