(* ===== verification/Sys.v ===== *)
(** * The system handlers

    [_sys_cron], [_sys_user], [_sys_group], [_sys_hostname], [_sys_hosts],
    [_sys_mount], [_sys_ntp] and [_sys_selinux] of [StatePreparation]
    (src/POCs/salt/statepreparation.py). *)

From Stdlib Require Import Ascii.
From stdpp Require Import base tactics option strings numbers pretty list.
From S2P Require Import Prelude PyStrings PyValue PyOps Tag StateCheck Handler Scan Table.

#[local] Open Scope string_scope.
#[local] Open Scope list_scope.

(** ** The bodies of the loops *)

Definition cron_step (acc : dict * value) (attr : key) (val : value)
    : dict * value :=
  let '(addin, cron) := acc in
  if key_is attr "cmd" then (dict_set (KStr "name") val addin, val)
  else if key_in attr ["minute"; "hour"; "month"] then
    (dict_set attr val addin, cron)
  else if key_is attr "day of month" then
    (dict_set (KStr "daymonth") val addin, cron)
  else if key_is attr "day of week" then
    (dict_set (KStr "dayweek") val addin, cron)
  else if key_is attr "username" then (dict_set (KStr "user") val addin, cron)
  else acc.

Definition user_step (acc : dict * value) (attr : key) (val : value)
    : dict * value :=
  let '(addin, user) := acc in
  if key_is attr "username" then (dict_set (KStr "name") val addin, val)
  else if key_is attr "password" then
    (dict_set (KStr "password") val addin, user)
  else if key_in attr ["fullname"; "uid"; "gid"; "shell"; "home"; "groups"] then
    (dict_set attr val addin, user)
  else acc.

Definition group_step (acc : dict * value) (attr : key) (val : value)
    : dict * value :=
  let '(addin, group) := acc in
  if key_is attr "groupname" then (dict_set (KStr "name") val addin, val)
  else if key_is attr "gid" then (dict_set attr val addin, group)
  else if key_is attr "system group" then
    (dict_set (KStr "system") (true_literal val) addin, group)
  else acc.

(** [hostname] rebinds [host]; it is not stored in [addin]. *)
Definition hostname_step (acc : dict * value) (attr : key) (val : value)
    : dict * value :=
  let '(addin, host) := acc in
  if key_is attr "hostname" then (addin, val)
  else if key_is attr "ip" then (dict_set (KStr "ip") val addin, host)
  else acc.

(** [atoi] is not bound in the module. *)
Definition mount_param (acc : dict * value) (attr : key) (val : value)
    : result (dict * value) :=
  let '(addin, mount) := acc in
  if key_is attr "path" then Ok (dict_set (KStr "name") val addin, val)
  else if key_is attr "dev" then Ok (dict_set (KStr "device") val addin, mount)
  else if key_is attr "filesystem" then
    Ok (dict_set (KStr "fstype") val addin, mount)
  else if key_is attr "dump" then Raise NameError
  else if key_is attr "passno" then Raise NameError
  else if key_is attr "args" then Ok (dict_set (KStr "opts") val addin, mount)
  else Ok acc.

Section sys.
Context `{PyRepr}.

Definition _sys_cron : handler := λ p_state uid step,
  if missing_parameter p_state then Ok err_malformed else
  if state_check_fails "sys" "cron" then Ok err_unsupported else
  '(addin, cron) ←
    for_params p_state (λ acc attr val, Ok (cron_step acc attr val)) ([], VNone);
  emit p_state uid step "cron" "present" addin cron.

(** The check is the one of the mount handler. *)
Definition _sys_user : handler := λ p_state uid step,
  if missing_parameter p_state then Ok err_malformed else
  if state_check_fails "sys" "mount" then Ok err_unsupported else
  '(addin, user) ←
    for_params p_state (λ acc attr val, Ok (user_step acc attr val)) ([], VNone);
  emit p_state uid step "user" "present" addin user.

Definition _sys_group : handler := λ p_state uid step,
  if missing_parameter p_state then Ok err_malformed else
  if state_check_fails "sys" "group" then Ok err_unsupported else
  '(addin, group) ←
    for_params p_state (λ acc attr val, Ok (group_step acc attr val)) ([], VNone);
  emit p_state uid step "group" "present" addin group.

(** [p_state['']] is read before the loop; the record is keyed by the host
    name itself. *)
Definition _sys_hostname : handler := λ p_state uid step,
  if missing_parameter p_state then Ok err_malformed else
  if state_check_fails "sys" "host" then Ok err_unsupported else
  param ← getitem_str p_state "parameter";
  host ← getitem_str param "hostname";
  ip ← getitem_str p_state "";
  '(addin, host) ←
    for_params p_state (λ acc attr val, Ok (hostname_step acc attr val))
      ([], host);
  if no_params addin host then Ok err_missing_field else
  tag ← to_key host;
  Ok (state_record tag "host" "present" addin).

Definition _sys_hosts : handler := λ p_state uid step,
  if missing_parameter p_state then Ok err_malformed else
  if state_check_fails "sys" "host" then Ok err_unsupported else
  param ← getitem_str p_state "parameter";
  content ← getitem_str param "content";
  if negb (truthy content) then Ok err_missing_field else
  let name := "/etc/hosts" in
  let state := "managed" in
  tag ← get_tag (VStr "path.file") uid step (VStr name) (VStr state);
  param ← getitem_str p_state "parameter";
  contents ← getitem_str param "content";
  Ok (state_record (KStr tag) "file" state
        [(KStr "name", VStr name); (KStr "user", VStr "root");
         (KStr "group", VStr "root"); (KStr "mode", VStr "0644");
         (KStr "contents", contents)]).

Definition _sys_mount : handler := λ p_state uid step,
  if missing_parameter p_state then Ok err_malformed else
  if state_check_fails "sys" "mount" then Ok err_unsupported else
  '(addin, mount) ← for_params p_state mount_param ([], VNone);
  emit p_state uid step "mount" "mounted" addin mount.

(** The method ends after its checks: it returns [None]. *)
Definition _sys_ntp : handler := λ p_state uid step,
  if missing_parameter p_state then Ok err_malformed else
  if state_check_fails "sys" "ntp" then Ok err_unsupported else
  Ok VNone.

(** [selinuxname] is [None] when it is tested: the record is never built. *)
Definition _sys_selinux : handler := λ p_state uid step,
  if missing_parameter p_state then Ok err_malformed else
  if state_check_fails "sys" "selinux" then Ok err_unsupported else
  let selinuxname := VNone in
  if truthy selinuxname then Raise NameError else Ok VNone.

End sys.

(** ** The tables of cron, user and group *)

Definition cron_table : list row :=
  [("minute", ("minute", keep)); ("hour", ("hour", keep));
   ("month", ("month", keep)); ("day of month", ("daymonth", keep));
   ("day of week", ("dayweek", keep)); ("username", ("user", keep))].

Definition user_table : list row :=
  [("password", ("password", keep)); ("fullname", ("fullname", keep));
   ("uid", ("uid", keep)); ("gid", ("gid", keep)); ("shell", ("shell", keep));
   ("home", ("home", keep)); ("groups", ("groups", keep))].

Definition group_table : list row :=
  [("gid", ("gid", keep)); ("system group", ("system", true_literal))].

(** Unfolds a step and the scan of a table on a key, case by case. *)
Ltac step_table :=
  intros [addin name] attr val;
  unfold scan_step, table_tr; cbn [fst snd];
  destruct attr as [| | |s]; [done..|]; cbn [key_is key_in];
  repeat (case_bool_decide; simplify_eq/=; try done);
  repeat match goal with
         | H : _ ∈ _ |- _ => by elem_of_cases H
         | H : _ ∉ _ |- _ => destruct H; compute_done
         end.

Lemma cron_step_table acc attr val :
  cron_step acc attr val
  = scan_step (λ k, key_is k "cmd") (table_tr cron_table) acc attr val.
Proof. revert acc attr val. unfold cron_step. step_table. Qed.

Lemma user_step_table acc attr val :
  user_step acc attr val
  = scan_step (λ k, key_is k "username") (table_tr user_table) acc attr val.
Proof. revert acc attr val. unfold user_step. step_table. Qed.

Lemma group_step_table acc attr val :
  group_step acc attr val
  = scan_step (λ k, key_is k "groupname") (table_tr group_table) acc attr val.
Proof. revert acc attr val. unfold group_step. step_table. Qed.

Definition mount_table : list row :=
  [("dev", ("device", keep)); ("filesystem", ("fstype", keep));
   ("args", ("opts", keep))].

(** Away from [dump] and [passno] the body of the mount loop is the scan
    of its table. *)
Lemma mount_param_table acc attr val :
  key_in attr ["dump"; "passno"] = false →
  mount_param acc attr val
  = Ok (scan_step (λ k, key_is k "path") (table_tr mount_table) acc attr val).
Proof.
  revert acc attr val. unfold mount_param.
  intros [addin name] attr val; unfold scan_step, table_tr; cbn [fst snd].
  destruct attr as [| | |s]; [done..|]; cbn [key_is key_in].
  intros Hk%bool_decide_eq_false.
  repeat (case_bool_decide; simplify_eq/=; try done); destruct Hk; compute_done.
Qed.

(** ** The handlers keep values well formed *)

Section sys_wf.
Context `{PyRepr}.

Lemma sys_cron_wf : handler_wf _sys_cron.
Proof. apply shared_contract_handler_wf. unfold cron_step. body_wf. Qed.

Lemma sys_user_wf : handler_wf _sys_user.
Proof. apply shared_contract_handler_wf. unfold user_step. body_wf. Qed.

Lemma sys_group_wf : handler_wf _sys_group.
Proof. apply shared_contract_handler_wf. unfold group_step. body_wf. Qed.

Lemma sys_mount_wf : handler_wf _sys_mount.
Proof. apply shared_contract_handler_wf. unfold mount_param. body_wf. Qed.

Lemma sys_hostname_wf : handler_wf _sys_hostname.
Proof.
  intros p_state uid step r Hwf. unfold _sys_hostname.
  destruct (missing_parameter p_state); [by intros [= <-]|].
  destruct (state_check_fails _ _); [by intros [= <-]|].
  intros (param & Hp & (host & Hh & (ip & _ & Hr)%bind_Ok_inv)%bind_Ok_inv)%bind_Ok_inv.
  apply bind_Ok_inv in Hr as ([addin host'] & Hloop & Hr).
  destruct (no_params _ _); [by injection Hr as <-|].
  apply bind_Ok_inv in Hr as (tag & _ & [= <-]).
  apply value_wf_state_record.
  apply (for_params_wf (λ acc, value_wf (VDict acc.1)) p_state
           (λ acc attr val, Ok (hostname_step acc attr val)) ([], host)
           (addin, host')); [|done|apply value_wf_dict_nil|done].
  unfold hostname_step. body_wf.
Qed.

Lemma sys_hosts_wf : handler_wf _sys_hosts.
Proof.
  intros p_state uid step r Hwf. unfold _sys_hosts.
  destruct (missing_parameter p_state); [by intros [= <-]|].
  destruct (state_check_fails _ _); [by intros [= <-]|].
  intros (param & Hp & (content & Hc & Hr)%bind_Ok_inv)%bind_Ok_inv.
  destruct (negb _); [by injection Hr as <-|].
  apply bind_Ok_inv in Hr as (tag & _ & Hr).
  apply bind_Ok_inv in Hr as (param' & Hp' & (contents & Hc' & [= <-])%bind_Ok_inv).
  apply value_wf_state_record, value_wf_dict. split; [compute_done|].
  repeat first [apply Forall_nil_2|apply Forall_cons_2]; try done.
  eauto using value_wf_getitem_str.
Qed.

Lemma sys_ntp_wf : handler_wf _sys_ntp.
Proof.
  intros p_state uid step r _. unfold _sys_ntp.
  repeat case_match; by intros [= <-].
Qed.

Lemma sys_selinux_wf : handler_wf _sys_selinux.
Proof.
  intros p_state uid step r _. unfold _sys_selinux.
  repeat case_match; by intros [= <-].
Qed.

End sys_wf.

(** ** Properties of the system handlers *)

Section sys_properties.
Context `{PyRepr}.
Implicit Types (d items : dict) (module uid step c : value).

(** C11.  A cron step with pairwise different parameters and a truthy
    [cmd] compiles to one record of kind [cron] in condition [present]: its
    tag is built from the command, its [name] is the command, [minute],
    [hour] and [month] are copied, [day of month] becomes [daymonth], [day of
    week] becomes [dayweek] and [username] becomes [user], each when the
    parameter is truthy, and the record has no other attribute. *)
Theorem sys_cron_record d items module uid step c :
  step_ok d items module →
  uid_clash uid step = false →
  dict_wf items →
  (KStr "cmd", c) ∈ items → truthy c = true →
  ∃ addin,
    _sys_cron (VDict d) uid step
    = Ok (state_record (KStr (tag_spec module uid step c (VStr "present")))
            "cron" "present" addin)
    ∧ dict_get (KStr "name") addin = Some c
    ∧ (∀ src dst conv, (src, (dst, conv)) ∈ cron_table →
         dict_get (KStr dst) addin
         = conv <$> dict_get (KStr src) (truthy_items items))
    ∧ (∀ k v, dict_get k addin = Some v →
         k = KStr "name"
         ∨ ∃ src dst conv, (src, (dst, conv)) ∈ cron_table ∧ k = KStr dst).
Proof.
  intros Hok Hc Hwf Hin Ht.
  apply (table_handler_record "sys" "cron" "cron" "present" "cmd" cron_table
           (λ acc attr val, Ok (cron_step acc attr val)));
    [compute_done|done|intros acc kv _; by rewrite cron_step_table|done..].
Qed.

(** A user step with pairwise different parameters and a truthy
    [username] compiles to one record of kind [user] in condition
    [present], named by the user name, with the password, the full name,
    the uid, the gid, the shell, the home and the groups copied when truthy,
    and nothing else. *)
Theorem sys_user_record d items module uid step c :
  step_ok d items module →
  uid_clash uid step = false →
  dict_wf items →
  (KStr "username", c) ∈ items → truthy c = true →
  ∃ addin,
    _sys_user (VDict d) uid step
    = Ok (state_record (KStr (tag_spec module uid step c (VStr "present")))
            "user" "present" addin)
    ∧ dict_get (KStr "name") addin = Some c
    ∧ (∀ src dst conv, (src, (dst, conv)) ∈ user_table →
         dict_get (KStr dst) addin
         = conv <$> dict_get (KStr src) (truthy_items items))
    ∧ (∀ k v, dict_get k addin = Some v →
         k = KStr "name"
         ∨ ∃ src dst conv, (src, (dst, conv)) ∈ user_table ∧ k = KStr dst).
Proof.
  intros Hok Hc Hwf Hin Ht.
  apply (table_handler_record "sys" "mount" "user" "present" "username" user_table
           (λ acc attr val, Ok (user_step acc attr val)));
    [compute_done|done|intros acc kv _; by rewrite user_step_table|done..].
Qed.

(** A group step with pairwise different parameters and a truthy
    [groupname] compiles to one record of kind [group] in condition
    [present], named by the group name, with the gid copied and [system
    group] stored under [system] as the boolean that says whether it is the
    string [True]. *)
Theorem sys_group_record d items module uid step c :
  step_ok d items module →
  uid_clash uid step = false →
  dict_wf items →
  (KStr "groupname", c) ∈ items → truthy c = true →
  ∃ addin,
    _sys_group (VDict d) uid step
    = Ok (state_record (KStr (tag_spec module uid step c (VStr "present")))
            "group" "present" addin)
    ∧ dict_get (KStr "name") addin = Some c
    ∧ (∀ src dst conv, (src, (dst, conv)) ∈ group_table →
         dict_get (KStr dst) addin
         = conv <$> dict_get (KStr src) (truthy_items items))
    ∧ (∀ k v, dict_get k addin = Some v →
         k = KStr "name"
         ∨ ∃ src dst conv, (src, (dst, conv)) ∈ group_table ∧ k = KStr dst).
Proof.
  intros Hok Hc Hwf Hin Ht.
  apply (table_handler_record "sys" "group" "group" "present" "groupname" group_table
           (λ acc attr val, Ok (group_step acc attr val)));
    [compute_done|done|intros acc kv _; by rewrite group_step_table|done..].
Qed.

(** The hostname handler raises on every step that has
    parameters, unless the step has a key that is the empty string: it
    subscripts the step with [''] before it looks at the parameters. *)
Theorem sys_hostname_raises d uid step :
  missing_parameter (VDict d) = false →
  dict_get (KStr "") d = None →
  is_Raise (_sys_hostname (VDict d) uid step).
Proof.
  intros Hp He. unfold _sys_hostname. rewrite Hp.
  change (state_check_fails "sys" "host") with false. cbv iota.
  destruct (getitem_str (VDict d) "parameter") as [param|e]; [|by eexists].
  rewrite bind_Ok.
  destruct (getitem_str param "hostname") as [host|e]; [|by eexists].
  rewrite bind_Ok, getitem_str_dict, He. by eexists.
Qed.

(** A hosts step with a truthy [content] compiles to one managed
    file record for [/etc/hosts], owned by root, mode 0644, with the content
    under [contents]; a falsy [content] gives the error code 3. *)
Theorem sys_hosts_record d items module uid step content :
  step_ok d items module →
  uid_clash uid step = false →
  dict_get (KStr "content") items = Some content →
  _sys_hosts (VDict d) uid step
  = if truthy content then
      Ok (state_record
            (KStr (tag_spec (VStr "path.file") uid step (VStr "/etc/hosts")
                     (VStr "managed")))
            "file" "managed"
            [(KStr "name", VStr "/etc/hosts"); (KStr "user", VStr "root");
             (KStr "group", VStr "root"); (KStr "mode", VStr "0644");
             (KStr "contents", content)])
    else Ok err_missing_field.
Proof.
  intros Hok Hc Hcontent. unfold _sys_hosts.
  rewrite (step_ok_parameter _ _ _ Hok).
  change (state_check_fails "sys" "host") with false. cbv iota.
  destruct Hok as [Hp _]. rewrite !getitem_str_dict, Hp. cbn [of_option].
  rewrite !bind_Ok, getitem_str_dict, Hcontent. cbn [of_option]. rewrite bind_Ok.
  destruct (truthy content); [|done]. cbn [negb].
  rewrite get_tag_no_clash, !bind_Ok, getitem_str_dict, Hcontent by done.
  done.
Qed.

(** A mount step with pairwise different parameters, a truthy
    [path] and neither [dump] nor [passno] compiles to one record of kind
    [mount] in condition [mounted], named by the path, with [dev] under
    [device], [filesystem] under [fstype] and [args] under [opts]. *)
Theorem sys_mount_record d items module uid step c :
  step_ok d items module →
  uid_clash uid step = false →
  dict_wf items →
  Forall (λ k, dict_get (KStr k) (truthy_items items) = None) ["dump"; "passno"] →
  (KStr "path", c) ∈ items → truthy c = true →
  ∃ addin,
    _sys_mount (VDict d) uid step
    = Ok (state_record (KStr (tag_spec module uid step c (VStr "mounted")))
            "mount" "mounted" addin)
    ∧ dict_get (KStr "name") addin = Some c
    ∧ (∀ src dst conv, (src, (dst, conv)) ∈ mount_table →
         dict_get (KStr dst) addin
         = conv <$> dict_get (KStr src) (truthy_items items))
    ∧ (∀ k v, dict_get k addin = Some v →
         k = KStr "name"
         ∨ ∃ src dst conv, (src, (dst, conv)) ∈ mount_table ∧ k = KStr dst).
Proof.
  intros Hok Hc Hwf Hnum Hin Ht.
  apply (table_handler_record "sys" "mount" "mount" "mounted" "path" mount_table
           mount_param); [compute_done|done| |done..].
  intros acc [k v] Hkv. apply mount_param_table. apply not_true_iff_false.
  cbn [fst]. intros (s & -> & Hs)%key_in_true. rewrite !Forall_cons in Hnum.
  destruct Hnum as (Hd & Hp & _).
  elem_of_cases Hs;
    [by apply (dict_get_None_elem_of _ v _ Hd)|by apply (dict_get_None_elem_of _ v _ Hp)].
Qed.

(** A mount step with a truthy [dump] or [passno] raises
    [NameError]: the conversion of the two numbers calls [atoi], which the
    module never binds. *)
Theorem sys_mount_numbers_raise d items module uid step k v :
  step_ok d items module →
  k ∈ ["dump"; "passno"] →
  (KStr k, v) ∈ items → truthy v = true →
  _sys_mount (VDict d) uid step = Raise NameError.
Proof.
  intros Hok Hk Hin Hv. unfold _sys_mount. rewrite (step_ok_parameter _ _ _ Hok).
  change (state_check_fails "sys" "mount") with false. cbv iota.
  destruct Hok as [Hp _]. rewrite (for_params_dict _ _ _ _ Hp).
  rewrite (foldM_raises _ _ NameError _ (KStr k, v)); [done|..].
  - by apply elem_of_truthy_items.
  - intros [addin mount]. by elem_of_cases Hk.
  - intros [addin mount] [attr val] _. unfold mount_param.
    repeat (case_match; eauto with py).
Qed.

(** The ntp and selinux handlers validate and build nothing: on
    every step with parameters they return [None]. *)
Theorem sys_ntp_selinux_none p_state uid step :
  missing_parameter p_state = false →
  _sys_ntp p_state uid step = Ok VNone ∧ _sys_selinux p_state uid step = Ok VNone.
Proof. intros Hp. unfold _sys_ntp, _sys_selinux. by rewrite Hp. Qed.

End sys_properties.

(** ** The handlers at concrete steps *)

Definition ex_sys_step (module : string) (params : dict) : dict :=
  [(KStr "module", VStr module); (KStr "stateid", VStr "1");
   (KStr "parameter", VDict params)].

Definition ex_cron_params : dict :=
  [(KStr "cmd", VStr "/usr/bin/backup"); (KStr "minute", VStr "0");
   (KStr "day of week", VStr "1"); (KStr "username", VStr "root");
   (KStr "hour", VStr "")].

Lemma sys_cron_record_witness :
  ∃ addin,
    _sys_cron (H:=repr_elided) (VDict (ex_sys_step "sys.cron" ex_cron_params))
      (VStr "web") (VStr "1")
    = Ok (state_record (KStr "_web_1_sys_cron_/usr/bin/backup_present") "cron"
            "present" addin)
    ∧ dict_get (KStr "name") addin = Some (VStr "/usr/bin/backup")
    ∧ (∀ src dst conv, (src, (dst, conv)) ∈ cron_table →
         dict_get (KStr dst) addin
         = conv <$> dict_get (KStr src) (truthy_items ex_cron_params))
    ∧ (∀ k v, dict_get k addin = Some v →
         k = KStr "name"
         ∨ ∃ src dst conv, (src, (dst, conv)) ∈ cron_table ∧ k = KStr dst).
Proof.
  apply (sys_cron_record (H:=repr_elided) _ ex_cron_params (VStr "sys.cron")
           (VStr "web") (VStr "1") (VStr "/usr/bin/backup"));
    [done|done|compute_done|compute_done|done].
Defined.

Lemma sys_user_record_witness :
  let params := [(KStr "username", VStr "deploy"); (KStr "shell", VStr "/bin/sh")] in
  ∃ addin,
    _sys_user (H:=repr_elided) (VDict (ex_sys_step "sys.user" params))
      (VStr "web") (VStr "1")
    = Ok (state_record (KStr "_web_1_sys_user_deploy_present") "user" "present"
            addin)
    ∧ dict_get (KStr "name") addin = Some (VStr "deploy")
    ∧ (∀ src dst conv, (src, (dst, conv)) ∈ user_table →
         dict_get (KStr dst) addin
         = conv <$> dict_get (KStr src) (truthy_items params))
    ∧ (∀ k v, dict_get k addin = Some v →
         k = KStr "name"
         ∨ ∃ src dst conv, (src, (dst, conv)) ∈ user_table ∧ k = KStr dst).
Proof.
  apply (sys_user_record (H:=repr_elided) _
           [(KStr "username", VStr "deploy"); (KStr "shell", VStr "/bin/sh")]
           (VStr "sys.user") (VStr "web") (VStr "1") (VStr "deploy"));
    [done|done|compute_done|compute_done|done].
Defined.

Lemma sys_group_record_witness :
  let params := [(KStr "groupname", VStr "ops"); (KStr "system group", VStr "True")] in
  ∃ addin,
    _sys_group (H:=repr_elided) (VDict (ex_sys_step "sys.group" params))
      (VStr "web") (VStr "1")
    = Ok (state_record (KStr "_web_1_sys_group_ops_present") "group" "present"
            addin)
    ∧ dict_get (KStr "name") addin = Some (VStr "ops")
    ∧ (∀ src dst conv, (src, (dst, conv)) ∈ group_table →
         dict_get (KStr dst) addin
         = conv <$> dict_get (KStr src) (truthy_items params))
    ∧ (∀ k v, dict_get k addin = Some v →
         k = KStr "name"
         ∨ ∃ src dst conv, (src, (dst, conv)) ∈ group_table ∧ k = KStr dst).
Proof.
  apply (sys_group_record (H:=repr_elided) _
           [(KStr "groupname", VStr "ops"); (KStr "system group", VStr "True")]
           (VStr "sys.group") (VStr "web") (VStr "1") (VStr "ops"));
    [done|done|compute_done|compute_done|done].
Defined.

Lemma sys_hostname_raises_witness :
  is_Raise (_sys_hostname
              (VDict (ex_sys_step "sys.hostname"
                        [(KStr "hostname", VStr "db1"); (KStr "ip", VStr "10.0.0.1")]))
              (VStr "web") (VStr "1")).
Proof. by apply sys_hostname_raises. Defined.

Lemma sys_hosts_record_witness :
  _sys_hosts (H:=repr_elided)
    (VDict (ex_sys_step "sys.hosts" [(KStr "content", VStr "127.0.0.1 localhost")]))
    (VStr "web") (VStr "1")
  = Ok (state_record (KStr "_web_1_path_file_/etc/hosts_managed") "file" "managed"
          [(KStr "name", VStr "/etc/hosts"); (KStr "user", VStr "root");
           (KStr "group", VStr "root"); (KStr "mode", VStr "0644");
           (KStr "contents", VStr "127.0.0.1 localhost")]).
Proof.
  by apply (sys_hosts_record (H:=repr_elided) _
              [(KStr "content", VStr "127.0.0.1 localhost")] (VStr "sys.hosts")
              (VStr "web") (VStr "1") (VStr "127.0.0.1 localhost")).
Defined.

Lemma sys_mount_record_witness :
  let params := [(KStr "path", VStr "/data"); (KStr "dev", VStr "/dev/sdb1");
                 (KStr "filesystem", VStr "ext4")] in
  ∃ addin,
    _sys_mount (H:=repr_elided) (VDict (ex_sys_step "sys.mount" params))
      (VStr "web") (VStr "1")
    = Ok (state_record (KStr "_web_1_sys_mount_/data_mounted") "mount" "mounted"
            addin)
    ∧ dict_get (KStr "name") addin = Some (VStr "/data")
    ∧ (∀ src dst conv, (src, (dst, conv)) ∈ mount_table →
         dict_get (KStr dst) addin
         = conv <$> dict_get (KStr src) (truthy_items params))
    ∧ (∀ k v, dict_get k addin = Some v →
         k = KStr "name"
         ∨ ∃ src dst conv, (src, (dst, conv)) ∈ mount_table ∧ k = KStr dst).
Proof.
  apply (sys_mount_record (H:=repr_elided) _
           [(KStr "path", VStr "/data"); (KStr "dev", VStr "/dev/sdb1");
            (KStr "filesystem", VStr "ext4")]
           (VStr "sys.mount") (VStr "web") (VStr "1") (VStr "/data"));
    [done|done|compute_done|by repeat constructor|compute_done|done].
Defined.

Lemma sys_mount_numbers_raise_witness :
  _sys_mount (H:=repr_elided)
    (VDict (ex_sys_step "sys.mount"
              [(KStr "path", VStr "/data"); (KStr "dev", VStr "/dev/sdb1");
               (KStr "dump", VStr "0")]))
    (VStr "web") (VStr "1")
  = Raise NameError.
Proof.
  apply (sys_mount_numbers_raise (H:=repr_elided) _
           [(KStr "path", VStr "/data"); (KStr "dev", VStr "/dev/sdb1");
            (KStr "dump", VStr "0")] (VStr "sys.mount") (VStr "web") (VStr "1")
           "dump" (VStr "0")); [done|compute_done|compute_done|done].
Defined.

Lemma sys_ntp_selinux_none_witness :
  let p := VDict (ex_sys_step "sys.ntp" [(KStr "server", VStr "pool.ntp.org")]) in
  _sys_ntp p (VStr "web") (VStr "1") = Ok VNone
  ∧ _sys_selinux p (VStr "web") (VStr "1") = Ok VNone.
Proof. by apply sys_ntp_selinux_none. Defined.
