(* ===== verification/Ssh.v ===== *)
(** * SSH authorized keys and known hosts

    [_system_ssh_auth] and [_system_ssh_known_host] of [StatePreparation]
    (src/POCs/salt/statepreparation.py).  Both test the key type against
    [ssh_key_type], which is an attribute of the class and not a name the
    method can read. *)

From Stdlib Require Import Ascii.
From stdpp Require Import base tactics option strings numbers pretty list.
From S2P Require Import Prelude PyStrings PyValue PyOps Tag StateCheck Handler Scan Table.

#[local] Open Scope string_scope.
#[local] Open Scope list_scope.

(** The bodies of the loops: [value in ssh_key_type] raises before
    anything is stored. *)
Definition ssh_auth_param (acc : dict * value) (attr : key) (val : value)
    : result (dict * value) :=
  let '(addin, authname) := acc in
  if key_is attr "authname" then Ok (dict_set (KStr "name") val addin, val)
  else if key_is attr "username" then
    Ok (dict_set (KStr "user") val addin, authname)
  else if key_is attr "filename" then
    Ok (dict_set (KStr "config") val addin, authname)
  else if key_is attr "encrypt_algorithm" then Raise NameError
  else Ok acc.

Definition ssh_known_host_param (acc : dict * value) (attr : key) (val : value)
    : result (dict * value) :=
  let '(addin, known_hosts) := acc in
  if key_is attr "hostname" then Ok (dict_set (KStr "name") val addin, val)
  else if key_is attr "username" then
    Ok (dict_set (KStr "user") val addin, known_hosts)
  else if key_is attr "filename" then
    Ok (dict_set (KStr "config") val addin, known_hosts)
  else if key_is attr "fingerprint" then
    Ok (dict_set attr val addin, known_hosts)
  else if key_is attr "encrypt_algorithm" then Raise NameError
  else Ok acc.

Section ssh.
Context `{PyRepr}.

Definition _system_ssh_auth : handler := λ p_state uid step,
  if missing_parameter p_state then Ok err_malformed else
  if state_check_fails "sys" "ssh_auth" then Ok err_unsupported else
  '(addin, authname) ← for_params p_state ssh_auth_param ([], VNone);
  emit p_state uid step "ssh_auth" "present" addin authname.

Definition _system_ssh_known_host : handler := λ p_state uid step,
  if missing_parameter p_state then Ok err_malformed else
  if state_check_fails "sys" "ssh_known_hosts" then Ok err_unsupported else
  '(addin, known_hosts) ← for_params p_state ssh_known_host_param ([], VNone);
  emit p_state uid step "ssh_known_hosts" "present" addin known_hosts.

End ssh.

(** ** The tables *)

Definition ssh_auth_table : list row :=
  [("username", ("user", keep)); ("filename", ("config", keep))].

Definition ssh_known_host_table : list row :=
  [("username", ("user", keep)); ("filename", ("config", keep));
   ("fingerprint", ("fingerprint", keep))].

Lemma ssh_auth_param_table acc attr val :
  key_is attr "encrypt_algorithm" = false →
  ssh_auth_param acc attr val
  = Ok (scan_step (λ k, key_is k "authname") (table_tr ssh_auth_table)
          acc attr val).
Proof.
  revert acc attr val. unfold ssh_auth_param.
  intros [addin name] attr val; unfold scan_step, table_tr; cbn [fst snd].
  destruct attr as [| | |s]; [done..|]; cbn [key_is key_in].
  intros Hk%bool_decide_eq_false.
  by repeat (case_bool_decide; simplify_eq/=; try done).
Qed.

Lemma ssh_known_host_param_table acc attr val :
  key_is attr "encrypt_algorithm" = false →
  ssh_known_host_param acc attr val
  = Ok (scan_step (λ k, key_is k "hostname") (table_tr ssh_known_host_table)
          acc attr val).
Proof.
  revert acc attr val. unfold ssh_known_host_param.
  intros [addin name] attr val; unfold scan_step, table_tr; cbn [fst snd].
  destruct attr as [| | |s]; [done..|]; cbn [key_is key_in].
  intros Hk%bool_decide_eq_false.
  by repeat (case_bool_decide; simplify_eq/=; try done).
Qed.

(** The bodies raise nothing but [NameError]. *)
Lemma ssh_auth_param_cases acc attr val :
  is_Ok (ssh_auth_param acc attr val) ∨ ssh_auth_param acc attr val = Raise NameError.
Proof.
  destruct acc as [addin name]. unfold ssh_auth_param.
  repeat (case_match; eauto with py).
Qed.

Lemma ssh_known_host_param_cases acc attr val :
  is_Ok (ssh_known_host_param acc attr val)
  ∨ ssh_known_host_param acc attr val = Raise NameError.
Proof.
  destruct acc as [addin name]. unfold ssh_known_host_param.
  repeat (case_match; eauto with py).
Qed.

Section ssh_wf.
Context `{PyRepr}.

Lemma system_ssh_auth_wf : handler_wf _system_ssh_auth.
Proof. apply shared_contract_handler_wf. unfold ssh_auth_param. body_wf. Qed.

Lemma system_ssh_known_host_wf : handler_wf _system_ssh_known_host.
Proof.
  apply shared_contract_handler_wf. unfold ssh_known_host_param. body_wf.
Qed.

End ssh_wf.

(** ** Properties of the SSH handlers *)

Section ssh_properties.
Context `{PyRepr}.
Implicit Types (d items : dict) (module uid step c v : value).

(** A step of either SSH handler with a truthy
    [encrypt_algorithm] raises [NameError]: the allow-list of key types is
    never consulted, and the key type is never stored. *)
Theorem ssh_encrypt_algorithm_raises d items module uid step v :
  step_ok d items module →
  (KStr "encrypt_algorithm", v) ∈ items → truthy v = true →
  _system_ssh_auth (VDict d) uid step = Raise NameError
  ∧ _system_ssh_known_host (VDict d) uid step = Raise NameError.
Proof.
  intros Hok Hin Hv. unfold _system_ssh_auth, _system_ssh_known_host.
  rewrite (step_ok_parameter _ _ _ Hok).
  change (state_check_fails "sys" "ssh_auth") with false.
  change (state_check_fails "sys" "ssh_known_hosts") with false. cbv iota.
  destruct Hok as [Hp _]. rewrite !(for_params_dict _ _ _ _ Hp).
  assert ((KStr "encrypt_algorithm", v) ∈ truthy_items items) as Hin'
    by by apply elem_of_truthy_items.
  split; rewrite (foldM_raises _ _ NameError _ _ Hin'); try done.
  - by intros [??].
  - intros acc [attr val] _. apply ssh_auth_param_cases.
  - by intros [??].
  - intros acc [attr val] _. apply ssh_known_host_param_cases.
Qed.

(** C12.  An authorized-key step with pairwise different parameters, a
    truthy [authname] and no [encrypt_algorithm] compiles to one record of
    kind [ssh_auth] in condition [present], named by the [authname], with
    [username] under [user] and [filename] under [config]. *)
Theorem ssh_auth_record d items module uid step c :
  step_ok d items module →
  uid_clash uid step = false →
  dict_wf items →
  dict_get (KStr "encrypt_algorithm") (truthy_items items) = None →
  (KStr "authname", c) ∈ items → truthy c = true →
  ∃ addin,
    _system_ssh_auth (VDict d) uid step
    = Ok (state_record (KStr (tag_spec module uid step c (VStr "present")))
            "ssh_auth" "present" addin)
    ∧ dict_get (KStr "name") addin = Some c
    ∧ (∀ src dst conv, (src, (dst, conv)) ∈ ssh_auth_table →
         dict_get (KStr dst) addin
         = conv <$> dict_get (KStr src) (truthy_items items))
    ∧ (∀ k v, dict_get k addin = Some v →
         k = KStr "name"
         ∨ ∃ src dst conv, (src, (dst, conv)) ∈ ssh_auth_table ∧ k = KStr dst).
Proof.
  intros Hok Hc Hwf Henc Hin Ht.
  apply (table_handler_record "sys" "ssh_auth" "ssh_auth" "present" "authname"
           ssh_auth_table ssh_auth_param); [compute_done|done| |done..].
  intros acc [k v] Hkv. apply ssh_auth_param_table. apply not_true_iff_false.
  cbn [fst]. intros ->%key_is_true. by apply (dict_get_None_elem_of _ v _ Henc).
Qed.

(** A known-host step with pairwise different parameters, a
    truthy [hostname] and no [encrypt_algorithm] compiles to one record of
    kind [ssh_known_hosts] in condition [present], named by the host, with
    [username] under [user], [filename] under [config] and the
    [fingerprint]. *)
Theorem ssh_known_host_record d items module uid step c :
  step_ok d items module →
  uid_clash uid step = false →
  dict_wf items →
  dict_get (KStr "encrypt_algorithm") (truthy_items items) = None →
  (KStr "hostname", c) ∈ items → truthy c = true →
  ∃ addin,
    _system_ssh_known_host (VDict d) uid step
    = Ok (state_record (KStr (tag_spec module uid step c (VStr "present")))
            "ssh_known_hosts" "present" addin)
    ∧ dict_get (KStr "name") addin = Some c
    ∧ (∀ src dst conv, (src, (dst, conv)) ∈ ssh_known_host_table →
         dict_get (KStr dst) addin
         = conv <$> dict_get (KStr src) (truthy_items items))
    ∧ (∀ k v, dict_get k addin = Some v →
         k = KStr "name"
         ∨ ∃ src dst conv,
             (src, (dst, conv)) ∈ ssh_known_host_table ∧ k = KStr dst).
Proof.
  intros Hok Hc Hwf Henc Hin Ht.
  apply (table_handler_record "sys" "ssh_known_hosts" "ssh_known_hosts" "present"
           "hostname" ssh_known_host_table ssh_known_host_param);
    [compute_done|done| |done..].
  intros acc [k v] Hkv. apply ssh_known_host_param_table.
  apply not_true_iff_false.
  cbn [fst]. intros ->%key_is_true. by apply (dict_get_None_elem_of _ v _ Henc).
Qed.

End ssh_properties.

(** ** The handlers at concrete steps *)

Definition ex_ssh_step (module : string) (params : dict) : dict :=
  [(KStr "module", VStr module); (KStr "stateid", VStr "1");
   (KStr "parameter", VDict params)].

Definition ex_ssh_auth_params : dict :=
  [(KStr "authname", VStr "AAAAB3Nza"); (KStr "username", VStr "deploy");
   (KStr "encrypt_algorithm", VStr "ssh-rsa")].

Lemma ssh_encrypt_algorithm_raises_witness :
  let p := VDict (ex_ssh_step "system.ssh.auth" ex_ssh_auth_params) in
  _system_ssh_auth (H:=repr_elided) p (VStr "web") (VStr "1") = Raise NameError
  ∧ _system_ssh_known_host (H:=repr_elided) p (VStr "web") (VStr "1")
    = Raise NameError.
Proof.
  apply (ssh_encrypt_algorithm_raises (H:=repr_elided) _ ex_ssh_auth_params
           (VStr "system.ssh.auth") (VStr "web") (VStr "1") (VStr "ssh-rsa"));
    [done|compute_done|done].
Defined.

Lemma ssh_auth_record_witness :
  let params := [(KStr "authname", VStr "AAAAB3Nza"); (KStr "username", VStr "deploy")] in
  ∃ addin,
    _system_ssh_auth (H:=repr_elided)
      (VDict (ex_ssh_step "system.ssh.auth" params)) (VStr "web") (VStr "1")
    = Ok (state_record (KStr "_web_1_system_ssh_auth_AAAAB3Nza_present")
            "ssh_auth" "present" addin)
    ∧ dict_get (KStr "name") addin = Some (VStr "AAAAB3Nza")
    ∧ (∀ src dst conv, (src, (dst, conv)) ∈ ssh_auth_table →
         dict_get (KStr dst) addin
         = conv <$> dict_get (KStr src) (truthy_items params))
    ∧ (∀ k v, dict_get k addin = Some v →
         k = KStr "name"
         ∨ ∃ src dst conv, (src, (dst, conv)) ∈ ssh_auth_table ∧ k = KStr dst).
Proof.
  apply (ssh_auth_record (H:=repr_elided) _
           [(KStr "authname", VStr "AAAAB3Nza"); (KStr "username", VStr "deploy")]
           (VStr "system.ssh.auth") (VStr "web") (VStr "1") (VStr "AAAAB3Nza"));
    [done|done|compute_done|done|compute_done|done].
Defined.

Lemma ssh_known_host_record_witness :
  let params := [(KStr "hostname", VStr "github.com");
                 (KStr "fingerprint", VStr "16:27:ac")] in
  ∃ addin,
    _system_ssh_known_host (H:=repr_elided)
      (VDict (ex_ssh_step "system.ssh.known.host" params)) (VStr "web") (VStr "1")
    = Ok (state_record
            (KStr "_web_1_system_ssh_known_host_github.com_present")
            "ssh_known_hosts" "present" addin)
    ∧ dict_get (KStr "name") addin = Some (VStr "github.com")
    ∧ (∀ src dst conv, (src, (dst, conv)) ∈ ssh_known_host_table →
         dict_get (KStr dst) addin
         = conv <$> dict_get (KStr src) (truthy_items params))
    ∧ (∀ k v, dict_get k addin = Some v →
         k = KStr "name"
         ∨ ∃ src dst conv,
             (src, (dst, conv)) ∈ ssh_known_host_table ∧ k = KStr dst).
Proof.
  apply (ssh_known_host_record (H:=repr_elided) _
           [(KStr "hostname", VStr "github.com"); (KStr "fingerprint", VStr "16:27:ac")]
           (VStr "system.ssh.known.host") (VStr "web") (VStr "1")
           (VStr "github.com"));
    [done|done|compute_done|done|compute_done|done].
Defined.
