(* ===== verification/Transfer.v ===== *)
(** * The component and document compiler

    [StatePreparation.transfer] (src/POCs/salt/statepreparation.py): every
    step of every component goes to the handler of its module; the results
    that are a dict or a list are kept under the step's [stateid]; the kept
    results are then appended to [self.states] in the order ["1"], ["2"], ...

    The dispatch table is a parameter of this file: the theorems hold for any
    table of handlers, and [Dispatch] instantiates them with the table of the
    class. *)

From Stdlib Require Import Ascii.
From stdpp Require Import base tactics option strings numbers pretty list.
From S2P Require Import Prelude PyStrings PyValue PyOps Tag StateCheck Handler Package.

#[local] Open Scope string_scope.
#[local] Open Scope list_scope.

(** [self.pre_mapping]: a handler per module name. *)
Abbreviation dispatch := (list (string * handler)).

Fixpoint find_handler (module : string) (pre_mapping : dispatch) : option handler :=
  match pre_mapping with
  | [] => None
  | (m, h) :: rest =>
      if bool_decide (module = m) then Some h else find_handler module rest
  end.

(** [p_state['module'] in self.pre_mapping] with the handler found: the
    module must be hashable; only a string can be a key of the table. *)
Definition lookup_handler (pre_mapping : dispatch) (module : value)
    : result (option handler) :=
  k ← to_key module;
  match k with
  | KStr m => Ok (find_handler m pre_mapping)
  | _ => Ok None
  end.

(** [isinstance(state, dict) or isinstance(state, list)] under [if state]. *)
Definition kept (state : value) : bool :=
  truthy state && (is_dict state || is_list state).

Section transfer.
Variable pre_mapping : dispatch.

(** One iteration of the loop over the steps of a component: [states] after
    the step. *)
Definition transfer_step (uid : value) (states : dict) (p_state : value)
    : result dict :=
  step ← getitem_str p_state "stateid";
  module ← getitem_str p_state "module";
  found ← lookup_handler pre_mapping module;
  match found with
  | Some h =>
      state ← h p_state uid step;
      if kept state then k ← to_key step; Ok (dict_set k state states)
      else Ok states
  | None => Ok states
  end.

(** The loop over [com['state']]. *)
Definition collect_states (uid com : value) : result dict :=
  steps ← getitem_str com "state";
  steps ← py_iter steps;
  foldM (transfer_step uid) steps [].

(** One iteration of the ordering loop: [self.states] after position [i]. *)
Definition order_step (states : dict) (self_states : list value) (i : nat)
    : result (list value) :=
  let step := pretty (S i) in
  state ← of_option KeyError (dict_get (KStr step) states);
  match state with
  | VDict _ => Ok (self_states ++ [state])
  | VList l => Ok (self_states ++ l)
  | _ => Ok self_states
  end.

(** The ordering loop: [for i in range(len(states.keys()))]. *)
Definition order_states (states : dict) (self_states : list value)
    : list value * option exn :=
  fold_exn (keep_on_raise (order_step states)) (seq 0 (length states)) self_states.

(** One iteration of the loop over the components. *)
Definition transfer_component (self_states : list value) (item : key * value)
    : list value * option exn :=
  match collect_states (of_key item.1) item.2 with
  | Ok states => order_states states self_states
  | Raise e => (self_states, Some e)
  end.

(** The whole of [transfer]: [self.states] afterwards, and the list returned
    or the exception raised. *)
Definition transfer (pre_states : value) (self_states : list value)
    : list value * result value :=
  match getitem_str pre_states "component" ≫= py_items with
  | Raise e => (self_states, Raise e)
  | Ok components =>
      match fold_exn transfer_component components self_states with
      | (self_states', None) => (self_states', Ok (VList self_states'))
      | (self_states', Some e) => (self_states', Raise e)
      end
  end.

End transfer.

(** ** The contract of the component compiler

    What spec 4.4 asks: the records of the steps whose handler gave a record
    or a list of records, in ascending [stateid], a list spliced flat. *)

Definition flatten_state (state : value) : list value :=
  match state with
  | VDict _ => [state]
  | VList l => l
  | _ => []
  end.

(** The records at the positions [i+1 .. i+n] of [states], in order. *)
Definition records_at (states : dict) (i : nat) : list value :=
  from_option flatten_state [] (dict_get (KStr (pretty (S i))) states).

Definition ordered_records (states : dict) (i n : nat) : list value :=
  flat_map (records_at states) (seq i n).

(** The kept results are numbered "1" .. "n" without a gap. *)
Definition contiguous (states : dict) : Prop :=
  ∀ i, i < length states → is_Some (dict_get (KStr (pretty (S i))) states).


(** What spec 4.4 asks of a component and of a document, over the results
    that [collect] kept for each component. *)
Definition compile_component (collect : value → value → result dict)
    (item : key * value) : list value :=
  match collect (of_key item.1) item.2 with
  | Ok states => ordered_records states 0 (length states)
  | Raise _ => []
  end.

Definition compile_document (collect : value → value → result dict)
    (components : dict) : list value :=
  flat_map (compile_component collect) components.

(** ** The ordering loop *)

(** What the table finds is an entry of it. *)
Lemma find_handler_elem_of m h (t : dispatch) :
  find_handler m t = Some h → (m, h) ∈ t.
Proof.
  induction t as [|[m' h'] t IH]; simpl; [done|].
  case_bool_decide; [intros [= <-]; subst; left|intros ?; right; auto].
Qed.

(** What holds of every entry holds of what the table finds. *)
Lemma find_handler_Forall (P : string → handler → Prop) (t : dispatch) m h :
  Forall (λ mh, P mh.1 mh.2) t → find_handler m t = Some h → P m h.
Proof.
  intros Ht Hf%find_handler_elem_of.
  by apply (proj1 (Forall_forall _ _) Ht (m, h)).
Qed.

Section order_lemmas.
Implicit Types (states : dict) (acc : list value) (i n m : nat).

Lemma order_step_present states acc i state :
  dict_get (KStr (pretty (S i))) states = Some state →
  order_step states acc i = Ok (acc ++ records_at states i).
Proof.
  intros Hs. unfold order_step, records_at. rewrite Hs. simpl.
  destruct state; simpl; by rewrite ?app_nil_r.
Qed.

Lemma order_step_absent states acc i :
  dict_get (KStr (pretty (S i))) states = None →
  order_step states acc i = Raise KeyError.
Proof. intros Hs. unfold order_step. by rewrite Hs. Qed.

(** Over positions that are all present the loop appends their records. *)
Lemma order_loop_present states acc i n :
  (∀ j, i ≤ j < i + n → is_Some (dict_get (KStr (pretty (S j))) states)) →
  fold_exn (keep_on_raise (order_step states)) (seq i n) acc
  = (acc ++ ordered_records states i n, None).
Proof.
  unfold ordered_records. revert i acc.
  induction n as [|n IH]; intros i acc Hall; simpl; [by rewrite app_nil_r|].
  destruct (Hall i) as [state Hs]; [lia|].
  unfold keep_on_raise at 1. rewrite (order_step_present _ _ _ _ Hs).
  rewrite IH by (intros j ?; apply Hall; lia). by rewrite app_assoc.
Qed.

(** At the first absent position the loop raises [KeyError]; the records of
    the positions before it have been appended. *)
Lemma order_loop_gap states acc i n m :
  (∀ j, i ≤ j < i + m → is_Some (dict_get (KStr (pretty (S j))) states)) →
  dict_get (KStr (pretty (S (i + m)))) states = None →
  m < n →
  fold_exn (keep_on_raise (order_step states)) (seq i n) acc
  = (acc ++ ordered_records states i m, Some KeyError).
Proof.
  intros Hall Hgap Hm. replace n with (m + S (n - S m)) by lia.
  rewrite seq_app, fold_exn_app, order_loop_present by done.
  simpl. unfold keep_on_raise at 1. by rewrite order_step_absent.
Qed.

Lemma order_states_contiguous states acc :
  contiguous states →
  order_states states acc = (acc ++ ordered_records states 0 (length states), None).
Proof.
  intros Hc. apply order_loop_present. intros j ?. apply Hc. lia.
Qed.

Lemma order_states_gap states acc m :
  (∀ j, j < m → is_Some (dict_get (KStr (pretty (S j))) states)) →
  dict_get (KStr (pretty (S m))) states = None →
  m < length states →
  order_states states acc = (acc ++ ordered_records states 0 m, Some KeyError).
Proof.
  intros Hall Hgap Hm. apply order_loop_gap; [|done..].
  intros j ?. apply Hall. lia.
Qed.

(** [self.states] only grows. *)
Lemma order_states_prefix states acc : acc `prefix_of` (order_states states acc).1.
Proof.
  apply (fold_exn_invariant prefix). intros s i. unfold keep_on_raise, order_step.
  destruct (dict_get _ _) as [[| | | | |]|]; simpl;
    by (done || apply prefix_app_r).
Qed.
End order_lemmas.

(** ** The loops over steps and components *)

Section transfer_lemmas.
Variable pre_mapping : dispatch.
Implicit Types (states : dict) (acc : list value) (components : dict).

(** Every component collects its results and numbers them without a gap. *)
Definition well_numbered (components : dict) : Prop :=
  Forall (λ item, ∃ states,
            collect_states pre_mapping (of_key item.1) item.2 = Ok states ∧
            contiguous states) components.

Lemma transfer_components_ok components acc :
  well_numbered components →
  fold_exn (transfer_component pre_mapping) components acc
  = (acc ++ compile_document (collect_states pre_mapping) components, None).
Proof.
  intros Hw. revert acc. unfold compile_document.
  induction Hw as [|item components (states & Hs & Hc) _ IH]; intros acc; simpl.
  - by rewrite app_nil_r.
  - unfold transfer_component at 1, compile_component at 1. rewrite Hs.
    rewrite order_states_contiguous, IH by done. by rewrite app_assoc.
Qed.

Lemma transfer_component_prefix acc item :
  acc `prefix_of` (transfer_component pre_mapping acc item).1.
Proof.
  unfold transfer_component. destruct (collect_states _ _ _); [|done].
  apply order_states_prefix.
Qed.

(** The step of an unknown module leaves [states] as it is. *)
Lemma transfer_step_unknown uid states d step m :
  dict_get (KStr "stateid") d = Some step →
  dict_get (KStr "module") d = Some (VStr m) →
  find_handler m pre_mapping = None →
  transfer_step pre_mapping uid states (VDict d) = Ok states.
Proof.
  intros Hs Hm Hf. unfold transfer_step. simpl. rewrite Hs, Hm. simpl.
  by rewrite Hf.
Qed.

(** The step of a known module: the handler's result decides. *)
Lemma transfer_step_known uid states d step m h :
  dict_get (KStr "stateid") d = Some step →
  dict_get (KStr "module") d = Some (VStr m) →
  find_handler m pre_mapping = Some h →
  transfer_step pre_mapping uid states (VDict d) =
  state ← h (VDict d) uid step;
  if kept state then k ← to_key step; Ok (dict_set k state states)
  else Ok states.
Proof.
  intros Hs Hm Hf. unfold transfer_step. simpl. rewrite Hs, Hm. simpl.
  by rewrite Hf.
Qed.

(** The handler of a step raises, and the steps before it were collected:
    the loop over the steps raises, whatever was collected. *)
Lemma collect_states_raises uid com pre p post states step m h e :
  dict_get (KStr "state") com = Some (VList (pre ++ VDict p :: post)) →
  foldM (transfer_step pre_mapping uid) pre [] = Ok states →
  dict_get (KStr "stateid") p = Some step →
  dict_get (KStr "module") p = Some (VStr m) →
  find_handler m pre_mapping = Some h →
  h (VDict p) uid step = Raise e →
  collect_states pre_mapping uid (VDict com) = Raise e.
Proof.
  intros Hst Hpre Hs Hm Hf He. unfold collect_states. simpl. rewrite Hst. simpl.
  rewrite foldM_app, Hpre. simpl.
  by rewrite (transfer_step_known _ _ _ _ _ _ Hs Hm Hf), He.
Qed.

(** The components before the first one that fails are compiled, and the
    failing one decides how [transfer] ends. *)
Lemma transfer_fails_at d before item after acc s e :
  dict_get (KStr "component") d = Some (VDict (before ++ item :: after)) →
  well_numbered before →
  transfer_component pre_mapping
    (acc ++ compile_document (collect_states pre_mapping) before) item
  = (s, Some e) →
  transfer pre_mapping (VDict d) acc = (s, Raise e).
Proof.
  intros Hc Hw Hi. unfold transfer. simpl. rewrite Hc. simpl.
  rewrite fold_exn_app, transfer_components_ok by done.
  cbn [fold_exn]. by rewrite Hi.
Qed.

(** A dict that does not hold the key [s] itself has nothing at [s]: no
    other key compares equal to a string. *)
Lemma dict_get_str_None s states :
  Forall (λ kv, kv.1 ≠ KStr s) states → dict_get (KStr s) states = None.
Proof.
  induction 1 as [|[k v] states Hk _ IH]; simpl; [done|].
  rewrite IH. simpl in Hk. destruct k as [|b|z|t]; try done.
  rewrite key_eqb_str, bool_decide_eq_false_2; [done|congruence].
Qed.

End transfer_lemmas.

(** ** Well-formed records

    When every handler of the table keeps values well formed, so does the
    compiler. *)

Section transfer_wf.
Variable pre_mapping : dispatch.
Hypothesis Htable : ∀ m h, find_handler m pre_mapping = Some h → handler_wf h.
Implicit Types (states : dict) (acc : list value).

Lemma lookup_handler_wf module h :
  lookup_handler pre_mapping module = Ok (Some h) → handler_wf h.
Proof.
  unfold lookup_handler. intros (k & _ & Hl)%bind_Ok_inv.
  destruct k; try done. injection Hl as Hl. by eapply Htable.
Qed.

Lemma transfer_step_wf uid states p_state states' :
  value_wf p_state → value_wf (VDict states) →
  transfer_step pre_mapping uid states p_state = Ok states' →
  value_wf (VDict states').
Proof.
  intros Hp Hs. unfold transfer_step. intros Hr.
  apply bind_Ok_inv in Hr as (step & _ & Hr).
  apply bind_Ok_inv in Hr as (module & _ & Hr).
  apply bind_Ok_inv in Hr as (found & Hf & Hr).
  destruct found as [h|]; [|by injection Hr as <-].
  apply bind_Ok_inv in Hr as (state & Hh & Hr).
  destruct (kept state); [|by injection Hr as <-].
  apply bind_Ok_inv in Hr as (k & _ & [= <-]).
  apply value_wf_dict_set; [|done].
  apply (lookup_handler_wf _ _ Hf p_state uid step state Hp Hh).
Qed.

Lemma collect_states_wf uid com states :
  value_wf com → collect_states pre_mapping uid com = Ok states →
  value_wf (VDict states).
Proof.
  intros Hc. unfold collect_states.
  intros (steps & Hx & (l & Hx0 & Hr)%bind_Ok_inv)%bind_Ok_inv.
  pose proof (value_wf_py_iter _ _ (value_wf_getitem_str _ _ _ Hc Hx) Hx0) as Hs.
  eapply (foldM_invariant (λ st, value_wf (VDict st))); [|apply value_wf_dict_nil|done].
  intros st p st' Hin Hst. apply transfer_step_wf; [|done].
  by apply (proj1 (Forall_forall _ _) Hs).
Qed.

Lemma order_step_wf states acc i acc' :
  value_wf (VDict states) → Forall value_wf acc →
  order_step states acc i = Ok acc' → Forall value_wf acc'.
Proof.
  intros [_ Hs]%value_wf_dict Ha. unfold order_step.
  destruct (dict_get _ _) as [v|] eqn:E; [|done]. simpl.
  pose proof (dict_get_wf _ _ _ Hs E) as Hv.
  destruct v as [| | | |l|d]; intros [= <-]; try done.
  - apply Forall_app. split; [done|]. by apply value_wf_list.
  - apply Forall_app. split; [done|]. by apply Forall_singleton.
Qed.

Lemma order_states_wf states acc :
  value_wf (VDict states) → Forall value_wf acc →
  Forall value_wf (order_states states acc).1.
Proof.
  intros Hs. unfold order_states. apply fold_exn_preserves.
  intros s i Hsw. unfold keep_on_raise.
  destruct (order_step states s i) eqn:E; [|done]. by eapply order_step_wf.
Qed.

Lemma transfer_component_wf acc item :
  value_wf item.2 → Forall value_wf acc →
  Forall value_wf (transfer_component pre_mapping acc item).1.
Proof.
  intros Hi Ha. unfold transfer_component.
  destruct (collect_states _ _ _) as [states|] eqn:E; [|done].
  apply order_states_wf; [|done]. by eapply collect_states_wf.
Qed.

Lemma transfer_components_wf components acc :
  Forall (λ kv, value_wf kv.2) components → Forall value_wf acc →
  Forall value_wf (fold_exn (transfer_component pre_mapping) components acc).1.
Proof.
  intros Hc. revert acc. induction Hc as [|item components Hi _ IH]; intros acc Ha.
  { done. }
  simpl. pose proof (transfer_component_wf acc item Hi Ha) as Hstep.
  destruct (transfer_component pre_mapping acc item) as [acc' [e|]]; [done|].
  by apply IH.
Qed.

Lemma transfer_wf pre_states acc :
  value_wf pre_states → Forall value_wf acc →
  Forall value_wf (transfer pre_mapping pre_states acc).1.
Proof.
  intros Hp Ha. unfold transfer.
  destruct (_ ≫= _) as [components|e] eqn:E; [|done].
  apply bind_Ok_inv in E as (cs & Hx & E).
  pose proof (value_wf_py_items _ _ (value_wf_getitem_str _ _ _ Hp Hx) E)
    as [_ Hc]%value_wf_dict.
  pose proof (transfer_components_wf components acc Hc Ha) as Hw.
  by destruct (fold_exn _ _ _) as [? [?|]].
Qed.

End transfer_wf.

(** ** Properties of the compiler *)

Section transfer_properties.
Variable pre_mapping : dispatch.
Implicit Types (states d : dict) (acc : list value) (components : dict).

(** C1.  Refinement of the contract of spec 4.4: on a document whose
    components all collect their results without an exception and number
    the kept results "1" .. "n" without a gap, [transfer] appends to
    [self.states] the records of every component in the document's order,
    within a component in ascending position, lists spliced flat, and
    returns that list. *)
Theorem transfer_refines_contract d components acc :
  dict_get (KStr "component") d = Some (VDict components) →
  well_numbered pre_mapping components →
  transfer pre_mapping (VDict d) acc
  = (acc ++ compile_document (collect_states pre_mapping) components,
     Ok (VList (acc ++ compile_document (collect_states pre_mapping) components))).
Proof.
  intros Hc Hw. unfold transfer. simpl. rewrite Hc. simpl.
  by rewrite transfer_components_ok.
Qed.

(** C2.  No failure isolation in the ordering: when the components
    before one compile and the kept results of that one have a gap in their
    numbering (a step was skipped, or a [stateid] is not the string of its
    position), [transfer] raises [KeyError] at the first missing position;
    [self.states] holds the records of the components before and those of
    the component before the gap, and no component after it is compiled. *)
Theorem transfer_gap_raises d before item after states acc m :
  dict_get (KStr "component") d = Some (VDict (before ++ item :: after)) →
  well_numbered pre_mapping before →
  collect_states pre_mapping (of_key item.1) item.2 = Ok states →
  (∀ j, j < m → is_Some (dict_get (KStr (pretty (S j))) states)) →
  dict_get (KStr (pretty (S m))) states = None →
  m < length states →
  transfer pre_mapping (VDict d) acc
  = (acc ++ compile_document (collect_states pre_mapping) before
         ++ ordered_records states 0 m, Raise KeyError).
Proof.
  intros Hc Hw Hs Hall Hgap Hm.
  apply (transfer_fails_at _ _ _ _ _ _ _ _ Hc Hw).
  unfold transfer_component. rewrite Hs.
  by rewrite (order_states_gap _ _ m), (assoc_L (++)).
Qed.

(** C3.  An exception of a handler is not isolated: when the components
    before one compile and the handler of one of its steps raises, the
    steps before that step having been collected, [transfer] raises the same
    exception.  [self.states] holds the records of the components before
    and nothing of this one, not even of the steps that were collected; the
    steps and components after it are never compiled. *)
Theorem transfer_handler_exception_propagates
    d before uid com after pre p post states step m h e acc :
  dict_get (KStr "component") d
  = Some (VDict (before ++ (uid, VDict com) :: after)) →
  well_numbered pre_mapping before →
  dict_get (KStr "state") com = Some (VList (pre ++ VDict p :: post)) →
  foldM (transfer_step pre_mapping (of_key uid)) pre [] = Ok states →
  dict_get (KStr "stateid") p = Some step →
  dict_get (KStr "module") p = Some (VStr m) →
  find_handler m pre_mapping = Some h →
  h (VDict p) (of_key uid) step = Raise e →
  transfer pre_mapping (VDict d) acc
  = (acc ++ compile_document (collect_states pre_mapping) before, Raise e).
Proof.
  intros Hc Hw Hst Hpre Hs Hm Hf He.
  apply (transfer_fails_at _ _ _ _ _ _ _ _ Hc Hw).
  unfold transfer_component. cbn [fst snd].
  by rewrite (collect_states_raises _ _ _ _ _ _ _ _ _ _ _ Hst Hpre Hs Hm Hf He).
Qed.

(** Step ids that are not strings never reach the output: when the
    kept results of a component are not empty and none is stored under the
    string "1" (integer [stateid]s), the ordering loop raises [KeyError]
    before it appends anything. *)
Theorem order_states_no_first states acc :
  states ≠ [] →
  Forall (λ kv, kv.1 ≠ KStr "1") states →
  order_states states acc = (acc, Some KeyError).
Proof.
  intros Hne Hk. rewrite (order_states_gap _ _ 0).
  - by rewrite app_nil_r.
  - intros j ?. lia.
  - by apply dict_get_str_None.
  - destruct states; [done|simpl; lia].
Qed.

(** [self.states] only grows: whatever the document and whether or
    not [transfer] raises, the records that were in [self.states] before the
    call are a prefix of those in it afterwards. *)
Theorem transfer_states_prefix pre_states acc :
  acc `prefix_of` (transfer pre_mapping pre_states acc).1.
Proof.
  unfold transfer. destruct (_ ≫= _) as [components|e]; [|done].
  pose proof (fold_exn_invariant prefix (transfer_component pre_mapping)
                components acc (transfer_component_prefix pre_mapping)) as Hp.
  by destruct (fold_exn _ _ _) as [? [?|]].
Qed.

End transfer_properties.

(** ** The compiler at concrete documents *)

Definition ex_table : dispatch :=
  [("package.apt.package", _package_apt_package (H:=repr_elided));
   ("package.pip.package", _package_pip_package (H:=repr_elided))].

Definition ex_step (module stateid : string) (names : dict) : value :=
  VDict [(KStr "module", VStr module); (KStr "stateid", VStr stateid);
         (KStr "parameter", VDict [(KStr "name", VDict names)])].

Definition ex_malformed (stateid : string) : value :=
  VDict [(KStr "module", VStr "package.apt.package"); (KStr "stateid", VStr stateid)].

Definition ex_document (steps : list value) : dict :=
  [(KStr "component", VDict [(KStr "web", VDict [(KStr "state", VList steps)])])].

(** Steps declared out of order, numbered without a gap. *)
Definition ex_steps_ok : list value :=
  [ex_step "package.apt.package" "2" [(KStr "vim", VNone)];
   ex_step "package.apt.package" "1" [(KStr "nginx", VStr "1.2")]].

(** A malformed step between two valid ones. *)
Definition ex_steps_gap : list value :=
  [ex_step "package.apt.package" "1" [(KStr "nginx", VStr "1.2")];
   ex_malformed "2";
   ex_step "package.apt.package" "3" [(KStr "vim", VNone)]].

Lemma transfer_refines_contract_witness :
  transfer ex_table (VDict (ex_document ex_steps_ok)) []
  = ([] ++ compile_document (collect_states ex_table)
             [(KStr "web", VDict [(KStr "state", VList ex_steps_ok)])],
     Ok (VList ([] ++ compile_document (collect_states ex_table)
                  [(KStr "web", VDict [(KStr "state", VList ex_steps_ok)])]))).
Proof.
  apply transfer_refines_contract; [done|].
  apply Forall_singleton. eexists. split; [vm_compute; reflexivity|].
  intros [|[|i]] Hi; [by eexists..|simpl in Hi; lia].
Defined.

(** A component that compiles, before the one under test. *)
Definition ex_db : key * value :=
  (KStr "db",
   VDict [(KStr "state",
           VList [ex_step "package.apt.package" "1" [(KStr "postgresql", VNone)]])]).

Definition ex_document2 (steps : list value) : dict :=
  [(KStr "component",
    VDict [ex_db; (KStr "web", VDict [(KStr "state", VList steps)])])].

Lemma ex_db_well_numbered : well_numbered ex_table [ex_db].
Proof.
  apply Forall_singleton. eexists. split; [vm_compute; reflexivity|].
  intros [|i] Hi; [by eexists|simpl in Hi; lia].
Defined.

Lemma transfer_gap_raises_witness :
  ∃ states,
    collect_states ex_table (VStr "web") (VDict [(KStr "state", VList ex_steps_gap)])
    = Ok states ∧
    transfer ex_table (VDict (ex_document2 ex_steps_gap)) []
    = ([] ++ compile_document (collect_states ex_table) [ex_db]
          ++ ordered_records states 0 1, Raise KeyError).
Proof.
  eexists. split; [vm_compute; reflexivity|].
  eapply (transfer_gap_raises ex_table _ [ex_db] (KStr "web", _) []);
    [done|apply ex_db_well_numbered| |..].
  - vm_compute; reflexivity.
  - intros [|j] Hj; [by eexists|lia].
  - done.
  - simpl. lia.
Defined.

Lemma transfer_handler_exception_propagates_witness :
  transfer ex_table
    (VDict (ex_document2
              [ex_step "package.apt.package" "1" [(KStr "vim", VNone)];
               ex_step "package.pip.package" "2" [(KStr "flask", VNone)];
               ex_step "package.apt.package" "3" [(KStr "curl", VNone)]])) []
  = ([] ++ compile_document (collect_states ex_table) [ex_db], Raise KeyError).
Proof.
  eapply (transfer_handler_exception_propagates ex_table _ [ex_db] (KStr "web") _ []
            [ex_step "package.apt.package" "1" [(KStr "vim", VNone)]]);
    [done|apply ex_db_well_numbered|done|vm_compute; reflexivity|done..].
Defined.

Lemma order_states_no_first_witness :
  order_states [(KInt 1, VDict [(KStr "tag", VNone)])] []
  = ([], Some KeyError).
Proof.
  apply order_states_no_first; [done|].
  by apply Forall_singleton.
Defined.
