(* ===== verification/Dispatch.v ===== *)
(** * The dispatch table of the class

    [self.pre_mapping] as [StatePreparation.__init__] builds it
    (src/POCs/salt/statepreparation.py): the handler of each of the 31
    module names.  The theorems of [Transfer] hold for any table; here they
    are instantiated at this one, with what the handler files prove of each
    entry. *)

From Stdlib Require Import Ascii.
From stdpp Require Import base tactics option strings numbers pretty list.
From S2P Require Import Prelude PyStrings PyValue PyOps Tag StateCheck Handler.
From S2P Require Import Package Repo File Scm Service Cmd Sys Ssh Transfer.

#[local] Open Scope string_scope.
#[local] Open Scope list_scope.

Section dispatch.
Context `{PyRepr}.

(** The table, in the order of the dict literal. *)
Definition pre_mapping : dispatch :=
  [("package.apt.package", _package_apt_package);
   ("package.yum.package", _package_yum_package);
   ("package.gem.package", _package_gem_package);
   ("package.npm.package", _package_npm_package);
   ("package.pecl.package", _package_pecl_package);
   ("package.pip.package", _package_pip_package);
   ("package.zypper.package", _package_zypper_package);
   ("package.yum.repo", _package_yum_repo);
   ("package.apt.repo", _package_apt_repo);
   ("package.gem.source", _package_gem_source);
   ("path.file", _path_file);
   ("path.dir", _path_dir);
   ("path.symlink", _path_symlink);
   ("scm.git", _scm_git);
   ("scm.svn", _scm_svn);
   ("scm.hg", _scm_hg);
   ("service.supervisord", _service_supervisord);
   ("service.sysvinit", _service_sysvinit);
   ("service.upstart", _service_upstart);
   ("sys.cmd", _sys_cmd);
   ("sys.script", _sys_script);
   ("sys.cron", _sys_cron);
   ("sys.user", _sys_user);
   ("sys.group", _sys_group);
   ("sys.hostname", _sys_hostname);
   ("sys.hosts", _sys_hosts);
   ("sys.mount", _sys_mount);
   ("sys.ntp", _sys_ntp);
   ("sys.selinux", _sys_selinux);
   ("system.ssh.auth", _system_ssh_auth);
   ("system.ssh.known.host", _system_ssh_known_host)].

(** The modules of the service family. *)
Definition service_modules : list string :=
  ["service.supervisord"; "service.sysvinit"; "service.upstart"].

(** What a handler does with a step that is not a dict or has no
    [parameter]: it returns, and what it returns is not kept. *)
Definition skips_malformed (h : handler) : Prop :=
  ∀ p_state uid step,
    missing_parameter p_state = true →
    ∃ r, h p_state uid step = Ok r ∧ kept r = false.

(** ** The entries of the table *)

(** A dict literal with a repeated key would keep the last entry only: the
    table has none. *)
Lemma pre_mapping_NoDup : NoDup (pre_mapping.*1).
Proof. apply (bool_decide_unpack _). vm_compute. exact I. Qed.

Ltac each_entry tac :=
  unfold pre_mapping;
  repeat (apply Forall_cons_2; [cbn [fst snd]; tac|]); apply Forall_nil_2.


(** A handler that starts with the check of the step returns the error
    code 1 on a malformed step, the package handlers the empty list. *)
Lemma skips_malformed_code (h : handler) :
  (∀ p_state uid step, missing_parameter p_state = true →
     h p_state uid step = Ok err_malformed ∨ h p_state uid step = Ok (VList [])) →
  skips_malformed h.
Proof.
  intros Hh p_state uid step Hm.
  destruct (Hh p_state uid step Hm) as [-> | ->]; by eexists.
Qed.

(** Every handler of the table but those of the services skips a
    malformed step. *)
Lemma pre_mapping_skips_malformed :
  Forall (λ mh, mh.1 ∉ service_modules → skips_malformed mh.2) pre_mapping.
Proof.
  each_entry ltac:(first
    [ by intros []; unfold service_modules; repeat constructor
    | intros _; apply skips_malformed_code; intros p_state uid step Hm;
      cbv beta delta
        [_package_apt_package _package_yum_package _package_gem_package
         _package_npm_package _package_pecl_package _package_pip_package
         _package_zypper_package package _package_yum_repo _package_apt_repo
         _package_gem_source repo missing_name _path_file _path_dir
         _path_symlink file _scm_git _scm_svn _scm_hg scm _sys_cmd
         _sys_script _sys_cron _sys_user _sys_group _sys_hostname _sys_hosts
         _sys_mount _sys_ntp _sys_selinux _system_ssh_auth
         _system_ssh_known_host shared_contract];
      rewrite Hm; auto ]).
Qed.

(** ** Properties of the compiler with the table of the class *)


(** C24.  A service step aborts the compilation: when the components
    before one compile and a step of that one names a module of the service
    family, the steps before it having been collected, [transfer] raises
    [TypeError], whatever the parameters of the step; [self.states] holds
    the records of the components before and nothing of this one. *)
Theorem transfer_service_step_raises
    d before uid com after pre p post states step m acc :
  dict_get (KStr "component") d
  = Some (VDict (before ++ (uid, VDict com) :: after)) →
  well_numbered pre_mapping before →
  dict_get (KStr "state") com = Some (VList (pre ++ VDict p :: post)) →
  foldM (transfer_step pre_mapping (of_key uid)) pre [] = Ok states →
  dict_get (KStr "stateid") p = Some step →
  dict_get (KStr "module") p = Some (VStr m) →
  m ∈ service_modules →
  transfer pre_mapping (VDict d) acc
  = (acc ++ compile_document (collect_states pre_mapping) before,
     Raise TypeError).
Proof.
  intros Hc Hw Hst Hpre Hs Hm Hin.
  apply (transfer_fails_at _ _ _ _ _ _ _ _ Hc Hw).
  unfold transfer_component. cbn [fst snd].
  by elem_of_cases Hin;
    erewrite (collect_states_raises _ _ _ _ _ _ _ _ _ _ _ Hst Hpre Hs Hm).
Qed.

(** C25.  A malformed step is skipped: a step that names a module of
    the table outside the service family and has no [parameter] leaves the
    results collected for its component as they are; its handler's error
    code (or empty list) is dropped without a trace. *)
Theorem transfer_malformed_step_skipped uid states p step m :
  dict_get (KStr "stateid") p = Some step →
  dict_get (KStr "module") p = Some (VStr m) →
  is_Some (find_handler m pre_mapping) → m ∉ service_modules →
  dict_has (KStr "parameter") p = false →
  transfer_step pre_mapping uid states (VDict p) = Ok states.
Proof.
  intros Hs Hm [h Hf] Hns Hp.
  rewrite (transfer_step_known _ _ _ _ _ _ _ Hs Hm Hf).
  destruct (find_handler_Forall
              (λ m h, m ∉ service_modules → skips_malformed h) _ _ _
              pre_mapping_skips_malformed Hf Hns (VDict p) uid step)
    as (r & -> & Hk); [by simpl; rewrite Hp|].
  simpl. by rewrite Hk.
Qed.

End dispatch.

(** ** The table at concrete documents *)

Definition ex_service_document : dict :=
  ex_document2 [ex_step "package.apt.package" "1" [(KStr "vim", VNone)];
                ex_step "service.sysvinit" "2" [(KStr "nginx", VNone)];
                ex_step "package.apt.package" "3" [(KStr "curl", VNone)]].



Lemma ex_db_compiles : well_numbered (pre_mapping (H:=repr_elided)) [ex_db].
Proof.
  apply Forall_singleton. eexists. split; [vm_compute; reflexivity|].
  intros [|i] Hi; [by eexists|simpl in Hi; lia].
Defined.

Lemma transfer_service_step_raises_witness :
  transfer (pre_mapping (H:=repr_elided)) (VDict ex_service_document) []
  = ([] ++ compile_document (collect_states (pre_mapping (H:=repr_elided))) [ex_db],
     Raise TypeError).
Proof.
  eapply (transfer_service_step_raises _ [ex_db] (KStr "web") _ []
            [ex_step "package.apt.package" "1" [(KStr "vim", VNone)]]);
    [done|apply ex_db_compiles|done|vm_compute; reflexivity|done|done|].
  by repeat constructor.
Defined.

Lemma transfer_malformed_step_skipped_witness :
  transfer_step (pre_mapping (H:=repr_elided)) (VStr "web") []
    (VDict [(KStr "module", VStr "sys.cron"); (KStr "stateid", VStr "1")])
  = Ok [].
Proof.
  apply (transfer_malformed_step_skipped _ _ _ (VStr "1") "sys.cron");
    [done|done|by eexists| |done].
  unfold service_modules. intros Hin. by elem_of_cases Hin.
Defined.
