(* ===== verification/Send.v ===== *)
(** * Requests of the agent

    [handshake] and [statelog] of src/opsagent/opsagent/objects/send.py: the
    dicts the agent sends to its controller.  The protocol constants come
    from the module [codes], which is not part of the sources: they are
    parameters of the file. *)

From Stdlib Require Import Ascii.
From stdpp Require Import base tactics option strings numbers list.
From S2P Require Import Prelude PyStrings PyValue PyOps.

#[local] Open Scope string_scope.
#[local] Open Scope list_scope.

(** [v.get(k)] for a string literal [k]: a method of dicts only. *)
Definition py_get (v : value) (k : string) : result value :=
  match v with
  | VDict d => Ok (default VNone (dict_get (KStr k) d))
  | _ => Raise AttributeError
  end.

Section send.
(** [codes.HANDSHAKE], [codes.PROTOCOL_VERSION], [codes.STATELOG]. *)
Variables (HANDSHAKE PROTOCOL_VERSION STATELOG : value).

(** [handshake(init, errors)]: an [init] that is no dict is replaced by
    the empty dict; [errors] is not used, [init_errors] is [None]. *)
Definition handshake (init errors : value) : result value :=
  let init := if is_dict init then init else VDict [] in
  instance_id ← py_get init "instance_id";
  app_id ← py_get init "app_id";
  instance_token ← py_get init "instance_token";
  Ok (VDict [(KStr "code", HANDSHAKE);
             (KStr "instance_id", instance_id);
             (KStr "app_id", app_id);
             (KStr "protocol_version", PROTOCOL_VERSION);
             (KStr "instance_token", instance_token);
             (KStr "init_errors", VNone)]).

(** [statelog(init, version, id, result, err_log, out_log)]: [init] is used
    as it comes ([res] is the parameter [result]). *)
Definition statelog (init version id res err_log out_log : value)
    : result value :=
  instance_id ← py_get init "instance_id";
  app_id ← py_get init "app_id";
  Ok (VDict [(KStr "code", STATELOG);
             (KStr "instance_id", instance_id);
             (KStr "app_id", app_id);
             (KStr "recipe_version", version);
             (KStr "stateid", id);
             (KStr "state_result", res);
             (KStr "state_stderr", err_log);
             (KStr "state_stdout", out_log)]).

(** ** Lemmas *)

Lemma py_get_dict d k : py_get (VDict d) k = Ok (default VNone (dict_get (KStr k) d)).
Proof. done. Qed.

Lemma py_get_not_dict v k : is_dict v = false → py_get v k = Raise AttributeError.
Proof. by destruct v. Qed.

Lemma py_get_wf v k r : value_wf v → py_get v k = Ok r → value_wf r.
Proof.
  destruct v as [| | | | |d]; try done. intros [_ Hwf]%value_wf_dict [= <-].
  destruct (dict_get (KStr k) d) as [x|] eqn:E; simpl; [|done].
  by apply (dict_get_wf (KStr k) d).
Qed.

(** The dict [handshake] works on. *)
Definition handshake_init (init : value) : dict :=
  match init with VDict d => d | _ => [] end.

Lemma handshake_dict init errors :
  handshake init errors
  = Ok (VDict [(KStr "code", HANDSHAKE);
               (KStr "instance_id",
                default VNone (dict_get (KStr "instance_id") (handshake_init init)));
               (KStr "app_id",
                default VNone (dict_get (KStr "app_id") (handshake_init init)));
               (KStr "protocol_version", PROTOCOL_VERSION);
               (KStr "instance_token",
                default VNone (dict_get (KStr "instance_token") (handshake_init init)));
               (KStr "init_errors", VNone)]).
Proof. by destruct init. Qed.

(** ** Properties of the requests *)

(** C40.  [handshake] is total: whatever [init] and [errors] are, it
    returns a dict of exactly the six keys of the protocol, in which [code]
    and [protocol_version] are the constants, the three identifiers are
    those of [init] ([None] when [init] has none, or is no dict), and
    [init_errors] is [None] whatever errors were passed. *)
Theorem handshake_total init errors :
  ∃ d, handshake init errors = Ok (VDict d)
       ∧ dict_keys d = KStr <$> ["code"; "instance_id"; "app_id"; "protocol_version";
                                 "instance_token"; "init_errors"]
       ∧ dict_get (KStr "code") d = Some HANDSHAKE
       ∧ dict_get (KStr "protocol_version") d = Some PROTOCOL_VERSION
       ∧ dict_get (KStr "init_errors") d = Some VNone
       ∧ ∀ k, k ∈ ["instance_id"; "app_id"; "instance_token"] →
              dict_get (KStr k) d
              = Some (default VNone (dict_get (KStr k) (handshake_init init))).
Proof.
  eexists. split; [apply handshake_dict|]. split_and!; try done.
  intros k Hk. by elem_of_cases Hk.
Qed.

(** C39.  [statelog] has no such guard: with an [init] that is no dict
    (the [None] of an agent that has not been initialised) it raises
    [AttributeError], where [handshake] answers with empty identifiers. *)
Theorem statelog_needs_dict init version id res err_log out_log :
  is_dict init = false →
  statelog init version id res err_log out_log = Raise AttributeError
  ∧ is_Ok (handshake init VNone).
Proof.
  intros Hi. split.
  - unfold statelog. by rewrite !py_get_not_dict by done.
  - rewrite handshake_dict. by eexists.
Qed.

End send.

(** ** The requests at concrete inputs *)

Lemma statelog_needs_dict_witness :
  statelog (VInt 3) VNone (VStr "1") (VStr "7") (VBool true) (VStr "") (VStr "ok")
  = Raise AttributeError
  ∧ is_Ok (handshake (VInt 1) (VStr "2") VNone VNone).
Proof. by apply statelog_needs_dict. Defined.
