(* ===== verification/Effects.v ===== *)
(** * Computations with a state that may raise

    The code of src/sources/opsagent/utils.py and of src/salt/modules works
    on what is outside the program: the file system, the commands it runs.
    A function of this code becomes a function from the state of the
    outside to a result (a value or an exception) and the state afterwards;
    [try]/[except] decides on the result and keeps the state. *)

From stdpp Require Import base tactics option strings numbers list.
From S2P Require Import Prelude.

Definition st (S A : Type) : Type := S → result A * S.

#[export] Instance st_ret {S} : MRet (st S) := λ A a s, (Ok a, s).
#[export] Instance st_bind {S} : MBind (st S) := λ A B f m s,
  match m s with
  | (Ok a, s') => f a s'
  | (Raise e, s') => (Raise e, s')
  end.

(** A pure computation that may raise. *)
Definition lift {S A} (r : result A) : st S A := λ s, (r, s).

(** A computation that reads the state and leaves it. *)
Definition reads {S A} (f : S → result A) : st S A := λ s, (f s, s).

(** The state, and a change of it. *)
Definition get_state {S} : st S S := λ s, (Ok s, s).
Definition modify {S} (f : S → S) : st S unit := λ s, (Ok (), f s).

(** [try: m except Exception as e: handler]. *)
Definition try_except {S A} (m : st S A) (handler : exn → st S A) : st S A := λ s,
  match m s with
  | (Raise e, s') => handler e s'
  | r => r
  end.

(** ** What the modules of salt call

    [__salt__['cmd.run']], [cmd.run_stdout], [cmd.run_all] and [file.sed]
    work on the system: a command has an output and a return code, and may
    change the system.  What they do is not part of the repository: the
    code is modelled over any system that has them. *)
Class Salt (sys : Type) := {
  (** the output of a command *)
  cmd_run : string → sys → string * sys;
  (** the return code of a command *)
  cmd_retcode : string → sys → Z * sys;
  (** [file.sed(path, before, after)] *)
  file_sed : string → string → string → sys → sys;
}.

Definition run `{Salt sys} (cmd : string) : st sys string := λ s,
  let '(out, s') := cmd_run cmd s in (Ok out, s').
Definition retcode `{Salt sys} (cmd : string) : st sys Z := λ s,
  let '(rc, s') := cmd_retcode cmd s in (Ok rc, s').
Definition sed `{Salt sys} (path before after : string) : st sys unit :=
  modify (file_sed path before after).

Section laws.
Context {S A B : Type}.
Implicit Types (m : st S A) (f : A → st S B) (s : S).

Lemma st_bind_Ok m f s a s' : m s = (Ok a, s') → (m ≫= f) s = f a s'.
Proof. intros E. unfold mbind, st_bind. by rewrite E. Qed.

Lemma st_bind_Raise m f s e s' : m s = (Raise e, s') → (m ≫= f) s = (Raise e, s').
Proof. intros E. unfold mbind, st_bind. by rewrite E. Qed.

Lemma st_bind_lift (r : result A) f s :
  (lift r ≫= f) s = match r with Ok a => f a s | Raise e => (Raise e, s) end.
Proof. by destruct r. Qed.

Lemma st_bind_ret (a : A) f s : (mret a ≫= f) s = f a s.
Proof. done. Qed.

Lemma try_except_Ok m handler s a s' :
  m s = (Ok a, s') → try_except m handler s = (Ok a, s').
Proof. intros E. unfold try_except. by rewrite E. Qed.

Lemma try_except_Raise m handler s e s' :
  m s = (Raise e, s') → try_except m handler s = handler e s'.
Proof. intros E. unfold try_except. by rewrite E. Qed.

End laws.
