(* ===== verification/Log.v ===== *)
(** * The log of the agent

    [log] of src/sources/opsagent/utils.py, with its two tables.  The
    function formats a line and hands it to the function of [logging] that
    the action names.  The log is the state: the list of the lines logged
    so far, each with its level.  The level of the root logger is a
    parameter; the delay in debug mode takes time and changes nothing.

    [clone_repo] and [checkout_repo] call [log] with the actions of the
    tables only: the calls return, which is why the model of these two
    functions leaves them out. *)

From Stdlib Require Import Ascii.
From stdpp Require Import base tactics option strings numbers list.
From S2P Require Import Prelude PyStrings PyText PyValue PyOps Effects.

#[local] Open Scope string_scope.
#[local] Open Scope list_scope.

(** ** The tables *)

Definition DEBUG : Z := 10.
Definition COLOR : bool := true.

(** The functions of [logging]. *)
Inductive logger : Set :=
| logging_debug | logging_info | logging_warning | logging_error | logging_critical.

#[export] Instance logger_eq_dec : EqDecision logger.
Proof. solve_decision. Defined.

Definition LOGGING_EQ : list (string * logger) :=
  [("DEBUG", logging_debug);
   ("INFO", logging_info);
   ("WARNING", logging_warning);
   ("ERROR", logging_error);
   ("CRITICAL", logging_critical)].

(** The escape sequence of a colour: the escape character and its code. *)
Definition esc (code : string) : string := String "027" code.

Definition COLORS_EQ : list (string * (string * string)) :=
  [("DEBUG", (esc "[38;5;6m", esc "[0m"));
   ("INFO", (esc "[38;5;15m", esc "[0m"));
   ("WARNING", (esc "[38;5;3m", esc "[0m"));
   ("ERROR", (esc "[38;5;1m", esc "[0m"));
   ("CRITICAL", (esc "[38;5;1m", esc "[0m"))].

(** [table[action]]. *)
Fixpoint lookup_action {A} (action : string) (table : list (string * A)) : result A :=
  match table with
  | [] => Raise KeyError
  | (k, v) :: table' =>
      if bool_decide (action = k) then Ok v else lookup_action action table'
  end.

(** ** The caller *)

(** The second component of [fc]: a string, or an object, of which the
    name of the class and the truth value matter. *)
Inductive caller : Set :=
| CStr (s : string)
| CObj (class_name : string) (truth : bool).

(** [c.__class__.__name__ if ((type(c) is not str) and c) else c], and
    whether the result is true. *)
Definition caller_name (c : caller) : option string :=
  match c with
  | CStr s => if bool_decide (s = "") then None else Some s
  | CObj cls truth =>
      if truth then (if bool_decide (cls = "") then None else Some cls) else None
  end.

(** The prefix of the line: [c.f(): ] or [f(): ]. *)
Definition log_prefix (fc : string * caller) : string :=
  match caller_name fc.2 with
  | Some c => c +:+ "." +:+ fc.1 +:+ "(): "
  | None => fc.1 +:+ "(): "
  end.

(** ** The function *)

Definition log_state : Type := list (logger * string).

Section log.
Context `{PyRepr}.
(** [logging.getLogger().getEffectiveLevel()]. *)
Variable level : Z.

(** [log(action, content, fc)]. *)
Definition log (action : string) (content : value) (fc : option (string * caller))
    : st log_state unit :=
  let out := "" in
  let out :=
    match fc with
    | Some fc => if bool_decide (level = DEBUG) then out +:+ log_prefix fc else out
    | None => out
    end in
  pt ← (if negb COLOR then mret (out +:+ py_str content)
        else
          c0 ← lift (lookup_action action COLORS_EQ);
          c1 ← lift (lookup_action action COLORS_EQ);
          mret (c0.1 +:+ out +:+ py_str content +:+ c1.2));
  f ← lift (lookup_action action LOGGING_EQ);
  modify (λ l, l ++ [(f, pt)]).

(** The actions of the tables. *)
Definition actions : list string := ["DEBUG"; "INFO"; "WARNING"; "ERROR"; "CRITICAL"].

(** The text between the colours. *)
Definition log_text (content : value) (fc : option (string * caller)) : string :=
  match fc with
  | Some fc => if bool_decide (level = DEBUG) then log_prefix fc else ""
  | None => ""
  end +:+ py_str content.

Lemma lookup_action_Raise {A} action (table : list (string * A)) e :
  lookup_action action table = Raise e → e = KeyError.
Proof.
  induction table as [|[k v] table IH]; simpl; [by intros [= <-]|].
  by case_bool_decide.
Qed.

(** The two tables have the same keys. *)
Lemma lookup_action_tables action :
  action ∈ actions ↔ is_Ok (lookup_action action LOGGING_EQ)
                     ∧ is_Ok (lookup_action action COLORS_EQ).
Proof.
  split.
  - intros Hin. unfold actions in Hin. elem_of_cases Hin; by split; eexists.
  - intros [[f Hf] _]. unfold actions. simpl in Hf.
    repeat (case_bool_decide; [subst; repeat constructor; done|]). done.
Qed.

Lemma log_line action content fc f pre post l :
  lookup_action action LOGGING_EQ = Ok f →
  lookup_action action COLORS_EQ = Ok (pre, post) →
  log action content fc l
  = (Ok (), l ++ [(f, pre +:+ log_text content fc +:+ post)]).
Proof.
  intros Hf Hc. unfold log, log_text. cbn [COLOR negb].
  erewrite st_bind_Ok
    by (rewrite st_bind_lift, Hc; cbn beta iota; rewrite st_bind_lift;
        reflexivity).
  rewrite st_bind_lift, Hf. unfold modify. cbn [fst snd].
  do 4 f_equal. rewrite !app_assoc_str. by destruct fc.
Qed.

(** C38.  [log] with an action of the tables returns and adds one line
    to the log: the line goes to the function of [logging] that the action
    names, and is the text between the colour of the action and the reset;
    the text is the content, after the name of the caller when there is one
    and the level is [DEBUG]. *)
Theorem log_returns action content fc l :
  action ∈ actions →
  ∃ f pre post,
    lookup_action action LOGGING_EQ = Ok f
    ∧ lookup_action action COLORS_EQ = Ok (pre, post)
    ∧ log action content fc l
      = (Ok (), l ++ [(f, pre +:+ log_text content fc +:+ post)]).
Proof.
  intros [[f Hf] [[pre post] Hc]]%lookup_action_tables.
  exists f, pre, post. split_and!; [done..|]. by apply log_line.
Qed.

(** With any other action [log] raises [KeyError] and logs nothing. *)
Lemma log_unknown action content fc l :
  action ∉ actions → log action content fc l = (Raise KeyError, l).
Proof.
  intros Hn. unfold log. cbn [COLOR negb].
  destruct (lookup_action action COLORS_EQ) as [c|e] eqn:Hc.
  - destruct Hn. unfold actions. simpl in Hc.
    repeat (case_bool_decide; [subst; repeat constructor; done|]). done.
  - apply lookup_action_Raise in Hc as ->.
    erewrite st_bind_Raise; [done|]. by rewrite st_bind_lift.
Qed.

End log.

(** ** At the calls of the agent *)

Lemma log_returns_witness :
  ∃ f pre post,
    lookup_action "WARNING" LOGGING_EQ = Ok f
    ∧ lookup_action "WARNING" COLORS_EQ = Ok (pre, post)
    ∧ log (H:=repr_elided) 10 "WARNING" (VStr "Can't update states repo")
        (Some ("checkout_repo", CStr "utils")) []
      = (Ok (), [] ++ [(f, pre +:+ log_text (H:=repr_elided) 10
                                     (VStr "Can't update states repo")
                                     (Some ("checkout_repo", CStr "utils"))
                           +:+ post)]).
Proof. apply log_returns. compute_done. Defined.

(** The line of a warning of [checkout_repo], in debug mode and not. *)
Example log_warning :
  log (H:=repr_elided) 10 "WARNING" (VStr "no tag") (Some ("checkout_repo", CStr "utils")) []
  = (Ok (), [(logging_warning,
              esc "[38;5;3m" +:+ "utils.checkout_repo(): no tag" +:+ esc "[0m")])
  ∧ log (H:=repr_elided) 20 "WARNING" (VStr "no tag") (Some ("checkout_repo", CStr "utils")) []
    = (Ok (), [(logging_warning, esc "[38;5;3m" +:+ "no tag" +:+ esc "[0m")]).
Proof. split; vm_compute; reflexivity. Qed.
