(* ===== verification/Checkout.v ===== *)
(** * Cloning and checking out the states repository

    [clone_repo] and [checkout_repo] of src/sources/opsagent/utils.py.  Both
    work by calls to the outside (git, the file system); a call returns or
    raises.  The model records every call with its outcome in a history, and
    takes the outside as a parameter: a function that says, from the history
    so far, whether the next call returns.

    The paths and names are strings; [config] is a value, whose entries are
    looked up as the code does.  The calls of [log] are left out: they
    name actions of its tables, with which [log] returns ([Log.log_returns]),
    and the log is no part of the history. *)

From Stdlib Require Import Ascii.
From Equations Require Import Equations.
From stdpp Require Import base tactics option strings numbers list.
From S2P Require Import Prelude PyStrings PyText PyValue PyOps Effects.

#[local] Open Scope string_scope.
#[local] Open Scope list_scope.
#[local] Open Scope nat_scope.

(** ** Calls, histories and the outside *)

Inductive call : Set :=
| Rmtree (path : string)
| CheckOutput (argv : list string) (cwd : string)
| Unlink (path : string)
| Symlink (src dst : string).

#[export] Instance call_eq_dec : EqDecision call.
Proof. solve_decision. Defined.

(** A call with whether it returned. *)
Abbreviation history := (list (call * bool)).

(** The outside: whether a call returns after a history. *)
Abbreviation world := (history → call → bool).

Abbreviation io := (st history).

Section outside.
Variable W : world.
(** [os.path.normpath]. *)
Variable normpath : string → string.

(** A call: it is recorded, and raises when the outside says so. *)
Definition do_call (c : call) : io unit := λ h,
  if W h c then (Ok (), h ++ [(c, true)]) else (Raise Exception, h ++ [(c, false)]).

(** [config[a][b] + '/' + config[c][d]]. *)
Definition config_path (config : value) (a b c d : string) : result string :=
  x ← getitem_str config a;
  x ← getitem_str x b;
  y ← getitem_str config c;
  y ← getitem_str y d;
  x ← str_add_r x "/";
  str_add_l x y.

(** [path + '/' + name + '/' + config['module'][k]]. *)
Definition module_path (config : value) (path name k : string) : result string :=
  x ← getitem_str config "module";
  x ← getitem_str x k;
  str_add_l (path +:+ "/" +:+ name +:+ "/") x.

(** [try: os.unlink(normpath(p)) except Exception as e: log(... p ...)],
    where [p] is [config['global']['package_path'] + '/' +
    config['module'][k]]: the message of the log evaluates [p] again. *)
Definition unlink_quiet (config : value) (k : string) : io unit :=
  try_except
    (p ← lift (config_path config "global" "package_path" "module" k);
     do_call (Unlink (normpath p)))
    (λ _, _ ← lift (config_path config "global" "package_path" "module" k);
          mret ()).

(** [os.symlink(normpath(path/name/config['module'][src]),
    normpath(package_path/config['module'][dst]))]. *)
Definition link (config : value) (path name src dst : string) : io unit :=
  s ← lift (module_path config path name src);
  d ← lift (config_path config "global" "package_path" "module" dst);
  do_call (Symlink (normpath s) (normpath d)).

(** The body of the outer [try] of [clone_repo]. *)
Definition clone_steps (config : value) (path name uri : string) : io unit :=
  _ ← try_except (do_call (Rmtree (normpath (path +:+ "/" +:+ name))))
                 (λ _, mret ());
  _ ← do_call (CheckOutput (split_ws ("git clone " +:+ uri +:+ " " +:+ name)) path);
  _ ← unlink_quiet config "name";
  _ ← link config path name "src_salt" "name";
  _ ← unlink_quiet config "dst_adaptor";
  link config path name "src_adaptor" "dst_adaptor".

(** [clone_repo(config, path, name, uri)]. *)
Definition clone_repo (config : value) (path name uri : string) : io value :=
  _ ← try_except (clone_steps config path name uri)
                 (λ _, lift (Raise ManagerInvalidStatesRepoException));
  mret (VBool true).

(** The commands of [checkout_repo]. *)
Definition commands (tag : string) : list string :=
  ["git checkout master"; "git pull"; "git checkout " +:+ tag].

(** The loop over the commands: a command that fails is followed by a
    fresh clone and by [retry], and the loop is left. *)
Fixpoint checkout_loop (config : value) (path name uri : string)
    (retry : io unit) (cmds : list string) : io unit := λ h,
  match cmds with
  | [] => (Ok (), h)
  | cmd :: rest =>
      match do_call (CheckOutput (split_ws cmd) (normpath (path +:+ "/" +:+ name))) h with
      | (Ok _, h') => checkout_loop config path name uri retry rest h'
      | (Raise _, h') => (_ ← clone_repo config path name uri; retry) h'
      end
  end.

(** How often [checkout_repo] can still call itself. *)
Definition retries (n : Z) : nat := if decide (n = 0%Z) then 1 else 0.

(** [checkout_repo(config, path, name, tag, uri, n)]: at [n == 0] a
    failure is retried once, with [n + 1]; otherwise it is final. *)
Equations? checkout_repo (config : value) (path name tag uri : string) (n : Z)
    (h : history) : result unit * history by wf (retries n) lt :=
  checkout_repo config path name tag uri n h with decide (n = 0%Z) := {
    | left _ =>
        checkout_loop config path name uri
          (λ h', checkout_repo config path name tag uri (n + 1) h')
          (commands tag) h;
    | right _ =>
        checkout_loop config path name uri
          (lift (Raise ManagerInvalidStatesRepoException))
          (commands tag) h }.
Proof. subst. unfold retries. simpl. lia. Qed.

(** ** How many calls a computation makes

    [calls_le p m k]: whatever the history, [m] only adds calls to it, and
    at most [k] of them satisfy [p]. *)

Definition count (p : call → bool) (l : history) : nat :=
  length (filter (λ cb, p cb.1 = true) l).

Definition calls_le {A} (p : call → bool) (m : io A) (k : nat) : Prop :=
  ∀ h, ∃ l, (m h).2 = h ++ l ∧ count p l ≤ k.

Lemma count_app p l1 l2 : count p (l1 ++ l2) = count p l1 + count p l2.
Proof. unfold count. by rewrite filter_app, length_app. Qed.

Lemma count_singleton p c b : count p [(c, b)] ≤ 1.
Proof. unfold count. rewrite filter_cons. simpl. case_decide; simpl; lia. Qed.

Section calls.
Context {A B : Type} (p : call → bool).
Implicit Types (m : io A) (k : nat).

Lemma calls_le_mono m k k' : calls_le p m k → k ≤ k' → calls_le p m k'.
Proof. intros Hm Hk h. destruct (Hm h) as (l & ? & ?). exists l. split; [done|lia]. Qed.

Lemma calls_le_ret (a : A) : calls_le p (mret a) 0.
Proof. intros h. exists []. by rewrite app_nil_r. Qed.

Lemma calls_le_lift (r : result A) : calls_le p (lift r) 0.
Proof. intros h. exists []. by rewrite app_nil_r. Qed.

Lemma calls_le_bind m (f : A → io B) k1 k2 :
  calls_le p m k1 → (∀ a, calls_le p (f a) k2) → calls_le p (m ≫= f) (k1 + k2).
Proof.
  intros Hm Hf h. destruct (Hm h) as (l1 & E1 & H1).
  unfold mbind, st_bind. destruct (m h) as [[a|e] h1]; simpl in E1; subst h1.
  - destruct (Hf a (h ++ l1)) as (l2 & -> & H2). exists (l1 ++ l2).
    rewrite (assoc_L (++)), count_app. split; [done|lia].
  - exists l1. split; [done|lia].
Qed.

Lemma calls_le_try m (handler : exn → io A) k1 k2 :
  calls_le p m k1 → (∀ e, calls_le p (handler e) k2) →
  calls_le p (try_except m handler) (k1 + k2).
Proof.
  intros Hm Hf h. destruct (Hm h) as (l1 & E1 & H1).
  unfold try_except. destruct (m h) as [[a|e] h1]; simpl in E1; subst h1.
  - exists l1. split; [done|lia].
  - destruct (Hf e (h ++ l1)) as (l2 & -> & H2). exists (l1 ++ l2).
    rewrite (assoc_L (++)), count_app. split; [done|lia].
Qed.

End calls.

Section outside_lemmas.
Implicit Types (config : value) (path name tag uri : string) (h : history).

Lemma do_call_true c h : W h c = true → do_call c h = (Ok (), h ++ [(c, true)]).
Proof. intros E. unfold do_call. by rewrite E. Qed.

Lemma do_call_false c h :
  W h c = false → do_call c h = (Raise Exception, h ++ [(c, false)]).
Proof. intros E. unfold do_call. by rewrite E. Qed.

Lemma calls_le_do_call p c : calls_le p (do_call c) 1.
Proof.
  intros h. unfold do_call. destruct (W h c); simpl; eexists; (split; [done|]);
    apply count_singleton.
Qed.

(** A call that does not count. *)
Lemma calls_le_do_call_0 p c : p c = false → calls_le p (do_call c) 0.
Proof.
  intros Hp h. unfold do_call. destruct (W h c); simpl; eexists; (split; [done|]);
    unfold count; rewrite filter_cons; simpl; by rewrite decide_False by congruence.
Qed.

End outside_lemmas.

(** ** The calls of [clone_repo] and [checkout_repo] *)

Definition is_command (c : call) : bool :=
  match c with CheckOutput _ _ => true | _ => false end.

(** The call is a [git clone]. *)
Definition is_clone (c : call) : bool :=
  match c with
  | CheckOutput ("git" :: "clone" :: _) _ => true
  | _ => false
  end.

Section bounds.
Implicit Types (config : value) (path name tag uri : string) (h : history).

(** The calls counted, with a bound for a call of the file system, for a
    command of [checkout_repo] and for the [git clone]. *)
Variables (p : call → bool) (ko kcmd kclone : nat).
Hypothesis Hko : ∀ c, is_command c = false → calls_le p (do_call c) ko.
Hypothesis Hkcmd : ∀ tag cwd cmd,
  cmd ∈ commands tag → calls_le p (do_call (CheckOutput (split_ws cmd) cwd)) kcmd.
Hypothesis Hkclone : ∀ uri name cwd,
  calls_le p
    (do_call (CheckOutput (split_ws ("git clone " +:+ uri +:+ " " +:+ name)) cwd))
    kclone.

(** The bound of a computation, from those of its parts. *)
Ltac calls :=
  cbv beta;
  lazymatch goal with
  | |- calls_le _ (mret _) _ => apply calls_le_ret
  | |- calls_le _ (lift _) _ => apply calls_le_lift
  | |- calls_le _ (_ ≫= _) _ => eapply calls_le_bind; [calls|intros ?; calls]
  | |- calls_le _ (try_except _ _) _ => eapply calls_le_try; [calls|intros ?; calls]
  | |- calls_le _ (do_call _) _ =>
      first [apply Hkclone|apply Hko; reflexivity|by apply Hkcmd]
  | |- _ => eassumption
  end.

Ltac calls_le := eapply calls_le_mono; [calls|simpl; lia].

Lemma calls_le_unlink_quiet config k :
  calls_le p (unlink_quiet config k) ko.
Proof. unfold unlink_quiet. calls_le. Qed.

Lemma calls_le_link config path name src dst :
  calls_le p (link config path name src dst) ko.
Proof. unfold link. calls_le. Qed.

Lemma calls_le_clone_repo config path name uri :
  calls_le p (clone_repo config path name uri) (5 * ko + kclone).
Proof.
  pose proof calls_le_unlink_quiet. pose proof calls_le_link.
  unfold clone_repo, clone_steps. eapply calls_le_mono.
  - eapply calls_le_bind; [|intros ?; calls].
    eapply calls_le_try; [|intros ?; calls].
    repeat (eapply calls_le_bind; [|intros ?]); first [calls|done].
  - simpl. lia.
Qed.

(** The loop: the commands it runs, one clone and [retry] at most. *)
Lemma calls_le_checkout_loop config path name tag uri retry kr cmds :
  cmds ⊆ commands tag →
  calls_le p retry kr →
  calls_le p (checkout_loop config path name uri retry cmds)
    (length cmds * kcmd + (5 * ko + kclone) + kr).
Proof.
  intros Hsub Hr. induction cmds as [|cmd rest IH]; intros h.
  { exists []. rewrite app_nil_r. split; [done|]. unfold count. simpl. lia. }
  assert (cmd ∈ commands tag) as Hin by (apply Hsub; left).
  destruct (Hkcmd tag (normpath (path +:+ "/" +:+ name)) cmd Hin h) as (l1 & E1 & H1).
  simpl. destruct (do_call _ h) as [[[]|e] h1]; simpl in E1; subst h1.
  - assert (rest ⊆ commands tag) as Hrest by (intros x Hx; apply Hsub; by right).
    destruct (IH Hrest (h ++ l1)) as (l2 & -> & H2).
    exists (l1 ++ l2). rewrite (assoc_L (++)), count_app. split; [done|].
    simpl. lia.
  - pose proof (calls_le_clone_repo config path name uri) as Hc.
    destruct (calls_le_bind p _ (λ _, retry) _ _ Hc (λ _, Hr) (h ++ l1))
      as (l2 & -> & H2).
    exists (l1 ++ l2). rewrite (assoc_L (++)), count_app. split; [done|].
    simpl. lia.
Qed.

End bounds.

(** ** The two cases of [checkout_repo] *)

(** The calls of the commands, all returned. *)
Definition command_calls (path name : string) (cmds : list string) : history :=
  (λ cmd, (CheckOutput (split_ws cmd) (normpath (path +:+ "/" +:+ name)), true))
    <$> cmds.

(** A call of the history raised. *)
Definition failed (h : history) : bool := existsb (λ cb, negb cb.2) h.

Lemma failed_app h l : failed h = true → failed (h ++ l) = true.
Proof. unfold failed. intros Hf. by rewrite existsb_app, Hf. Qed.

Lemma failed_snoc h c : failed (h ++ [(c, false)]) = true.
Proof. unfold failed. rewrite existsb_app. simpl. by rewrite orb_true_r. Qed.

Lemma count_true l : count (λ _, true) l = length l.
Proof.
  unfold count. induction l as [|x l IH]; [done|].
  rewrite filter_cons. simpl. by rewrite IH.
Qed.

Section checkout.
Implicit Types (config : value) (path name tag uri : string) (h : history).

Lemma checkout_repo_retry config path name tag uri h :
  checkout_repo config path name tag uri 0 h
  = checkout_loop config path name uri
      (checkout_repo config path name tag uri 1) (commands tag) h.
Proof. simp checkout_repo. by destruct (decide _). Qed.

Lemma checkout_repo_last config path name tag uri n h :
  n ≠ 0%Z →
  checkout_repo config path name tag uri n h
  = checkout_loop config path name uri (lift (Raise ManagerInvalidStatesRepoException)) (commands tag) h.
Proof. intros Hn. simp checkout_repo. by destruct (decide _). Qed.

(** ** How many calls *)

(** The calls of [checkout_repo], from the bounds of its parts: those of
    one pass when [n] is not 0, of two passes when it is. *)
Lemma calls_le_checkout_repo p ko kcmd kclone config path name tag uri n :
  (∀ c, is_command c = false → calls_le p (do_call c) ko) →
  (∀ tag cwd cmd, cmd ∈ commands tag →
     calls_le p (do_call (CheckOutput (split_ws cmd) cwd)) kcmd) →
  (∀ uri name cwd,
     calls_le p
       (do_call (CheckOutput (split_ws ("git clone " +:+ uri +:+ " " +:+ name)) cwd))
       kclone) →
  calls_le p (checkout_repo config path name tag uri n)
    ((if decide (n = 0%Z) then 2 else 1) * (3 * kcmd + 5 * ko + kclone)).
Proof.
  intros Hko Hkcmd Hkclone.
  assert (∀ n, n ≠ 0%Z →
    calls_le p (checkout_repo config path name tag uri n)
      (3 * kcmd + 5 * ko + kclone)) as Hlast.
  { intros m Hm h. rewrite checkout_repo_last by done.
    destruct (calls_le_checkout_loop p ko kcmd kclone Hko Hkcmd Hkclone
                config path name tag uri (lift (Raise ManagerInvalidStatesRepoException)) 0 (commands tag)
                (reflexivity _) (calls_le_lift p _) h) as (l & ? & ?).
    exists l. split; [done|]. simpl in *. lia. }
  case_decide as Hn; [subst n|eapply calls_le_mono; [by apply Hlast|lia]].
  intros h. rewrite checkout_repo_retry.
  destruct (calls_le_checkout_loop p ko kcmd kclone Hko Hkcmd Hkclone
              config path name tag uri _ _ (commands tag)
              (reflexivity _) (Hlast 1%Z ltac:(done)) h) as (l & ? & ?).
  exists l. split; [done|]. simpl in *. lia.
Qed.

(** C14.  [checkout_repo] returns or raises after at most 18 calls to
    the outside, whatever the outside does and whatever [n] is: it only adds
    calls to the history, at most 9 when [n] is not 0 (three commands, and
    the six calls of a clone) and twice as many when it is. *)
Theorem checkout_repo_terminates config path name tag uri n h :
  ∃ l, (checkout_repo config path name tag uri n h).2 = h ++ l
       ∧ length l ≤ (if decide (n = 0%Z) then 18 else 9).
Proof.
  destruct (calls_le_checkout_repo (λ _, true) 1 1 1 config path name tag uri n)
    with (h := h) as (l & ? & Hl);
    [intros; apply calls_le_do_call..|].
  exists l. split; [done|]. rewrite count_true in Hl. case_decide; simpl in Hl; lia.
Qed.

(** C29.  [checkout_repo] clones the repository at most twice: of the
    calls it adds to the history, at most two are a [git clone], and at most
    one when [n] is not 0. *)
Theorem checkout_repo_clones config path name tag uri n h :
  ∃ l, (checkout_repo config path name tag uri n h).2 = h ++ l
       ∧ count is_clone l ≤ (if decide (n = 0%Z) then 2 else 1).
Proof.
  destruct (calls_le_checkout_repo is_clone 0 0 1 config path name tag uri n)
    with (h := h) as (l & ? & Hl).
  - intros [] ?; by apply calls_le_do_call_0.
  - intros t cwd cmd Hin. apply calls_le_do_call_0.
    unfold commands in Hin. by elem_of_cases Hin.
  - intros. apply calls_le_do_call.
  - exists l. split; [done|]. case_decide; simpl in Hl; lia.
Qed.

(** ** What is raised *)

Lemma clone_repo_extends config path name uri h :
  ∃ l, (clone_repo config path name uri h).2 = h ++ l.
Proof.
  destruct (calls_le_clone_repo (λ _, false) 0 0) with
    (config := config) (path := path) (name := name) (uri := uri) (h := h)
    as (l & ? & _); [intros; by apply calls_le_do_call_0..|by exists l].
Qed.

Lemma clone_repo_result config path name uri h :
  (clone_repo config path name uri h).1 = Ok (VBool true)
  ∨ (clone_repo config path name uri h).1 = Raise ManagerInvalidStatesRepoException.
Proof.
  unfold clone_repo, try_except, mbind, st_bind.
  destruct (clone_steps _ _ _ _ h) as [[[]|e] h']; auto.
Qed.

Lemma checkout_loop_result config path name uri retry cmds :
  (∀ h, (retry h).1 = Ok () ∨ (retry h).1 = Raise ManagerInvalidStatesRepoException) →
  ∀ h, (checkout_loop config path name uri retry cmds h).1 = Ok ()
       ∨ (checkout_loop config path name uri retry cmds h).1 = Raise ManagerInvalidStatesRepoException.
Proof.
  intros Hr. induction cmds as [|cmd rest IH]; intros h; simpl; [auto|].
  destruct (do_call _ h) as [[[]|e] h1]; [apply IH|].
  pose proof (clone_repo_result config path name uri h1) as Hc.
  unfold mbind, st_bind.
  destruct (clone_repo _ _ _ _ h1) as [[v|e'] h2]; simpl in Hc; [apply Hr|].
  destruct Hc as [|[= ->]]; [done|auto].
Qed.

(** C30.  [checkout_repo] raises nothing but
    [ManagerInvalidStatesRepoException]: whatever the outside does, whatever
    [config] holds (a missing entry, an entry that is no string) and whatever
    [n] is, it returns [None] or raises that exception. *)
Theorem checkout_repo_raises_only config path name tag uri n h :
  (checkout_repo config path name tag uri n h).1 = Ok ()
  ∨ (checkout_repo config path name tag uri n h).1 = Raise ManagerInvalidStatesRepoException.
Proof.
  assert (∀ n h, n ≠ 0%Z →
    (checkout_repo config path name tag uri n h).1 = Ok ()
    ∨ (checkout_repo config path name tag uri n h).1 = Raise ManagerInvalidStatesRepoException) as Hlast.
  { intros m h' Hm. rewrite checkout_repo_last by done.
    apply checkout_loop_result. auto. }
  destruct (decide (n = 0%Z)) as [->|]; [|by apply Hlast].
  rewrite checkout_repo_retry. apply checkout_loop_result. intros h'. by apply Hlast.
Qed.

(** ** What a normal return means *)

Lemma checkout_loop_Ok config path name uri retry cmds h h' :
  checkout_loop config path name uri retry cmds h = (Ok (), h') →
  h' = h ++ command_calls path name cmds
  ∨ ∃ l, retry (h ++ l) = (Ok (), h').
Proof.
  revert h. induction cmds as [|cmd rest IH]; intros h; simpl.
  { intros [= <-]. left. by rewrite app_nil_r. }
  unfold do_call. destruct (W h _).
  - intros [->|[l Hl]]%IH; [left|right].
    + by rewrite <-(assoc_L (++)).
    + eexists. by rewrite (assoc_L (++)).
  - destruct (clone_repo_extends config path name uri (h ++ [(CheckOutput
      (split_ws cmd) (normpath (path +:+ "/" +:+ name)), false)])) as [l Hl].
    unfold mbind, st_bind.
    destruct (clone_repo _ _ _ _ _) as [[v|e] h2]; simpl in Hl; [|done].
    subst h2. rewrite <-(assoc_L (++)). intros Hr. right. by eexists.
Qed.

Lemma checkout_repo_Ok config path name tag uri n h h' :
  checkout_repo config path name tag uri n h = (Ok (), h') →
  ∃ l, h' = h ++ l ++ command_calls path name (commands tag).
Proof.
  assert (∀ n h, n ≠ 0%Z →
    checkout_repo config path name tag uri n h = (Ok (), h') →
    h' = h ++ command_calls path name (commands tag)) as Hlast.
  { intros m h1 Hm. rewrite checkout_repo_last by done.
    by intros [|[l [=]]]%checkout_loop_Ok. }
  destruct (decide (n = 0%Z)) as [->|Hn].
  - rewrite checkout_repo_retry. intros [->|[l Hl]]%checkout_loop_Ok.
    + by exists [].
    + exists l. rewrite (assoc_L (++)). by apply (Hlast 1%Z).
  - intros ->%(Hlast n h Hn). by exists [].
Qed.

(** C28.  When [checkout_repo] returns, the repository is at the tag: the
    last three calls of the history are [git checkout master], [git pull]
    and [git checkout <tag>] in the directory of the repository, and the
    three returned; whatever happened before them, and whatever [n] is. *)
Theorem checkout_repo_checked_out config path name tag uri n h :
  (checkout_repo config path name tag uri n h).1 = Ok () →
  ∃ l, (checkout_repo config path name tag uri n h).2
       = h ++ l ++ command_calls path name (commands tag).
Proof.
  destruct (checkout_repo _ _ _ _ _ _ h) as [r h'] eqn:E. simpl. intros ->.
  by apply checkout_repo_Ok in E.
Qed.

(** ** Recovery

    The outside fails once at most: after a call that raised, every call
    returns.  [config] has the four paths of [clone_repo]. *)

Section recovery.
Variables (config : value) (path name tag uri : string).
Variables (p_name p_dst s_salt s_adaptor : string).
Hypothesis Hname :
  config_path config "global" "package_path" "module" "name" = Ok p_name.
Hypothesis Hdst :
  config_path config "global" "package_path" "module" "dst_adaptor" = Ok p_dst.
Hypothesis Hsalt : module_path config path name "src_salt" = Ok s_salt.
Hypothesis Hadaptor : module_path config path name "src_adaptor" = Ok s_adaptor.
Hypothesis Honce : ∀ h c, failed h = true → W h c = true.

(** The calls of a clone, all returned. *)
Definition clone_calls : history :=
  [(Rmtree (normpath (path +:+ "/" +:+ name)), true);
   (CheckOutput (split_ws ("git clone " +:+ uri +:+ " " +:+ name)) path, true);
   (Unlink (normpath p_name), true);
   (Symlink (normpath s_salt) (normpath p_name), true);
   (Unlink (normpath p_dst), true);
   (Symlink (normpath s_adaptor) (normpath p_dst), true)].

Lemma clone_repo_after_failure h :
  failed h = true →
  clone_repo config path name uri h = (Ok (VBool true), h ++ clone_calls).
Proof.
  intros Hf.
  unfold clone_repo, clone_steps, unlink_quiet, link, try_except,
    mbind, st_bind, lift, do_call.
  rewrite Hname, Hdst, Hsalt, Hadaptor.
  rewrite !Honce by (by repeat apply failed_app).
  by rewrite <-!(assoc_L (++)).
Qed.

Lemma checkout_loop_after_failure retry cmds h :
  failed h = true →
  checkout_loop config path name uri retry cmds h
  = (Ok (), h ++ command_calls path name cmds).
Proof.
  revert h. induction cmds as [|cmd rest IH]; intros h Hf; simpl.
  { by rewrite app_nil_r. }
  rewrite (do_call_true _ _ (Honce _ _ Hf)), IH by (by apply failed_app).
  by rewrite <-(assoc_L (++)).
Qed.

Lemma checkout_loop_recovers cmds h :
  ∃ h', checkout_loop config path name uri
          (checkout_repo config path name tag uri 1) cmds h = (Ok (), h').
Proof.
  revert h. induction cmds as [|cmd rest IH]; intros h; simpl; [by eexists|].
  unfold do_call at 1. destruct (W h _); [apply IH|].
  erewrite st_bind_Ok by (apply clone_repo_after_failure, failed_snoc).
  rewrite checkout_repo_last, checkout_loop_after_failure
    by (done || apply failed_app, failed_snoc).
  by eexists.
Qed.

(** C15.  One failure is recovered: when the outside fails once at most
    and [config] has the paths of the links, [checkout_repo] with [n = 0]
    returns, and the last three calls are the three commands, all returned:
    a command that fails is followed by a fresh clone and by the three
    commands again. *)
Theorem checkout_repo_recovers h :
  ∃ l, checkout_repo config path name tag uri 0 h
       = (Ok (), h ++ l ++ command_calls path name (commands tag)).
Proof.
  destruct (checkout_loop_recovers (commands tag) h) as [h' E].
  rewrite <-checkout_repo_retry in E.
  destruct (checkout_repo_Ok _ _ _ _ _ _ _ _ E) as [l ->]. by exists l.
Qed.

End recovery.

End checkout.

End outside.

(** ** At a concrete outside *)

(** An outside in which [git pull] fails the first time. *)
Definition ex_world : world := λ h c,
  failed h || negb (bool_decide (c = CheckOutput ["git"; "pull"] "/srv/states")).

(** An outside in which the tag cannot be checked out. *)
Definition ex_world_down : world := λ h c,
  negb (bool_decide (c = CheckOutput ["git"; "checkout"; "v1"] "/srv/states")).

Definition ex_config : value :=
  VDict [(KStr "global", VDict [(KStr "package_path", VStr "/opt/pkg")]);
         (KStr "module",
          VDict [(KStr "name", VStr "salt"); (KStr "src_salt", VStr "sources/salt");
                 (KStr "dst_adaptor", VStr "adaptor");
                 (KStr "src_adaptor", VStr "sources/adaptor")])].

Lemma checkout_repo_recovers_witness :
  ∃ l, checkout_repo ex_world id ex_config "/srv" "states" "v1" "git://host/states"
         0 []
       = (Ok (), [] ++ l
                 ++ command_calls id "/srv" "states" (commands "v1")).
Proof.
  eapply (checkout_repo_recovers ex_world id ex_config "/srv" "states" "v1"
            "git://host/states"); [reflexivity..|].
  intros h c Hf. unfold ex_world. by rewrite Hf.
Defined.

Lemma checkout_repo_checked_out_witness :
  ∃ l, (checkout_repo ex_world id ex_config "/srv" "states" "v1"
          "git://host/states" 0 []).2
       = [] ++ l ++ command_calls id "/srv" "states" (commands "v1").
Proof. apply checkout_repo_checked_out. vm_compute. reflexivity. Defined.

(** The bound of 18 calls is reached, with two clones. *)
Example checkout_repo_down :
  let r := checkout_repo ex_world_down id ex_config "/srv" "states" "v1"
             "git://host/states" 0 [] in
  r.1 = Raise ManagerInvalidStatesRepoException
  ∧ length r.2 = 18 ∧ count is_clone r.2 = 2.
Proof. vm_compute. auto. Qed.
