(* ===== verification/Locale.v ===== *)
(** * The locale module

    src/salt/modules/localemod.py: reading and setting the locale of the
    system, by [localectl] on Arch and by the file of the distribution
    elsewhere.  The functions run commands; they are modelled over any
    system with the operations of [Salt], and the round trip of
    [set_locale] and [get_locale] is proved on a system that holds the lines
    of the locale file.  [__grains__['os_family']] is a string.
    [state_std] only records the result of a command and is left out. *)

From Stdlib Require Import Ascii.
From stdpp Require Import base tactics option strings numbers list.
From S2P Require Import Prelude PyStrings PyText PyValue PyOps Effects.

#[local] Open Scope string_scope.
#[local] Open Scope list_scope.
#[local] Open Scope nat_scope.

(** [__virtual__]: the name of the module, or [False] on Windows;
    [is_windows] is [salt.utils.is_windows()]. *)
Definition locale__virtualname__ : string := "locale".
Definition locale__virtual__ (is_windows : bool) : value :=
  if is_windows then VBool false else VStr locale__virtualname__.

(** ** The output of localectl *)

(** A character of [[A-Z_]]. *)
Definition is_key_char (c : ascii) : bool :=
  let n := nat_of_ascii c in ((65 <=? n) && (n <=? 90)) || (n =? 95).

(** The longest prefix of characters of [[A-Z_]], and the rest. *)
Fixpoint span_key (s : string) : string * string :=
  match s with
  | String c s' =>
      if is_key_char c then let '(k, r) := span_key s' in (String c k, r)
      else ("", s)
  | "" => ("", "")
  end.

(** The groups of [re.match] on [s], or [None].  The pattern is a key of
    one or more characters of [[A-Z_]], the sign [=], and a value that runs
    to the end; the value holds no line feed, and one line feed may end the
    string. *)
Definition locale_match (s : string) : option (string * string) :=
  match span_key s with
  | (String _ _ as k, String "="%char v) =>
      match split_once "010" v with
      | [v'] | [v'; ""] => Some (k, v')
      | _ => None
      end
  | _ => None
  end.

(** The body of the loop of [_parse_localectl], from [cur_param] (unbound
    before the first line with a colon) and [ret]. *)
Definition parse_localectl_line (st : option string * dict) (line : string)
    : result (option string * dict) :=
  let '(cur_param, ret) := st in
  let cols := strip <$> split_once ":" line in
  let '(cur_param, cols) :=
    if bool_decide (1 < length cols) then (head cols, tail cols)
    else (cur_param, cols) in
  cur ← of_option UnboundLocalError cur_param;
  if bool_decide (cur = "System Locale") then
    c ← of_option IndexError (head cols);
    match locale_match c with
    | None => Ok (cur_param, ret)
    | Some (key, val) =>
        Ok (cur_param, dict_set (KStr key) (VStr (remove_char dquote val)) ret)
    end
  else Ok (cur_param, ret).

(** [_parse_localectl], on the output of [localectl]. *)
Definition parse_localectl (out : string) : result dict :=
  st ← foldM parse_localectl_line (splitlines out) (None, []);
  Ok st.2.

(** The arguments of [localectl set-locale]. *)
Definition locale_args `{PyRepr} (locale_params : dict) : string :=
  join " " ((λ kv : key * value,
               py_str (of_key kv.1) +:+ "=" +:+ quoted (py_str kv.2))
            <$> locale_params).

(** [grep "^LANG=" <file>]. *)
Definition grep_lang (file : string) : string :=
  "grep " +:+ quoted "^LANG=" +:+ " " +:+ file.

Section locale.
Context `{PyRepr} `{Salt sys}.
(** [__grains__['os_family']]. *)
Variable os_family : string.

Definition _parse_localectl : st sys dict :=
  out ← run "localectl"; lift (parse_localectl out).

(** [_parse_localectl().get('LANG', '')]. *)
Definition _localectl_get : st sys value :=
  ret ← _parse_localectl;
  mret (default (VStr "") (dict_get (KStr "LANG") ret)).

Definition _localectl_set (locale : string) : st sys value :=
  locale_params ← _parse_localectl;
  let locale_params := dict_set (KStr "LANG") (VStr locale) locale_params in
  let cmd := "localectl set-locale " +:+ locale_args locale_params in
  rc ← retcode cmd;
  mret (VBool (bool_decide (rc = 0%Z))).

(** [list_avail]. *)
Definition list_avail : st sys value :=
  out ← run "locale -a"; mret (VList (VStr <$> split_on "010" out)).

(** [run(cmd).split('=')[1]] without its double quotes, or [''] when there
    is no second piece. *)
Definition lang_of (out : string) : string :=
  match split_on "=" out !! 1%nat with
  | Some v => remove_char dquote v
  | None => ""
  end.

Definition get_locale : st sys value :=
  if contains_sub "Arch" os_family then _localectl_get
  else if contains_sub "RedHat" os_family then
    out ← run (grep_lang "/etc/sysconfig/i18n"); mret (VStr (lang_of out))
  else if contains_sub "Debian" os_family then
    out ← run (grep_lang "/etc/default/locale"); mret (VStr (lang_of out))
  else if contains_sub "Gentoo" os_family then
    out ← run "eselect --brief locale show"; mret (VStr (strip out))
  else
    out ← run ""; mret (VStr (lang_of out)).

(** [LANG="<locale>"], the line [set_locale] puts in the file. *)
Definition lang_line (locale : string) : string := "LANG=" +:+ quoted locale.

(** [grep "^LANG=" <file> || echo "<line feed>LANG=<locale>" >> <file>]. *)
Definition append_lang (file locale : string) : string :=
  grep_lang file +:+ " || echo " +:+ String dquote (String "010" "LANG=")
    +:+ locale +:+ String dquote " >> " +:+ file.

Definition set_locale (locale : string) : st sys value :=
  if contains_sub "Arch" os_family then _localectl_set locale
  else if contains_sub "RedHat" os_family then
    sed "/etc/sysconfig/i18n" "^LANG=.*" (lang_line locale);;
    retcode (append_lang "/etc/sysconfig/i18n" locale);;
    mret (VBool true)
  else if contains_sub "Debian" os_family then
    sed "/etc/default/locale" "^LANG=.*" (lang_line locale);;
    retcode (append_lang "/etc/default/locale" locale);;
    mret (VBool true)
  else if contains_sub "Gentoo" os_family then
    rc ← retcode ("eselect --brief locale set " +:+ locale);
    mret (VBool (bool_decide (rc = 0%Z)))
  else mret (VBool true).

End locale.

(** ** A system with a locale file

    The lines of the locale file, and what [grep], [sed] and [echo] do to
    them: [grep] prints the lines that start with [LANG=], [sed] replaces
    each of them, and [echo] appends an empty line and the new one when
    [grep] found none. *)

Definition is_lang (line : string) : bool := startswith line "LANG=".

Definition file_run (file cmd : string) (lines : list string)
    : string * list string :=
  if decide (cmd = grep_lang file)
  then (join (String "010" "") (filter (λ l, is_lang l = true) lines), lines)
  else ("", lines).

Definition file_retcode (file cmd : string) (lines : list string)
    : Z * list string :=
  match strip_prefix (grep_lang file +:+ " || echo "
                        +:+ String dquote (String "010" "LANG=")) cmd
        ≫= strip_suffix (String dquote " >> " +:+ file) with
  | Some locale =>
      if existsb is_lang lines then (0%Z, lines)
      else (0%Z, lines ++ [""; "LANG=" +:+ locale])
  | None => (127%Z, lines)
  end.

Definition file_sed_lang (file path before after : string) (lines : list string)
    : list string :=
  if decide (path = file ∧ before = "^LANG=.*")
  then (λ l, if is_lang l then after else l) <$> lines
  else lines.

Definition locale_file (file : string) : Salt (list string) :=
  {| cmd_run := file_run file;
     cmd_retcode := file_retcode file;
     file_sed := file_sed_lang file |}.

(** ** What localectl prints

    The status as systemd's [localectl] prints it: the settings of the
    locale, the first after [System Locale:] and the others below it, then
    the keymap and the layout. *)

Definition setting (kv : string * string) : string := kv.1 +:+ "=" +:+ kv.2.

Definition status_lines (params : list (string * string)) : list string :=
  match params with
  | [] => ["   System Locale: n/a"]
  | kv :: rest =>
      ("   System Locale: " +:+ setting kv)
      :: ((λ kv, "                  " +:+ setting kv) <$> rest)
  end.

Definition localectl_status (params : list (string * string))
    (keymap layout : string) : string :=
  unlines (status_lines params
           ++ ["       VC Keymap: " +:+ keymap; "      X11 Layout: " +:+ layout]).

(** A key of one or more characters of [[A-Z_]]; a value that localectl
    prints as it is and that [_parse_localectl] reads as it is. *)
Definition valid_key (k : string) : Prop :=
  k ≠ "" ∧ forallb is_key_char (chars k) = true.
Definition valid_val (v : string) : Prop :=
  no_break v ∧ (":"%char ∉ chars v) ∧ (dquote ∉ chars v) ∧ stripped v.
Definition valid_setting (kv : string * string) : Prop :=
  valid_key kv.1 ∧ valid_val kv.2.

#[export] Instance valid_setting_dec kv : Decision (valid_setting kv).
Proof. unfold valid_setting, valid_key, valid_val. apply _. Defined.

(** ** What [get_locale] reads of a line *)

Section lang_of.
Variable locale : string.
Hypothesis Heq : "="%char ∉ chars locale.
Hypothesis Hdq : dquote ∉ chars locale.

Lemma lang_of_plain : lang_of ("LANG=" +:+ locale) = locale.
Proof.
  unfold lang_of. change ("LANG=" +:+ locale) with ("LANG" +:+ String "=" locale).
  rewrite split_on_first by compute_done.
  rewrite split_on_absent by done. simpl. by apply remove_char_absent.
Qed.

Lemma lang_of_line : lang_of (lang_line locale) = locale.
Proof.
  unfold lang_of, lang_line.
  change ("LANG=" +:+ ?s) with ("LANG" +:+ String "=" s).
  rewrite split_on_first by compute_done.
  rewrite split_on_absent; [by apply remove_char_quoted|].
  unfold quoted. simpl. rewrite chars_app.
  apply not_elem_of_cons; split; [done|]. apply not_elem_of_app; split; [done|].
  by apply not_elem_of_cons; split; [|apply not_elem_of_nil].
Qed.

End lang_of.

(** ** Setting and then reading the locale, on a system with a locale file *)

Lemma filter_sed_lang after (lines : list string) :
  is_lang after = true →
  filter (λ l, is_lang l = true) ((λ l, if is_lang l then after else l) <$> lines)
  = (λ _, after) <$> filter (λ l, is_lang l = true) lines.
Proof.
  intros Ha. induction lines as [|l lines IH]; [done|].
  rewrite fmap_cons, !filter_cons. destruct (is_lang l) eqn:E.
  - rewrite !decide_True by done. by rewrite fmap_cons, IH.
  - rewrite !decide_False by (rewrite ?E; done). done.
Qed.

Lemma existsb_is_lang (lines : list string) :
  existsb is_lang lines = false ↔ filter (λ l, is_lang l = true) lines = [].
Proof.
  induction lines as [|l lines IH]; [done|]. simpl. rewrite filter_cons.
  by destruct (is_lang l).
Qed.

(** The system reads the locale off the command of [set_locale]. *)
Lemma append_lang_parse file locale :
  strip_prefix (grep_lang file +:+ " || echo "
                  +:+ String dquote (String "010" "LANG="))
    (append_lang file locale)
  ≫= strip_suffix (String dquote " >> " +:+ file) = Some locale.
Proof.
  assert (append_lang file locale
          = (grep_lang file +:+ " || echo " +:+ String dquote (String "010" "LANG="))
            +:+ (locale +:+ String dquote " >> " +:+ file)) as ->.
  { unfold append_lang. by rewrite !app_assoc_str. }
  rewrite strip_prefix_app. simpl. by rewrite strip_suffix_app.
Qed.

Section set_get.
Variables (file locale : string).
Hypothesis Heq : "="%char ∉ chars locale.
Hypothesis Hdq : dquote ∉ chars locale.

(** What [grep] prints after [sed] and [echo] have run. *)
Lemma grep_after_set (lines : list string) :
  length (filter (λ l, is_lang l = true) lines) ≤ 1 →
  let lines1 := file_sed_lang file file "^LANG=.*" (lang_line locale) lines in
  let lines2 := (file_retcode file (append_lang file locale) lines1).2 in
  lang_of (file_run file (grep_lang file) lines2).1 = locale.
Proof.
  intros Hone. unfold file_sed_lang, file_retcode, file_run.
  rewrite decide_True by done. rewrite decide_True by done.
  rewrite append_lang_parse.
  destruct (filter _ lines) as [|l [|??]] eqn:E; [| |simpl in Hone; lia].
  - assert (existsb is_lang ((λ l, if is_lang l then lang_line locale else l)
                               <$> lines) = false) as ->.
    { apply existsb_is_lang. rewrite filter_sed_lang by done. by rewrite E. }
    simpl. rewrite filter_app, filter_sed_lang, E by done. simpl.
    by apply lang_of_plain.
  - assert (existsb is_lang ((λ l, if is_lang l then lang_line locale else l)
                               <$> lines) = true) as ->.
    { apply not_false_iff_true. rewrite existsb_is_lang, filter_sed_lang by done.
      by rewrite E. }
    simpl. rewrite filter_sed_lang, E by done. simpl. by apply lang_of_line.
Qed.

End set_get.

(** C17.  The locale that was set is the locale that is read: on a
    RedHat or Debian system whose locale file has at most one line that
    starts with [LANG=], [get_locale] after [set_locale locale] returns
    [locale], when [locale] holds neither [=] nor a double quote. *)
Theorem set_get_locale `{PyRepr} os_family file locale (lines : list string) :
  contains_sub "Arch" os_family = false →
  (contains_sub "RedHat" os_family = true ∧ file = "/etc/sysconfig/i18n")
  ∨ (contains_sub "RedHat" os_family = false
     ∧ contains_sub "Debian" os_family = true ∧ file = "/etc/default/locale") →
  "="%char ∉ chars locale → dquote ∉ chars locale →
  length (filter (λ l, is_lang l = true) lines) ≤ 1 →
  ∃ lines',
    (@set_locale _ _ (locale_file file) os_family locale
       ≫= λ _, @get_locale _ (locale_file file) os_family) lines
    = (Ok (VStr locale), lines').
Proof.
  intros Harch Hos Heq Hdq Hone.
  pose proof (grep_after_set file locale Heq Hdq lines Hone) as Hg.
  unfold set_locale, get_locale. rewrite Harch.
  destruct Hos as [[-> ->]|(-> & -> & ->)];
    unfold mbind, st_bind, sed, retcode, run, modify;
    cbn [cmd_run cmd_retcode file_sed locale_file]; cbv zeta in Hg;
    destruct (file_retcode _ _ _) as [rc lines2]; cbn [snd] in Hg;
    cbn [mret st_ret];
    destruct (file_run _ _ lines2) as [out lines3]; cbn [fst] in Hg;
    rewrite Hg; by eexists.
Qed.

(** ** Reading what localectl prints *)

Lemma span_key_setting k rest :
  forallb is_key_char (chars k) = true →
  span_key (k +:+ String "=" rest) = (k, String "=" rest).
Proof.
  induction k as [|c k IH]; [done|]. simpl.
  intros [-> Hk]%andb_true_iff. by rewrite IH.
Qed.

Lemma key_char_no_space c : is_key_char c = true → is_py_space c = false.
Proof. by destruct c as [[] [] [] [] [] [] [] []]. Qed.

Lemma key_char_no_colon k :
  forallb is_key_char (chars k) = true → ":"%char ∉ chars k.
Proof.
  induction k as [|c k IH]; simpl; [intros _; apply not_elem_of_nil|].
  intros [Hc Hk]%andb_true_iff. apply not_elem_of_cons. split; [|by apply IH].
  by intros <-.
Qed.

Lemma setting_eq k v : setting (k, v) = k +:+ String "=" v.
Proof. done. Qed.

Section setting.
Variables k v : string.
Hypothesis Hk : valid_key k.
Hypothesis Hv : valid_val v.

Lemma locale_match_setting : locale_match (setting (k, v)) = Some (k, v).
Proof.
  destruct Hk as [Hne Hkc], Hv as (Hb & _).
  unfold locale_match. rewrite setting_eq, span_key_setting by done.
  destruct k as [|c k']; [done|].
  rewrite split_once_absent; [done|].
  intros Hin. by destruct (proj1 (Forall_forall _ _) Hb _ Hin).
Qed.

Lemma stripped_setting : stripped (setting (k, v)).
Proof.
  destruct Hk as [Hne Hkc], Hv as (_ & _ & _ & Hs).
  rewrite setting_eq. destruct k as [|c k']; [done|].
  simpl in Hkc. apply andb_true_iff in Hkc as [Hc%key_char_no_space _].
  destruct (string_snoc_cases v) as [->|(v' & a & ->)].
  - by apply (stripped_intro c k' "=").
  - apply stripped_last in Hs. rewrite app_cons_str.
    rewrite <-(app_cons_str "=" v'), <-app_assoc_str.
    by apply stripped_intro.
Qed.

Lemma no_colon_setting : ":"%char ∉ chars (setting (k, v)).
Proof.
  destruct Hk as [_ Hkc], Hv as (_ & Hc & _).
  rewrite setting_eq, chars_app. apply not_elem_of_app.
  split; [by apply key_char_no_colon|]. simpl. by apply not_elem_of_cons.
Qed.

Lemma remove_dquote_val : remove_char dquote v = v.
Proof. destruct Hv as (_ & _ & Hq & _). by apply remove_char_absent. Qed.

(** The line after [System Locale:]. *)
Lemma parse_first_line cur ret :
  parse_localectl_line (cur, ret) ("   System Locale: " +:+ setting (k, v))
  = Ok (Some "System Locale", dict_set (KStr k) (VStr v) ret).
Proof.
  unfold parse_localectl_line.
  change ("   System Locale: " +:+ ?s)
    with ("   System Locale" +:+ String ":" (String " " s)).
  rewrite split_once_first by compute_done.
  cbn [fmap list_fmap length head tail].
  replace (strip (String " " (setting (k, v)))) with (setting (k, v))
    by (symmetry; apply stripped_setting).
  rewrite bool_decide_true by lia. cbn [of_option mbind result_bind].
  replace (strip "   System Locale") with "System Locale" by reflexivity.
  rewrite bool_decide_true by done. cbn [head of_option mbind result_bind].
  by rewrite locale_match_setting, remove_dquote_val.
Qed.

(** A line below it. *)
Lemma parse_next_line ret :
  parse_localectl_line (Some "System Locale", ret)
    ("                  " +:+ setting (k, v))
  = Ok (Some "System Locale", dict_set (KStr k) (VStr v) ret).
Proof.
  unfold parse_localectl_line. rewrite split_once_absent.
  2:{ rewrite chars_app. apply not_elem_of_app. split; [compute_done|].
      apply no_colon_setting. }
  cbn [fmap list_fmap length head tail].
  replace (strip ("                  " +:+ setting (k, v))) with (setting (k, v))
    by (symmetry; apply stripped_setting).
  rewrite bool_decide_false by (simpl; lia). cbn [of_option mbind result_bind].
  rewrite bool_decide_true by done. cbn [head of_option mbind result_bind].
  by rewrite locale_match_setting, remove_dquote_val.
Qed.

End setting.

(** A line of another parameter. *)
Lemma parse_other_line cur ret p q :
  ":"%char ∉ chars p → strip p ≠ "System Locale" →
  parse_localectl_line (cur, ret) (p +:+ String ":" q) = Ok (Some (strip p), ret).
Proof.
  intros Hp Hne. unfold parse_localectl_line. rewrite split_once_first by done.
  cbn [fmap list_fmap length head tail].
  rewrite bool_decide_true by lia. cbn [of_option mbind result_bind].
  by rewrite bool_decide_false.
Qed.

Lemma no_break_key k : forallb is_key_char (chars k) = true → no_break k.
Proof.
  unfold no_break. induction k as [|c k IH]; simpl; [constructor|].
  intros [Hc Hk]%andb_true_iff. constructor; [|by apply IH].
  by split; intros ->.
Qed.

Lemma no_break_setting kv : valid_setting kv → no_break (setting kv).
Proof.
  intros [[_ Hk] (Hv & _)]. apply no_break_app; [by apply no_break_key|].
  apply (no_break_app "="); [compute_done|done].
Qed.

Lemma no_break_status params :
  Forall valid_setting params → Forall no_break (status_lines params).
Proof.
  destruct 1 as [|kv rest Hkv Hrest]; simpl; [by repeat constructor|].
  constructor.
  - apply (no_break_app "   System Locale: "), no_break_setting; [compute_done|done].
  - apply Forall_fmap. eapply Forall_impl; [done|]. intros kv' Hkv'.
    apply (no_break_app "                  "), no_break_setting; [compute_done|done].
Qed.

Lemma parse_next_lines rest ret :
  Forall valid_setting rest →
  foldM parse_localectl_line ((λ kv, "                  " +:+ setting kv) <$> rest)
    (Some "System Locale", ret)
  = Ok (Some "System Locale", dict_update ret (dict_of rest)).
Proof.
  intros Hrest. revert ret.
  induction Hrest as [|[k v] rest [Hk Hv] _ IH]; intros ret; [done|].
  rewrite fmap_cons, foldM_cons, parse_next_line by done. apply IH.
Qed.

Lemma parse_status_lines params :
  Forall valid_setting params →
  foldM parse_localectl_line (status_lines params) (None, [])
  = Ok (Some "System Locale", dict_update [] (dict_of params)).
Proof.
  destruct 1 as [|[k v] rest [Hk Hv] Hrest]; [done|].
  unfold status_lines. rewrite foldM_cons, parse_first_line by done.
  cbn [mbind result_bind]. by rewrite parse_next_lines.
Qed.

(** C31.  [_parse_localectl] reads what localectl prints: on the status
    of a locale with the settings [params], whose keys are pairwise
    different names of characters of [[A-Z_]] and whose values hold no colon,
    double quote, line break or white space at an end, it returns the dict
    of [params], whatever the keymap and the layout are. *)
Theorem parse_localectl_status params keymap layout :
  Forall valid_setting params → NoDup params.*1 →
  no_break keymap → no_break layout →
  parse_localectl (localectl_status params keymap layout) = Ok (dict_of params).
Proof.
  intros Hv Hnd Hk Hl. unfold parse_localectl, localectl_status.
  rewrite splitlines_unlines.
  2:{ apply Forall_app_2; [by apply no_break_status|].
      repeat (apply Forall_cons_2; [by apply no_break_app; [compute_done|]|]).
      apply Forall_nil_2. }
  rewrite foldM_app, parse_status_lines by done. cbn [mbind result_bind].
  rewrite foldM_cons.
  rewrite (parse_other_line _ _ "       VC Keymap" (String " " keymap))
    by compute_done.
  cbn [mbind result_bind]. rewrite foldM_cons.
  rewrite (parse_other_line _ _ "      X11 Layout" (String " " layout))
    by compute_done.
  cbn [mbind result_bind foldM snd]. by rewrite dict_update_wf_id by by apply dict_of_wf.
Qed.

Lemma parse_line_unbound ret line :
  ":"%char ∉ chars line →
  parse_localectl_line (None, ret) line = Raise UnboundLocalError.
Proof.
  intros Hc. unfold parse_localectl_line.
  rewrite split_once_absent by done. cbn [fmap list_fmap length].
  by rewrite bool_decide_false by (simpl; lia).
Qed.

(** C32.  A first line without a colon is not survived: when the output
    of localectl starts with a line that holds no colon, [_parse_localectl]
    raises [UnboundLocalError], [cur_param] being read before any
    assignment. *)
Theorem parse_localectl_unbound line rest :
  no_break line → ":"%char ∉ chars line →
  parse_localectl (line +:+ String "010" rest) = Raise UnboundLocalError.
Proof.
  intros Hb Hc. unfold parse_localectl. rewrite splitlines_line by done.
  by rewrite foldM_cons, parse_line_unbound.
Qed.

(** ** At concrete systems *)

Definition ex_locale_params : list (string * string) :=
  [("LANG", "en_US.UTF-8"); ("LC_MESSAGES", "C")].

Lemma parse_localectl_status_witness :
  parse_localectl (localectl_status ex_locale_params "us" "n/a") = Ok (dict_of ex_locale_params).
Proof. apply parse_localectl_status; compute_done. Defined.

Lemma parse_localectl_unbound_witness :
  parse_localectl ("" +:+ String "010" "   System Locale: LANG=C")
  = Raise UnboundLocalError.
Proof. apply parse_localectl_unbound; compute_done. Defined.

Lemma set_get_locale_witness :
  ∃ lines',
    (@set_locale repr_elided _ (locale_file "/etc/sysconfig/i18n") "RedHat"
       "en_US.UTF-8"
     ≫= λ _, @get_locale _ (locale_file "/etc/sysconfig/i18n") "RedHat")
      ["# the locale"; lang_line "C"]
    = (Ok (VStr "en_US.UTF-8"), lines').
Proof.
  apply (set_get_locale (H:=repr_elided) "RedHat" "/etc/sysconfig/i18n");
    [reflexivity|by left|compute_done|compute_done|vm_compute; lia].
Defined.

(** With two lines that start with [LANG=] in the file, what [get_locale]
    returns is not the locale that was set. *)
Example get_locale_two_lines :
  (@set_locale repr_elided _ (locale_file "/etc/default/locale") "Debian" "C"
   ≫= λ _, @get_locale _ (locale_file "/etc/default/locale") "Debian")
    ["LANG=fr_FR"; "LANG=de_DE"]
  = (Ok (VStr ("C" +:+ String "010" "LANG")), [lang_line "C"; lang_line "C"]).
Proof. vm_compute. reflexivity. Qed.

(** A value with a colon on a line below [System Locale:] is lost, and so
    are the settings on the lines after it. *)
Example parse_localectl_colon :
  parse_localectl
    (localectl_status [("LANG", "C"); ("LC_TIME", "a:b"); ("LC_ALL", "C")] "us" "us")
  = Ok (dict_of [("LANG", "C")]).
Proof. vm_compute. reflexivity. Qed.
