(* ===== verification/YumRepo.v ===== *)
(** * The repositories of yum

    The repository functions of src/salt/modules/yumpkg5.py:
    [_parse_repo_file], [list_repos], [get_repo], [del_repo] and [mod_repo].
    They read and write the [.repo] files of a directory.  The files are
    modelled as a dict from path to content, in the order [os.listdir]
    lists them; reading a file that is not there raises [IOError].  The
    functions that only read are functions of the files; [del_repo] and
    [mod_repo] change them.  A repo file is read into a dict from the name
    of a stanza to the dict of its options, the comments of the stanza under
    the key [comments]. *)

From Stdlib Require Import Ascii.
From stdpp Require Import base tactics option strings numbers list.
From S2P Require Import Prelude PyStrings PyText PyValue PyOps Effects.

#[local] Open Scope string_scope.
#[local] Open Scope list_scope.
#[local] Open Scope nat_scope.

(** ** The files *)

Abbreviation fs := dict.

(** [del d[k]] for a key that is there. *)
Definition dict_del (k : key) (d : dict) : dict :=
  filter (λ kv, key_eqb k kv.1 = false) d.

Definition read_file (path : string) (files : fs) : result string :=
  match dict_get (KStr path) files with
  | Some (VStr content) => Ok content
  | _ => Raise IOError
  end.

Definition write_file (path content : string) : st fs unit :=
  modify (dict_set (KStr path) (VStr content)).

(** [os.remove(path)]. *)
Definition remove_file (path : string) : st fs unit := λ files,
  if dict_has (KStr path) files then (Ok (), dict_del (KStr path) files)
  else (Raise OSError, files).

(** The name of a file in [basedir], from its path. *)
Definition name_in (basedir : string) (k : key) : option string :=
  match k with
  | KStr path =>
      name ← strip_prefix (basedir +:+ "/") path;
      if bool_decide ("/"%char ∈ chars name) then None else Some name
  | _ => None
  end.

(** [os.listdir(basedir)]. *)
Definition listdir (basedir : string) (files : fs) : list string :=
  omap (name_in basedir) (dict_keys files).

(** ** Values as the code uses them *)

Definition as_dict (v : value) : result dict :=
  match v with VDict d => Ok d | _ => Raise TypeError end.

Definition as_str (v : value) : result string :=
  match v with VStr s => Ok s | _ => Raise TypeError end.

(** [sep.join(v)]: [v] is iterated over, and every element must be a
    string. *)
Definition join_values (sep : string) (v : value) : result string :=
  l ← py_iter v; ss ← mapM as_str l; Ok (join sep ss).

(** ** Reading a repo file *)

(** [repos[repo]['comments'].append(c)], the list created when missing. *)
Definition comment_append (stanza : dict) (c : string) : result dict :=
  let stanza :=
    if dict_has (KStr "comments") stanza then stanza
    else dict_set (KStr "comments") (VList []) stanza in
  match dict_get (KStr "comments") stanza with
  | Some (VList l) => Ok (dict_set (KStr "comments") (VList (l ++ [VStr c])) stanza)
  | Some _ => Raise AttributeError
  | None => Raise KeyError
  end.

(** The body of the loop of [_parse_repo_file], from [repos], [header] and
    [repo]. *)
Definition parse_repo_line (st : dict * string * string) (line : string)
    : result (dict * string * string) :=
  let '(repos, header, repo) := st in
  let '(repos, repo) :=
    if startswith line "[" then
      let repo := remove_char "]" (remove_char "[" (strip line)) in
      (dict_set (KStr repo) (VDict []) repos, repo)
    else (repos, repo) in
  let header :=
    if bool_decide (line = "") && bool_decide (repo = "") then header +:+ line
    else header in
  if startswith line "#" then
    if bool_decide (repo = "") then Ok (repos, header +:+ line, repo)
    else
      stanza ← getitem_str (VDict repos) repo ≫= as_dict;
      stanza ← comment_append stanza (strip line);
      Ok (dict_set (KStr repo) (VDict stanza) repos, header, repo)
  else if bool_decide ("="%char ∈ chars line) then
    let comps := split_on "=" (strip line) in
    stanza ← getitem_str (VDict repos) repo ≫= as_dict;
    let stanza := dict_set (KStr (strip (default "" (head comps))))
                    (VStr (join "=" (tail comps))) stanza in
    Ok (dict_set (KStr repo) (VDict stanza) repos, header, repo)
  else Ok (repos, header, repo).

(** [_parse_repo_file(filename)]: the header and the repos. *)
Definition _parse_repo_file (filename : string) (files : fs)
    : result (string * dict) :=
  content ← read_file filename files;
  st ← foldM parse_repo_line (file_lines content) ([], "", "");
  Ok (st.1.2, st.1.1).

(** ** Listing *)

(** The body of the inner loop of [list_repos]. *)
Definition add_file_repo (repopath : string) (filerepos repos : dict)
    (reponame : key) : result dict :=
  repo ← of_option KeyError (dict_get reponame filerepos) ≫= as_dict;
  Ok (dict_set reponame (VDict (dict_set (KStr "file") (VStr repopath) repo)) repos).

(** The body of its outer loop. *)
Definition list_repos_file (basedir : string) (files : fs) (repos : dict)
    (repofile : string) : result dict :=
  let repopath := basedir +:+ "/" +:+ repofile in
  if endswith repofile ".repo" then
    hf ← _parse_repo_file repopath files;
    foldM (add_file_repo repopath hf.2) (dict_keys hf.2) repos
  else Ok repos.

Definition list_repos (basedir : string) (files : fs) : result dict :=
  foldM (list_repos_file basedir files) (listdir basedir files) [].

(** The loop that finds the file of [repo]: [repos[arepo]['file']] of the
    keys equal to [repo], [''] when there is none. *)
Definition find_repofile (repo : string) (repos : dict) : result value :=
  foldM (λ repofile arepo,
           if key_is arepo repo then
             of_option KeyError (dict_get arepo repos) ≫= λ r, getitem_str r "file"
           else Ok repofile)
        (dict_keys repos) (VStr "").

Definition get_repo (repo basedir : string) (files : fs) : result value :=
  repos ← list_repos basedir files;
  repofile ← find_repofile repo repos;
  if truthy repofile then
    path ← as_str repofile;
    hf ← _parse_repo_file path files;
    getitem_str (VDict hf.2) repo
  else Raise Exception.

(** ** Writing a repo file *)

Section write.
Context `{PyRepr}.

(** The text of the options of a stanza: a line [key=value] for each. *)
Definition option_lines (content : string) (stanza : dict) : string :=
  foldl (λ content kv,
           content +:+ String "010" (py_str (of_key kv.1) +:+ "=" +:+ py_str kv.2))
        content stanza.

(** The body of the loop that writes the stanzas: the comments of the
    stanza are taken out of it, and its text is added to [content]. *)
Definition write_stanza (st : string * dict) (stanza : key)
    : result (string * dict) :=
  let '(content, filerepos) := st in
  d ← of_option KeyError (dict_get stanza filerepos) ≫= as_dict;
  cd ← (if dict_has (KStr "comments") d then
          c ← of_option KeyError (dict_get (KStr "comments") d);
          comments ← join_values (String "010" "") c;
          Ok (comments, dict_del (KStr "comments") d)
        else Ok ("", d));
  let content := content +:+ String "010" ("[" +:+ py_str (of_key stanza) +:+ "]") in
  let content := option_lines content cd.2 in
  Ok (content +:+ String "010" (cd.1 +:+ String "010" ""),
      dict_set stanza (VDict cd.2) filerepos).

(** ** Deleting a repo *)

(** The loop that says whether [repo] is the only one in [repofile]. *)
Definition only_repo (repo : string) (repofile : value) (repos : dict)
    : result bool :=
  foldM (λ onlyrepo arepo,
           if key_is arepo repo then Ok onlyrepo
           else
             f ← of_option KeyError (dict_get arepo repos) ≫= λ r, getitem_str r "file";
             Ok (if bool_decide (f = repofile) then false else onlyrepo))
        (dict_keys repos) true.

Definition del_repo (repo basedir : string) : st fs value :=
  repos ← reads (list_repos basedir);
  if negb (dict_has (KStr repo) repos) then
    mret (VStr ("Error: the " +:+ repo +:+ " repo does not exist in " +:+ basedir))
  else
    repofile ← lift (find_repofile repo repos);
    onlyrepo ← lift (only_repo repo repofile repos);
    path ← lift (as_str repofile);
    if (onlyrepo : bool) then
      remove_file path;;
      mret (VStr ("File " +:+ path +:+ " containing repo " +:+ repo
                  +:+ " has been removed"))
    else
      hf ← reads (_parse_repo_file path);
      cf ← lift (foldM write_stanza
                   (filter (λ stanza, key_is stanza repo = false) (dict_keys hf.2))
                   (hf.1, hf.2));
      write_file path cf.1;;
      mret (VStr ("Repo " +:+ repo +:+ " has been removed from " +:+ path)).

(** ** Modifying a repo *)

(** [for key in d: body], where the body may delete from [d]: each step of
    the iteration, the one that ends it included, raises [RuntimeError]
    when the size of the dict is no longer what it was at the start. *)
Fixpoint for_keys {A} (size : nat) (body : key → dict * A → result (dict * A))
    (keys : list key) (st : dict * A) : result (dict * A) :=
  if bool_decide (length st.1 = size) then
    match keys with
    | [] => Ok st
    | k :: rest => st' ← body k st; for_keys size body rest st'
    end
  else Raise RuntimeError.

(** [v != 0 and not v]: a blank value. *)
Definition blank (v : value) : bool :=
  negb (bool_decide (v = VInt 0) || bool_decide (v = VBool false)) && negb (truthy v).

(** The body of the loop that collects the keys to delete. *)
Definition collect_blank (k : key) (st : dict * list key)
    : result (dict * list key) :=
  v ← of_option KeyError (dict_get k st.1);
  if blank v then Ok (dict_del k st.1, st.2 ++ [k]) else Ok st.

(** The options of the call: the keyword arguments whose name does not
    start with [__]; the name of a keyword argument is a string. *)
Definition is_public (k : key) : bool :=
  match k with KStr x => negb (startswith x "__") | _ => true end.
Definition public_opts (kwargs : dict) : dict :=
  filter (λ kv, is_public kv.1 = true) kwargs.

(** The checks of a deletion of [baseurl] or [mirrorlist]. *)
Definition check_delete (opt other : string) (todelete : list key)
    (repo_opts stanza : dict) : result unit :=
  if bool_decide (KStr opt ∈ todelete)
     && negb (dict_has (KStr other) repo_opts)
     && negb (dict_has (KStr other) stanza)
  then Raise SaltInvocationError else Ok ().

(** The directory of the repos: [basedir] when it is given and not empty. *)
Definition the_basedir (basedir : option string) : string :=
  match basedir with
  | Some (String _ _ as dir) => dir
  | _ => "/etc/yum.repos.d"
  end.

(** [baseurl] is deleted when [mirrorlist] is given, and the other way
    round. *)
Definition with_other_url (repo_opts : dict) (todelete : list key) : list key :=
  if dict_has (KStr "mirrorlist") repo_opts then todelete ++ [KStr "baseurl"]
  else if dict_has (KStr "baseurl") repo_opts then todelete ++ [KStr "mirrorlist"]
  else todelete.

(** The file of the repo, with its header and its repos: a new file when
    the repo is in none, which needs a name and a [baseurl] or a
    [mirrorlist]. *)
Definition repo_target (repo basedir : string) (repos repo_opts : dict)
    : st fs (string * string * dict) :=
  if negb (dict_has (KStr repo) repos) then
    if negb (dict_has (KStr "name") repo_opts)
    then lift (Raise SaltInvocationError)
    else if negb (dict_has (KStr "baseurl") repo_opts)
            && negb (dict_has (KStr "mirrorlist") repo_opts)
    then lift (Raise SaltInvocationError)
    else mret (basedir +:+ "/" +:+ repo +:+ ".repo", "", [(KStr repo, VDict [])])
  else
    repofile ← lift (r ← getitem_str (VDict repos) repo;
                     f ← getitem_str r "file"; as_str f);
    hf ← reads (_parse_repo_file repofile);
    mret (repofile, hf.1, hf.2).

(** The stanza of the repo without the options to delete and with the
    options of the call. *)
Definition apply_opts (repo : string) (todelete : list key)
    (repo_opts filerepos : dict) : result dict :=
  stanza ← getitem_str (VDict filerepos) repo ≫= as_dict;
  check_delete "baseurl" "mirrorlist" todelete repo_opts stanza;;
  check_delete "mirrorlist" "baseurl" todelete repo_opts stanza;;
  let stanza := foldl (λ d k, if dict_has k d then dict_del k d else d)
                  stanza todelete in
  Ok (dict_set (KStr repo) (VDict (dict_update stanza repo_opts)) filerepos).

(** The file is written, stanza by stanza. *)
Definition write_repos (repofile header : string) (filerepos : dict)
    : st fs dict :=
  cf ← lift (foldM write_stanza (dict_keys filerepos) (header, filerepos));
  write_file repofile cf.1;;
  mret cf.2.

Definition mod_repo (repo : string) (basedir : option string) (kwargs : dict)
    : st fs value :=
  let repo_opts := public_opts kwargs in
  if dict_has (KStr "mirrorlist") repo_opts && dict_has (KStr "baseurl") repo_opts
  then lift (Raise SaltInvocationError) else
  ot ← lift (for_keys (length repo_opts) collect_blank (dict_keys repo_opts)
               (repo_opts, []));
  let repo_opts := ot.1 in
  let todelete := with_other_url repo_opts ot.2 in
  if bool_decide (KStr "name" ∈ todelete) then lift (Raise SaltInvocationError) else
  repos ← reads (list_repos (the_basedir basedir));
  target ← repo_target repo (the_basedir basedir) repos repo_opts;
  filerepos ← lift (apply_opts repo todelete repo_opts target.2);
  filerepos ← write_repos target.1.1 target.1.2 filerepos;
  mret (VDict [(KStr target.1.1, VDict filerepos)]).

(** [expand_repo_def]. *)
Definition expand_repo_def (repokwargs : value) : value := repokwargs.

End write.

(** ** Deleting from a dict *)

Section dict_del.
Implicit Types (k : key) (v : value) (d : dict).



Lemma length_dict_del k d :
  is_Some (dict_get k d) → length (dict_del k d) < length d.
Proof.
  unfold dict_del. induction d as [|[k0 v0] d IH]; simpl; [by intros [? [=]]|].
  rewrite filter_cons. simpl. destruct (key_eqb k k0).
  - intros _. rewrite decide_False by done.
    pose proof (length_filter (λ kv : key * value, key_eqb k kv.1 = false) d). lia.
  - intros Hs. rewrite decide_True by done. simpl. apply IH in Hs. lia.
Qed.

Lemma dict_del_absent k d : dict_get k d = None → dict_del k d = d.
Proof.
  unfold dict_del. induction d as [|[k0 v0] d IH]; simpl; [done|].
  rewrite filter_cons. simpl. destruct (key_eqb k k0); [done|].
  intros Hd. by rewrite decide_True, IH.
Qed.

Lemma dict_del_wf k d : dict_wf d → dict_wf (dict_del k d).
Proof.
  unfold dict_wf, dict_del. intros Hd.
  induction d as [|[k0 v0] d IH]; [done|].
  rewrite !fmap_cons, NoDup_cons in Hd. destruct Hd as [Hk Hd].
  rewrite filter_cons. case_decide; [|by apply IH].
  rewrite !fmap_cons. apply NoDup_cons. split; [|by apply IH].
  intros Hin. apply Hk. simpl in *.
  apply list_elem_of_fmap in Hin as (k1 & -> & Hin).
  apply list_elem_of_fmap in Hin as ([k2 v2] & -> & Hin).
  apply list_elem_of_filter in Hin as [_ Hin].
  apply list_elem_of_fmap_2, (list_elem_of_fmap_2 fst _ (k2, v2)), Hin.
Qed.

End dict_del.

(** ** The loop over a dict that is changed *)

Section for_keys.
Implicit Types (d : dict) (todelete : list key).

Lemma collect_blank_get k d todelete v :
  dict_get k d = Some v →
  collect_blank k (d, todelete)
  = Ok (if blank v then (dict_del k d, todelete ++ [k]) else (d, todelete)).
Proof. intros Hv. unfold collect_blank. simpl. rewrite Hv. simpl. by destruct (blank v). Qed.

(** A blank value ends the loop with [RuntimeError]: its key is deleted,
    and the next step of the iteration finds the size changed. *)
Lemma for_keys_blank keys d todelete :
  (∀ k, k ∈ keys → is_Some (dict_get k d)) →
  (∃ k v, k ∈ keys ∧ dict_get k d = Some v ∧ blank v = true) →
  for_keys (length d) collect_blank keys (d, todelete) = Raise RuntimeError.
Proof.
  revert todelete. induction keys as [|k keys IH]; intros todelete Hall Hex.
  { destruct Hex as (? & ? & []%elem_of_nil & _). }
  simpl. rewrite bool_decide_true by done.
  destruct (Hall k ltac:(left)) as [v Hv]. rewrite (collect_blank_get _ _ _ _ Hv).
  destruct (blank v) eqn:Hb.
  - simpl. destruct keys; simpl; rewrite bool_decide_false; try done;
      pose proof (length_dict_del k d ltac:(by eexists)); lia.
  - simpl. apply IH; [intros; apply Hall; by right|].
    destruct Hex as (k' & v' & [->|Hin]%elem_of_cons & Hk' & Hb'); [|by eauto].
    congruence.
Qed.

(** Without a blank value nothing is deleted. *)
Lemma for_keys_no_blank keys d todelete :
  (∀ k, k ∈ keys → ∃ v, dict_get k d = Some v ∧ blank v = false) →
  for_keys (length d) collect_blank keys (d, todelete) = Ok (d, todelete).
Proof.
  induction keys as [|k keys IH]; intros Hall; simpl;
    rewrite bool_decide_true by done; [done|].
  destruct (Hall k ltac:(left)) as (v & Hv & Hb).
  rewrite (collect_blank_get _ _ _ _ Hv), Hb. simpl.
  apply IH. intros; apply Hall; by right.
Qed.

End for_keys.

Lemma dict_get_keys k d v :
  dict_get k d = Some v → ∃ k', k' ∈ dict_keys d ∧ dict_get k' d = Some v.
Proof.
  intros Hk. destruct (dict_get_elem_of _ _ _ Hk) as (k' & Heq & Hin).
  exists k'. split; [by apply (list_elem_of_fmap_2 fst _ (k', v))|].
  by rewrite <-Heq.
Qed.

Lemma dict_keys_get k d : k ∈ dict_keys d → is_Some (dict_get k d).
Proof.
  intros ([k' v] & -> & Hin)%list_elem_of_fmap.
  by eapply dict_get_is_Some_elem_of.
Qed.

Section mod_repo.
Context `{PyRepr}.

(** C16.  No option can be removed by [mod_repo]: when an option of the
    call has a blank value (one that is false and is not 0), [mod_repo]
    raises [RuntimeError] and leaves the files as they are, whatever the
    repo and the other options, unless both [mirrorlist] and [baseurl] are
    given, which is refused before.  The loop that collects the blank
    options deletes from the dict it iterates over. *)
Theorem mod_repo_blank_raises repo basedir kwargs files k v :
  dict_get k (public_opts kwargs) = Some v → blank v = true →
  dict_has (KStr "mirrorlist") (public_opts kwargs)
  && dict_has (KStr "baseurl") (public_opts kwargs) = false →
  mod_repo repo basedir kwargs files = (Raise RuntimeError, files).
Proof.
  intros Hk Hb Hboth. unfold mod_repo. rewrite Hboth.
  destruct (dict_get_keys _ _ _ Hk) as (k' & Hin & Hk').
  rewrite st_bind_lift, for_keys_blank;
    [done|intros; by apply dict_keys_get|by eauto 6].
Qed.

(** [mirrorlist] and [baseurl] exclude each other: a call of
    [mod_repo] with both raises [SaltInvocationError] and leaves the files
    as they are. *)
Theorem mod_repo_both_raises repo basedir kwargs files :
  dict_has (KStr "mirrorlist") (public_opts kwargs) = true →
  dict_has (KStr "baseurl") (public_opts kwargs) = true →
  mod_repo repo basedir kwargs files = (Raise SaltInvocationError, files).
Proof. intros Hm Hb. unfold mod_repo. by rewrite Hm, Hb. Qed.

End mod_repo.

(** ** What a repo file holds

    A repo file as a list of comment lines (the header) and a list of
    stanzas, each with its name, its options and its comments. *)

Record repo_stanza : Set := Stanza {
  stanza_name : string;
  stanza_options : list (string * string);
  stanza_comments : list string;
}.

(** The dict of a stanza, and the dict of a file. *)
Definition comments_entry (cs : list string) : dict :=
  match cs with
  | [] => []
  | _ => [(KStr "comments", VList (VStr <$> cs))]
  end.

Definition stanza_dict (s : repo_stanza) : dict :=
  dict_of (stanza_options s) ++ comments_entry (stanza_comments s).

Definition repos_of (ss : list repo_stanza) : dict :=
  (λ s, (KStr (stanza_name s), VDict (stanza_dict s))) <$> ss.

(** What the parser reads back as it was written. *)
Definition valid_name (n : string) : Prop :=
  n ≠ "" ∧ no_break n
  ∧ ("["%char ∉ chars n) ∧ ("]"%char ∉ chars n) ∧ ("="%char ∉ chars n).

Definition valid_option (kv : string * string) : Prop :=
  kv.1 ≠ "" ∧ kv.1 ≠ "comments" ∧ stripped kv.1 ∧ no_break kv.1
  ∧ ("="%char ∉ chars kv.1)
  ∧ startswith kv.1 "[" = false ∧ startswith kv.1 "#" = false
  ∧ no_break kv.2 ∧ rstrip kv.2 = kv.2.

Definition valid_comment (c : string) : Prop :=
  startswith c "#" = true ∧ stripped c ∧ no_break c.

Definition valid_stanza (s : repo_stanza) : Prop :=
  valid_name (stanza_name s)
  ∧ Forall valid_option (stanza_options s) ∧ NoDup (stanza_options s).*1
  ∧ Forall valid_comment (stanza_comments s).

Definition valid_header (c : string) : Prop :=
  startswith c "#" = true ∧ no_break c.

#[export] Instance valid_stanza_dec s : Decision (valid_stanza s).
Proof.
  unfold valid_stanza, valid_name, valid_option, valid_comment. apply _.
Defined.

#[export] Instance valid_header_dec c : Decision (valid_header c).
Proof. unfold valid_header. apply _. Defined.

(** The lines of a stanza in the file: its name between brackets, its
    options, and its comments or an empty line. *)
Definition option_line (kv : string * string) : string := kv.1 +:+ "=" +:+ kv.2.

Definition comment_lines (cs : list string) : list string :=
  match cs with [] => [""] | _ => cs end.

Definition stanza_lines (s : repo_stanza) : list string :=
  ("[" +:+ stanza_name s +:+ "]")
  :: (option_line <$> stanza_options s) ++ comment_lines (stanza_comments s).

(** ** Reading a line *)

Section parse_line.
Implicit Types (repos : dict) (header repo : string).

Lemma parse_blank_line repos header repo :
  parse_repo_line (repos, header, repo) (String "010" "") = Ok (repos, header, repo).
Proof. done. Qed.

Lemma startswith_app_l s t p :
  s ≠ "" → startswith (s +:+ t) (String p "") = startswith s (String p "").
Proof.
  destruct s as [|c s]; [done|]. intros _. unfold startswith. simpl.
  apply bool_decide_ext. split; intros [l Hl]; simplify_eq/=; by eexists.
Qed.

Lemma parse_header_line repos header c :
  valid_header c →
  parse_repo_line (repos, header, "") (c +:+ String "010" "")
  = Ok (repos, header +:+ c +:+ String "010" "", "").
Proof.
  intros [Hc _]. unfold parse_repo_line.
  assert (c ≠ "") as Hne by (by intros ->).
  rewrite (startswith_app_l _ _ "#"), Hc by done.
  rewrite (startswith_app_l _ _ "[") by done.
  destruct c as [|a c]; [done|].
  assert (a = "#"%char) as ->.
  { unfold startswith in Hc. apply bool_decide_eq_true in Hc as [l Hl].
    by simplify_eq/=. }
  done.
Qed.

Lemma rstripped_last s c : rstrip (s +:+ String c "") = s +:+ String c "" →
  is_py_space c = false.
Proof.
  destruct (is_py_space c) eqn:E; [|done]. rewrite rstrip_snoc_space by done.
  intros Hs. pose proof (length_rstrip s) as Hl. rewrite Hs in Hl.
  rewrite length_app_str in Hl. simpl in Hl. lia.
Qed.

Lemma stripped_option kv : valid_option kv → stripped (option_line kv).
Proof.
  destruct kv as [k v]. intros (Hne & _ & Hk & _ & _ & _ & _ & _ & Hv).
  unfold option_line. simpl in *. destruct k as [|a k]; [done|].
  apply stripped_head in Hk. rewrite app_cons_str.
  destruct (string_snoc_cases v) as [->|(v' & c & ->)].
  - by apply (stripped_intro a k "=").
  - apply rstripped_last in Hv.
    change (k +:+ "=" +:+ v' +:+ String c "")
      with (k +:+ String "=" (v' +:+ String c "")).
    rewrite <-(app_cons_str "=" v'), <-app_assoc_str. by apply stripped_intro.
Qed.

Lemma no_eq_bracket n :
  "="%char ∉ chars n →
  "="%char ∉ chars (("[" +:+ n +:+ "]") +:+ String "010" "").
Proof.
  intros Hn. simpl. rewrite !chars_app. simpl.
  rewrite not_elem_of_cons, !not_elem_of_app, !not_elem_of_cons.
  by repeat split; try apply not_elem_of_nil.
Qed.

(** The line of a name. *)
Lemma parse_name_line repos header repo n :
  valid_name n →
  parse_repo_line (repos, header, repo) (("[" +:+ n +:+ "]") +:+ String "010" "")
  = Ok (dict_set (KStr n) (VDict []) repos, header, n).
Proof.
  intros (Hne & Hb & Hl & Hr & He). unfold parse_repo_line.
  replace (startswith (("[" +:+ n +:+ "]") +:+ String "010" "") "[") with true
    by done.
  rewrite strip_line; [|by apply (stripped_intro "[" n "]")|done..].
  replace (remove_char "]" (remove_char "[" ("[" +:+ n +:+ "]"))) with n.
  2:{ simpl. rewrite app_empty_l.
      rewrite remove_char_app, (remove_char_absent "[" n) by done. simpl.
      rewrite remove_char_app, (remove_char_absent "]" n) by done. simpl.
      by rewrite app_empty_r. }
  rewrite andb_false_l.
  replace (startswith (("[" +:+ n +:+ "]") +:+ String "010" "") "#") with false
    by done.
  by rewrite bool_decide_false by by apply no_eq_bracket.
Qed.

(** A line that is an option: it holds [=] and does not start with a
    bracket or a hash. *)
Lemma parse_repo_line_option repos header repo line :
  startswith line "[" = false → startswith line "#" = false →
  line ≠ "" → "="%char ∈ chars line →
  parse_repo_line (repos, header, repo) line
  = (stanza ← getitem_str (VDict repos) repo ≫= as_dict;
     let comps := split_on "=" (strip line) in
     Ok (dict_set (KStr repo)
           (VDict (dict_set (KStr (strip (default "" (head comps))))
                     (VStr (join "=" (tail comps))) stanza)) repos,
         header, repo)).
Proof.
  intros Hl Hc Hne He. unfold parse_repo_line. rewrite Hl, Hc.
  by rewrite (bool_decide_false (line = "")), bool_decide_true.
Qed.

Lemma option_line_shape kv :
  valid_option kv →
  let line := option_line kv +:+ String "010" "" in
  startswith line "[" = false ∧ startswith line "#" = false
  ∧ line ≠ "" ∧ ("="%char ∈ chars line)
  ∧ strip line = option_line kv
  ∧ split_on "=" (option_line kv) = kv.1 :: split_on "=" kv.2.
Proof.
  intros Hkv. pose proof (stripped_option _ Hkv) as Hs.
  destruct kv as [k v]. destruct Hkv as (Hne & _ & Hk & _ & He & Hl & Hc & _ & _).
  simpl in *.
  assert (option_line (k, v) ≠ "") as Hne' by (by apply app_nonempty_l).
  repeat split.
  - unfold option_line. simpl. by rewrite !app_assoc_str, startswith_app_l.
  - unfold option_line. simpl. by rewrite !app_assoc_str, startswith_app_l.
  - by apply app_nonempty_l.
  - unfold option_line. rewrite !chars_app. simpl. apply elem_of_app. left.
    apply elem_of_app. right. left.
  - by apply strip_line.
  - unfold option_line. simpl. change (k +:+ "=" +:+ v) with (k +:+ String "=" v).
    by rewrite split_on_first.
Qed.

(** The line of an option. *)
Lemma parse_option_line repos header repo d kv :
  valid_option kv →
  dict_get (KStr repo) repos = Some (VDict d) →
  parse_repo_line (repos, header, repo) (option_line kv +:+ String "010" "")
  = Ok (dict_set (KStr repo) (VDict (dict_set (KStr kv.1) (VStr kv.2) d)) repos,
        header, repo).
Proof.
  intros Hkv Hd.
  destruct (option_line_shape _ Hkv) as (Hl & Hc & Hne & He & Hs & Hsp).
  rewrite parse_repo_line_option by done. rewrite Hs, Hsp.
  unfold getitem_str. rewrite Hd. cbn [of_option mbind result_bind as_dict].
  cbn [head tail default]. rewrite join_split_on.
  destruct Hkv as (_ & _ & Hk & _). unfold id. by rewrite Hk.
Qed.

(** The line of a comment. *)
Lemma parse_comment_line repos header repo d d' c :
  valid_comment c → repo ≠ "" →
  dict_get (KStr repo) repos = Some (VDict d) →
  comment_append d c = Ok d' →
  parse_repo_line (repos, header, repo) (c +:+ String "010" "")
  = Ok (dict_set (KStr repo) (VDict d') repos, header, repo).
Proof.
  intros (Hc & Hs & _) Hr Hd Hd'. unfold parse_repo_line.
  assert (c ≠ "") as Hne by (by intros ->).
  rewrite (startswith_app_l _ _ "#"), Hc by done.
  rewrite strip_line by done.
  destruct c as [|a c]; [done|].
  assert (a = "#"%char) as ->.
  { unfold startswith in Hc. apply bool_decide_eq_true in Hc as [l Hl].
    by simplify_eq/=. }
  replace (startswith (String "#" c +:+ String "010" "") "[") with false by done.
  rewrite andb_false_l, bool_decide_false by done.
  unfold getitem_str. rewrite Hd. simpl. by rewrite Hd'.
Qed.

(** An option outside a stanza. *)
Lemma parse_option_outside repos header repo kv :
  valid_option kv → dict_get (KStr repo) repos = None →
  parse_repo_line (repos, header, repo) (option_line kv +:+ String "010" "")
  = Raise KeyError.
Proof.
  intros Hkv Hd.
  destruct (option_line_shape _ Hkv) as (Hl & Hc & Hne & He & Hs & Hsp).
  rewrite parse_repo_line_option by done.
  unfold getitem_str. by rewrite Hd.
Qed.

End parse_line.

(** ** Reading a stanza *)

Section last_entry.
Implicit Types (k : key) (v : value) (d : dict).

Lemma dict_get_last k v d :
  dict_get k d = None → dict_get k (d ++ [(k, v)]) = Some v.
Proof. intros Hd. rewrite dict_get_app, Hd. simpl. by rewrite key_eqb_refl. Qed.

Lemma dict_set_last k v v' d :
  dict_get k d = None → dict_set k v' (d ++ [(k, v)]) = d ++ [(k, v')].
Proof.
  induction d as [|[k0 v0] d IH]; simpl; [by rewrite key_eqb_refl|].
  destruct (key_eqb k k0); [done|]. intros Hd. by rewrite IH.
Qed.

End last_entry.

Lemma dict_of_no_comments opts :
  Forall valid_option opts → dict_get (KStr "comments") (dict_of opts) = None.
Proof.
  induction 1 as [|[k v] opts (_ & Hk & _) _ IH]; [done|]. simpl in *.
  rewrite key_eqb_str, bool_decide_false by done. apply IH.
Qed.

Section parse_stanza.
Variables (pre : dict) (header n : string).
Hypothesis Hpre : dict_get (KStr n) pre = None.
Hypothesis Hn : n ≠ "".

Abbreviation with_lf := (λ l : string, l +:+ String "010" "").

Lemma parse_options opts d :
  Forall valid_option opts →
  foldM parse_repo_line (with_lf <$> (option_line <$> opts))
    (pre ++ [(KStr n, VDict d)], header, n)
  = Ok (pre ++ [(KStr n, VDict (dict_update d (dict_of opts)))], header, n).
Proof.
  intros Hopts. revert d. induction Hopts as [|kv opts Hkv _ IH]; intros d; [done|].
  rewrite !fmap_cons, foldM_cons.
  rewrite (parse_option_line _ _ _ d) by (done || by apply dict_get_last).
  rewrite bind_Ok, dict_set_last, IH by done. by destruct kv.
Qed.

Lemma parse_more_comments cs d l :
  Forall valid_comment cs → dict_get (KStr "comments") d = None →
  foldM parse_repo_line (with_lf <$> cs)
    (pre ++ [(KStr n, VDict (d ++ [(KStr "comments", VList l)]))], header, n)
  = Ok (pre ++ [(KStr n, VDict (d ++ [(KStr "comments", VList (l ++ (VStr <$> cs)))]))],
        header, n).
Proof.
  intros Hcs Hd. revert l. induction Hcs as [|c cs Hc _ IH]; intros l.
  { by rewrite app_nil_r. }
  rewrite fmap_cons, foldM_cons.
  erewrite parse_comment_line; [|done|done|by apply dict_get_last|].
  2:{ unfold comment_append.
      replace (dict_has (KStr "comments") (d ++ [(KStr "comments", VList l)]))
        with true by (symmetry; apply dict_has_true; rewrite dict_get_last; eauto).
      by rewrite dict_get_last, dict_set_last. }
  rewrite bind_Ok, dict_set_last, IH by done.
  by rewrite fmap_cons, <-(assoc_L (++) l [VStr c]).
Qed.

Lemma parse_comments cs d :
  Forall valid_comment cs → dict_get (KStr "comments") d = None →
  foldM parse_repo_line (with_lf <$> comment_lines cs)
    (pre ++ [(KStr n, VDict d)], header, n)
  = Ok (pre ++ [(KStr n, VDict (d ++ comments_entry cs))], header, n).
Proof.
  intros Hcs Hd. destruct Hcs as [|c cs Hc Hcs].
  { by rewrite app_nil_r. }
  unfold comment_lines, comments_entry. rewrite fmap_cons, foldM_cons.
  erewrite parse_comment_line; [|done|done|by apply dict_get_last|].
  2:{ unfold comment_append. rewrite (proj2 (dict_has_false _ _) Hd).
      by rewrite dict_set_absent, dict_get_last, dict_set_last. }
  by rewrite bind_Ok, dict_set_last, parse_more_comments.
Qed.

(** The lines of a stanza, after an empty line, add its dict. *)
Lemma parse_stanza s repo :
  valid_stanza s → stanza_name s = n →
  foldM parse_repo_line (with_lf <$> ("" :: stanza_lines s)) (pre, header, repo)
  = Ok (pre ++ [(KStr n, VDict (stanza_dict s))], header, n).
Proof.
  intros (Hname & Hopts & Hnd & Hcs) Hs. unfold stanza_lines. rewrite Hs in *.
  rewrite !fmap_cons, fmap_app, !foldM_cons. cbv beta.
  rewrite app_empty_l, parse_blank_line, bind_Ok.
  rewrite foldM_cons, parse_name_line, bind_Ok, dict_set_absent by done.
  rewrite foldM_app, parse_options, bind_Ok by done.
  rewrite dict_update_wf_id by by apply dict_of_wf.
  by rewrite parse_comments by (done || by apply dict_of_no_comments).
Qed.

End parse_stanza.

(** ** Reading a file *)

(** The lines of a file: the header, then for each stanza an empty line
    and the lines of the stanza. *)
Definition repo_file_lines (hl : list string) (ss : list repo_stanza)
    : list string :=
  hl ++ concat ((λ s, "" :: stanza_lines s) <$> ss).

Lemma file_lines_unlines_app lines rest :
  Forall no_break lines →
  file_lines (unlines lines +:+ rest)
  = ((λ l, l +:+ String "010" "") <$> lines) ++ file_lines rest.
Proof.
  induction 1 as [|l lines Hl _ IH]; [by rewrite app_empty_l|].
  simpl. rewrite app_assoc_str, app_cons_str.
  by rewrite file_lines_line, IH by by apply no_break_no_lf.
Qed.

Lemma parse_headers hl repos header :
  Forall valid_header hl →
  foldM parse_repo_line ((λ l, l +:+ String "010" "") <$> hl) (repos, header, "")
  = Ok (repos, header +:+ unlines hl, "").
Proof.
  intros Hhl. revert header. induction Hhl as [|c hl Hc _ IH]; intros header.
  { by rewrite app_empty_r. }
  rewrite fmap_cons, foldM_cons, parse_header_line, bind_Ok, IH by done.
  simpl. by rewrite !app_assoc_str.
Qed.

Lemma repos_of_get_None n ss :
  n ∉ stanza_name <$> ss → dict_get (KStr n) (repos_of ss) = None.
Proof.
  induction ss as [|s ss IH]; [done|]. rewrite fmap_cons, not_elem_of_cons.
  intros [Hn Hss]. simpl. rewrite key_eqb_str, bool_decide_false by done.
  by apply IH.
Qed.

Lemma repos_of_get s ss :
  NoDup (stanza_name <$> ss) → s ∈ ss →
  dict_get (KStr (stanza_name s)) (repos_of ss) = Some (VDict (stanza_dict s)).
Proof.
  induction ss as [|s0 ss IH]; [by intros _ ?%elem_of_nil|].
  rewrite fmap_cons, NoDup_cons. intros [Hs0 Hnd] [->|Hin]%elem_of_cons; simpl.
  - by rewrite key_eqb_refl.
  - rewrite key_eqb_str, bool_decide_false; [by apply IH|].
    intros Heq. apply Hs0. rewrite <-Heq. by apply list_elem_of_fmap_2.
Qed.

Lemma parse_stanzas ss done header repo :
  Forall valid_stanza ss → NoDup (stanza_name <$> (done ++ ss)) →
  ∃ repo',
    foldM parse_repo_line
      ((λ l, l +:+ String "010" "") <$> concat ((λ s, "" :: stanza_lines s) <$> ss))
      (repos_of done, header, repo)
    = Ok (repos_of (done ++ ss), header, repo').
Proof.
  intros Hss. revert done repo.
  induction Hss as [|s ss Hs _ IH]; intros done repo Hnd.
  { exists repo. by rewrite app_nil_r. }
  assert (stanza_name s ∉ stanza_name <$> done) as Hnew.
  { rewrite fmap_app, fmap_cons in Hnd. apply NoDup_app in Hnd as (_ & Hd & _).
    intros Hin. apply (Hd _ Hin). left. }
  rewrite fmap_cons, concat_cons, fmap_app, foldM_app.
  rewrite (parse_stanza _ _ (stanza_name s));
    [|by apply repos_of_get_None|apply Hs|done..].
  rewrite bind_Ok.
  replace (repos_of done ++ [(KStr (stanza_name s), VDict (stanza_dict s))])
    with (repos_of (done ++ [s])) by (unfold repos_of; by rewrite fmap_app).
  rewrite (cons_middle s done ss), (assoc_L (++)) in Hnd |- *. by apply IH.
Qed.

Lemma no_break_stanza_lines s :
  valid_stanza s → Forall no_break ("" :: stanza_lines s).
Proof.
  intros ((_ & Hn & _) & Hopts & _ & Hcs). apply Forall_cons_2; [compute_done|].
  apply Forall_cons_2; [|apply Forall_app_2].
  - apply (no_break_app "["), no_break_app; [compute_done|done|compute_done].
  - apply Forall_fmap. eapply Forall_impl; [done|].
    intros [k v] (_ & _ & _ & Hk & _ & _ & _ & Hv & _). simpl in *.
    apply no_break_app; [done|]. apply (no_break_app "="); [compute_done|done].
  - destruct Hcs as [|c cs Hc Hcs]; [compute_done|].
    constructor; [apply Hc|]. eapply Forall_impl; [done|]. by intros ? (_ & _ & ?).
Qed.

Lemma no_break_repo_file hl ss :
  Forall valid_header hl → Forall valid_stanza ss →
  Forall no_break (repo_file_lines hl ss).
Proof.
  intros Hhl Hss. apply Forall_app_2.
  - eapply Forall_impl; [done|]. by intros ? [_ ?].
  - apply Forall_concat, Forall_fmap. eapply Forall_impl; [done|].
    intros s Hs. by apply no_break_stanza_lines.
Qed.

(** The text of a valid file is read as its header and its stanzas. *)
Lemma parse_repo_file_lines path files hl ss :
  Forall valid_header hl → Forall valid_stanza ss →
  NoDup (stanza_name <$> ss) →
  read_file path files = Ok (unlines (repo_file_lines hl ss)) →
  _parse_repo_file path files = Ok (unlines hl, repos_of ss).
Proof.
  intros Hhl Hss Hnd Hread. unfold _parse_repo_file. rewrite Hread, bind_Ok.
  rewrite file_lines_unlines by by apply no_break_repo_file.
  unfold repo_file_lines. rewrite fmap_app, foldM_app.
  rewrite parse_headers, bind_Ok, app_empty_l by done.
  destruct (parse_stanzas ss [] (unlines hl) "" Hss Hnd) as [repo' Hp].
  change (repos_of []) with ([] : dict) in Hp. by rewrite Hp.
Qed.

(** ** Writing a stanza *)

(** Texts are compared with the appends to the right. *)
Ltac str_assoc :=
  rewrite ?unlines_app; cbn [unlines foldr];
  repeat (rewrite app_assoc_str || rewrite app_cons_str
          || rewrite app_empty_l || rewrite app_empty_r).

Section write_lemmas.
Context `{PyRepr}.

Lemma option_lines_text content opts rest :
  option_lines content (dict_of opts) +:+ String "010" rest
  = content +:+ String "010" (unlines (option_line <$> opts) +:+ rest).
Proof.
  unfold option_lines. revert content.
  induction opts as [|[k v] opts IH]; intros content; [done|].
  simpl. rewrite IH. unfold option_line. simpl.
  by str_assoc.
Qed.

Lemma join_unlines cs :
  cs ≠ [] → join (String "010" "") cs +:+ String "010" "" = unlines cs.
Proof.
  induction cs as [|c [|c' cs] IH]; [done|done|]. intros _.
  change (join (String "010" "") (c :: c' :: cs))
    with (c +:+ String "010" (join (String "010" "") (c' :: cs))).
  str_assoc. by rewrite IH.
Qed.

Lemma mapM_as_str cs : mapM as_str (VStr <$> cs) = Ok cs.
Proof.
  induction cs as [|c cs IH]; [done|]. simpl.
  change (mapM as_str (list_fmap _ _ VStr cs)) with (mapM as_str (VStr <$> cs)).
  by rewrite IH.
Qed.

Lemma dict_del_comments opts cs :
  Forall valid_option opts →
  dict_del (KStr "comments") (dict_of opts ++ comments_entry cs) = dict_of opts.
Proof.
  intros Hopts. unfold dict_del. rewrite filter_app.
  replace (filter _ (comments_entry cs)) with ([] : dict) by by destruct cs.
  rewrite app_nil_r. induction Hopts as [|[k v] opts (_ & Hk & _) _ IH]; [done|].
  simpl in *. rewrite filter_cons. simpl.
  rewrite key_eqb_str, bool_decide_false, decide_True by done. by rewrite IH.
Qed.

Lemma write_stanza_valid content filerepos s :
  valid_stanza s →
  dict_get (KStr (stanza_name s)) filerepos = Some (VDict (stanza_dict s)) →
  write_stanza (content, filerepos) (KStr (stanza_name s))
  = Ok (content +:+ unlines ("" :: stanza_lines s),
        dict_set (KStr (stanza_name s)) (VDict (dict_of (stanza_options s)))
          filerepos).
Proof.
  intros (_ & Hopts & _ & _) Hget. unfold write_stanza. rewrite Hget.
  cbn [of_option mbind result_bind as_dict]. unfold stanza_dict, stanza_lines.
  pose proof (dict_of_no_comments _ Hopts) as Hno.
  destruct (stanza_comments s) as [|c cs] eqn:Hcs.
  - rewrite app_nil_r, (proj2 (dict_has_false _ _) Hno).
    cbn [mbind result_bind fst snd]. rewrite option_lines_text. simpl.
    by str_assoc.
  - replace (dict_has (KStr "comments") (dict_of (stanza_options s)
                                          ++ comments_entry (c :: cs)))
      with true.
    2:{ symmetry. apply dict_has_true. rewrite dict_get_app, Hno. by eexists. }
    rewrite dict_get_app, Hno. unfold join_values.
    cbn [comments_entry dict_get key_eqb key_norm of_option mbind result_bind py_iter].
    rewrite key_eqb_refl. cbn [of_option mbind result_bind py_iter].
    rewrite mapM_as_str. cbn [mbind result_bind fst snd].
    rewrite (dict_del_comments _ (c :: cs)) by done.
    rewrite option_lines_text, join_unlines by done. simpl.
    by str_assoc.
Qed.

Lemma write_stanzas ss content filerepos :
  Forall valid_stanza ss → NoDup (stanza_name <$> ss) →
  (∀ s, s ∈ ss →
     dict_get (KStr (stanza_name s)) filerepos = Some (VDict (stanza_dict s))) →
  ∃ filerepos',
    foldM write_stanza (KStr ∘ stanza_name <$> ss) (content, filerepos)
    = Ok (content +:+ unlines (concat ((λ s, "" :: stanza_lines s) <$> ss)),
          filerepos').
Proof.
  intros Hss. revert content filerepos.
  induction Hss as [|s ss Hs _ IH]; intros content filerepos Hnd Hget.
  { eexists. by rewrite app_empty_r. }
  rewrite fmap_cons, NoDup_cons in Hnd. destruct Hnd as [Hnew Hnd].
  rewrite fmap_cons, foldM_cons. cbn [compose].
  rewrite write_stanza_valid, bind_Ok by (done || apply Hget; left).
  edestruct IH as [filerepos' ->]; [done| |].
  { intros s' Hs'. rewrite dict_get_set_ne; [apply Hget; by right|].
    intros Heq%key_equiv_str. simplify_eq. apply Hnew.
    rewrite <-Heq. by apply list_elem_of_fmap_2. }
  eexists. by rewrite fmap_cons, concat_cons, unlines_app, app_assoc_str.
Qed.

(** C13.  What is written is what is read: the text that the loop of
    [mod_repo] and [del_repo] writes for a header of comment lines and for
    stanzas with pairwise different names, whose options are strings under
    pairwise different keys, is read by [_parse_repo_file] as that header
    and those stanzas, with their options in order and their comments; the
    names hold no bracket, [=] or line break, the keys no [=], line break or
    white space at an end, the values no line break or white space at the
    end. *)
Theorem parse_written path files hl ss :
  Forall valid_header hl → Forall valid_stanza ss →
  NoDup (stanza_name <$> ss) →
  ∃ content filerepos,
    foldM write_stanza (dict_keys (repos_of ss)) (unlines hl, repos_of ss)
    = Ok (content, filerepos)
    ∧ _parse_repo_file path (write_file path content files).2
      = Ok (unlines hl, repos_of ss).
Proof.
  intros Hhl Hss Hnd.
  destruct (write_stanzas ss (unlines hl) (repos_of ss) Hss Hnd) as [fr Hw].
  { intros s Hs. by apply repos_of_get. }
  exists (unlines hl +:+ unlines (concat ((λ s, "" :: stanza_lines s) <$> ss))), fr.
  split.
  { rewrite <-Hw. f_equal. unfold dict_keys, repos_of.
    by rewrite <-list_fmap_compose. }
  apply parse_repo_file_lines; [done..|].
  unfold read_file, write_file, modify, repo_file_lines. simpl.
  by rewrite dict_get_set_eq, unlines_app.
Qed.

(** C34.  An option before the first stanza is not survived: on a file
    whose first line after the comments of the header is an option,
    [_parse_repo_file] raises [KeyError], whatever follows. *)
Theorem parse_option_before_stanza path files hl kv rest :
  Forall valid_header hl → valid_option kv →
  read_file path files
  = Ok (unlines (hl ++ [option_line kv]) +:+ rest) →
  _parse_repo_file path files = Raise KeyError.
Proof.
  intros Hhl Hkv Hread. unfold _parse_repo_file. rewrite Hread, bind_Ok.
  rewrite file_lines_unlines_app.
  2:{ apply Forall_app_2; [eapply Forall_impl; [done|]; by intros ? [_ ?]|].
      apply Forall_singleton. destruct kv as [k v].
      destruct Hkv as (_ & _ & _ & Hk & _ & _ & _ & Hv & _).
      apply no_break_app; [done|]. apply (no_break_app "="); [compute_done|done]. }
  rewrite fmap_app, <-(assoc_L (++)), foldM_app, parse_headers, bind_Ok by done.
  rewrite fmap_cons, <-app_comm_cons, foldM_cons.
  by rewrite parse_option_outside.
Qed.

End write_lemmas.

(** ** Creating a repo *)

Lemma public_opts_dict_of opts :
  Forall (λ kv, startswith kv.1 "__" = false) opts →
  public_opts (dict_of opts) = dict_of opts.
Proof.
  unfold public_opts. induction 1 as [|[k v] ? Hk _ IH]; [done|]. simpl in *.
  rewrite filter_cons. simpl. rewrite Hk. simpl. by rewrite IH.
Qed.

Section create.
Context `{PyRepr}.
Variables (repo : string) (basedir : option string).
Variables (opts : list (string * string)) (files repos : fs).
Hypothesis Hrepo : valid_name repo.
Hypothesis Hopts : Forall valid_option opts.
Hypothesis Hnd : NoDup opts.*1.
Hypothesis Hgiven :
  Forall (λ kv, kv.2 ≠ "" ∧ startswith kv.1 "__" = false) opts.
Hypothesis Hname : dict_has (KStr "name") (dict_of opts) = true.
Hypothesis Hurl :
  xorb (dict_has (KStr "baseurl") (dict_of opts))
       (dict_has (KStr "mirrorlist") (dict_of opts)) = true.
Hypothesis Hlist : list_repos (the_basedir basedir) files = Ok repos.
Hypothesis Hnew : dict_has (KStr repo) repos = false.

Lemma public_opts_given : public_opts (dict_of opts) = dict_of opts.
Proof.
  apply public_opts_dict_of. eapply Forall_impl; [apply Hgiven|]. by intros ? [_ ?].
Qed.

Lemma opts_not_blank k :
  k ∈ dict_keys (dict_of opts) →
  ∃ v, dict_get k (dict_of opts) = Some v ∧ blank v = false.
Proof.
  intros ([k' v] & -> & Hin)%list_elem_of_fmap.
  exists v. split; [by apply dict_get_wf_elem_of; [apply dict_of_wf|]|].
  apply list_elem_of_fmap in Hin as ([k0 v0] & [= -> ->] & Hin).
  destruct (proj1 (Forall_forall _ _) Hgiven _ Hin) as [Hv _]. simpl in Hv.
  unfold blank. simpl. by rewrite bool_decide_false.
Qed.

(** The stanza of the new repo, and its file. *)
Definition new_stanza : repo_stanza := Stanza repo opts [].
Definition new_path : string := the_basedir basedir +:+ "/" +:+ repo +:+ ".repo".
Definition new_content : string := unlines ("" :: stanza_lines new_stanza).

Lemma new_stanza_valid : valid_stanza new_stanza.
Proof. split; [done|]. split; [done|]. split; [done|constructor]. Qed.

Lemma with_other_url_new :
  (KStr "name" ∉ with_other_url (dict_of opts) [])
  ∧ apply_opts repo (with_other_url (dict_of opts) []) (dict_of opts)
      [(KStr repo, VDict [])]
    = Ok (repos_of [new_stanza]).
Proof.
  unfold with_other_url, apply_opts, check_delete, getitem_str.
  cbn [dict_get]. rewrite key_eqb_refl.
  cbn [of_option mbind result_bind as_dict].
  assert (∀ k, dict_has k [] = false) as Hnil by done.
  assert (repos_of [new_stanza] = [(KStr repo, VDict (dict_of opts))]) as ->.
  { unfold repos_of, stanza_dict. simpl. by rewrite app_nil_r. }
  destruct (dict_has (KStr "mirrorlist") (dict_of opts)),
    (dict_has (KStr "baseurl") (dict_of opts)); try done;
    (split; [by intros [[=]|[]%elem_of_nil]%elem_of_cons|]);
    rewrite ?andb_false_r, ?andb_false_l, ?bool_decide_false
      by (by intros [[=]|[]%elem_of_nil]%elem_of_cons);
    cbn [mbind result_bind andb foldl app]; rewrite Hnil;
    cbn [dict_set]; by rewrite key_eqb_refl, dict_update_wf_id by by apply dict_of_wf.
Qed.

Lemma write_repos_new :
  write_repos new_path "" (repos_of [new_stanza]) files
  = (Ok (repos_of [new_stanza]), dict_set (KStr new_path) (VStr new_content) files).
Proof.
  unfold write_repos. rewrite st_bind_lift. cbn [repos_of fmap list_fmap dict_keys fst].
  rewrite foldM_cons, (write_stanza_valid "" _ new_stanza)
    by (apply new_stanza_valid || (simpl; by rewrite key_eqb_refl)).
  rewrite bind_Ok, foldM_nil. cbn [dict_set stanza_name new_stanza].
  rewrite key_eqb_refl. unfold stanza_dict. simpl. by rewrite !app_nil_r.
Qed.

Lemma mod_repo_new :
  mod_repo repo basedir (dict_of opts) files
  = (Ok (VDict [(KStr new_path, VDict (repos_of [new_stanza]))]),
     dict_set (KStr new_path) (VStr new_content) files).
Proof.
  destruct with_other_url_new as [Hdel Happly].
  unfold mod_repo. rewrite public_opts_given.
  replace (dict_has (KStr "mirrorlist") (dict_of opts)
           && dict_has (KStr "baseurl") (dict_of opts)) with false
    by (by destruct (dict_has (KStr "mirrorlist") _), (dict_has (KStr "baseurl") _)).
  rewrite st_bind_lift, for_keys_no_blank by apply opts_not_blank.
  cbn [fst snd]. rewrite bool_decide_false by done.
  erewrite st_bind_Ok by (unfold reads; by rewrite Hlist).
  unfold repo_target. rewrite Hnew, Hname.
  replace (negb (dict_has (KStr "baseurl") (dict_of opts))
           && negb (dict_has (KStr "mirrorlist") (dict_of opts))) with false
    by (by destruct (dict_has (KStr "mirrorlist") _), (dict_has (KStr "baseurl") _)).
  cbn [negb]. rewrite st_bind_ret. cbn [fst snd].
  rewrite Happly, st_bind_lift.
  by erewrite st_bind_Ok by apply write_repos_new.
Qed.

(** C18.  A new repo is created as a file of its own: when [repo] is in
    no file of the directory and the options, all strings that are not
    empty, name the repo and give one of [baseurl] and [mirrorlist],
    [mod_repo] writes the file [<basedir>/<repo>.repo] and returns its
    stanza, no other file is changed, and [_parse_repo_file] reads that
    file as the stanza [repo] with the options in the order given. *)
Theorem mod_repo_creates :
  let r := mod_repo repo basedir (dict_of opts) files in
  r.1 = Ok (VDict [(KStr new_path, VDict [(KStr repo, VDict (dict_of opts))])])
  ∧ (∀ path, path ≠ new_path →
       dict_get (KStr path) r.2 = dict_get (KStr path) files)
  ∧ _parse_repo_file new_path r.2 = Ok ("", [(KStr repo, VDict (dict_of opts))]).
Proof.
  rewrite mod_repo_new. cbn [fst snd]. unfold repos_of, stanza_dict. simpl.
  rewrite app_nil_r. split; [done|]. split.
  - intros path Hne. rewrite dict_get_set_ne; [done|]. by intros [=]%key_equiv_str.
  - replace [(KStr repo, VDict (dict_of opts))] with (repos_of [new_stanza])
      by (unfold repos_of, stanza_dict; simpl; by rewrite app_nil_r).
    apply (parse_repo_file_lines _ _ []);
      [done|by repeat constructor; try apply new_stanza_valid
      |by repeat constructor; try apply not_elem_of_nil|].
    unfold read_file. rewrite dict_get_set_eq. unfold new_content, repo_file_lines.
    simpl. by rewrite app_nil_r.
Qed.

End create.

(** ** Deleting a repo *)

Section del_repo.
Context `{PyRepr}.


End del_repo.

(** ** What the parser returns

    A repo file is read into a dict of stanzas; the options of a stanza are
    strings, and its comments a list of strings. *)

Definition option_typed (kv : key * value) : Prop :=
  match kv.2 with
  | VStr _ => True
  | VList l => kv.1 = KStr "comments" ∧ Forall (λ c, is_basestring c = true) l
  | _ => False
  end.

Definition stanza_typed (kv : key * value) : Prop :=
  match kv with
  | (KStr _, VDict d) => Forall option_typed d
  | _ => False
  end.

Lemma dict_set_Forall (P : key * value → Prop) k v d :
  (∀ k', key_equiv k k' → P (k', v)) → Forall P d → Forall P (dict_set k v d).
Proof.
  intros Hv. induction 1 as [|[k0 v0] d Hv0 Hd IH]; simpl.
  - by apply Forall_singleton, Hv.
  - destruct (key_eqb k k0) eqn:E; constructor; try done.
    by apply Hv, key_eqb_equiv.
Qed.

Lemma dict_get_Forall (P : key * value → Prop) k v d :
  Forall P d → dict_get k d = Some v → ∃ k', key_equiv k k' ∧ P (k', v).
Proof.
  intros Hd (k' & Hk & Hin)%dict_get_elem_of. exists k'. split; [done|].
  by apply (proj1 (Forall_forall _ _) Hd).
Qed.

Lemma stanza_typed_set repo d repos :
  Forall option_typed d → Forall stanza_typed repos →
  Forall stanza_typed (dict_set (KStr repo) (VDict d) repos).
Proof.
  intros Hd. apply dict_set_Forall. by intros k' ->%key_equiv_str_l.
Qed.

Lemma stanza_typed_get repo repos v d :
  Forall stanza_typed repos →
  getitem_str (VDict repos) repo = Ok v → as_dict v = Ok d → Forall option_typed d.
Proof.
  unfold getitem_str. intros Hr Hv Hd.
  destruct (dict_get (KStr repo) repos) as [v'|] eqn:E; simplify_eq/=.
  destruct (dict_get_Forall _ _ _ _ Hr E) as (k' & ->%key_equiv_str_l & Ht).
  destruct v; by simplify_eq/=.
Qed.

Lemma comment_append_typed d c d' :
  Forall option_typed d → comment_append d c = Ok d' → Forall option_typed d'.
Proof.
  intros Hd. unfold comment_append.
  set (d0 := if dict_has _ d then d else _).
  assert (Forall option_typed d0) as Hd0.
  { unfold d0. destruct (dict_has _ d); [done|].
    apply dict_set_Forall; [|done]. by intros k' ->%key_equiv_str_l. }
  destruct (dict_get _ d0) as [[| | | |l|]|] eqn:E; try done. intros [= <-].
  destruct (dict_get_Forall _ _ _ _ Hd0 E) as (k' & _ & _ & Hl).
  apply dict_set_Forall; [|done]. intros k'' ->%key_equiv_str_l. split; [done|].
  apply Forall_app_2; [done|]. by apply Forall_singleton.
Qed.

Lemma parse_repo_line_typed st line st' :
  Forall stanza_typed st.1.1 → parse_repo_line st line = Ok st' →
  Forall stanza_typed st'.1.1.
Proof.
  destruct st as [[repos header] repo]. simpl. intros Hr. unfold parse_repo_line.
  set (rr := if startswith line "[" then _ else _).
  assert (Forall stanza_typed rr.1) as Hrr.
  { unfold rr. destruct (startswith line "["); [|done]. by apply stanza_typed_set. }
  destruct rr as [repos1 repo1]. simpl in Hrr.
  destruct (startswith line "#").
  - case_bool_decide; [by intros [= <-]|]. intros Hp.
    apply bind_Ok_inv in Hp as (d & Hd & Hp). apply bind_Ok_inv in Hd as (v & Hv & Hd).
    apply bind_Ok_inv in Hp as (d' & Hd' & [= <-]). simpl.
    eapply stanza_typed_set, Hrr.
    eapply comment_append_typed, Hd'. by eapply stanza_typed_get.
  - case_bool_decide; [|by intros [= <-]]. intros Hp.
    apply bind_Ok_inv in Hp as (d & Hd & [= <-]).
    apply bind_Ok_inv in Hd as (v & Hv & Hd). simpl.
    apply stanza_typed_set, Hrr. apply dict_set_Forall; [done|].
    by eapply stanza_typed_get.
Qed.

Lemma parse_repo_file_stanzas filename files hf :
  _parse_repo_file filename files = Ok hf → Forall stanza_typed hf.2.
Proof.
  unfold _parse_repo_file. intros Hp.
  apply bind_Ok_inv in Hp as (content & _ & Hp).
  apply bind_Ok_inv in Hp as (st & Hst & [= <-]). simpl.
  eapply (foldM_invariant (λ st, Forall stanza_typed st.1.1)), Hst; [|done].
  intros ???? Ha Hb. by eapply parse_repo_line_typed.
Qed.

(** C21.  What [_parse_repo_file] returns is a dict of stanzas: whatever
    the file holds, when the parser returns, every key of the result is a
    string, every value a dict, and in it every value a string or, under
    [comments], a list of strings. *)
Theorem parse_repo_file_typed filename files header repos :
  _parse_repo_file filename files = Ok (header, repos) →
  Forall stanza_typed repos.
Proof. apply (parse_repo_file_stanzas filename files (header, repos)). Qed.

(** ** The repos of a directory

    [list_repos] returns a dict of stanzas too, without two equal names:
    a repo that is in two files is listed once, as the last file has it. *)

Lemma add_file_repo_typed repopath filerepos repos reponame repos' :
  Forall stanza_typed filerepos → reponame ∈ dict_keys filerepos →
  Forall stanza_typed repos ∧ dict_wf repos →
  add_file_repo repopath filerepos repos reponame = Ok repos' →
  Forall stanza_typed repos' ∧ dict_wf repos'.
Proof.
  intros Hf Hin [Hr Hwf] Ha. unfold add_file_repo in Ha.
  apply bind_Ok_inv in Ha as (d & Hd & [= <-]).
  apply bind_Ok_inv in Hd as (v & Hv & Hd). destruct v; simplify_eq/=.
  destruct (dict_get reponame filerepos) as [v|] eqn:Hg; simplify_eq/=.
  destruct (dict_get_Forall _ _ _ _ Hf Hg) as (k' & Hk & Ht).
  destruct k'; try done. apply key_equiv_str in Hk as ->.
  split; [|by apply dict_set_wf].
  apply stanza_typed_set; [|done]. by apply dict_set_Forall.
Qed.

Lemma list_repos_typed basedir files repos :
  list_repos basedir files = Ok repos → Forall stanza_typed repos ∧ dict_wf repos.
Proof.
  intros Hl.
  eapply (foldM_invariant (λ r, Forall stanza_typed r ∧ dict_wf r)), Hl;
    [|split; [done|apply NoDup_nil_2]].
  intros r repofile r' _ Hr. unfold list_repos_file.
  destruct (endswith repofile ".repo"); [|by intros [= <-]].
  intros Hf. apply bind_Ok_inv in Hf as (hf & Hhf & Hf).
  eapply (foldM_invariant (λ r, Forall stanza_typed r ∧ dict_wf r)), Hf; [|done].
  intros ??? Hin. eapply add_file_repo_typed; [|done].
  by eapply parse_repo_file_stanzas.
Qed.

(** ** The two ways to read a repo *)

Section get_repo.
Variables (basedir repo : string) (files : fs).

(** An entry of [list_repos]: the stanza of a repo as one of the files has
    it, with the path of that file under [file]. *)
Definition listed (repos : dict) : Prop :=
  ∀ n entry, dict_get (KStr n) repos = Some entry →
    ∃ path hf d,
      path ≠ "" ∧ _parse_repo_file path files = Ok hf
      ∧ getitem_str (VDict hf.2) n = Ok (VDict d)
      ∧ entry = VDict (dict_set (KStr "file") (VStr path) d).

Lemma add_file_repo_listed repopath hf repos reponame repos' :
  repopath ≠ "" → _parse_repo_file repopath files = Ok hf →
  listed repos → add_file_repo repopath hf.2 repos reponame = Ok repos' →
  listed repos'.
Proof.
  intros Hne Hhf Hl Ha. unfold add_file_repo in Ha.
  apply bind_Ok_inv in Ha as (d & Hd & [= <-]).
  apply bind_Ok_inv in Hd as (v & Hv & Hd). destruct v; simplify_eq/=.
  intros n entry. rewrite dict_get_set.
  destruct (key_eqb (KStr n) reponame) eqn:E; [|apply Hl].
  apply key_eqb_equiv, key_equiv_str_l in E as ->. intros [= <-].
  exists repopath, hf, d. repeat split; try done.
Qed.

Lemma list_repos_file_listed repos repofile repos' :
  listed repos → list_repos_file basedir files repos repofile = Ok repos' →
  listed repos'.
Proof.
  intros Hl. unfold list_repos_file. destruct (endswith repofile ".repo").
  2:{ by intros [= <-]. }
  intros Hf. apply bind_Ok_inv in Hf as (hf & Hhf & Hf).
  eapply (foldM_invariant listed), Hf; [|done].
  intros ???? Ha Hb. eapply add_file_repo_listed, Hb; [|done..].
  intros Heq. by destruct basedir.
Qed.

Lemma list_repos_listed repos : list_repos basedir files = Ok repos → listed repos.
Proof.
  intros Hl. eapply (foldM_invariant listed), Hl; [|by intros ??].
  intros ???? Ha Hb. by eapply list_repos_file_listed.
Qed.

(** The loop of [find_repofile] over keys of which one is [repo]. *)
Lemma find_repofile_loop repos keys f acc :
  (of_option KeyError (dict_get (KStr repo) repos) ≫= λ r, getitem_str r "file") = Ok f →
  foldM (λ repofile arepo,
           if key_is arepo repo then
             of_option KeyError (dict_get arepo repos) ≫= λ r, getitem_str r "file"
           else Ok repofile) keys acc
  = Ok (if existsb (λ k, key_is k repo) keys then f else acc).
Proof.
  intros Hf. revert acc. induction keys as [|k keys IH]; intros acc; [done|].
  rewrite foldM_cons. simpl. destruct (key_is k repo) eqn:E.
  - apply key_is_true in E as ->. rewrite Hf, bind_Ok, IH. by destruct (existsb _ keys).
  - by rewrite bind_Ok, IH.
Qed.

Lemma dict_get_str_keys n d v :
  dict_get (KStr n) d = Some v → existsb (λ k, key_is k n) (dict_keys d) = true.
Proof.
  intros (k' & ->%key_equiv_str_l & Hin)%dict_get_elem_of.
  apply existsb_exists. exists (KStr n). split; [|by apply key_is_true].
  apply list_elem_of_In. by apply (list_elem_of_fmap_2 fst _ (KStr n, v)).
Qed.

(** C22.  [get_repo] and [list_repos] agree: when [list_repos] returns
    and has an entry for [repo], the entry is a stanza with the path of its
    file under [file], and [get_repo] returns that stanza as the file has
    it. *)
Theorem get_repo_list_repos repos entry :
  list_repos basedir files = Ok repos →
  dict_get (KStr repo) repos = Some entry →
  ∃ d path,
    entry = VDict (dict_set (KStr "file") (VStr path) d)
    ∧ get_repo repo basedir files = Ok (VDict d).
Proof.
  intros Hl He.
  destruct (list_repos_listed _ Hl _ _ He) as (path & hf & d & Hne & Hhf & Hd & ->).
  exists d, path. split; [done|]. unfold get_repo, find_repofile.
  rewrite Hl, bind_Ok.
  rewrite (find_repofile_loop _ _ (VStr path)).
  2:{ rewrite He. simpl. by rewrite dict_get_set_eq. }
  rewrite (dict_get_str_keys _ _ _ He), bind_Ok.
  replace (truthy (VStr path)) with true
    by (symmetry; by apply truthy_str).
  simpl. by rewrite Hhf.
Qed.

End get_repo.

(** ** At a concrete directory *)

Definition ex_base : list repo_stanza :=
  [Stanza "base" [("name", "CentOS"); ("baseurl", "http://mirror/centos")]
     ["# the base"];
   Stanza "updates" [("name", "Updates"); ("mirrorlist", "http://mirror/list")] []].

Definition ex_files : fs :=
  [(KStr "/etc/yum.repos.d/base.repo",
    VStr (unlines (repo_file_lines ["# managed"] ex_base)));
   (KStr "/etc/yum.repos.d/README", VStr "not a repo file")].

Lemma mod_repo_blank_raises_witness :
  mod_repo (H:=repr_elided) "base" None [(KStr "baseurl", VStr "")] ex_files
  = (Raise RuntimeError, ex_files).
Proof.
  apply (mod_repo_blank_raises _ _ _ _ (KStr "baseurl") (VStr "")); reflexivity.
Defined.

Lemma mod_repo_both_raises_witness :
  mod_repo (H:=repr_elided) "base" None
    [(KStr "baseurl", VStr "http://a"); (KStr "mirrorlist", VStr "http://b")]
    ex_files
  = (Raise SaltInvocationError, ex_files).
Proof. apply mod_repo_both_raises; reflexivity. Defined.

Lemma parse_written_witness :
  ∃ content filerepos,
    foldM (write_stanza (H:=repr_elided)) (dict_keys (repos_of ex_base))
      (unlines ["# managed"], repos_of ex_base)
    = Ok (content, filerepos)
    ∧ _parse_repo_file "/etc/yum.repos.d/base.repo"
        (write_file "/etc/yum.repos.d/base.repo" content ex_files).2
      = Ok (unlines ["# managed"], repos_of ex_base).
Proof. apply parse_written; compute_done. Defined.

Lemma parse_option_before_stanza_witness :
  _parse_repo_file "/etc/yum.repos.d/bad.repo"
    [(KStr "/etc/yum.repos.d/bad.repo",
      VStr (unlines (["# no stanza"] ++ [option_line ("enabled", "1")])
            +:+ "[base]"))]
  = Raise KeyError.
Proof.
  apply (parse_option_before_stanza _ _ ["# no stanza"] ("enabled", "1") "[base]");
    [compute_done|compute_done|reflexivity].
Defined.

Lemma mod_repo_creates_witness :
  let r := mod_repo (H:=repr_elided) "epel" None
             (dict_of [("name", "EPEL"); ("baseurl", "http://mirror/epel")])
             ex_files in
  r.1 = Ok (VDict [(KStr (new_path "epel" None),
                    VDict [(KStr "epel",
                            VDict (dict_of [("name", "EPEL");
                                            ("baseurl", "http://mirror/epel")]))])])
  ∧ (∀ path, path ≠ new_path "epel" None →
       dict_get (KStr path) r.2 = dict_get (KStr path) ex_files)
  ∧ _parse_repo_file (new_path "epel" None) r.2
    = Ok ("", [(KStr "epel",
                VDict (dict_of [("name", "EPEL");
                                ("baseurl", "http://mirror/epel")]))]).
Proof.
  eapply (mod_repo_creates (H:=repr_elided) "epel" None
            [("name", "EPEL"); ("baseurl", "http://mirror/epel")] ex_files);
    [compute_done..|vm_compute; reflexivity|reflexivity].
Defined.

(** [del_repo] at work: the stanza is gone, and the comments of the other
    stanzas stay. *)
Example del_repo_base :
  let r := del_repo (H:=repr_elided) "updates" "/etc/yum.repos.d" ex_files in
  r.1 = Ok (VStr "Repo updates has been removed from /etc/yum.repos.d/base.repo")
  ∧ _parse_repo_file "/etc/yum.repos.d/base.repo" r.2
    = Ok (unlines ["# managed"], repos_of (take 1 ex_base)).
Proof. vm_compute. done. Qed.

Lemma parse_repo_file_typed_witness : Forall stanza_typed (repos_of ex_base).
Proof.
  apply (parse_repo_file_typed "/etc/yum.repos.d/base.repo" ex_files
           (unlines ["# managed"])).
  vm_compute. reflexivity.
Defined.

Lemma get_repo_list_repos_witness :
  ∃ d path,
    VDict (dict_set (KStr "file") (VStr "/etc/yum.repos.d/base.repo")
             (dict_of [("name", "Updates"); ("mirrorlist", "http://mirror/list")]))
    = VDict (dict_set (KStr "file") (VStr path) d)
    ∧ get_repo "updates" "/etc/yum.repos.d" ex_files = Ok (VDict d).
Proof. eapply get_repo_list_repos; vm_compute; reflexivity. Defined.

(** A line [comments=...] makes the comments of the stanza a string: the
    next comment of the stanza raises, and what [del_repo] writes back for
    the stanza is the string, a character a line. *)
Example comments_option :
  _parse_repo_file "f.repo"
    [(KStr "f.repo", VStr (unlines ["[base]"; "comments=no"; "# a comment"]))]
  = Raise AttributeError
  ∧ foldM (write_stanza (H:=repr_elided)) [KStr "base"]
      ("", [(KStr "base", VDict [(KStr "comments", VStr "no")])])
    = Ok (unlines [""; "[base]"; "n"; "o"], [(KStr "base", VDict [])]).
Proof. vm_compute. done. Qed.
