(* ===== verification/YumPkg.v ===== *)
(** * The packages of yum

    The package functions of src/salt/modules/yumpkg5.py: the parsing of
    the output of [repoquery], the options of a repo, the latest version of
    a package, the upgrades, the check of the package database, and the
    commands of [install], [upgrade] and [remove].  The commands run on a
    system with the operations of [Salt]; [__grains__] is a dict; the cache
    of [list_pkgs] in [__context__] is part of the state.
    [salt.utils.is_true] and the functions of [pkg_resource] are not part
    of the repository: what they return is a parameter.  [version] and
    [list_repo_pkgs] are in [YumList].  [state_std] only records the
    result of a command and is left out. *)

From Stdlib Require Import Ascii.
From stdpp Require Import base tactics option strings numbers list.
From S2P Require Import Prelude PyStrings PyText PyValue PyOps Effects.

#[local] Open Scope string_scope.
#[local] Open Scope list_scope.
#[local] Open Scope nat_scope.

(** ** The format of a query *)

Definition __QUERYFORMAT : string :=
  "%{NAME}_|-%{VERSION}_|-%{RELEASE}_|-%{ARCH}_|-%{REPOID}".

Definition __ARCHES : list string :=
  ["x86_64"; "athlon"; "amd64"; "ia32e"; "ia64"; "geode";
   "i386"; "i486"; "i586"; "i686";
   "ppc"; "ppc64"; "ppc64iseries"; "ppc64pseries";
   "s390"; "s390x";
   "sparc"; "sparcv8"; "sparcv9"; "sparcv9v"; "sparc64"; "sparc64v";
   "alpha"; "alphaev4"; "alphaev45"; "alphaev5"; "alphaev56";
   "alphapca56"; "alphaev6"; "alphaev67"; "alphaev68"; "alphaev7";
   "armv5tel"; "armv5tejl"; "armv6l"; "armv7l";
   "sh3"; "sh4"; "sh4a"].

Definition __virtualname__ : string := "pkg".

(** ** The system the module is for *)

(** [s.lower()] on a byte string. *)
Definition lower_char (c : ascii) : ascii :=
  let n := nat_of_ascii c in
  if (65 <=? n) && (n <=? 90) then ascii_of_nat (n + 32) else c.

Definition lower (s : string) : string := unchars (lower_char <$> chars s).

Definition is_digit (c : ascii) : bool :=
  let n := nat_of_ascii c in (48 <=? n) && (n <=? 57).

(** [int(s)] returns: [s] is, between white space, a sign or none and one
    digit or more. *)
Definition int_ok (s : string) : bool :=
  match strip s with
  | String c ds =>
      let ds := if bool_decide (c = "+"%char ∨ c = "-"%char) then ds else String c ds in
      negb (bool_decide (ds = "")) && forallb is_digit (chars ds)
  | "" => false
  end.

(** [v.lower()]. *)
Definition py_lower (v : value) : result string :=
  match v with VStr s => Ok (lower s) | _ => Raise AttributeError end.

(** The body of the [try] of [__virtual__]. *)
Definition virtual_grains (grains : value) : result (string * string) :=
  os_grain ← getitem_str grains "os" ≫= py_lower;
  os_family ← getitem_str grains "os_family" ≫= py_lower;
  release ← getitem_str grains "osrelease";
  parts ← py_split release ".";
  major ← list_index parts 0;
  if int_ok major then Ok (os_grain, os_family) else Raise ValueError.

Definition __virtual__ (grains : value) : value :=
  match virtual_grains grains with
  | Raise _ => VBool false
  | Ok (os_grain, os_family) =>
      if bool_decide (os_family = "redhat")
         || bool_decide (os_grain ∈ ["amazon"; "xcp"; "xenserver"])
      then VStr __virtualname__
      else VBool false
  end.

(** ** The output of repoquery *)

Record PkgInfo : Set := mkPkgInfo {
  pkg_name : string;
  pkg_version : string;
  pkg_arch : string;
  pkg_repoid : string;
}.

#[export] Instance PkgInfo_eq_dec : EqDecision PkgInfo.
Proof. solve_decision. Defined.

Section packages.
Context `{PyRepr} `{Salt sys}.
(** [__grains__['osarch']]. *)
Variable osarch : string.
(** [salt.utils.is_true]. *)
Variable is_true : value → bool.

(** [_parse_pkginfo(line)], [None] when the line has not five fields. *)
Definition _parse_pkginfo (line : string) : option PkgInfo :=
  match split_str "_|-" line with
  | [name; pkg_version; release; arch; repoid] =>
      let name :=
        if negb (bool_decide (arch = "noarch")) && negb (bool_decide (arch = osarch))
        then name +:+ "." +:+ arch else name in
      let pkg_version :=
        if negb (bool_decide (release = ""))
        then pkg_version +:+ "-" +:+ release else pkg_version in
      Some (mkPkgInfo name pkg_version arch repoid)
  | _ => None
  end.

Definition _repoquery (repoquery_args : string) : st sys (list PkgInfo) :=
  let cmd := "repoquery --queryformat=" +:+ quoted __QUERYFORMAT
             +:+ " " +:+ repoquery_args in
  out ← run cmd;
  mret (omap _parse_pkginfo (splitlines out)).

(** [kwargs.get(k, '')]. *)
Definition kwarg (kwargs : dict) (k : string) : value :=
  default (VStr "") (dict_get (KStr k) kwargs).

(** [_get_repo_options], from the keyword arguments. *)
Definition _get_repo_options (kwargs : dict) : string :=
  let fromrepo := kwarg kwargs "fromrepo" in
  let repo := kwarg kwargs "repo" in
  let disablerepo := kwarg kwargs "disablerepo" in
  let enablerepo := kwarg kwargs "enablerepo" in
  let fromrepo := if truthy repo && negb (truthy fromrepo) then repo else fromrepo in
  if truthy fromrepo then
    "--disablerepo=" +:+ py_repr (VStr "*") +:+ " --enablerepo=" +:+ py_repr fromrepo
  else
    let repo_arg := "" in
    let repo_arg :=
      if truthy disablerepo
      then repo_arg +:+ "--disablerepo=" +:+ py_repr disablerepo +:+ " "
      else repo_arg in
    if truthy enablerepo
    then repo_arg +:+ "--enablerepo=" +:+ py_repr enablerepo +:+ " "
    else repo_arg.

(** [refresh_db]: the cache of yum is cleaned. *)
Definition refresh_db : st sys value :=
  run "yum -q clean dbcache";; mret (VBool true).

(** The architecture a name asks for: its last piece after a dot when that
    is an architecture, the one of the system otherwise. *)
Definition name_arch (name : string) : string :=
  let arch := default "" (last (rsplit_once "." name)) in
  if bool_decide (arch ∈ __ARCHES) then arch else osarch.

(** The version of the first package of [updates] with the name [name]
    and the architecture of the name or none. *)
Definition first_match (updates : list PkgInfo) (name : string) : option string :=
  pkg_version <$>
    head (filter (λ pkg, pkg_arch pkg = "noarch" ∨ pkg_arch pkg = name_arch name)
            (filter (λ x, pkg_name x = name) updates)).

(** [latest_version], from the names and the keyword arguments. *)
Definition latest_version (names : list string) (kwargs : dict) : st sys value :=
  let refresh := is_true (default (VBool true) (dict_get (KStr "refresh") kwargs)) in
  let kwargs := filter (λ kv, key_is kv.1 "refresh" = false) kwargs in
  if bool_decide (length names = 0) then mret (VStr "") else
  let ret := foldl (λ ret name, dict_set (KStr name) (VStr "") ret) [] names in
  (if refresh then refresh_db else mret (VBool true));;
  let repo_arg := _get_repo_options kwargs in
  updates ← _repoquery (repo_arg +:+ " --pkgnarrow=available " +:+ join " " names);
  let ret :=
    foldl (λ ret name,
             match first_match updates name with
             | Some version => dict_set (KStr name) (VStr version) ret
             | None => ret
             end) ret names in
  match names with
  | [name] => lift (getitem_str (VDict ret) name)
  | _ => mret (VDict ret)
  end.

(** [available_version = latest_version]. *)
Definition available_version : list string → dict → st sys value := latest_version.

(** [upgrade_available(name)]. *)
Definition upgrade_available (name : string) : st sys value :=
  v ← latest_version [name] [];
  mret (VBool (negb (bool_decide (v = VStr "")))).

(** [list_upgrades], from [refresh] and the keyword arguments. *)
Definition list_upgrades (refresh : value) (kwargs : dict) : st sys value :=
  (if is_true refresh then refresh_db else mret (VBool true));;
  let repo_arg := _get_repo_options kwargs in
  updates ← _repoquery (repo_arg +:+ " --all --pkgnarrow=updates");
  mret (VDict (dict_update []
                 ((λ x, (KStr (pkg_name x), VStr (pkg_version x))) <$> updates))).

(** The names in [l], each once, in the order of their first
    occurrence: [list(set(l))], the order of a set being the order of
    insertion here. *)
Fixpoint unique (l : list string) : list string :=
  match l with
  | [] => []
  | x :: l' => x :: filter (λ y, y ≠ x) (unique l')
  end.

(** The body of the loop of [check_db]; the options of the repos hold no
    brace. *)
Definition check_db_name (repo_arg : string) (ret : dict) (name : string)
    : st sys dict :=
  let entry := match dict_get (KStr name) ret with
               | Some (VDict d) => d
               | _ => []
               end in
  out ← run ("yum " +:+ repo_arg +:+ " deplist --quiet " +:+ py_repr (VStr name));
  let found := negb (bool_decide (out = "")) in
  let entry := dict_set (KStr "found") (VBool found) entry in
  if found then mret (dict_set (KStr name) (VDict entry) ret)
  else
    pkgs ← _repoquery (repo_arg +:+ " --all --quiet --whatprovides "
                       +:+ py_repr (VStr name));
    let provides := unique (pkg_name <$> pkgs) in
    mret (dict_set (KStr name)
            (VDict (dict_set (KStr "suggestions") (VList (VStr <$> provides)) entry))
            ret).

(** [check_db], from the names and the keyword arguments. *)
Definition check_db (names : list string) (kwargs : dict) : st sys value :=
  let repo_arg := _get_repo_options kwargs in
  ret ← foldl (λ m name, ret ← m; check_db_name repo_arg ret name) (mret []) names;
  mret (VDict ret).

(** ** The installed packages and their cache

    [__context__['pkg.list_pkgs']] keeps the list of the installed
    packages between calls: the state is the system and this entry.  The
    functions of [pkg_resource] are parameters. *)

Variable add_pkg : dict → string → string → dict.
Variable sort_pkglist : dict → dict.
Variable stringify : dict → dict.
(** [salt.utils.compare_versions(ver1, '>=', ver2)] and
    [salt.utils.compare_dicts]. *)
Variable compare_versions : value → value → bool.
Variable compare_dicts : dict → dict → value.

Abbreviation pkg_state := (sys * option dict)%type.

(** A computation on the system leaves the cache. *)
Definition on_system {A} (m : st sys A) : st pkg_state A := λ sc,
  let '(r, s') := m sc.1 in (r, (s', sc.2)).

(** [__context__.pop('pkg.list_pkgs', None)]. *)
Definition drop_cache : st pkg_state unit := modify (λ sc, (sc.1, None)).

(** The packages that a query lists, as [list_pkgs] collects them. *)
Definition installed (pkgs : list PkgInfo) : dict :=
  sort_pkglist (foldl (λ ret p, add_pkg ret (pkg_name p) (pkg_version p)) [] pkgs).

(** [list_pkgs(versions_as_list, **kwargs)]. *)
Definition list_pkgs (versions_as_list : value) (kwargs : dict)
    : st pkg_state dict :=
  let versions_as_list := is_true versions_as_list in
  if is_true (default VNone (dict_get (KStr "removed") kwargs)) then mret [] else
  sc ← get_state;
  match sc.2 with
  | Some cached =>
      if versions_as_list then mret cached else mret (stringify cached)
  | None =>
      pkgs ← on_system (_repoquery "--all --pkgnarrow=installed");
      let ret := installed pkgs in
      modify (λ sc, (sc.1, Some ret));;
      if versions_as_list then mret ret else mret (stringify ret)
  end.

(** ** Installing, upgrading and removing *)

(** The body of the loop of [install] over the packages to install: the
    target goes to [targets], or to [downgrade] when the version asked for
    is below the one installed. *)
Definition install_target (old : dict) (td : list string * list string)
    (item : key * value) : result (list string * list string) :=
  let '(targets, downgrade) := td in
  pkgname ← match item.1 with KStr s => Ok s | _ => Raise AttributeError end;
  match item.2 with
  | VNone => Ok (targets ++ [pkgname], downgrade)
  | version_num =>
      let cver := default (VStr "") (dict_get (KStr pkgname) old) in
      let '(pkgname, arch) :=
        match rsplit_once "." pkgname with
        | [namepart; archpart] =>
            if bool_decide (archpart ∈ __ARCHES) then (namepart, "." +:+ archpart)
            else (pkgname, "")
        | _ => (pkgname, "")
        end in
      let pkgstr := quoted (pkgname +:+ "-" +:+ py_str version_num +:+ arch) in
      if negb (truthy cver) || compare_versions version_num cver
      then Ok (targets ++ [pkgstr], downgrade)
      else Ok (targets, downgrade ++ [pkgstr])
  end.

(** [yum -y <repo> <gpgcheck> <verb> <pkg>]. *)
Definition yum_cmd (repo_arg : string) (skip_verify : bool) (verb : string)
    (pkgs : list string) : string :=
  "yum -y " +:+ repo_arg +:+ " " +:+ (if skip_verify then "--nogpgcheck" else "")
  +:+ " " +:+ verb +:+ " " +:+ join " " pkgs.

(** [install]; [parsed] is what [pkg_resource.parse_targets] returns or
    raises for the arguments. *)
Definition install (name : value) (refresh : value) (fromrepo : value)
    (skip_verify : bool) (pkgs sources : value) (kwargs : dict)
    (parsed : result (value * string)) : st pkg_state value :=
  (if is_true refresh then on_system refresh_db else mret (VBool true));;
  pp ← lift (match parsed with
             | Raise MinionError => Raise CommandExecutionError
             | r => r
             end);
  let '(pkg_params, pkg_type) := pp in
  if bool_decide (pkg_params = VNone) || negb (truthy pkg_params)
  then mret (VDict []) else
  let version_num := default VNone (dict_get (KStr "version") kwargs) in
  pkg_params ←
    (if truthy version_num && bool_decide (pkgs = VNone) && bool_decide (sources = VNone)
     then k ← lift (to_key name); mret (VDict [(k, version_num)])
     else mret pkg_params);
  let repo_arg := _get_repo_options (dict_set (KStr "fromrepo") fromrepo kwargs) in
  old ← list_pkgs (VBool false) [];
  td ← (if bool_decide (pkg_type = "repository") then
          items ← lift (py_items pkg_params);
          lift (foldM (install_target old) items ([], []))
        else
          l ← lift (py_iter pkg_params ≫= mapM (λ v, match v with
                                                     | VStr s => Ok s
                                                     | _ => Raise TypeError
                                                     end));
          mret (l, []));
  (if bool_decide (td.1 = []) then mret ""
   else on_system (run (yum_cmd repo_arg skip_verify "install" td.1)));;
  (if bool_decide (td.2 = []) then mret ""
   else on_system (run (yum_cmd repo_arg skip_verify "downgrade" td.2)));;
  drop_cache;;
  new ← list_pkgs (VBool false) [];
  mret (compare_dicts old new).

(** [upgrade]. *)
Definition upgrade (refresh : value) : st pkg_state value :=
  (if is_true refresh then on_system refresh_db else mret (VBool true));;
  old ← list_pkgs (VBool false) [];
  on_system (run "yum -q -y upgrade");;
  drop_cache;;
  new ← list_pkgs (VBool false) [];
  mret (compare_dicts old new).

(** [remove]; [parsed] is what [pkg_resource.parse_targets] returns or
    raises for the name and the packages. *)
Definition remove (parsed : result (list string * string)) : st pkg_state value :=
  pp ← lift (match parsed with
             | Raise MinionError => Raise CommandExecutionError
             | r => r
             end);
  old ← list_pkgs (VBool false) [];
  let targets := filter (λ x, dict_has (KStr x) old = true) pp.1 in
  if bool_decide (targets = []) then mret (VDict []) else
  on_system (run ("yum -q -y remove " +:+ quoted (join (quoted " ") targets)));;
  drop_cache;;
  new ← list_pkgs (VBool false) [];
  mret (compare_dicts old new).

(** [purge]: the same as [remove]. *)
Definition purge (parsed : result (list string * string)) : st pkg_state value :=
  remove parsed.

(** ** The cache of the installed packages

    The query of the installed packages reads the system and leaves it as
    it is. *)

Definition installed_query : string :=
  "repoquery --queryformat=" +:+ quoted __QUERYFORMAT
  +:+ " " +:+ "--all --pkgnarrow=installed".

(** The installed packages of a system, as [list_pkgs] computes them. *)
Definition packages_of (s : sys) : dict :=
  installed (omap _parse_pkginfo (splitlines (cmd_run installed_query s).1)).

(** The cache, when it is there, holds the packages of the system. *)
Definition coherent (sc : pkg_state) : Prop :=
  ∀ cached, sc.2 = Some cached → cached = packages_of sc.1.

Hypothesis Hfalse : is_true (VBool false) = false.
Hypothesis Hnone : is_true VNone = false.
Hypothesis Hquery : ∀ s, (cmd_run installed_query s).2 = s.

Lemma repoquery_installed s c :
  on_system (_repoquery "--all --pkgnarrow=installed") (s, c)
  = (Ok (omap _parse_pkginfo (splitlines (cmd_run installed_query s).1)), (s, c)).
Proof.
  unfold on_system, _repoquery, mbind, st_bind, run. simpl.
  fold installed_query. pose proof (Hquery s) as Hs.
  destruct (cmd_run installed_query s) as [out s']. simpl in *. by subst.
Qed.

(** Without a cache the packages are queried and kept. *)
Lemma list_pkgs_fresh s :
  list_pkgs (VBool false) [] (s, None)
  = (Ok (stringify (packages_of s)), (s, Some (packages_of s))).
Proof.
  unfold list_pkgs. rewrite Hfalse. cbn [dict_get default]. rewrite Hnone.
  unfold mbind at 1, st_bind at 1. cbn [get_state snd].
  erewrite st_bind_Ok by apply repoquery_installed. done.
Qed.

(** With a coherent cache the answer is the same, and nothing is run. *)
Lemma list_pkgs_cached s cached :
  list_pkgs (VBool false) [] (s, Some cached) = (Ok (stringify cached), (s, Some cached)).
Proof.
  unfold list_pkgs. rewrite Hfalse. cbn [dict_get default]. by rewrite Hnone.
Qed.

Lemma list_pkgs_coherent sc :
  coherent sc →
  list_pkgs (VBool false) [] sc
  = (Ok (stringify (packages_of sc.1)), (sc.1, Some (packages_of sc.1))).
Proof.
  destruct sc as [s [cached|]]; intros Hc; [|apply list_pkgs_fresh].
  rewrite list_pkgs_cached. by rewrite (Hc cached eq_refl).
Qed.

Lemma coherent_fresh s : coherent (s, Some (packages_of s)).
Proof. by intros ? [= <-]. Qed.

(** After the cache is dropped the packages are those of the system. *)
Lemma drop_then_list (k : dict → st pkg_state value) s c :
  (drop_cache;; new ← list_pkgs (VBool false) []; k new) (s, c)
  = k (stringify (packages_of s)) (s, Some (packages_of s)).
Proof.
  unfold drop_cache, modify, mbind at 1, st_bind at 1. cbn [fst snd].
  by erewrite st_bind_Ok by apply list_pkgs_fresh.
Qed.

(** C19.  [remove] keeps the cache of the installed packages true: when
    the cache, if there is one, holds the packages of the system before
    [remove], it holds the packages of the system after it, whatever is
    removed and whether [remove] returns or raises; the list is read again
    after the command. *)
Theorem remove_cache_coherent parsed sc :
  coherent sc → coherent (remove parsed sc).2.
Proof.
  intros Hc. unfold remove. rewrite st_bind_lift.
  destruct parsed as [[names pkg_type]|e]; [|by destruct e].
  erewrite st_bind_Ok by (by apply list_pkgs_coherent).
  cbn [fst snd]. case_bool_decide; [apply coherent_fresh|].
  unfold mbind at 1, st_bind at 1, on_system at 1, run at 1. cbn [fst snd].
  destruct (cmd_run _ sc.1) as [out s'].
  rewrite drop_then_list. apply coherent_fresh.
Qed.

(** After [upgrade] the cache holds the packages of the system, whatever
    it held before. *)
Lemma upgrade_cache_fresh refresh sc :
  ∃ s v, upgrade refresh sc = (Ok v, (s, Some (packages_of s))).
Proof.
  unfold upgrade.
  assert (∃ sc', ((if is_true refresh then on_system refresh_db else mret (VBool true)) sc
                  = (Ok (VBool true), sc'))) as [sc' Hr].
  { destruct (is_true refresh); [|by eexists].
    unfold on_system, refresh_db, mbind, st_bind, run.
    destruct (cmd_run _ sc.1); by eexists. }
  erewrite st_bind_Ok by apply Hr.
  assert (∃ old sc'', list_pkgs (VBool false) [] sc' = (Ok old, sc''))
    as (old & sc'' & Ho).
  { destruct sc' as [s [c|]]; [rewrite list_pkgs_cached|rewrite list_pkgs_fresh];
      by eauto. }
  erewrite st_bind_Ok by apply Ho.
  unfold mbind at 1, st_bind at 1, on_system at 1, run at 1.
  destruct (cmd_run _ sc''.1) as [out s'].
  rewrite drop_then_list. by eexists _, _.
Qed.

End packages.

(** ** A line of repoquery *)

(** What repoquery prints for a package with the format of the module. *)
Definition query_line (name version release arch repoid : string) : string :=
  name +:+ "_|-" +:+ version +:+ "_|-" +:+ release +:+ "_|-" +:+ arch
  +:+ "_|-" +:+ repoid.

Lemma startswith_sep_no_bar a f rest :
  "|"%char ∉ chars (String a f) →
  startswith (String a (f +:+ "_|-" +:+ rest)) "_|-" = false.
Proof.
  intros Hf. unfold startswith. apply bool_decide_eq_false. intros [l Hl].
  destruct f as [|b f]; simpl in *; simplify_eq.
  apply Hf. right. left.
Qed.

(** A field without a bar ends at the separator. *)
Lemma split_str_field f rest :
  "|"%char ∉ chars f →
  split_str "_|-" (f +:+ "_|-" +:+ rest) = f :: split_str "_|-" rest.
Proof.
  unfold split_str. induction f as [|a f IH]; intros Hf; [done|].
  rewrite app_cons_str. cbn [split_str_go].
  rewrite startswith_sep_no_bar by done.
  rewrite IH; [done|]. intros Hin. apply Hf. by right.
Qed.

Lemma startswith_no_bar a f :
  "|"%char ∉ chars (String a f) → startswith (String a f) "_|-" = false.
Proof.
  intros Hf. unfold startswith. apply bool_decide_eq_false. intros [l Hl].
  destruct f as [|b f]; simpl in *; simplify_eq.
  apply Hf. right. left.
Qed.

Lemma split_str_last f : "|"%char ∉ chars f → split_str "_|-" f = [f].
Proof.
  unfold split_str. induction f as [|a f IH]; intros Hf; [done|].
  cbn [split_str_go]. rewrite startswith_no_bar by done.
  rewrite IH; [done|]. intros Hin. apply Hf. by right.
Qed.

(** C36.  [_parse_pkginfo] reads a line of repoquery: for fields that
    hold no bar, the line of a package gives the package, its name with the
    architecture after a dot unless that is [noarch] or the one of the
    system, and its version with the release after a dash unless the
    release is empty. *)
Theorem parse_pkginfo_query_line osarch name version release arch repoid :
  Forall (λ f, "|"%char ∉ chars f) [name; version; release; arch; repoid] →
  _parse_pkginfo osarch (query_line name version release arch repoid)
  = Some (mkPkgInfo
            (if bool_decide (arch = "noarch" ∨ arch = osarch) then name
             else name +:+ "." +:+ arch)
            (if bool_decide (release = "") then version
             else version +:+ "-" +:+ release)
            arch repoid).
Proof.
  intros Hf. repeat (apply Forall_cons in Hf as [? Hf]).
  unfold _parse_pkginfo, query_line.
  rewrite !split_str_field, split_str_last by done.
  repeat case_bool_decide; simpl; try done; exfalso; tauto.
Qed.

Lemma parse_pkginfo_query_line_witness :
  _parse_pkginfo "x86_64" (query_line "glibc" "2.12" "1.132.el6" "i686" "base")
  = Some (mkPkgInfo
            (if bool_decide ("i686" = "noarch" ∨ "i686" = "x86_64") then "glibc"
             else "glibc" +:+ "." +:+ "i686")
            (if bool_decide ("1.132.el6" = "") then "2.12"
             else "2.12" +:+ "-" +:+ "1.132.el6")
            "i686" "base").
Proof. apply parse_pkginfo_query_line. compute_done. Defined.

(** A line with too few or too many fields gives nothing. *)
Example parse_pkginfo_short :
  _parse_pkginfo "x86_64" "glibc_|-2.12_|-1_|-i686" = None
  ∧ _parse_pkginfo "x86_64" "a_|-b_|-c_|-d_|-e_|-f" = None.
Proof. done. Qed.


(** ** At a concrete system

    A system that holds the lines repoquery prints for the installed
    packages; every other command removes the first of them. *)

Definition ex_yum : Salt (list string) :=
  {| cmd_run := λ cmd s,
       if decide (cmd = installed_query) then (join (String "010" "") s, s)
       else ("", tail s);
     cmd_retcode := λ cmd s, (0%Z, s);
     file_sed := λ _ _ _ s, s |}.

Definition ex_is_true (v : value) : bool :=
  match v with
  | VBool b => b
  | VInt z => bool_decide (0 < z)%Z
  | VStr s => bool_decide (lower s = "true")
  | _ => truthy v
  end.

Definition ex_add_pkg (ret : dict) (name version : string) : dict :=
  dict_set (KStr name) (VStr version) ret.

Definition ex_installed : list string :=
  [query_line "glibc" "2.12" "1.132.el6" "x86_64" "installed";
   query_line "bash" "4.1.2" "15.el6" "x86_64" "installed"].

Lemma remove_cache_coherent_witness :
  coherent (H0:=ex_yum) "x86_64" ex_add_pkg id
    (remove (H0:=ex_yum) "x86_64" ex_is_true ex_add_pkg id id (λ _ _, VDict [])
       (Ok (["glibc"], "repository")) (ex_installed, None)).2.
Proof.
  apply (remove_cache_coherent (H0:=ex_yum) "x86_64" ex_is_true ex_add_pkg);
    [reflexivity|reflexivity| |by intros ? [=]].
  intros s. unfold cmd_run, ex_yum. by rewrite decide_True.
Defined.

(** [remove] at work: the command is run, and the list is read again. *)
Example remove_glibc :
  (remove (H0:=ex_yum) "x86_64" ex_is_true ex_add_pkg id id
     (λ old new, VList [VDict old; VDict new])
     (Ok (["glibc"; "vim"], "repository")) (ex_installed, None))
  = (Ok (VList [VDict [(KStr "glibc", VStr "2.12-1.132.el6");
                       (KStr "bash", VStr "4.1.2-15.el6")];
                VDict [(KStr "bash", VStr "4.1.2-15.el6")]]),
     (tail ex_installed, Some [(KStr "bash", VStr "4.1.2-15.el6")])).
Proof. vm_compute. reflexivity. Qed.
