(* ===== verification/YumList.v ===== *)
(** * The packages of the repos

    [list_repo_pkgs] and [version] of src/salt/modules/yumpkg5.py.
    [list_repo_pkgs] is where the two halves of the module meet: the repos
    come from the files of /etc/yum.repos.d, as [list_repos] reads them, the
    packages of each from a query of the system, as [_repoquery] parses it.
    The commands leave the files of the repos as they are: the directory is
    a variable of the section.

    The lists of the result are sorted by [list.sort] on dicts of one
    entry, which in Python 2 is the order of the names and, between equal
    names, of the versions, as byte strings. *)

From Stdlib Require Import Ascii.
From stdpp Require Import base tactics option strings numbers sorting list.
From S2P Require Import Prelude PyStrings PyText PyValue PyOps Effects.
From S2P Require Import YumRepo YumPkg.

#[local] Open Scope string_scope.
#[local] Open Scope list_scope.
#[local] Open Scope nat_scope.

(** ** The order of the entries *)

(** [{name: version}] of a package, as a pair. *)
Definition entry (pkg : PkgInfo) : string * string :=
  (pkg_name pkg, pkg_version pkg).

(** [cmp(a, b) <= 0] on two dicts of one entry: the keys decide, and the
    values when the keys are equal. *)
Definition entry_le (a b : string * string) : Prop :=
  if decide (a.1 = b.1) then str_le a.2 b.2 else str_le a.1 b.1.

#[export] Instance entry_le_dec : RelDecision entry_le.
Proof. intros a b. unfold entry_le. destruct (decide (a.1 = b.1)); apply _. Defined.

(** [l.sort()] on a list of such dicts. *)
Definition sort_entries (l : list (string * string)) : list (string * string) :=
  merge_sort entry_le l.

(** The packages by repo, as the loop collects them: the repos in the
    order of their first package. *)
Definition repo_pkgs : Type := list (string * list (string * string)).

(** [ret.setdefault(pkg.repoid, []).append({pkg.name: pkg.version})]. *)
Definition add_repo_pkg (ret : repo_pkgs) (pkg : PkgInfo) : repo_pkgs :=
  if bool_decide (pkg_repoid pkg ∈ ret.*1) then
    (λ kv, if bool_decide (kv.1 = pkg_repoid pkg)
           then (kv.1, kv.2 ++ [entry pkg]) else kv) <$> ret
  else ret ++ [(pkg_repoid pkg, [entry pkg])].

(** The dict that is returned. *)
Definition repo_pkgs_value (ret : repo_pkgs) : value :=
  VDict ((λ kv, (KStr kv.1,
                 VList ((λ e, VDict [(KStr e.1, VStr e.2)]) <$> kv.2))) <$> ret).

Section repo_pkgs.
Context `{PyRepr} `{Salt sys}.
(** [__grains__['osarch']]. *)
Variable osarch : string.
(** The files of the repos. *)
Variable files : fs.
(** [__salt__['pkg_resource.version']]. *)
Variable pkg_resource_version : list value → dict → st sys value.

(** [version], from the names and the keyword arguments. *)
Definition version (names : list value) (kwargs : dict) : st sys value :=
  pkg_resource_version names kwargs.

(** [str(y.get('enabled', '1')) == '1']. *)
Definition enabled (y : value) : result bool :=
  match y with
  | VDict d =>
      Ok (bool_decide (py_str (default (VStr "1") (dict_get (KStr "enabled") d)) = "1"))
  | _ => Raise AttributeError
  end.

(** The repos of [list_repos()] that are enabled. *)
Definition enabled_repos (repos : dict) : result (list string) :=
  foldM (λ acc kv, e ← enabled kv.2;
                   Ok (if (e : bool) then acc ++ [py_str (of_key kv.1)] else acc))
        repos [].

(** The repos to query: those of [fromrepo] when it can be split, the
    enabled ones otherwise. *)
Definition query_repos (kwargs : dict) : result (list string) :=
  match dict_get (KStr "fromrepo") kwargs with
  | Some (VStr s) => Ok (strip <$> split_on "," s)
  | _ => list_repos "/etc/yum.repos.d" files ≫= enabled_repos
  end.

(** The arguments of the query of a repo. *)
Definition repoquery_cmd (args : list value) (repo : string) : string :=
  foldl (λ cmd arg, cmd +:+ " " +:+ quoted (py_str arg))
        ("--all --repoid=" +:+ quoted repo) args.

(** The body of the loop over the repos. *)
Definition list_repo (args : list value) (ret : repo_pkgs) (repo : string)
    : st sys repo_pkgs :=
  all_pkgs ← _repoquery osarch (repoquery_cmd args repo);
  mret (foldl add_repo_pkg ret all_pkgs).

(** [list_repo_pkgs], from the arguments and the keyword arguments. *)
Definition list_repo_pkgs (args : list value) (kwargs : dict) : st sys value :=
  repos ← lift (query_repos kwargs);
  ret ← foldl (λ m repo, ret ← m; list_repo args ret repo) (mret []) repos;
  mret (repo_pkgs_value ((λ kv, (kv.1, sort_entries kv.2)) <$> ret)).

(** ** What the queries answer

    The command of the query of a repo, and the packages it lists on a
    system. *)

Definition query (args : list value) (repo : string) : string :=
  "repoquery --queryformat=" +:+ quoted __QUERYFORMAT
  +:+ " " +:+ repoquery_cmd args repo.

Definition query_pkgs (args : list value) (s : sys) (repo : string) : list PkgInfo :=
  omap (_parse_pkginfo osarch) (splitlines (cmd_run (query args repo) s).1).

(** The repos that have packages, each with its packages as listed. *)
Definition collected (args : list value) (s : sys) (repos : list string) : repo_pkgs :=
  omap (λ repo, match query_pkgs args s repo with
                | [] => None
                | l => Some (repo, entry <$> l)
                end) repos.

(** The enabled repos of a dict of stanzas. *)
Definition enabled_names (repos : dict) : list string :=
  omap (λ kv, match kv with
              | (KStr n, VDict d) =>
                  if bool_decide (default (VStr "1") (dict_get (KStr "enabled") d)
                                  = VStr "1")
                  then Some n else None
              | _ => None
              end) repos.

End repo_pkgs.

(** ** The order *)

#[export] Instance entry_le_total : Total entry_le.
Proof.
  intros a b. unfold entry_le. destruct (decide (a.1 = b.1)) as [E|E].
  - rewrite decide_True by done. apply (total str_le).
  - rewrite decide_False by done. apply (total str_le).
Qed.

#[export] Instance entry_le_antisym : AntiSymm (=) entry_le.
Proof.
  intros [a1 a2] [b1 b2]. unfold entry_le. simpl.
  destruct (decide (a1 = b1)) as [->|E].
  - rewrite decide_True by done. intros ??. f_equal. by apply (anti_symm str_le).
  - rewrite decide_False by done. intros ??. destruct E. by apply (anti_symm str_le).
Qed.

#[export] Instance entry_le_trans : Transitive entry_le.
Proof.
  intros [a1 a2] [b1 b2] [c1 c2]. unfold entry_le. simpl.
  destruct (decide (a1 = b1)) as [->|Eab], (decide (b1 = c1)) as [->|Ebc].
  - apply transitivity.
  - by intros _ ?.
  - by rewrite decide_False by done.
  - intros Hab Hbc. destruct (decide (a1 = c1)) as [->|_].
    + destruct Eab. by apply (anti_symm str_le).
    + by etransitivity.
Qed.

Lemma sort_entries_sorted l : StronglySorted entry_le (sort_entries l).
Proof. apply StronglySorted_merge_sort; apply _. Qed.

Lemma sort_entries_perm l : sort_entries l ≡ₚ l.
Proof. apply merge_sort_Permutation. Qed.

(** The sorted list is the same whatever the algorithm of the sort. *)
Lemma sort_entries_unique l l' :
  StronglySorted entry_le l' → l' ≡ₚ l → l' = sort_entries l.
Proof.
  intros Hs Hp. apply (StronglySorted_unique entry_le); [done|apply sort_entries_sorted|].
  by rewrite sort_entries_perm.
Qed.

(** ** The loop over the packages of a repo *)

Lemma add_repo_pkg_last (ret : repo_pkgs) repo l pkg :
  repo ∉ ret.*1 → pkg_repoid pkg = repo →
  add_repo_pkg (ret ++ [(repo, l)]) pkg = ret ++ [(repo, l ++ [entry pkg])].
Proof.
  intros Hnot Hid. unfold add_repo_pkg. rewrite Hid.
  rewrite bool_decide_eq_true_2
    by (rewrite fmap_app; apply elem_of_app; right; apply list_elem_of_singleton; done).
  rewrite fmap_app. simpl. rewrite bool_decide_eq_true_2 by done. f_equal.
  rewrite <-(list_fmap_id ret) at 2. apply list_fmap_ext. intros i kv Hkv.
  rewrite bool_decide_eq_false_2; [done|]. intros Heq. apply Hnot.
  rewrite <-Heq. apply list_elem_of_fmap_2. by eapply list_elem_of_lookup_2.
Qed.

Lemma add_repo_pkgs_last (ret : repo_pkgs) repo l pkgs :
  repo ∉ ret.*1 → Forall (λ p, pkg_repoid p = repo) pkgs →
  foldl add_repo_pkg (ret ++ [(repo, l)]) pkgs = ret ++ [(repo, l ++ (entry <$> pkgs))].
Proof.
  intros Hnot Hp. revert l. induction Hp as [|p pkgs Hid _ IH]; intros l; simpl.
  - by rewrite app_nil_r.
  - rewrite add_repo_pkg_last, IH by done. by rewrite <-app_assoc.
Qed.

(** The packages of a repo that is not there yet go to the end, together. *)
Lemma add_repo_pkgs_new (ret : repo_pkgs) repo pkgs :
  repo ∉ ret.*1 → Forall (λ p, pkg_repoid p = repo) pkgs →
  foldl add_repo_pkg ret pkgs
  = ret ++ match pkgs with [] => [] | _ => [(repo, entry <$> pkgs)] end.
Proof.
  intros Hnot Hp. destruct Hp as [|p pkgs Hid Hp]; simpl; [by rewrite app_nil_r|].
  unfold add_repo_pkg at 2. rewrite Hid, bool_decide_eq_false_2 by done.
  by rewrite add_repo_pkgs_last.
Qed.

(** ** The loop over the repos

    The queries read the system and leave it as it is. *)

Section queries.
Context `{PyRepr} `{Salt sys}.
Variables (osarch : string) (args : list value).
Hypothesis Hpure : ∀ repo s, (cmd_run (query args repo) s).2 = s.

Lemma repoquery_query repo s :
  _repoquery osarch (repoquery_cmd args repo) s
  = (Ok (query_pkgs osarch args s repo), s).
Proof.
  unfold _repoquery, query_pkgs, mbind, st_bind, run. fold (query args repo).
  pose proof (Hpure repo s) as Hs.
  destruct (cmd_run (query args repo) s) as [out s']. simpl in *. by subst.
Qed.

Lemma collected_app s repos1 repos2 :
  collected osarch args s (repos1 ++ repos2)
  = collected osarch args s repos1 ++ collected osarch args s repos2.
Proof. apply omap_app. Qed.

(** The repos of the result are those that have packages, in order. *)
Lemma collected_repos s repos :
  (collected osarch args s repos).*1
  = filter (λ repo, query_pkgs osarch args s repo ≠ []) repos.
Proof.
  induction repos as [|repo repos IH]; [done|].
  change (repo :: repos) with ([repo] ++ repos) at 1.
  rewrite collected_app, filter_cons, fmap_app, IH.
  unfold collected at 1. simpl.
  destruct (query_pkgs osarch args s repo) eqn:E.
  - by rewrite decide_False by (by intros []).
  - by rewrite decide_True by done.
Qed.

Lemma elem_of_collected s repos repo l :
  (repo, l) ∈ collected osarch args s repos →
  repo ∈ repos ∧ l = entry <$> query_pkgs osarch args s repo.
Proof.
  unfold collected. intros (r & Hr & Hl)%list_elem_of_omap.
  destruct (query_pkgs osarch args s r) eqn:E; simplify_eq. by rewrite E.
Qed.

Lemma list_repos_loop s repos :
  NoDup repos →
  (∀ repo, repo ∈ repos →
     Forall (λ p, pkg_repoid p = repo) (query_pkgs osarch args s repo)) →
  foldl (λ m repo, ret ← m; list_repo osarch args ret repo) (mret []) repos s
  = (Ok (collected osarch args s repos), s).
Proof.
  induction repos as [|repo repos IH] using rev_ind; intros Hnd Hid; [done|].
  apply NoDup_app in Hnd as (Hnd & Hnot & _).
  rewrite foldl_app. simpl.
  erewrite st_bind_Ok
    by (apply IH; [done|]; intros; apply Hid, elem_of_app; by left).
  unfold list_repo. erewrite st_bind_Ok by apply repoquery_query.
  rewrite (add_repo_pkgs_new _ repo).
  - rewrite collected_app. unfold collected at 3. simpl.
    by destruct (query_pkgs osarch args s repo).
  - rewrite collected_repos. intros [_ Hin]%list_elem_of_filter.
    apply (Hnot repo); [done|left].
  - apply Hid, elem_of_app. right. left.
Qed.

(** C20.  [list_repo_pkgs] lists the packages of the repos, sorted: when
    the repos to query are pairwise different and the query of a repo lists
    packages of that repo, the result has the repos that have packages, in
    the order they are queried, each with the list of its packages as
    dicts of name and version; every list is sorted by name and, between
    equal names, by version, and is a permutation of what the query
    listed.  The system is left as it is. *)
Theorem list_repo_pkgs_sorted files kwargs repos s :
  query_repos files kwargs = Ok repos → NoDup repos →
  (∀ repo, repo ∈ repos →
     Forall (λ p, pkg_repoid p = repo) (query_pkgs osarch args s repo)) →
  ∃ ret,
    list_repo_pkgs osarch files args kwargs s = (Ok (repo_pkgs_value ret), s)
    ∧ ret.*1 = filter (λ repo, query_pkgs osarch args s repo ≠ []) repos
    ∧ ∀ repo l, (repo, l) ∈ ret →
        StronglySorted entry_le l ∧ l ≡ₚ entry <$> query_pkgs osarch args s repo.
Proof.
  intros Hq Hnd Hid. eexists. unfold list_repo_pkgs.
  rewrite st_bind_lift, Hq. erewrite st_bind_Ok by by apply list_repos_loop.
  split_and!; [done|by rewrite <-list_fmap_compose, <-collected_repos|].
  intros repo l ([r l0] & [= -> ->] & [_ ->]%elem_of_collected)%list_elem_of_fmap.
  split; [apply sort_entries_sorted|apply sort_entries_perm].
Qed.

End queries.

(** ** The repos that are queried *)

Section enabled.
Context `{PyRepr}.

Lemma enabled_typed d :
  Forall option_typed d →
  enabled (VDict d)
  = Ok (bool_decide (default (VStr "1") (dict_get (KStr "enabled") d) = VStr "1")).
Proof.
  intros Hd. unfold enabled. f_equal.
  destruct (dict_get (KStr "enabled") d) as [v|] eqn:E; [|done]. simpl.
  destruct (dict_get_Forall _ _ _ _ Hd E) as (k' & ->%key_equiv_str_l & Ht).
  destruct v; try done; [|by destruct Ht].
  apply bool_decide_ext. simpl. split; congruence.
Qed.

Lemma enabled_repos_loop repos acc :
  Forall stanza_typed repos →
  foldM (λ acc kv, e ← enabled kv.2;
                   Ok (if (e : bool) then acc ++ [py_str (of_key kv.1)] else acc))
        repos acc
  = Ok (acc ++ enabled_names repos).
Proof.
  intros Hr. revert acc.
  induction Hr as [|[[] []] repos Ht _ IH]; intros acc; try done;
    [by rewrite app_nil_r|].
  cbn [foldM fst snd]. rewrite (enabled_typed _ Ht). cbn [mbind result_bind].
  rewrite IH. unfold enabled_names. simpl.
  case_bool_decide; [by rewrite <-app_assoc|done].
Qed.

Lemma elem_of_enabled_names n repos :
  n ∈ enabled_names repos
  ↔ ∃ d, (KStr n, VDict d) ∈ repos
         ∧ default (VStr "1") (dict_get (KStr "enabled") d) = VStr "1".
Proof.
  unfold enabled_names. rewrite list_elem_of_omap. split.
  - intros ([[] []] & Hin & Hn); try done.
    case_bool_decide; simplify_eq. by eexists.
  - intros (d & Hin & Hd). eexists. split; [done|]. simpl.
    by rewrite bool_decide_eq_true_2.
Qed.

Lemma enabled_names_NoDup repos : dict_wf repos → NoDup (enabled_names repos).
Proof.
  unfold dict_wf. induction repos as [|[k v] repos IH]; [constructor|].
  rewrite !fmap_cons, NoDup_cons. intros [Hk Hr].
  assert (enabled_names ((k, v) :: repos) = enabled_names repos
          ∨ ∃ n d, k = KStr n ∧ v = VDict d
                   ∧ enabled_names ((k, v) :: repos) = n :: enabled_names repos)
    as [->|(n & d & -> & -> & ->)]; [|by auto|].
  { unfold enabled_names. destruct k, v; simpl; auto.
    case_bool_decide; [right|left]; eauto. }
  apply NoDup_cons. split; [|auto].
  intros (d' & Hin & _)%elem_of_enabled_names. apply Hk.
  by apply list_elem_of_fmap_2, (list_elem_of_fmap_2 fst _ (KStr _, VDict d')).
Qed.

(** C23.  Without a [fromrepo] that is a string, [list_repo_pkgs]
    queries the enabled repos of /etc/yum.repos.d: when [list_repos]
    returns, the repos to query are, each once, the names that [list_repos]
    has with a stanza whose option [enabled] is 1 or is not there. *)
Theorem query_repos_enabled files kwargs repos :
  (∀ s, dict_get (KStr "fromrepo") kwargs ≠ Some (VStr s)) →
  list_repos "/etc/yum.repos.d" files = Ok repos →
  ∃ names,
    query_repos files kwargs = Ok names ∧ NoDup names
    ∧ ∀ n, n ∈ names
           ↔ ∃ d, dict_get (KStr n) repos = Some (VDict d)
                  ∧ default (VStr "1") (dict_get (KStr "enabled") d) = VStr "1".
Proof.
  intros Hk Hl. destruct (list_repos_typed _ _ _ Hl) as [Ht Hwf].
  exists (enabled_names repos). split_and!.
  - unfold query_repos. rewrite Hl.
    destruct (dict_get (KStr "fromrepo") kwargs) as [[]|] eqn:E;
      try (by apply (enabled_repos_loop _ [])). by destruct (Hk s).
  - by apply enabled_names_NoDup.
  - intros n. rewrite elem_of_enabled_names.
    split; intros (d & Hd & He); exists d; (split; [|done]).
    + by apply dict_get_wf_elem_of.
    + by apply dict_get_elem_of in Hd as (k' & ->%key_equiv_str_l & Hd).
Qed.

End enabled.

(** ** At a concrete directory and system

    A file with three repos, of which [extras] is disabled, and a system
    that answers the queries of [base] and [updates]. *)

Definition ex_repo_files : fs :=
  [(KStr "/etc/yum.repos.d/centos.repo",
    VStr (unlines (repo_file_lines []
            [Stanza "base" [("name", "CentOS"); ("enabled", "1")] [];
             Stanza "extras" [("name", "Extras"); ("enabled", "0")] [];
             Stanza "updates" [("name", "Updates")] []])))].

Definition ex_listed : dict :=
  match list_repos "/etc/yum.repos.d" ex_repo_files with Ok r => r | Raise _ => [] end.

Definition ex_answer (cmd : string) : string :=
  if decide (cmd = query (H:=repr_elided) [] "base") then
    unlines [query_line "zlib" "1.2.3" "29.el6" "x86_64" "base";
             query_line "bash" "4.1.2" "15.el6" "x86_64" "base";
             query_line "bash" "4.1.2" "9.el6" "x86_64" "base"]
  else if decide (cmd = query (H:=repr_elided) [] "updates") then
    unlines [query_line "bash" "4.1.2" "48.el6" "x86_64" "updates"]
  else "".

Definition ex_repoquery : Salt unit :=
  {| cmd_run := λ cmd s, (ex_answer cmd, s);
     cmd_retcode := λ cmd s, (0%Z, s);
     file_sed := λ _ _ _ s, s |}.

Lemma query_repos_enabled_witness :
  ∃ names,
    query_repos (H:=repr_elided) ex_repo_files [] = Ok names ∧ NoDup names
    ∧ ∀ n, n ∈ names
           ↔ ∃ d, dict_get (KStr n) ex_listed = Some (VDict d)
                  ∧ default (VStr "1") (dict_get (KStr "enabled") d) = VStr "1".
Proof. apply query_repos_enabled; [done|vm_compute; reflexivity]. Defined.

Lemma list_repo_pkgs_sorted_witness :
  ∃ ret,
    list_repo_pkgs (H:=repr_elided) (H0:=ex_repoquery) "x86_64" ex_repo_files [] [] ()
    = (Ok (repo_pkgs_value ret), ())
    ∧ ret.*1
      = filter (λ repo, query_pkgs (H:=repr_elided) (H0:=ex_repoquery)
                          "x86_64" [] () repo ≠ [])
          ["base"; "updates"]
    ∧ ∀ repo l, (repo, l) ∈ ret →
        StronglySorted entry_le l
        ∧ l ≡ₚ entry <$> query_pkgs (H:=repr_elided) (H0:=ex_repoquery)
                           "x86_64" [] () repo.
Proof.
  apply (list_repo_pkgs_sorted (H0:=ex_repoquery));
    [done|vm_compute; reflexivity|compute_done|].
  apply Forall_forall. compute_done.
Defined.

(** The result on this system: [extras] is not queried, and the packages
    of [base] come out by name and version. *)
Example list_repo_pkgs_centos :
  list_repo_pkgs (H:=repr_elided) (H0:=ex_repoquery) "x86_64" ex_repo_files [] [] ()
  = (Ok (VDict
           [(KStr "base",
             VList [VDict [(KStr "bash", VStr "4.1.2-15.el6")];
                    VDict [(KStr "bash", VStr "4.1.2-9.el6")];
                    VDict [(KStr "zlib", VStr "1.2.3-29.el6")]]);
            (KStr "updates",
             VList [VDict [(KStr "bash", VStr "4.1.2-48.el6")]])]), ()).
Proof. vm_compute. reflexivity. Qed.

(** A repo that is named twice in [fromrepo] is queried twice, and its
    packages are listed twice. *)
Example list_repo_pkgs_twice :
  list_repo_pkgs (H:=repr_elided) (H0:=ex_repoquery) "x86_64" ex_repo_files []
    [(KStr "fromrepo", VStr "updates, updates")] ()
  = (Ok (VDict
           [(KStr "updates",
             VList [VDict [(KStr "bash", VStr "4.1.2-48.el6")];
                    VDict [(KStr "bash", VStr "4.1.2-48.el6")]])]), ()).
Proof. vm_compute. reflexivity. Qed.
